(** * CSExporter: the export pipeline of the CrowdStrike exporter scripts

    A shallow embedding of the Python scripts under [CSExporter/]
    ([exporthostgroups.py], [exportexclusions.py], [exportpp.py],
    [exportioarules.py], [exportiocs.py], [exportrp.py], [exportsup.py],
    [exportusb.py])
    and the properties of their paging, hydration, transformation and
    writing steps.

    Conventions of the embedding:
    - a parsed JSON body is a [json] value; JSON numbers are integers;
    - a Python [str] is a [string]: the bytes of its UTF-8 encoding. [len],
      slicing and iteration count characters, not bytes ([py_len],
      [py_take], [code_points]); the tests [in], [startswith], [endswith]
      and the functions [split] and [replace] give the same on the bytes as
      on the characters; [lower] is followed for the letters A to Z, and is
      used where its result is compared with text of these letters;
    - a Python [dict] is an association list in insertion order;
    - a raised exception is the [Raise] outcome of [res];
    - [requests.get] is a function from the request to the response (the
      upstream), and every request and every printed line is recorded, in
      order, in a trace of [event]s. *)

From Stdlib Require Import ZArith List String Ascii Bool Lia Permutation.
From Stdlib Require Import Numbers.DecimalString.
From stdpp Require Import base gmap strings.
Import ListNotations.

(** ** Python values and exceptions *)

#[local] Set Warnings "-register-all".

Inductive json : Type :=
  | JNull
  | JBool (b : bool)
  | JInt (z : Z)
  | JStr (s : string)
  | JList (l : list json)
  | JDict (d : list (string * json)).

Inductive exn : Type :=
  | RuntimeError (msg : string)
  | ValueError
  | AttributeError
  | TypeError
  | IndexError
  | KeyError
  | OSError
  (** not an exception of Python: the run has left the part of pandas that
      this development follows (see [exportpp.build_frame]) *)
  | Unmodelled.

Inductive res (A : Type) : Type :=
  | Ok (a : A)
  | Raise (e : exn).
Arguments Ok {A} a.
Arguments Raise {A} e.

Definition bind {A B : Type} (m : res A) (k : A -> res B) : res B :=
  match m with
  | Ok a => k a
  | Raise e => Raise e
  end.

Notation "'let*' x ':=' m 'in' k" := (bind m (fun x => k))
  (at level 10, x pattern, m at level 100, k at level 200).

(** [for x in xs: body], where the body threads a state and may raise. *)
Fixpoint for_each {A S : Type} (body : S -> A -> res S) (xs : list A) (s : S) : res S :=
  match xs with
  | [] => Ok s
  | x :: xs' => let* s' := body s x in for_each body xs' s'
  end.

(** ** Python strings *)

Definition dquote : ascii := ascii_of_nat 34.
Definition squote : ascii := ascii_of_nat 39.
Definition backslash : ascii := ascii_of_nat 92.

Definition str1 (c : ascii) : string := String c EmptyString.

(** [str(n)] for an [int]. *)
Definition str_of_Z (z : Z) : string := NilZero.string_of_int (Z.to_int z).

(** [s.startswith(p)] *)
Fixpoint startswith (p s : string) : bool :=
  match p with
  | EmptyString => true
  | String a p' =>
      match s with
      | EmptyString => false
      | String b s' => if Ascii.eqb a b then startswith p' s' else false
      end
  end.

(** [p in s] for two strings. *)
Fixpoint contains (p s : string) : bool :=
  startswith p s ||
  match s with
  | EmptyString => false
  | String _ s' => contains p s'
  end.

Fixpoint drop_str (n : nat) (s : string) : string :=
  match n with
  | 0 => s
  | S n' => match s with EmptyString => EmptyString | String _ s' => drop_str n' s' end
  end.

Fixpoint take_str (n : nat) (s : string) : string :=
  match n with
  | 0 => EmptyString
  | S n' => match s with EmptyString => EmptyString | String c s' => String c (take_str n' s') end
  end.

(** The byte continues a character of more than one byte. *)
Definition continuation (c : ascii) : bool :=
  let n := nat_of_ascii c in
  ((128 <=? n) && (n <? 192))%nat.

(** [len(s)]: the characters of [s]. *)
Fixpoint py_len (s : string) : nat :=
  match s with
  | EmptyString => 0
  | String c s' => (if continuation c then 0 else 1) + py_len s'
  end.

(** [s[:n]]: the first [n] characters of [s], each with all its bytes. *)
Fixpoint py_take (n : nat) (s : string) : string :=
  match s with
  | EmptyString => EmptyString
  | String c s' =>
      if continuation c then String c (py_take n s')
      else match n with
           | 0 => EmptyString
           | S n' => String c (py_take n' s')
           end
  end.

(** The characters of [s], one by one. *)
Fixpoint code_points (s : string) : list string :=
  match s with
  | EmptyString => []
  | String c s' =>
      let rest := code_points s' in
      if match s' with String c' _ => continuation c' | EmptyString => false end
      then match rest with
           | p :: ps => String c p :: ps
           | [] => [str1 c]
           end
      else str1 c :: rest
  end.

(** [s.endswith(p)] *)
Definition endswith (p s : string) : bool :=
  (String.length p <=? String.length s)%nat &&
  String.eqb (drop_str (String.length s - String.length p) s) p.

(** [s.replace(old, new)] for a non-empty [old]: the occurrences are taken
    from left to right and do not overlap. [skip] counts the characters of
    the occurrence just replaced that are still to be passed over. *)
Fixpoint replace_from (old new : string) (skip : nat) (s : string) : string :=
  match s with
  | EmptyString => EmptyString
  | String c s' =>
      match skip with
      | S k => replace_from old new k s'
      | 0 =>
          if startswith old s
          then new +:+ replace_from old new (String.length old - 1) s'
          else String c (replace_from old new 0 s')
      end
  end.

Definition replace (old new s : string) : string := replace_from old new 0 s.

(** [s.split(sep)] for a one-character separator. *)
Fixpoint split (sep : ascii) (s : string) : list string :=
  match s with
  | EmptyString => [EmptyString]
  | String c s' =>
      if Ascii.eqb c sep then EmptyString :: split sep s'
      else match split sep s' with
           | [] => [str1 c]
           | w :: ws => String c w :: ws
           end
  end.

(** [sep.join(parts)] *)
Fixpoint join (sep : string) (parts : list string) : string :=
  match parts with
  | [] => EmptyString
  | [p] => p
  | p :: ps => p +:+ sep +:+ join sep ps
  end.

Definition lower_char (c : ascii) : ascii :=
  let n := nat_of_ascii c in
  if ((65 <=? n) && (n <=? 90))%nat then ascii_of_nat (n + 32) else c.

(** [s.lower()], for the letters A to Z; the other bytes stay. *)
Fixpoint lower (s : string) : string :=
  match s with
  | EmptyString => EmptyString
  | String c s' => String (lower_char c) (lower s')
  end.

(** The string has no character [c]. *)
Fixpoint free_of (c : ascii) (s : string) : bool :=
  match s with
  | EmptyString => true
  | String x s' => negb (Ascii.eqb x c) && free_of c s'
  end.

(** The character [a] is somewhere followed at once by [b]. *)
Fixpoint has_pair (a b : ascii) (s : string) : bool :=
  match s with
  | EmptyString => false
  | String x s' =>
      match s' with
      | EmptyString => false
      | String y _ => (Ascii.eqb a x && Ascii.eqb b y) || has_pair a b s'
      end
  end.

Definition first_is (b : ascii) (s : string) : bool :=
  match s with
  | EmptyString => false
  | String y _ => Ascii.eqb b y
  end.

Fixpoint last_is (a : ascii) (s : string) : bool :=
  match s with
  | EmptyString => false
  | String x s' =>
      match s' with
      | EmptyString => Ascii.eqb a x
      | String _ _ => last_is a s'
      end
  end.

(** [repr] of a string: quoted, with the quote, the backslash and the
    control characters escaped. *)
Definition hex_digit (n : nat) : ascii :=
  if (n <? 10)%nat then ascii_of_nat (48 + n) else ascii_of_nat (87 + n).

Definition repr_char (q c : ascii) : string :=
  let n := nat_of_ascii c in
  if Ascii.eqb c backslash then String backslash (str1 backslash)
  else if Ascii.eqb c q then String backslash (str1 q)
  else if (n =? 9)%nat then String backslash "t"
  else if (n =? 10)%nat then String backslash "n"
  else if (n =? 13)%nat then String backslash "r"
  else if ((n <? 32) || (n =? 127))%nat
       then String backslash (String "x" (String (hex_digit (n / 16)) (str1 (hex_digit (n mod 16)))))
  else str1 c.

Fixpoint repr_chars (q : ascii) (s : string) : string :=
  match s with
  | EmptyString => EmptyString
  | String c s' => repr_char q c +:+ repr_chars q s'
  end.

Definition repr_str (s : string) : string :=
  let q := if contains (str1 squote) s && negb (contains (str1 dquote) s)
           then dquote else squote in
  String q (repr_chars q s +:+ str1 q).

(** [repr(v)] and [str(v)] of a value. *)
Fixpoint py_repr (v : json) : string :=
  match v with
  | JNull => "None"
  | JBool true => "True"
  | JBool false => "False"
  | JInt z => str_of_Z z
  | JStr s => repr_str s
  | JList l => "[" +:+ join ", " (map py_repr l) +:+ "]"
  | JDict d => "{" +:+ join ", " (map (fun kv => repr_str (fst kv) +:+ ": " +:+ py_repr (snd kv)) d) +:+ "}"
  end.

Definition py_str (v : json) : string :=
  match v with
  | JStr s => s
  | _ => py_repr v
  end.

(** Truth value of a value, as [if v:] takes it. *)
Definition truthy (v : json) : bool :=
  match v with
  | JNull => false
  | JBool b => b
  | JInt z => negb (z =? 0)%Z
  | JStr s => negb (String.eqb s EmptyString)
  | JList l => match l with [] => false | _ => true end
  | JDict d => match d with [] => false | _ => true end
  end.

(** ** Dictionaries *)

(** Lookup in a parsed JSON object (string keys). *)
Fixpoint lookup_str {V : Type} (k : string) (d : list (string * V)) : option V :=
  match d with
  | [] => None
  | (k', v) :: d' => if String.eqb k k' then Some v else lookup_str k d'
  end.

(** [v.get(k, default)]: only a [dict] has [get]. *)
Definition py_get (v : json) (k : string) (default : json) : res json :=
  match v with
  | JDict d => Ok (match lookup_str k d with Some x => x | None => default end)
  | _ => Raise AttributeError
  end.

(** Iteration over a value ([for x in v], [list.extend(v)]). *)
Definition chars (s : string) : list json := map JStr (code_points s).

Definition py_iter (v : json) : res (list json) :=
  match v with
  | JList l => Ok l
  | JStr s => Ok (chars s)
  | JDict d => Ok (map (fun kv => JStr (fst kv)) d)
  | _ => Raise TypeError
  end.

(** Equality of two values used as dictionary keys or compared with [==]:
    [True == 1] and [False == 0]. *)
Fixpoint py_eqb (a b : json) : bool :=
  match a, b with
  | JNull, JNull => true
  | JBool x, JBool y => Bool.eqb x y
  | JBool x, JInt z | JInt z, JBool x => (z =? (if x then 1 else 0))%Z
  | JInt x, JInt y => (x =? y)%Z
  | JStr x, JStr y => String.eqb x y
  | JList x, JList y =>
      (fix go (x y : list json) : bool :=
         match x, y with
         | [], [] => true
         | u :: x', v :: y' => py_eqb u v && go x' y'
         | _, _ => false
         end) x y
  | JDict x, JDict y =>
      (length x =? length y)%nat &&
      (fix go (x : list (string * json)) : bool :=
         match x with
         | [] => true
         | (k, u) :: x' =>
             match lookup_str k y with
             | Some v => py_eqb u v && go x'
             | None => false
             end
         end) x
  | _, _ => false
  end.

(** Lists and dictionaries cannot be keys: hashing them raises. *)
Definition hashable (k : json) : bool :=
  match k with
  | JList _ | JDict _ => false
  | _ => true
  end.

(** A dictionary built by the program: keys are values, in insertion order. *)
Definition pydict (V : Type) : Type := list (json * V).

Fixpoint dict_get {V : Type} (k : json) (d : pydict V) : option V :=
  match d with
  | [] => None
  | (k', v) :: d' => if py_eqb k' k then Some v else dict_get k d'
  end.

(** [d[k] = v]: an existing key keeps its place (and its first key object). *)
Fixpoint dict_set {V : Type} (k : json) (v : V) (d : pydict V) : pydict V :=
  match d with
  | [] => [(k, v)]
  | (k', v') :: d' => if py_eqb k' k then (k', v) :: d' else (k', v') :: dict_set k v d'
  end.

Definition dict_mem {V : Type} (k : json) (d : pydict V) : bool :=
  match dict_get k d with Some _ => true | None => false end.

(** [k in d] and [d[k] = v] hash the key first. *)
Definition hashed (k : json) : res unit :=
  if hashable k then Ok tt else Raise TypeError.

(** Every key of a list is hashable. *)
Abbreviation hashables := (Forall (fun k => hashable k = true)).

(** ** HTTP *)

Record response : Type := {
  status_code : Z;
  text : string;
  (** [resp.json()]: [None] when the body does not parse ([ValueError]). *)
  json_body : option json
}.

(** [requests.get(url, headers=headers, params=params)] *)
Definition upstream : Type := string -> list (string * string) -> list (string * json) -> response.

Inductive event : Type :=
  | Get (url : string) (params : list (string * json))
  | Print (line : string).

Definition is_get (e : event) : bool :=
  match e with Get _ _ => true | Print _ => false end.

Definition bearer (token : string) : list (string * string) :=
  [("Authorization", "Bearer " +:+ token)].

(** [n >= total] for an [int] [n]: only numbers compare with an [int]. *)
Definition int_ge (n : Z) (total : json) : res bool :=
  match total with
  | JInt t => Ok (t <=? n)%Z
  | JBool b => Ok ((if b then 1 else 0) <=? n)%Z
  | _ => Raise TypeError
  end.

(** ** exporthostgroups.py *)

Module exporthostgroups.

Definition limit : nat := 100.

Definition endpoint (base_url : string) : string :=
  base_url +:+ "/devices/combined/host-groups/v1".

Definition page_params (limit offset : nat) : list (string * json) :=
  [("limit", JInt (Z.of_nat limit)); ("offset", JInt (Z.of_nat offset))].

(** What one round of the [while True] loop decides. *)
Inductive round : Type :=
  | Continue (all_resources : list json) (offset : nat)
  | Break (all_resources : list json)
  | Raised (e : exn).

(** The body of the loop after the request: lines 53-65. *)
Definition read_page (limit offset : nat) (all_resources : list json) (resp : response) : round :=
  if negb (status_code resp =? 200)%Z then
    Raised (RuntimeError ("Falha ao buscar host groups: " +:+ str_of_Z (status_code resp)
                          +:+ " - " +:+ text resp))
  else
    match json_body resp with
    | None => Raised (RuntimeError ("Resposta da API inválida: " +:+ text resp))
    | Some data =>
        match
          (let* resources := py_get data "resources" (JList []) in
           let* items := py_iter resources in
           let* meta := py_get data "meta" (JDict []) in
           let* pagination := py_get meta "pagination" (JDict []) in
           let* total := py_get pagination "total" (JInt 0) in
           let* stop := int_ge (Z.of_nat offset + Z.of_nat (length items)) total in
           Ok (all_resources ++ items, stop))
        with
        | Ok (all, true) => Break all
        | Ok (all, false) => Continue all (offset + limit)
        | Raise e => Raised e
        end
    end.

(** The [while True] loop; [None] when the rounds allowed by [fuel] are
    used up before the loop ends. *)
Fixpoint fetch_pages (fuel : nat) (get : upstream) (url : string)
    (headers : list (string * string)) (limit offset : nat)
    (all_resources : list json) (trace : list event)
    : option (res (list json) * list event) :=
  match fuel with
  | 0 => None
  | S fuel' =>
      let params := page_params limit offset in
      let resp := get url headers params in
      let trace' := trace ++
        [Get url params;
         Print ("Resposta da API (host groups, offset " +:+ str_of_Z (Z.of_nat offset)
                +:+ "): " +:+ text resp)] in
      match read_page limit offset all_resources resp with
      | Continue all offset' => fetch_pages fuel' get url headers limit offset' all trace'
      | Break all => Some (Ok all, trace')
      | Raised e => Some (Raise e, trace')
      end
  end.

(** [fetch_host_groups] with its local [limit] as a parameter. *)
Definition fetch_host_groups_with (limit : nat) (get : upstream) (token base_url : string)
    (fuel : nat) : option (res (list json) * list event) :=
  fetch_pages fuel get (endpoint base_url) (bearer token) limit 0 [] [].

Definition fetch_host_groups : upstream -> string -> string -> nat ->
    option (res (list json) * list event) :=
  fetch_host_groups_with limit.

(** The requests of a trace. *)
Definition requests (trace : list event) : list event := List.filter is_get trace.

(** An upstream that holds [items] in a fixed order, reports their number
    as [meta.pagination.total] and serves, for [limit] and [offset], the
    next [limit] items from [offset] on. *)
Definition serves (get : upstream) (items : list json) : Prop :=
  forall url headers (lim off : nat),
    let resp := get url headers (page_params lim off) in
    status_code resp = 200%Z /\
    exists d m p,
      json_body resp = Some (JDict d) /\
      lookup_str "resources" d = Some (JList (firstn lim (skipn off items))) /\
      lookup_str "meta" d = Some (JDict m) /\
      lookup_str "pagination" m = Some (JDict p) /\
      lookup_str "total" p = Some (JInt (Z.of_nat (length items))).

Definition param_nat (k : string) (params : list (string * json)) : nat :=
  match lookup_str k params with
  | Some (JInt z) => Z.to_nat z
  | _ => 0
  end.

(** The upstream of [serves], as a function. *)
Definition paged_upstream (items : list json) : upstream :=
  fun _ _ params =>
    let lim := param_nat "limit" params in
    let off := param_nat "offset" params in
    {| status_code := 200;
       text := "{...}";
       json_body := Some (JDict
         [("meta", JDict [("pagination", JDict
             [("offset", JInt (Z.of_nat off)); ("limit", JInt (Z.of_nat lim));
              ("total", JInt (Z.of_nat (length items)))])]);
          ("resources", JList (firstn lim (skipn off items)))]) |}.

(** An upstream that serves the same pages and gives no total. *)
Definition untotalled_upstream (items : list json) : upstream :=
  fun _ _ params =>
    let lim := param_nat "limit" params in
    let off := param_nat "offset" params in
    {| status_code := 200;
       text := "{...}";
       json_body := Some (JDict
         [("meta", JDict [("pagination", JDict
             [("offset", JInt (Z.of_nat off)); ("limit", JInt (Z.of_nat lim))])]);
          ("resources", JList (firstn lim (skipn off items)))]) |}.

(** ceil(T/P) *)
Definition ceil_div (t p : nat) : nat := (t + p - 1) / p.

(** The pages requested for [t] items in pages of [p]: at least one. *)
Definition pages (t p : nat) : nat := Nat.max 1 (ceil_div t p).

Definition page_requests (url : string) (p k : nat) : list event :=
  map (fun i => Get url (page_params p (i * p))) (seq 0 k).

(** The metadata of a body does not give a total. *)
Definition lacks_total (d : list (string * json)) : bool :=
  match lookup_str "meta" d with
  | None => true
  | Some (JDict m) =>
      match lookup_str "pagination" m with
      | None => true
      | Some (JDict p) =>
          match lookup_str "total" p with
          | None => true
          | Some _ => false
          end
      | Some _ => false
      end
  | Some _ => false
  end.


(** An upstream that reports the total [t] and serves the page [page]
    whatever is asked. *)
Definition fixed_page_upstream (t : nat) (page : list json) : upstream :=
  fun _ _ _ =>
    {| status_code := 200;
       text := "{...}";
       json_body := Some (JDict
         [("meta", JDict [("pagination", JDict [("total", JInt (Z.of_nat t))])]);
          ("resources", JList page)]) |}.

End exporthostgroups.

(** ** Paging until a short page *)

(** The [while True] loop that [exportexclusions.fetch_ids] and
    [exportiocs.fetch_iocs] share, line for line: pages of [limit] are asked
    for until one comes back empty or short. The two functions differ in the
    endpoint, in [limit], in the line printed for a response ([line]) and in
    the message of the error for a status other than 200 ([failure]). *)
Inductive page_round : Type :=
  | NextPage (all_resources : list json) (offset : nat)
  | LastPage (all_resources : list json)
  | PageError (e : exn).

(** The body of the loop after the request and the [print]. *)
Definition read_short_page (limit offset : nat) (failure : response -> string)
    (all_resources : list json) (resp : response) : page_round :=
  if negb (status_code resp =? 200)%Z then PageError (RuntimeError (failure resp))
  else
    match json_body resp with
    | None => PageError (RuntimeError ("Resposta da API inválida: " +:+ text resp))
    | Some data =>
        match
          (let* resources := py_get data "resources" (JList []) in
           let* items := py_iter resources in
           Ok (all_resources ++ items,
               negb (truthy resources) || (length items <? limit)%nat))
        with
        | Ok (all, true) => LastPage all
        | Ok (all, false) => NextPage all (offset + limit)
        | Raise e => PageError e
        end
    end.

(** [None] when the rounds allowed by [fuel] are used up before the loop
    ends. *)
Fixpoint short_pages (fuel : nat) (get : upstream) (url : string)
    (headers : list (string * string)) (limit : nat)
    (line : nat -> response -> string) (failure : response -> string)
    (offset : nat) (all_resources : list json) (trace : list event)
    : option (res (list json) * list event) :=
  match fuel with
  | 0 => None
  | S fuel' =>
      let params := exporthostgroups.page_params limit offset in
      let resp := get url headers params in
      let trace' := trace ++ [Get url params; Print (line offset resp)] in
      match read_short_page limit offset failure all_resources resp with
      | NextPage all offset' =>
          short_pages fuel' get url headers limit line failure offset' all trace'
      | LastPage all => Some (Ok all, trace')
      | PageError e => Some (Raise e, trace')
      end
  end.

(** An upstream that holds [items] in a fixed order and serves, for [limit]
    and [offset], the next [limit] items from [offset] on. *)
Definition serves_pages (get : upstream) (items : list json) : Prop :=
  forall url headers (lim off : nat),
    let resp := get url headers (exporthostgroups.page_params lim off) in
    status_code resp = 200%Z /\
    exists d,
      json_body resp = Some (JDict d) /\
      lookup_str "resources" d = Some (JList (firstn lim (skipn off items))).

(** The numbers 0, 1, ..., n-1 as items. *)
Definition numbered (n : nat) : list json := map (fun i => JInt (Z.of_nat i)) (seq 0 n).

(** An upstream that answers every request with as many resources as the
    [limit] of the request allows. *)
Definition full_page_upstream : upstream :=
  fun _ _ params =>
    {| status_code := 200;
       text := "{...}";
       json_body := Some (JDict
         [("resources", JList (numbered (exporthostgroups.param_nat "limit" params)))]) |}.

(** An upstream that serves the pages of [items] below the offset [bad] and
    refuses every request from there on. *)
Definition refusing_from (bad : nat) (items : list json) : upstream :=
  fun url headers params =>
    if (bad <=? exporthostgroups.param_nat "offset" params)%nat
    then {| status_code := 500; text := "internal error"; json_body := None |}
    else exporthostgroups.paged_upstream items url headers params.

(** ** exportexclusions.py *)

Module exportexclusions.

Definition details_params (id_val : json) : list (string * json) := [("ids", id_val)].

Definition response_line (details_endpoint : string) (id_val : json) (resp : response) : string :=
  "Resposta da API (details for " +:+ details_endpoint +:+ ", ID: " +:+ py_str id_val
  +:+ "): " +:+ text resp.

Definition status_error_line (id_val : json) (resp : response) : string :=
  "Erro ao buscar detalhes para ID " +:+ py_str id_val +:+ ": "
  +:+ str_of_Z (status_code resp) +:+ " - " +:+ text resp.

Definition invalid_body_line (id_val : json) (resp : response) : string :=
  "Resposta da API inválida para ID " +:+ py_str id_val +:+ ": " +:+ text resp.

(** The [for id_val in ids] loop of [fetch_details]: a failed request is
    printed and skipped ([continue]); an exception other than the
    [ValueError] of [resp.json()] leaves the loop. *)
Fixpoint hydrate (get : upstream) (url : string) (headers : list (string * string))
    (details_endpoint : string) (ids : list json)
    (all_details : list json) (trace : list event) : res (list json) * list event :=
  match ids with
  | [] => (Ok all_details, trace)
  | id_val :: ids' =>
      let params := details_params id_val in
      let resp := get url headers params in
      let trace1 := trace ++ [Get url params; Print (response_line details_endpoint id_val resp)] in
      if negb (status_code resp =? 200)%Z then
        hydrate get url headers details_endpoint ids' all_details
          (trace1 ++ [Print (status_error_line id_val resp)])
      else
        match json_body resp with
        | None =>
            hydrate get url headers details_endpoint ids' all_details
              (trace1 ++ [Print (invalid_body_line id_val resp)])
        | Some data =>
            match (let* resources := py_get data "resources" (JList []) in py_iter resources) with
            | Ok items => hydrate get url headers details_endpoint ids' (all_details ++ items) trace1
            | Raise e => (Raise e, trace1)
            end
        end
  end.

Definition fetch_details (get : upstream) (token base_url details_endpoint : string)
    (ids : list json) : res (list json) * list event :=
  hydrate get (base_url +:+ details_endpoint) (bearer token) details_endpoint ids [] [].

(** The lines by which a failed identifier is recorded. *)
Definition is_failure (e : event) : bool :=
  match e with
  | Print line =>
      startswith "Erro ao buscar detalhes para ID " line
      || startswith "Resposta da API inválida para ID " line
  | Get _ _ => false
  end.

(** The requests and the recorded failures of a trace. *)
Definition requests (trace : list event) : list event := List.filter is_get trace.
Definition failures (trace : list event) : list event := List.filter is_failure trace.

(** A detail request fails: status other than 200, or a body that does
    not parse. *)
Definition failed (resp : response) : Prop :=
  status_code resp <> 200%Z \/ json_body resp = None.

(** A detail request succeeds with exactly one resource. *)
Definition one_resource (resp : response) : Prop :=
  status_code resp = 200%Z /\
  exists d r, json_body resp = Some (JDict d) /\ lookup_str "resources" d = Some (JList [r]).

(** The resources that a response carries in its body. *)
Definition resources_of (resp : response) : list json :=
  match json_body resp with
  | Some (JDict d) =>
      match lookup_str "resources" d with
      | Some (JList l) => l
      | _ => []
      end
  | _ => []
  end.

(** The line that records the failure of the request for [id_val]: the
    one of line 76 for a status other than 200, the one of line 83 for a
    body that does not parse. *)
Definition failure_line (id_val : json) (resp : response) : string :=
  if negb (status_code resp =? 200)%Z then status_error_line id_val resp
  else invalid_body_line id_val resp.

(** An upstream that knows every identifier but [bad]. *)
Definition all_but (bad : string) : upstream :=
  fun _ _ params =>
    match lookup_str "ids" params with
    | Some (JStr i) =>
        if String.eqb i bad
        then {| status_code := 500; text := "internal error"; json_body := None |}
        else {| status_code := 200; text := "{...}";
                json_body := Some (JDict [("resources", JList [JDict [("id", JStr i)]])]) |}
    | _ => {| status_code := 400; text := "bad request"; json_body := None |}
    end.


(** *** [fetch_ids] *)

Definition limit : nat := 100.

Definition ids_line (query_endpoint : string) (offset : nat) (resp : response) : string :=
  "Resposta da API (IDs for " +:+ query_endpoint +:+ ", offset "
  +:+ str_of_Z (Z.of_nat offset) +:+ "): " +:+ text resp.

Definition ids_failure (resp : response) : string :=
  "Falha ao buscar IDs: " +:+ str_of_Z (status_code resp) +:+ " - " +:+ text resp.

(** Lines 40-63. *)
Definition fetch_ids (get : upstream) (token base_url query_endpoint : string) (fuel : nat)
    : option (res (list json) * list event) :=
  short_pages fuel get (base_url +:+ query_endpoint) (bearer token) limit
    (ids_line query_endpoint) ids_failure 0 [] [].

End exportexclusions.

(** ** Tables (pandas frames) *)

(** A frame by its labels and cells: the row labels ([index]), the column
    labels and, row by row, the cells; [None] is a missing cell (NaN). *)
Record frame : Type := {
  index : list json;
  columns : list json;
  cells : list (list (option json))
}.

(** The default row labels 0, 1, ..., n-1. *)
Definition range_index (n : nat) : list json :=
  map (fun i => JInt (Z.of_nat i)) (seq 0 n).

(** [pd.DataFrame(rows, columns=columns)] for a list of rows. *)
Definition frame_of_rows (columns : list string) (rows : list (list json)) : frame :=
  {| index := range_index (length rows);
     columns := map JStr columns;
     cells := map (map Some) rows |}.

Definition key_in (k : json) (ks : list json) : bool := existsb (py_eqb k) ks.

(** Keys in the order in which they first occur. *)
Fixpoint distinct (seen ks : list json) : list json :=
  match ks with
  | [] => seen
  | k :: ks' => distinct (if key_in k seen then seen else seen ++ [k]) ks'
  end.

Definition keys {V : Type} (d : pydict V) : list json := map fst d.

(** No two keys of the list are equal. *)
Fixpoint unique_keys (ks : list json) : bool :=
  match ks with
  | [] => true
  | k :: ks' => negb (key_in k ks') && unique_keys ks'
  end.

(** The keys of a dictionary of the program: hashed, and so pairwise
    different. *)
Definition dict_keys (ks : list json) : Prop :=
  Forall (fun k => hashable k = true) ks /\ unique_keys ks = true.

(** ** exportpp.py *)

Module exportpp.

(** The recommended values per operating system: lines 86-207. *)
Definition recommended_Windows : list (string * string) :=
  [("Notify End Users", "ON");
   ("Unknown Detection-Related Executables", "ON");
   ("Unknown Executables", "ON");
   ("Sensor Tampering Protection", "ON");
   ("Additional User Mode Data", "ON");
   ("Interpreter-Only", "ON");
   ("Engine (Full Visibility)", "ON");
   ("Script-Based Execution Monitoring", "ON");
   ("HTTP Detections", "ON");
   ("Redact HTTP Detection Details", "ON");
   ("Hardware-Enhanced Exploit Detection", "ON");
   ("Enhanced Exploitation Visibility", "ON");
   ("Extended User Mode Data (Detection)", "MODERATE");
   ("Enhanced DLL Load Visibility", "OFF");
   ("WSL2 Visibility", "OFF");
   ("Memory Scanning", "ON");
   ("Scan with CPU", "ON");
   ("BIOS Deep Visibility", "ON");
   ("Cloud Anti-malware (Detection)", "AGGRESSIVE");
   ("Cloud Anti-malware (Prevention)", "AGGRESSIVE");
   ("Adware & PUP (Detection)", "AGGRESSIVE");
   ("Adware & PUP (Prevention)", "AGGRESSIVE");
   ("Sensor Anti-malware (Detection)", "AGGRESSIVE");
   ("Sensor Anti-malware (Prevention)", "AGGRESSIVE");
   ("Enhanced ML for larger files", "ON");
   ("Sensor Anti-malware for End-User Initiated Scans (Detection)", "AGGRESSIVE");
   ("Sensor Anti-malware for End-User Initiated Scans (Prevention)", "AGGRESSIVE");
   ("Cloud Anti-malware for End-User Initiated Scans (Detection)", "AGGRESSIVE");
   ("Cloud Anti-malware for End-User Initiated Scans (Prevention)", "AGGRESSIVE");
   ("Cloud PUP/Adware for End-User Initiated Scans (Detection)", "DISABLED");
   ("Cloud PUP/Adware for End-User Initiated Scans (Prevention)", "DISABLED");
   ("USB Insertion Triggered Scan", "ON");
   ("Detect on Write", "ON");
   ("Quarantine on Write", "ON");
   ("On Write Script File Visibility", "ON");
   ("Quarantine & Security Center Registration", "ON");
   ("Quarantine on Removable Media", "ON");
   ("Cloud Anti-malware For Microsoft Office Files (Detection)", "AGGRESSIVE");
   ("Cloud Anti-malware For Microsoft Office Files (Prevention)", "AGGRESSIVE");
   ("Microsoft Office File Malicious Macro Removal", "ON");
   ("Custom Blocking", "ON");
   ("Suspicious Processes", "ON");
   ("Suspicious Registry Operations", "ON");
   ("Boot Configuration Database Protection", "OFF");
   ("File System Containment", "OFF");
   ("Suspicious Scripts and Commands", "ON");
   ("Intelligence-Sourced Threats", "ON");
   ("Driver Load Prevention", "ON");
   ("Vulnerable Driver Protection", "ON");
   ("Force ASLR", "ON");
   ("Force DEP", "OFF");
   ("Heap Spray Preallocation", "ON");
   ("NULL Page Allocation", "ON");
   ("SEH Overwrite Protection", "ON");
   ("Backup Deletion", "ON");
   ("Cryptowall", "ON");
   ("File Encryption", "ON");
   ("Locky", "ON");
   ("File System Access", "ON");
   ("Volume Shadow Copy - Audit", "ON");
   ("Volume Shadow Copy - Protect", "ON");
   ("Application Exploitation Activity", "ON");
   ("Chopper Webshell", "ON");
   ("Drive-by Download", "ON");
   ("Code Injection", "ON");
   ("JavaScript Execution Via Rundll32", "ON");
   (("Windows Logon Bypass (" +:+ str1 dquote +:+ "Sticky Keys" +:+ str1 dquote +:+ ")"), "ON");
   ("Credential Dumping", "ON");
   ("Advanced Remediation", "ON")].

Definition recommended_Linux : list (string * string) :=
  [("Unknown Detection-Related Executables", "ON");
   ("Unknown Executables", "ON");
   ("Sensor Tampering Protection", "ON");
   ("Script-Based Execution Monitoring", "ON");
   ("Filesystem Visibility", "ON");
   ("Network Visibility", "ON");
   ("Http Visibility", "ON");
   ("FTP Visibility", "ON");
   ("TLS Visibility", "ON");
   ("Extended Command Line Visibility", "ON");
   ("Email Protocol Visibility", "ON");
   ("Memory Visibility", "ON");
   ("D-Bus Visibility", "ON");
   ("Enhance PHP Visibility", "ON");
   ("Cloud Anti-malware (Detection)", "AGGRESSIVE");
   ("Cloud Anti-malware (Prevention)", "AGGRESSIVE");
   ("Sensor Anti-malware (Detection)", "AGGRESSIVE");
   ("Sensor Anti-malware (Prevention)", "AGGRESSIVE");
   ("Quarantine", "ON");
   ("On Write Script File Visibility", "ON");
   ("Custom Blocking", "ON");
   ("Suspicious Processes", "ON");
   ("Drift Prevention", "ON")].

Definition recommended_Mac : list (string * string) :=
  [("Notify End Users", "ON");
   ("Unknown Detection-Related Executables", "ON");
   ("Sensor Tampering Protection", "ON");
   ("Unknown Executables", "ON");
   ("Script-Based Execution Monitoring", "ON");
   ("Cloud Anti-malware (Detection)", "AGGRESSIVE");
   ("Cloud Anti-malware (Prevention)", "AGGRESSIVE");
   ("Adware & PUP (Detection)", "AGGRESSIVE");
   ("Adware & PUP (Prevention)", "AGGRESSIVE");
   ("Sensor Anti-malware (Detection)", "AGGRESSIVE");
   ("Sensor Anti-malware (Prevention)", "AGGRESSIVE");
   ("Quarantine", "ON");
   ("Detect on Write", "ON");
   ("Quarantine on Write", "ON");
   ("Custom Blocking", "ON");
   ("Suspicious Processes", "ON");
   ("Intelligence-Sourced Threats", "ON");
   ("XPCOM Shell", "ON");
   ("Chopper Webshell", "ON");
   ("Empyre Backdoor", "ON");
   ("KcPassword Decoded", "ON");
   ("Hash Collector", "ON")].

Definition recommended : list (string * list (string * string)) :=
  [("Windows", recommended_Windows);
   ("Linux", recommended_Linux);
   ("Mac", recommended_Mac)].

(** [per_os[so]]: row name -> policy name -> value. *)
Definition motors : Type := pydict (pydict string).

(** Lines 224-227: the value of a setting as one string. *)
Definition flatten (value : json) : string :=
  match value with
  | JDict d => join "/" (map (fun kv => fst kv +:+ ":" +:+ py_str (snd kv)) d)
  | _ => py_str value
  end.

Definition replace_if_in (old new value_str : string) : string :=
  if contains old value_str then replace old new value_str else value_str.

(** Lines 229-243: [enabled:] and [configured:] tokens give way to the
    boolean they carry. *)
Definition collapse (value_str : string) : string :=
  let value_str := replace_if_in "enabled:True" "True" value_str in
  let value_str := replace_if_in "enabled:False" "False" value_str in
  let value_str := replace_if_in "configured:True/True" "True" value_str in
  let value_str := replace_if_in "configured:False/False" "False" value_str in
  let value_str := replace_if_in "configured:True" "True" value_str in
  let value_str := replace_if_in "configured:False" "False" value_str in
  value_str.

(** [next((part.split(":")[1] for part in parts if part.startswith(tag)), "")] *)
Definition indicator (tag : string) (parts : list string) : res string :=
  match List.filter (startswith tag) parts with
  | [] => Ok EmptyString
  | part :: _ =>
      match nth_error (split ":" part) 1 with
      | Some v => Ok v
      | None => Raise IndexError
      end
  end.

(** [if row not in per_os[so]: per_os[so][row] = {}] and then
    [per_os[so][row][pol_name] = value]. *)
Definition set_cell (row pol_name : json) (value : string) (m : motors) : res motors :=
  let* _ := hashed row in
  let m := if dict_mem row m then m else dict_set row [] m in
  let* _ := hashed pol_name in
  let inner := match dict_get row m with Some c => c | None => [] end in
  Ok (dict_set row (dict_set pol_name value inner) m).

Definition excluded_row : string := "Extended User Mode Data (Prevention)".

(** Lines 222-266: one setting of one policy. *)
Definition add_setting (pol_name : json) (m : motors) (s : json) : res motors :=
  let* motor_name := py_get s "name" JNull in
  let* value := py_get s "value" JNull in
  let value_str := collapse (flatten value) in
  if contains "detection:" value_str && contains "prevention:" value_str then
    let parts := split "/" value_str in
    let* detection_value := indicator "detection:" parts in
    let* prevention_value := indicator "prevention:" parts in
    let* m :=
      (if String.eqb detection_value EmptyString then Ok m
       else set_cell (JStr (py_str motor_name +:+ " (Detection)")) pol_name detection_value m) in
    if String.eqb prevention_value EmptyString then Ok m
    else
      let prevention_motor := py_str motor_name +:+ " (Prevention)" in
      if String.eqb prevention_motor excluded_row then Ok m
      else set_cell (JStr prevention_motor) pol_name prevention_value m
  else set_cell motor_name pol_name value_str m.

(** Lines 219-221: the settings of one group. *)
Definition add_group (pol_name : json) (m : motors) (ps : json) : res motors :=
  let* settings_list := py_get ps "settings" (JList []) in
  let* settings := py_iter settings_list in
  for_each (add_setting pol_name) settings m.

(** [so in ["Mobile", "Meta"]] *)
Definition ignored (so : json) : bool :=
  py_eqb so (JStr "Mobile") || py_eqb so (JStr "Meta").

(** Lines 268-272: the host count of the policy, when it has one. *)
Definition add_host_count (host_counts : pydict Z) (pol_name : json) (m : motors) : res motors :=
  let* _ := hashed pol_name in
  match dict_get pol_name host_counts with
  | Some n => set_cell (JStr "Host Count") pol_name (str_of_Z n) m
  | None => Ok m
  end.

(** Lines 210-272: one policy. *)
Definition add_policy (host_counts : pydict Z) (per_os : pydict motors) (pol : json)
    : res (pydict motors) :=
  let* so := py_get pol "platform_name" (JStr "Unknown") in
  if ignored so then Ok per_os
  else
    let* id := py_get pol "id" JNull in
    let* pol_name := py_get pol "name" id in
    let* prevention_settings := py_get pol "prevention_settings" (JList []) in
    let* _ := hashed so in
    let per_os := if dict_mem so per_os then per_os else dict_set so [] per_os in
    let m := match dict_get so per_os with Some m => m | None => [] end in
    let* groups := py_iter prevention_settings in
    let* m := for_each (add_group pol_name) groups m in
    let* m := add_host_count host_counts pol_name m in
    Ok (dict_set so m per_os).

(** [recommended.get(so, {}).get(motor, "")] *)
Definition recommended_value (so motor : json) : string :=
  match so, motor with
  | JStr so, JStr motor =>
      match lookup_str so recommended with
      | Some table =>
          match lookup_str motor table with
          | Some v => v
          | None => EmptyString
          end
      | None => EmptyString
      end
  | _, _ => EmptyString
  end.

(** [.replace({"True": "ON", "False": "OFF"})] on one cell. *)
Definition render (v : string) : string :=
  if String.eqb v "True" then "ON"
  else if String.eqb v "False" then "OFF"
  else v.

(** The policy columns of [pd.DataFrame.from_dict(motors, orient="index")]:
    the policy names in the order in which the rows first mention them. *)
Definition policy_columns (m : motors) : list json :=
  distinct [] (concat (map (fun r => keys (snd r)) m)).

(** Its rows: the row names, in the order in which the rows were stored. *)
Definition row_labels (m : motors) : list json := keys m.

Definition cell (m : motors) (row col : json) : option string :=
  match dict_get row m with
  | Some c => dict_get col c
  | None => None
  end.

Definition label_column : string := "Motor/Configuração".
Definition recommended_column : string := "Recomended".

(** Lines 277-284: the frame of one operating system. [df.insert] raises
    [ValueError] when a policy is itself named "Recomended"; a policy named
    "index" or "Motor/Configuração" makes [reset_index] and [rename]
    relabel the columns, which is not followed here. *)
Definition build_frame (so : json) (m : motors) : res frame :=
  let pols := policy_columns m in
  if key_in (JStr "index") pols || key_in (JStr label_column) pols then Raise Unmodelled
  else if key_in (JStr recommended_column) pols then Raise ValueError
  else
    let rows := row_labels m in
    Ok {| index := range_index (length rows);
          columns := JStr label_column :: JStr recommended_column :: pols;
          cells :=
            map (fun row =>
                   Some row
                   :: Some (JStr (recommended_value so row))
                   :: map (fun pol => option_map (fun v => JStr (render v)) (cell m row pol)) pols)
                rows |}.

Definition add_frame (result : pydict frame) (entry : json * motors) : res (pydict frame) :=
  let* df := build_frame (fst entry) (snd entry) in
  Ok (dict_set (fst entry) df result).

Definition transform_policies (policies : list json) (host_counts : pydict Z)
    : res (pydict frame) :=
  let* per_os := for_each (add_policy host_counts) policies [] in
  for_each add_frame per_os [].

(** *** [save_to_excel] *)

(** What a path of the file system holds. [Workbook sheets] is the workbook
    of a run that came to its end; it is given by the [to_excel] calls that
    filled it, each with its sheet name and its frame, in order. [Partial
    written] is what an interrupted run leaves under the path: no bytes, a
    broken archive, or a workbook of the calls [written] only. *)
Inductive file : Type :=
  | Partial (written : list (string * frame))
  | Workbook (sheets : list (string * frame)).

(** Where the I/O failure of a run strikes, if anywhere: when the
    destination is opened, at the [n]-th call of [to_excel], or when the
    workbook is saved on leaving the [with] block. *)
Inductive fault : Type :=
  | NoFault
  | FailOpen
  | FailSheet (n : nat)
  | FailClose.

Definition strikes_at (f : fault) (n : nat) : bool :=
  match f with
  | FailSheet k => (k =? n)%nat
  | _ => false
  end.

(** [", ".join(per_os.keys())] joins strings only. *)
Fixpoint str_keys (ks : list json) : res (list string) :=
  match ks with
  | [] => Ok []
  | JStr s :: ks' => let* r := str_keys ks' in Ok (s :: r)
  | _ :: _ => Raise TypeError
  end.

(** [so if len(so) <= 31 else so[:31]] *)
Definition sheet_name (so : string) : string :=
  if (py_len so <=? 31)%nat then so else py_take 31 so.

Fixpoint dots_only (s : string) : bool :=
  match s with
  | EmptyString => true
  | String c s' => Ascii.eqb c "." && dots_only s'
  end.

(** The last component of a path, after every "/" and every backslash. *)
Definition file_name (path : string) : string :=
  List.last (split backslash (List.last (split "/" path) EmptyString)) EmptyString.

(** The engine that [pd.ExcelWriter(outfile)] finds. It goes by the
    extension of the path as it is written: ".xlsx" has an engine, the same
    letters in another case have none, which is a [ValueError] before
    anything is opened. [save_to_excel] passes paths that end in ".xlsx" in
    some letter case; other paths are not followed, and neither are file
    names with nothing but dots before the extension (whether the extension
    is seen then depends on what the system takes for a separator). *)
Definition find_engine (outfile : string) : res unit :=
  let name := file_name outfile in
  if negb (endswith ".xlsx" (lower outfile)) then Raise Unmodelled
  else if dots_only (take_str (String.length name - 5) name) then Raise Unmodelled
  else if endswith ".xlsx" outfile then Ok tt
  else Raise ValueError.

(** [pd.ExcelWriter(outfile)]: finds the engine, then opens the path it is
    given, which empties a file that is there. *)
Definition open_writer (f : fault) (outfile : string) (fs : gmap string file)
    : res unit * gmap string file :=
  match find_engine outfile with
  | Raise e => (Raise e, fs)
  | Ok _ =>
      match f with
      | FailOpen => (Raise OSError, fs)
      | _ => (Ok tt, <[outfile := Partial []]> fs)
      end
  end.

(** The characters that the title of a sheet must not have. *)
Definition forbidden_char (c : ascii) : bool :=
  existsb (Ascii.eqb c) [backslash; "*"; "?"; ":"; "/"; "["; "]"]%char.

Fixpoint has_forbidden (s : string) : bool :=
  match s with
  | EmptyString => false
  | String c s' => forbidden_char c || has_forbidden s'
  end.

(** The control characters other than tab, line feed and carriage
    return. *)
Definition control_char (c : ascii) : bool :=
  let n := nat_of_ascii c in
  ((n <? 32) && negb ((n =? 9) || (n =? 10) || (n =? 13)))%nat.

Fixpoint clean (s : string) : bool :=
  match s with
  | EmptyString => true
  | String c s' => negb (control_char c) && clean s'
  end.

Definition clean_value (v : json) : bool :=
  match v with
  | JStr s => clean s
  | _ => true
  end.

(** The frames on which [to_excel] is followed: not more rows and columns
    than a sheet has, and no control character in a label or in a cell. *)
Definition storable (df : frame) : bool :=
  (Z.of_nat (length (cells df)) <=? 1048576)%Z
  && (Z.of_nat (length (columns df)) <=? 16384)%Z
  && forallb clean_value (columns df)
  && forallb (forallb (fun c => match c with Some v => clean_value v | None => true end))
       (cells df).

(** [df.to_excel(writer, sheet_name=title, index=False)] as the [n]-th call
    of the run: what the call does, and whether it has added a sheet to the
    workbook in memory. The sheet is added before its title is set, and a
    title with a forbidden character is a [ValueError] then. *)
Definition to_excel (f : fault) (n : nat) (title : string) (df : frame) : res unit * bool :=
  if strikes_at f n then (Raise OSError, false)
  else if negb (storable df) then (Raise Unmodelled, false)
  else if has_forbidden title then (Raise ValueError, true)
  else if negb (clean title) then (Raise Unmodelled, true)
  else (Ok tt, true).

(** [for so, df in per_os.items(): df.to_excel(writer, sheet_name=...)];
    [n] counts the calls made so far and [book] holds the calls that came to
    their end. *)
Fixpoint write_sheets (f : fault) (n : nat) (sheets : list (string * frame))
    (book : list (string * frame)) : res unit * list (string * frame) * bool :=
  match sheets with
  | [] => (Ok tt, book, false)
  | (so, df) :: rest =>
      match to_excel f n (sheet_name so) df with
      | (Ok _, _) => write_sheets f (S n) rest (book ++ [(sheet_name so, df)])
      | (Raise e, begun) => (Raise e, book, begun)
      end
  end.

(** Leaving the [with] block closes the writer, which saves the workbook
    in memory to the path opened, also after an exception in the block. A
    workbook without any sheet cannot be saved: [IndexError], in the place of
    the exception of the block. [begun] tells whether the call that raised
    had added its sheet. *)
Definition close_writer (f : fault) (body : res unit) (outfile : string)
    (book : list (string * frame)) (begun : bool) (fs : gmap string file)
    : res unit * gmap string file :=
  let empty := match book with [] => negb begun | _ :: _ => false end in
  match body with
  | Raise Unmodelled => (Raise Unmodelled, fs)
  | _ =>
      match f with
      | FailClose =>
          if empty then (Raise Unmodelled, fs)
          else (Raise OSError, <[outfile := Partial book]> fs)
      | _ =>
          if empty then (Raise IndexError, <[outfile := Partial book]> fs)
          else
            match body with
            | Raise e => (Raise e, <[outfile := Partial book]> fs)
            | Ok _ => (Ok tt, <[outfile := Workbook book]> fs)
            end
      end
  end.

Definition with_suffix (outfile : string) : string :=
  if endswith ".xlsx" (lower outfile) then outfile else outfile +:+ ".xlsx".

(** The text is ".xlsx" in some letter case. *)
Definition either (a b c : ascii) : bool := Ascii.eqb c a || Ascii.eqb c b.

Definition any_case_xlsx (e : string) : bool :=
  match e with
  | String d (String x (String l (String s (String x' EmptyString)))) =>
      Ascii.eqb d "." && either "x" "X" x && either "l" "L" l && either "s" "S" s
      && either "x" "X" x'
  | _ => false
  end.

Definition meta_frame (now : string) (names : list string) : frame :=
  frame_of_rows ["generated_at_utc"; "sistemas_operacionais"; "total_abas"]
    [[JStr now; JStr (join ", " names); JInt (Z.of_nat (length names))]].

(** Lines 288-304. [now] is the reading of the clock, [f] the failure of
    the run and [fs] the file system before the call. *)
Definition save_to_excel (now : string) (f : fault) (per_os : pydict frame)
    (outfile : string) (fs : gmap string file) : res unit * gmap string file :=
  let outfile := with_suffix outfile in
  match str_keys (keys per_os) with
  | Raise e => (Raise e, fs)
  | Ok names =>
      let meta := meta_frame now names in
      match open_writer f outfile fs with
      | (Raise e, fs') => (Raise e, fs')
      | (Ok _, fs') =>
          let '(body, book, begun) :=
            match write_sheets f 0 (combine names (map snd per_os)) [] with
            | (Ok _, book, _) =>
                match to_excel f (length per_os) "Meta" meta with
                | (Ok _, _) => (Ok tt, book ++ [("Meta", meta)], false)
                | (Raise e, begun) => (Raise e, book, begun)
                end
            | (Raise e, book, begun) => (Raise e, book, begun)
            end in
          close_writer f body outfile book begun fs'
      end
  end.

(** The whole artifact of a bundle. *)
Definition bundle_sheets (now : string) (names : list string) (per_os : pydict frame)
    : list (string * frame) :=
  combine (map sheet_name names) (map snd per_os) ++ [("Meta", meta_frame now names)].

(** A sheet that [to_excel] takes under the sheet name made of [so]. *)
Definition takes (so : string) (df : frame) : bool :=
  storable df && negb (has_forbidden (sheet_name so)) && clean (sheet_name so).

(** A bundle of which the writer takes every sheet, the Meta sheet
    included. *)
Definition writable (now : string) (names : list string) (per_os : pydict frame) : bool :=
  forallb (fun sd => takes (fst sd) (snd sd)) (combine names (map snd per_os))
  && storable (meta_frame now names).

(** A bundle of two sheets without rows. *)
Definition two_sheets : pydict frame :=
  [(JStr "Windows", frame_of_rows ["Motor/Configuração"; "Recomended"] []);
   (JStr "Linux", frame_of_rows ["Motor/Configuração"; "Recomended"] [])].

(** The same bundle with a platform whose name has a "/". *)
Definition slashed_sheets : pydict frame :=
  [(JStr "Windows", frame_of_rows ["Motor/Configuração"; "Recomended"] []);
   (JStr "Linux/Unix", frame_of_rows ["Motor/Configuração"; "Recomended"] []);
   (JStr "Mac", frame_of_rows ["Motor/Configuração"; "Recomended"] [])].

(** The sheets of [write_sheets] under their sheet names. *)
Definition named (sheets : list (string * frame)) : list (string * frame) :=
  map (fun sd => (sheet_name (fst sd), snd sd)) sheets.


(** [pol.get("platform_name", "Unknown")] *)
Definition platform (pol : json) : res json := py_get pol "platform_name" (JStr "Unknown").

(** [if so not in per_os: per_os[so] = {}] *)
Definition with_platform (so : json) (per_os : pydict motors) : pydict motors :=
  if dict_mem so per_os then per_os else dict_set so [] per_os.

(** [per_os[so]] *)
Definition motors_of (so : json) (per_os : pydict motors) : motors :=
  match dict_get so per_os with Some m => m | None => [] end.

(** The settings the loops of lines 219-221 go through. *)
Definition settings_of_group (ps : json) : list json :=
  match (let* settings_list := py_get ps "settings" (JList []) in py_iter settings_list) with
  | Ok settings => settings
  | Raise _ => []
  end.

Definition settings_of (pol : json) : list json :=
  match (let* prevention_settings := py_get pol "prevention_settings" (JList []) in
         py_iter prevention_settings) with
  | Ok groups => flat_map settings_of_group groups
  | Raise _ => []
  end.

(** The setting is itself named like the excluded row. *)
Definition named_excluded (s : json) : bool :=
  match py_get s "name" JNull with
  | Ok name => py_eqb name (JStr excluded_row)
  | Raise _ => false
  end.

(** What holds of the keys of [per_os] after the policies [done]. *)
Definition platforms_of (done : list json) (per_os : pydict motors) : Prop :=
  dict_keys (keys per_os) /\
  (forall k, In k (keys per_os) ->
     ignored k = false /\ exists pol, In pol done /\ platform pol = Ok k) /\
  (forall pol, In pol done ->
     exists so, platform pol = Ok so /\ (ignored so = false -> dict_mem so per_os = true)).


(** Example input. *)
Definition setting (name : string) (value : json) : json :=
  JDict [("name", JStr name); ("value", value)].

Definition policy (fields : list (string * json)) (name : string) (settings : list json) : json :=
  JDict (fields ++ [("name", JStr name);
                    ("prevention_settings", JList [JDict [("settings", JList settings)]])]).

Definition on (so : string) : list (string * json) := [("platform_name", JStr so)].

Definition compound (detection prevention : string) : json :=
  JDict [("detection", JStr detection); ("prevention", JStr prevention)].

Definition mobile_policy : json :=
  policy (on "Mobile") "Phones" [setting "Malware Protection" (JDict [("enabled", JBool true)])].

(** Four policies: two for Windows, one for Mobile and one without a
    platform. *)
Definition four_policies : list json :=
  [policy (on "Windows") "Default"
     [setting "Cloud Anti-malware" (compound "aggressive" "moderate");
      setting "Notify End Users" (JDict [("enabled", JBool true)]);
      setting "Extended User Mode Data" (compound "moderate" "cautious")];
   mobile_policy;
   policy [] "Legacy" [setting "Quarantine" (JDict [("configured", JBool false)])];
   policy (on "Windows") "Servers"
     [setting "Notify End Users" (JDict [("enabled", JBool false)])]].


(** An indicator value that the flattened form carries whole: not empty and
    without the separators "/" and ":". *)
Definition plain (v : string) : bool :=
  negb (String.eqb v EmptyString) && free_of "/"%char v && free_of ":"%char v.

(** The row of [name] for the detection and for the prevention indicator. *)
Definition detection_row (name : json) : json := JStr (py_str name +:+ " (Detection)").
Definition prevention_row (name : json) : json := JStr (py_str name +:+ " (Prevention)").


(** No row of the table is the excluded row. *)
Definition no_excluded_row (m : motors) : Prop :=
  forall k, In k (keys m) -> py_eqb k (JStr excluded_row) = false.

(** The cells of one row of the frame: lines 277-284. *)
Definition row_cells (so : json) (m : motors) (row : json) : list (option json) :=
  Some row
  :: Some (JStr (recommended_value so row))
  :: map (fun pol => option_map (fun v => JStr (render v)) (cell m row pol)) (policy_columns m).


(** The tables the transform builds: hashed keys, and no row without a
    cell. *)
Definition table_ok (m : motors) : Prop :=
  Forall (fun k => hashable k = true) (keys m) /\
  Forall (fun entry => snd entry <> [] /\ Forall (fun k => hashable k = true) (keys (snd entry))) m.

(** The table of the platform [so] has the row [row]. *)
Definition has_row (so row : json) (per_os : pydict motors) : Prop :=
  exists m, dict_get so per_os = Some m /\ dict_mem row m = true.


(** [str(b)] for a [bool]. *)
Definition py_bool (b : bool) : string := if b then "True" else "False".

(** The flattened value is [enabled:<bool>] or [configured:<bool>], alone or
    with a second boolean that is the same. *)
Definition boolean_shape (b : bool) (value_str : string) : Prop :=
  value_str = "enabled:" +:+ py_bool b \/
  value_str = "configured:" +:+ py_bool b \/
  value_str = "configured:" +:+ py_bool b +:+ "/" +:+ py_bool b \/
  value_str = "configured:" +:+ py_bool b +:+ "/enabled:" +:+ py_bool b.

(** A setting that is itself named like the excluded row, and a compound
    value without a detection indicator. *)
Definition named_like_excluded : list json :=
  [policy (on "Windows") "Default"
     [setting "Extended User Mode Data (Prevention)" (JBool true);
      setting "Adware & PUP" (compound EmptyString "moderate")]].

(** Settings whose two booleans differ. *)
Definition mixed_booleans : list json :=
  [policy (on "Windows") "Default"
     [setting "Sensor Tampering Protection" (JStr "configured:True/False");
      setting "Quarantine" (JDict [("configured", JBool true); ("enabled", JBool false)])]].


(** The row of the host counts. *)
Definition host_count_row : json := JStr "Host Count".

(** The policy is kept, is of the platform [so] and has the name
    [pol_name] (line 214: its "name", or else its "id"). *)
Definition named_policy (pol so pol_name : json) : Prop :=
  platform pol = Ok so /\ ignored so = false /\
  exists id, py_get pol "id" JNull = Ok id /\ py_get pol "name" id = Ok pol_name.

(** Every policy of [done] that has a host count shows it in its column of
    the row of the host counts. *)
Definition counts_shown (host_counts : pydict Z) (done : list json) (per_os : pydict motors)
    : Prop :=
  forall pol so pol_name n,
    In pol done -> named_policy pol so pol_name -> hashable pol_name = true ->
    dict_get pol_name host_counts = Some n ->
    cell (motors_of so per_os) host_count_row pol_name = Some (str_of_Z n).

(** What holds of [per_os] after the policies [done]. *)
Definition counted_rows (host_counts : pydict Z) (done : list json) (per_os : pydict motors)
    : Prop :=
  platforms_of done per_os /\
  Forall (fun entry => table_ok (snd entry)) per_os /\
  counts_shown host_counts done per_os.


(** *** Compound values, and the cell that a setting leaves in the sheet *)

(** An entry of a mapping as [flatten] writes it: [key:value]. *)
Definition entry_text (kv : string * json) : string :=
  fst kv +:+ ":" +:+ py_str (snd kv).

(** An entry that takes no part when a compound value is split: its text
    has no "/" and no token "enabled:" or "configured:", and does not begin
    like an indicator. *)
Definition inert (kv : string * json) : bool :=
  free_of "/"%char (entry_text kv)
  && negb (contains "enabled:" (entry_text kv))
  && negb (contains "configured:" (entry_text kv))
  && negb (startswith "detection:" (entry_text kv))
  && negb (startswith "prevention:" (entry_text kv)).

(** The value is a mapping with the detection indicator [d] and the
    prevention indicator [p], in any order, and with inert entries
    besides. *)
Definition indicators (value : json) (d p : string) : Prop :=
  exists entries,
    value = JDict entries /\
    In ("detection", JStr d) entries /\
    In ("prevention", JStr p) entries /\
    Forall (fun kv => kv = ("detection", JStr d) \/ kv = ("prevention", JStr p)
                      \/ inert kv = true) entries.

(** The rows that a setting can write: the one of its name, and the two of
    a compound value. *)
Definition rows_of_setting (s : json) : list json :=
  match py_get s "name" JNull with
  | Ok name => [name; detection_row name; prevention_row name]
  | Raise _ => []
  end.

(** The setting writes no cell of the row. *)
Definition spares (row s : json) : bool := negb (key_in row (rows_of_setting s)).

(** [pol.get("name", pol.get("id"))] *)
Definition policy_name (pol : json) : res json :=
  let* id := py_get pol "id" JNull in
  py_get pol "name" id.

(** The policy is kept, is of the platform [so] and has the name [col]: it
    writes into the column [col] of the table of [so]. *)
Definition writes_column (so col pol : json) : bool :=
  match platform pol, policy_name pol with
  | Ok so', Ok pol_name => negb (ignored so') && py_eqb so' so && py_eqb pol_name col
  | _, _ => false
  end.

(** The cell of the setting is the last one written for its row and its
    column: no setting after it in the policy writes the row, no policy after
    it writes the column, and the row is not the one of the host counts. *)
Definition last_written (so pol_name row : json) (spost post : list json) : Prop :=
  forallb (spares row) spost = true /\
  forallb (fun p => negb (writes_column so pol_name p)) post = true /\
  py_eqb host_count_row row = false.

(** The sheet [df] has a row of the label [row] whose cell in a column of
    the label [col] holds [v]. *)
Definition shows (df : frame) (row col : json) (v : string) : Prop :=
  exists r i c,
    In r (cells df) /\
    nth_error r 0 = Some (Some row) /\
    nth_error (columns df) (2 + i) = Some c /\
    py_eqb c col = true /\
    nth_error r (2 + i) = Some (Some (JStr v)).

(** A compound value with its entries in the other order and an entry
    more. *)
Definition reordered : list json :=
  [policy (on "Linux") "Default"
     [setting "Cloud Anti-malware"
        (JDict [("prevention", JStr "moderate"); ("note", JStr "ml");
                ("detection", JStr "aggressive")]);
      setting "Quarantine" (JDict [("enabled", JBool true)])]].

(** The row names of a sheet: the first cell of every row. *)
Definition labels (df : frame) : list json :=
  map (fun r => match r with Some v :: _ => v | _ => JNull end) (cells df).

End exportpp.

(** ** exportioarules.py *)

Module exportioarules.

(** [v[0]] *)
Definition first_item (v : json) : res json :=
  match v with
  | JList (x :: _) => Ok x
  | JList [] => Raise IndexError
  | JStr s =>
      match code_points s with
      | c :: _ => Ok (JStr c)
      | [] => Raise IndexError
      end
  | JDict _ => Raise KeyError
  | _ => Raise TypeError
  end.

(** [next((fv.get("values", [{}])[0].get("value", "") for fv in field_values
          if fv.get("name") == target), "")]:
    the entries are tried in order and the first one of the name decides. *)
Fixpoint first_value (target : string) (field_values : list json) : res json :=
  match field_values with
  | [] => Ok (JStr EmptyString)
  | fv :: rest =>
      let* name := py_get fv "name" JNull in
      if py_eqb name (JStr target) then
        let* values := py_get fv "values" (JList [JDict []]) in
        let* first := first_item values in
        py_get first "value" (JStr EmptyString)
      else first_value target rest
  end.

Definition field_value (target : string) (field_values : json) : res json :=
  let* fvs := py_iter field_values in
  first_value target fvs.

(** Lines 83-98: the row of one rule. *)
Definition rule_row (rule : json) : res (list json) :=
  let* name := py_get rule "name" (JStr EmptyString) in
  let* description := py_get rule "description" (JStr EmptyString) in
  let* pattern_severity := py_get rule "pattern_severity" (JStr EmptyString) in
  let* action_label := py_get rule "action_label" (JStr EmptyString) in
  let* ruletype_name := py_get rule "ruletype_name" (JStr EmptyString) in
  let* field_values := py_get rule "field_values" (JList []) in
  let* image_filename := field_value "ImageFilename" field_values in
  let* command_line := field_value "CommandLine" field_values in
  let* parent_image_filename := field_value "ParentImageFilename" field_values in
  let* parent_command_line := field_value "ParentCommandLine" field_values in
  let* grandparent_image_filename := field_value "GrandparentImageFilename" field_values in
  let* grandparent_command_line := field_value "GrandparentCommandLine" field_values in
  Ok [name; description; pattern_severity; action_label; ruletype_name;
      image_filename; command_line; parent_image_filename; parent_command_line;
      grandparent_image_filename; grandparent_command_line].

Definition add_rule (data : list (list json)) (rule : json) : res (list (list json)) :=
  let* row := rule_row rule in Ok (data ++ [row]).

Definition add_rule_group (data : list (list json)) (rule_group : json)
    : res (list (list json)) :=
  let* rules := py_get rule_group "rules" (JList []) in
  let* rules := py_iter rules in
  for_each add_rule rules data.

Definition rule_columns : list string :=
  ["name"; "description"; "pattern_severity"; "action_label"; "ruletype_name";
   "ImageFilename"; "CommandLine"; "ParentImageFilename"; "ParentCommandLine";
   "GrandparentImageFilename"; "GrandparentCommandLine"].

Definition transform_rules (rule_details : list json) : res frame :=
  let* data := for_each add_rule_group rule_details [] in
  Ok (frame_of_rows rule_columns data).

(** A rule group with one rule whose [ImageFilename] entry has an empty
    [values] list. *)
Definition empty_values_group : json :=
  JDict [("rules", JList
    [JDict [("name", JStr "rule");
            ("field_values", JList
               [JDict [("name", JStr "ImageFilename"); ("values", JList [])]])]])].

(** The same rule without the [values] key. *)
Definition missing_values_group : json :=
  JDict [("rules", JList
    [JDict [("name", JStr "rule");
            ("field_values", JList [JDict [("name", JStr "ImageFilename")]])]])].


(** The first item of [values], when the entry has the key, is an object. *)
Definition entry_ok (fv : json) : bool :=
  match fv with
  | JDict f =>
      match lookup_str "values" f with
      | None => true
      | Some (JList (JDict _ :: _)) => true
      | Some _ => false
      end
  | _ => false
  end.

(** A rule as the API documents it: an object whose [field_values], when
    present, is a list of objects with an object first in their [values]. *)
Definition rule_ok (rule : json) : bool :=
  match rule with
  | JDict r =>
      match lookup_str "field_values" r with
      | None => true
      | Some (JList fvs) => forallb entry_ok fvs
      | Some _ => false
      end
  | _ => false
  end.

(** The rules of a rule group that is an object with a list of rules. *)
Definition rules_of (rule_group : json) : list json :=
  match rule_group with
  | JDict g =>
      match lookup_str "rules" g with
      | Some (JList rules) => rules
      | _ => []
      end
  | _ => []
  end.

Definition group_ok (rule_group : json) : bool :=
  match rule_group with
  | JDict g =>
      match lookup_str "rules" g with
      | None => true
      | Some (JList rules) => forallb rule_ok rules
      | Some _ => false
      end
  | _ => false
  end.

End exportioarules.

(** ** exportiocs.py *)

Module exportiocs.

(** [", ".join(items)] *)
Fixpoint strings (items : list json) : res (list string) :=
  match items with
  | [] => Ok []
  | JStr s :: rest => let* r := strings rest in Ok (s :: r)
  | _ :: _ => Raise TypeError
  end.

(** Line 85: a list of platforms is joined, anything else is kept. *)
Definition platforms_cell (ioc : json) : res json :=
  let* platforms := py_get ioc "platforms" JNull in
  match platforms with
  | JList _ =>
      let* value := py_get ioc "platforms" (JList []) in
      let* items := py_iter value in
      let* names := strings items in
      Ok (JStr (join ", " names))
  | _ => py_get ioc "platforms" (JStr EmptyString)
  end.

(** [ioc.get("type", "Unknown")] *)
Definition ioc_type (ioc : json) : res json := py_get ioc "type" (JStr "Unknown").

(** Lines 82-86: the row of one indicator. *)
Definition ioc_row (ioc : json) : res (list json) :=
  let* value := py_get ioc "value" (JStr EmptyString) in
  let* metadata := py_get ioc "metadata" (JDict []) in
  let* original_filename := py_get metadata "original_filename" (JStr EmptyString) in
  let* action := py_get ioc "action" (JStr EmptyString) in
  let* platforms := platforms_cell ioc in
  Ok [value; original_filename; action; platforms].

(** Lines 79-86: one indicator. *)
Definition add_ioc (per_type : pydict (list (list json))) (ioc : json)
    : res (pydict (list (list json))) :=
  let* t := ioc_type ioc in
  let* _ := hashed t in
  let per_type := if dict_mem t per_type then per_type else dict_set t [] per_type in
  let* row := ioc_row ioc in
  let rows := match dict_get t per_type with Some rows => rows | None => [] end in
  Ok (dict_set t (rows ++ [row]) per_type).

Definition ioc_columns : list string := ["value"; "original_filename"; "action"; "platforms"].

Definition transform_iocs (iocs : list json) : res (pydict frame) :=
  let* per_type := for_each add_ioc iocs [] in
  Ok (fold_left (fun result entry =>
                   dict_set (fst entry) (frame_of_rows ioc_columns (snd entry)) result)
                per_type []).


(** The indicator has the type [k]. *)
Definition type_is (k : json) (ioc : json) : bool :=
  match ioc_type ioc with
  | Ok t => py_eqb t k
  | Raise _ => false
  end.

(** The rows of the indicators of type [k], in the order of the input. *)
Definition rows_of_type (k : json) (iocs : list json) : list (list json) :=
  flat_map (fun ioc =>
              if type_is k ioc
              then match ioc_row ioc with Ok row => [row] | Raise _ => [] end
              else [])
           iocs.

(** The number of rows of a bundle. *)
Definition row_count (result : pydict frame) : nat :=
  length (concat (map (fun entry => cells (snd entry)) result)).

(** Three indicators of two types, one without a type. *)
Definition three_iocs : list json :=
  [JDict [("type", JStr "sha256"); ("value", JStr "abc"); ("action", JStr "detect");
          ("platforms", JList [JStr "windows"; JStr "mac"])];
   JDict [("value", JStr "example.org"); ("action", JStr "no_action")];
   JDict [("type", JStr "sha256"); ("value", JStr "def"); ("metadata", JDict [])]].


Definition total_rows (per_type : pydict (list (list json))) : nat :=
  length (concat (map snd per_type)).

(** What holds of [per_type] after the indicators [done]. *)
Definition grouped (done : list json) (per_type : pydict (list (list json))) : Prop :=
  dict_keys (keys per_type) /\
  (forall k, hashable k = true ->
     dict_get k per_type =
     if existsb (type_is k) done then Some (rows_of_type k done) else None) /\
  (forall ioc, In ioc done ->
     exists t, ioc_type ioc = Ok t /\ hashable t = true) /\
  total_rows per_type = length done.

Definition is_str (v : json) : bool :=
  match v with JStr _ => true | _ => false end.

(** An indicator as the API documents it: an object whose type, when it has
    one, can be hashed, whose metadata, when present, is an object, and
    whose platforms, when they are a list, are strings. *)
Definition well_formed (ioc : json) : bool :=
  match ioc with
  | JDict d =>
      match lookup_str "type" d with Some t => hashable t | None => true end
      && match lookup_str "metadata" d with Some (JDict _) | None => true | Some _ => false end
      && match lookup_str "platforms" d with Some (JList l) => forallb is_str l | _ => true end
  | _ => false
  end.


(** *** [fetch_iocs] *)

Definition limit : nat := 2000.

Definition endpoint (base_url : string) : string := base_url +:+ "/iocs/combined/indicator/v1".

Definition iocs_line (offset : nat) (resp : response) : string :=
  "Resposta da API (offset " +:+ str_of_Z (Z.of_nat offset) +:+ "): " +:+ text resp.

Definition iocs_failure (resp : response) : string :=
  "Falha ao buscar IOCs: " +:+ str_of_Z (status_code resp) +:+ " - " +:+ text resp.

(** Lines 44-67. *)
Definition fetch_iocs (get : upstream) (token base_url : string) (fuel : nat)
    : option (res (list json) * list event) :=
  short_pages fuel get (endpoint base_url) (bearer token) limit iocs_line iocs_failure 0 [] [].

End exportiocs.

(** ** exportrp.py *)

Module exportrp.

Section SetOrder.

(** The order in which [for motor in motors] and [list(motors)] go through
  the [set] that was filled with the keys [ks], in this order. Python
  leaves it to the hash table; the hashes of strings change from one
  interpreter process to the next. *)
Variable set_order : list json -> list json.

(** Lines 78-80: [setting.get("value", {}).get("enabled", False)], looked
  into once more when it is itself a dictionary. *)
Definition enabled_flag (setting : json) : res json :=
let* value := py_get setting "value" (JDict []) in
let* enabled := py_get value "enabled" (JBool false) in
match enabled with
| JDict _ => py_get enabled "enabled" (JBool false)
| _ => Ok enabled
end.

Definition add_setting (config_values : pydict string) (setting : json) : res (pydict string) :=
let* motor_name := py_get setting "name" (JStr EmptyString) in
let* enabled := enabled_flag setting in
let* _ := hashed motor_name in
Ok (dict_set motor_name (if truthy enabled then "Enabled" else "Disabled") config_values).

Definition add_group (config_values : pydict string) (setting_group : json)
  : res (pydict string) :=
let* settings := py_get setting_group "settings" (JList []) in
let* settings := py_iter settings in
for_each add_setting settings config_values.

Definition ignored (so : json) : bool :=
py_eqb so (JStr "Mobile") || py_eqb so (JStr "Meta").

(** Lines 64-82: one policy. *)
Definition add_policy (per_so : pydict (pydict (pydict string))) (pol : json)
  : res (pydict (pydict (pydict string))) :=
let* so := py_get pol "platform_name" (JStr "Unknown") in
if ignored so then Ok per_so
else
  let* _ := hashed so in
  let per_so := if dict_mem so per_so then per_so else dict_set so [] per_so in
  let* policy_name := py_get pol "name" (JStr "Unnamed") in
  let* settings := py_get pol "settings" (JList []) in
  let* groups := py_iter settings in
  let* config_values := for_each add_group groups [] in
  let* _ := hashed policy_name in
  let configs := match dict_get so per_so with Some c => c | None => [] end in
  Ok (dict_set so (dict_set policy_name config_values configs) per_so).

(** Lines 87-89: the keys put into the set, in the order of the updates. *)
Definition inserted (policy_configs : pydict (pydict string)) : list json :=
concat (map (fun pc => keys (snd pc)) policy_configs).

(** Lines 87-91: the frame of one operating system; its rows follow the
  iteration of the set. *)
Definition frame_of (policy_configs : pydict (pydict string)) : frame :=
let motors := set_order (inserted policy_configs) in
{| index := motors;
   columns := keys policy_configs;
   cells :=
     map (fun motor =>
            map (fun pc => Some (JStr (match dict_get motor (snd pc) with
                                       | Some v => v
                                       | None => EmptyString
                                       end)))
                policy_configs)
         motors |}.

Definition transform_policies (policies : list json) : res (pydict frame) :=
let* per_so := for_each add_policy policies [] in
Ok (fold_left (fun per_os entry => dict_set (fst entry) (frame_of (snd entry)) per_os)
              per_so []).

End SetOrder.

(** Two interpreters: one whose hash table happens to yield the members of
    the set in the order of insertion, and one that yields them in the
    opposite order. *)
Definition first_seen : list json -> list json := distinct [].
Definition last_seen (ks : list json) : list json := rev (distinct [] ks).

Definition realtime : json := JStr "RealTimeFunctionality".
Definition scripts : json := JStr "CustomScripts".

(** One Windows policy with two settings. *)
Definition two_settings : list json :=
  [JDict [("platform_name", JStr "Windows"); ("name", JStr "Default");
          ("settings", JList [JDict [("settings", JList
             [JDict [("name", JStr "RealTimeFunctionality");
                     ("value", JDict [("enabled", JBool true)])];
              JDict [("name", JStr "CustomScripts");
                     ("value", JDict [("enabled", JBool false)])]])]])]].


(** The values of the tables of [per_so] are "Enabled" and "Disabled". *)
Definition flags_only (per_so : pydict (pydict (pydict string))) : Prop :=
  forall so configs policy_name config_values motor v,
    In (so, configs) per_so -> In (policy_name, config_values) configs ->
    In (motor, v) config_values ->
    v = "Enabled" \/ v = "Disabled".

(** The rows of a sheet: each label with its cells. *)
Definition rows (df : frame) : list (json * list (option json)) :=
  combine (index df) (cells df).

End exportrp.

(** ** exportsup.py *)

Module exportsup.

(** Lines 72-79 on a string: the build reduced to N, N-1 or N-2. *)
Definition normalize (build : string) : string :=
if contains "n" (lower build) then
  if contains "n-2" (lower build) then "N-2"
  else if contains "n-1" (lower build) then "N-1"
  else "N"
else build.

(** Lines 72-79: an empty or missing build is left alone; [lower] is a
  method of strings only. *)
Definition normalize_build (build : json) : res json :=
if truthy build then
  match build with
  | JStr b => Ok (JStr (normalize b))
  | _ => Raise AttributeError
  end
else Ok build.

Definition ignored (so : json) : bool :=
py_eqb so (JStr "Mobile") || py_eqb so (JStr "Meta").

(** Lines 80-82. *)
Definition uninstall_protection_of (pol : json) : res json :=
let* settings := py_get pol "settings" (JDict []) in
let* top := py_get pol "uninstall_protection" (JStr EmptyString) in
let* uninstall_protection := py_get settings "uninstall_protection" top in
match uninstall_protection with
| JBool b => Ok (JStr (if b then "Enabled" else "Disabled"))
| v => Ok v
end.

(** Lines 64-85: one policy. *)
Definition add_policy (per_os : pydict (list (list json))) (pol : json)
  : res (pydict (list (list json))) :=
let* so := py_get pol "platform_name" (JStr "Unknown") in
if ignored so then Ok per_os
else
  let* pol_name := py_get pol "name" (JStr "Unnamed") in
  let* settings := py_get pol "settings" (JDict []) in
  let* build := py_get settings "build" (JStr EmptyString) in
  let* build := normalize_build build in
  let* uninstall_protection := uninstall_protection_of pol in
  let* _ := hashed so in
  let per_os := if dict_mem so per_os then per_os else dict_set so [] per_os in
  let rows := match dict_get so per_os with Some rows => rows | None => [] end in
  Ok (dict_set so (rows ++ [[pol_name; build; uninstall_protection]]) per_os).

Definition policy_columns : list string := ["name"; "build"; "uninstall_protection"].

Definition transform_policies (policies : list json) : res (pydict frame) :=
let* per_os := for_each add_policy policies [] in
Ok (fold_left (fun result entry =>
                 dict_set (fst entry) (frame_of_rows policy_columns (snd entry)) result)
              per_os []).

(** A string holds [t] somewhere when letter case is set aside. *)
Definition holds (t s : string) : Prop :=
exists pre mid post, s = pre +:+ mid +:+ post /\ lower mid = t.


(** [pol.get("platform_name", "Unknown")] *)
Definition platform (pol : json) : res json := py_get pol "platform_name" (JStr "Unknown").

(** The policies that are not skipped. *)
Definition kept (policies : list json) : list json :=
  List.filter (fun pol => match platform pol with
                          | Ok so => negb (ignored so)
                          | Raise _ => false
                          end) policies.

(** A row of three cells whose last holds no boolean. *)
Definition policy_row (row : list json) : Prop :=
  exists name build uninstall_protection,
    row = [name; build; uninstall_protection] /\
    forall b, uninstall_protection <> JBool b.

(** What holds of [per_os] after the policies [done]. *)
Definition collected (done : list json) (per_os : pydict (list (list json))) : Prop :=
  dict_keys (keys per_os) /\
  exportiocs.total_rows per_os = length (kept done) /\
  (forall k, In k (keys per_os) -> ignored k = false) /\
  (forall k rows row, In (k, rows) per_os -> In row rows -> policy_row row).

(** Three policies, one of them for Mobile. *)
Definition three_policies : list json :=
  [JDict [("platform_name", JStr "Windows"); ("name", JStr "Default");
          ("settings", JDict [("build", JStr "n-1|tagged|7"); ("uninstall_protection", JBool true)])];
   JDict [("platform_name", JStr "Mobile"); ("name", JStr "Phones")];
   JDict [("platform_name", JStr "Windows"); ("name", JStr "Servers");
          ("settings", JDict [("build", JStr "18110")]); ("uninstall_protection", JStr "ENABLED")]].

End exportsup.

(** ** Fields of a record *)

(** What [v.get(k, default)] gives for the parsed JSON object [JDict d]. *)
Definition field (d : list (string * json)) (k : string) (default : json) : json :=
  match lookup_str k d with
  | Some x => x
  | None => default
  end.

(** The characters that [repr] leaves as they are inside single quotes:
    printable, and neither a quote nor the backslash. *)
Definition plain_char (c : ascii) : bool :=
  let n := nat_of_ascii c in
  (32 <=? n)%nat && (n <? 127)%nat
  && negb (Ascii.eqb c squote) && negb (Ascii.eqb c dquote) && negb (Ascii.eqb c backslash).

Fixpoint plain_text (s : string) : bool :=
  match s with
  | EmptyString => true
  | String c s' => plain_char c && plain_text s'
  end.

(** ** Authentication *)

(** [get_bearer_token] as [exporthostgroups.py] has it (lines 25-40); the
    scripts for the exclusions, the IOA rules, the indicators and the
    response, sensor update and USB policies repeat it word for word. *)
Module authentication.

(** The variables read from [.env] when the script is loaded; [None] is a
    variable that is not set. [FALCON_BASE_URL] has a default. *)
Record env : Type := {
  FALCON_CLIENT_ID : option string;
  FALCON_CLIENT_SECRET : option string;
  FALCON_BASE_URL : string;
  CLIENT_NAME : option string
}.

(** [requests.post(url, data=data, headers=headers)] *)
Definition authority : Type :=
  string -> list (string * string) -> list (string * string) -> response.

(** What a script does, in order: the request for the token, the requests
    and the printed lines of [event], and the line
    ["Erro ao executar o script: " + str(e)] that [main] prints for the
    exception [e] it catches. *)
Inductive step : Type :=
  | Post (url : string) (data headers : list (string * string))
  | Did (e : event)
  | Caught (e : exn).

(** The truth value of a variable: set and not empty. *)
Definition given (v : option string) : bool :=
  match v with
  | Some s => negb (String.eqb s EmptyString)
  | None => false
  end.

Definition value_of (v : option string) : string :=
  match v with
  | Some s => s
  | None => EmptyString
  end.

(** [str(d)] for a dictionary of strings. *)
Definition repr_dict (d : list (string * string)) : string :=
  py_repr (JDict (map (fun kv => (fst kv, JStr (snd kv))) d)).

Definition credentials (client_id client_secret : string) : list (string * string) :=
  [("client_id", client_id); ("client_secret", client_secret);
   ("grant_type", "client_credentials")].

Definition form_headers : list (string * string) :=
  [("Content-Type", "application/x-www-form-urlencoded")].

Definition request_line (auth_url : string) (data headers : list (string * string)) : string :=
  "Requisição de autenticação - URL: " +:+ auth_url +:+ ", Data: " +:+ repr_dict data
  +:+ ", Headers: " +:+ repr_dict headers.

(** [resp.json()["access_token"]] *)
Definition access_token (body : json) : res json :=
  match body with
  | JDict d =>
      match lookup_str "access_token" d with
      | Some t => Ok t
      | None => Raise KeyError
      end
  | _ => Raise TypeError
  end.

Definition get_bearer_token (e : env) (post : authority)
    : res (json * string * string) * list step :=
  if negb (given (FALCON_CLIENT_ID e) && given (FALCON_CLIENT_SECRET e) && given (CLIENT_NAME e))
  then
    (Raise (RuntimeError
       "FALCON_CLIENT_ID, FALCON_CLIENT_SECRET ou CLIENT_NAME não encontrados no .env"), [])
  else
    let auth_url := FALCON_BASE_URL e +:+ "/oauth2/token" in
    let data := credentials (value_of (FALCON_CLIENT_ID e)) (value_of (FALCON_CLIENT_SECRET e)) in
    let resp := post auth_url data form_headers in
    let steps :=
      [Did (Print (request_line auth_url data form_headers));
       Post auth_url data form_headers;
       Did (Print ("Resposta bruta da autenticação: " +:+ text resp))] in
    if negb (status_code resp =? 201)%Z then
      (Raise (RuntimeError ("Falha na autenticação: " +:+ str_of_Z (status_code resp)
                            +:+ " - " +:+ text resp)), steps)
    else
      match json_body resp with
      | None =>
          (Raise (RuntimeError ("Resposta de autenticação inválida: " +:+ text resp)), steps)
      | Some body =>
          (let* token := access_token body in
           Ok (token, FALCON_BASE_URL e, value_of (CLIENT_NAME e)), steps)
      end.

(** An authority that grants the token [token] to every request. *)
Definition granting (token : string) : authority :=
  fun _ _ _ =>
    {| status_code := 201;
       text := "{...}";
       json_body := Some (JDict [("access_token", JStr token); ("expires_in", JInt 1799)]) |}.

Definition acme : env :=
  {| FALCON_CLIENT_ID := Some "0123456789abcdef";
     FALCON_CLIENT_SECRET := Some "s3cr3t-Value";
     FALCON_BASE_URL := "https://api.crowdstrike.com";
     CLIENT_NAME := Some "ACME Corp" |}.

End authentication.

(** ** exporthostgroups.py: the total, the table, the workbook and [main] *)

Module exporthostgroups_main.
Import authentication.

Definition total_endpoint (base_url : string) : string :=
  base_url +:+ "/devices/combined/devices/v1".

Definition total_params : list (string * json) := [("limit", JInt 1)].

(** Lines 69-81. *)
Definition fetch_total_hosts (get : upstream) (token base_url : string)
    : res json * list event :=
  let url := total_endpoint base_url in
  let resp := get url (bearer token) total_params in
  let trace := [Get url total_params; Print ("Resposta da API (total hosts): " +:+ text resp)] in
  if negb (status_code resp =? 200)%Z then
    (Raise (RuntimeError ("Falha ao buscar total de hosts: " +:+ str_of_Z (status_code resp)
                          +:+ " - " +:+ text resp)), trace)
  else
    match json_body resp with
    | None => (Raise (RuntimeError ("Resposta da API inválida: " +:+ text resp)), trace)
    | Some data =>
        (let* meta := py_get data "meta" (JDict []) in
         let* pagination := py_get meta "pagination" (JDict []) in
         py_get pagination "total" (JInt 0), trace)
    end.

(** Lines 85-88: the row of one host group. *)
Definition group_row (group : json) : res (list json) :=
  let* name := py_get group "name" (JStr "Unnamed") in
  let* assignment_rule := py_get group "assignment_rule" (JStr EmptyString) in
  Ok [name; assignment_rule].

Definition add_group (data : list (list json)) (group : json) : res (list (list json)) :=
  let* row := group_row group in Ok (data ++ [row]).

Definition total_label : string := "Total Geral de Hosts Instalados".

Definition group_columns : list string := ["Host Group"; "Assignment Rule"].

(** Lines 83-94. *)
Definition transform_host_groups (host_groups : list json) (total_hosts : json) : res frame :=
  let* data := for_each add_group host_groups [] in
  Ok (frame_of_rows group_columns (data ++ [[JStr total_label; total_hosts]])).

(** The place of the first column of the label. *)
Fixpoint position (label : json) (cols : list json) : option nat :=
  match cols with
  | [] => None
  | c :: cols' => if py_eqb c label then Some 0 else option_map S (position label cols')
  end.

(** [df.iloc[-1][label]]: the cell of the last row in the column [label]. A
    missing cell is NaN, which is no value of [json]. *)
Definition last_row_cell (df : frame) (label : string) : res json :=
  match rev (cells df) with
  | [] => Raise IndexError
  | row :: _ =>
      match position (JStr label) (columns df) with
      | None => Raise KeyError
      | Some j =>
          match nth_error row j with
          | Some (Some v) => Ok v
          | _ => Raise Unmodelled
          end
      end
  end.

(** [len(df) - 1] *)
Definition groups_in (df : frame) : Z := Z.of_nat (length (cells df)) - 1.

Definition meta_frame (now : string) (df : frame) (total_hosts : json) : frame :=
  frame_of_rows ["generated_at_utc"; "total_host_groups"; "total_hosts_instalados"]
    [[JStr now; JInt (groups_in df); total_hosts]].

Definition exported_line (outfile : string) (df : frame) : string :=
  "✅ Exportado para " +:+ outfile +:+ " com " +:+ str_of_Z (groups_in df)
  +:+ " host groups e total de hosts".

(** Lines 96-110. [now] is the reading of the clock, [f] the failure of the
    run and [fs] the file system before the call; the last component is what
    the call prints. *)
Definition save_to_excel (now : string) (f : exportpp.fault) (df : frame) (outfile : string)
    (fs : gmap string exportpp.file) : res unit * gmap string exportpp.file * list event :=
  let outfile := exportpp.with_suffix outfile in
  match last_row_cell df "Assignment Rule" with
  | Raise e => (Raise e, fs, [])
  | Ok total_hosts =>
      let meta := meta_frame now df total_hosts in
      match exportpp.open_writer f outfile fs with
      | (Raise e, fs') => (Raise e, fs', [])
      | (Ok _, fs') =>
          let '(body, book, begun) :=
            match exportpp.to_excel f 0 "HostGroups" df with
            | (Ok _, _) =>
                match exportpp.to_excel f 1 "Meta" meta with
                | (Ok _, _) => (Ok tt, [("HostGroups", df); ("Meta", meta)], false)
                | (Raise e, begun) => (Raise e, [("HostGroups", df)], begun)
                end
            | (Raise e, begun) => (Raise e, [], begun)
            end in
          match exportpp.close_writer f body outfile book begun fs' with
          | (Ok _, fs'') => (Ok tt, fs'', [Print (exported_line outfile df)])
          | (Raise e, fs'') => (Raise e, fs'', [])
          end
      end
  end.

Definition outfile_of (client_name : string) : string :=
  "crowdstrike_hostgroups_" +:+ replace " " "_" client_name +:+ ".xlsx".

(** Lines 112-124. [None] when the rounds allowed by [fuel] are used up
    before [fetch_host_groups] ends. *)
Definition main (e : env) (post : authority) (get : upstream) (now : string)
    (f : exportpp.fault) (fuel : nat) (fs : gmap string exportpp.file)
    : option (list step * gmap string exportpp.file) :=
  match get_bearer_token e post with
  | (Raise x, steps) => Some (steps ++ [Caught x], fs)
  | (Ok (token, base_url, client_name), steps) =>
      let outfile := outfile_of client_name in
      match exporthostgroups.fetch_host_groups get (py_str token) base_url fuel with
      | None => None
      | Some (Raise x, trace) => Some (steps ++ map Did trace ++ [Caught x], fs)
      | Some (Ok host_groups, trace) =>
          let steps := steps ++ map Did trace in
          match fetch_total_hosts get (py_str token) base_url with
          | (Raise x, trace) => Some (steps ++ map Did trace ++ [Caught x], fs)
          | (Ok total_hosts, trace) =>
              let steps := steps ++ map Did trace in
              match transform_host_groups host_groups total_hosts with
              | Raise x => Some (steps ++ [Caught x], fs)
              | Ok df =>
                  match host_groups with
                  | [] => Some (steps ++ [Did (Print "Nenhum host group encontrado.")], fs)
                  | _ :: _ =>
                      match save_to_excel now f df outfile fs with
                      | (Ok _, fs', printed) => Some (steps ++ map Did printed, fs')
                      | (Raise x, fs', printed) =>
                          Some (steps ++ map Did printed ++ [Caught x], fs')
                      end
                  end
              end
          end
      end
  end.

(** An upstream that holds the host groups [groups] and answers a request
    without an offset with [hosts] as the total. *)
Definition falcon (groups : list json) (hosts : Z) : upstream :=
  fun url headers params =>
    match lookup_str "offset" params with
    | Some _ => exporthostgroups.paged_upstream groups url headers params
    | None =>
        {| status_code := 200;
           text := "{...}";
           json_body := Some (JDict
             [("meta", JDict [("pagination", JDict [("total", JInt hosts)])]);
              ("resources", JList [])]) |}
    end.

Definition two_groups : list (list (string * json)) :=
  [[("name", JStr "Servers"); ("assignment_rule", JStr "platform_name:'Windows'")];
   [("assignment_rule", JStr EmptyString)]].

(** The row of a host group that is the JSON object [JDict d]. *)
Definition row_of (d : list (string * json)) : list json :=
  [field d "name" (JStr "Unnamed"); field d "assignment_rule" (JStr EmptyString)].

End exporthostgroups_main.

(** ** exportexclusions.py: the tables *)

Module exportexclusions_tables.

(** Lines 90-95: the row of one certificate exclusion. *)
Definition certificate_row (exclusion : json) : res (list json) :=
  let* issuer := py_get exclusion "issuer" (JStr EmptyString) in
  let* serial := py_get exclusion "serial" (JStr EmptyString) in
  let* created_by := py_get exclusion "created_by" (JStr EmptyString) in
  let* created_timestamp := py_get exclusion "created_on" (JStr EmptyString) in
  Ok [issuer; serial; created_by; created_timestamp].

(** Lines 88-97. *)
Definition transform_certificate_exclusions (details : list json) : res frame :=
  let* data :=
    for_each (fun data exclusion => let* row := certificate_row exclusion in Ok (data ++ [row]))
      details [] in
  Ok (frame_of_rows ["issuer"; "serial"; "created_by"; "created_timestamp"] data).

(** Lines 101-105: the row of one ML or sensor visibility exclusion. *)
Definition exclusion_row (exclusion : json) : res (list json) :=
  let* value := py_get exclusion "value" (JStr EmptyString) in
  let* created_by := py_get exclusion "created_by" (JStr EmptyString) in
  let* created_timestamp := py_get exclusion "created_on" (JStr EmptyString) in
  Ok [value; created_by; created_timestamp].

(** Lines 99-107. *)
Definition transform_exclusions (details : list json) (type_name : string) : res frame :=
  let* data :=
    for_each (fun data exclusion => let* row := exclusion_row exclusion in Ok (data ++ [row]))
      details [] in
  Ok (frame_of_rows ["value"; "created_by"; "created_timestamp"] data).

(** Lines 111-117: the row of one IOA exclusion. *)
Definition ioa_row (exclusion : json) : res (list json) :=
  let* name := py_get exclusion "name" (JStr EmptyString) in
  let* ifn_regex := py_get exclusion "ifn_regex" (JStr EmptyString) in
  let* cl_regex := py_get exclusion "cl_regex" (JStr EmptyString) in
  let* created_by := py_get exclusion "created_by" (JStr EmptyString) in
  let* created_timestamp := py_get exclusion "created_on" (JStr EmptyString) in
  Ok [name; ifn_regex; cl_regex; created_by; created_timestamp].

(** Lines 109-119. *)
Definition transform_ioa_exclusions (details : list json) : res frame :=
  let* data :=
    for_each (fun data exclusion => let* row := ioa_row exclusion in Ok (data ++ [row]))
      details [] in
  Ok (frame_of_rows ["name"; "ifn_regex"; "cl_regex"; "created_by"; "created_timestamp"] data).

(** The fields [names] of an object, the empty string for a missing one. *)
Definition fields (names : list string) (d : list (string * json)) : list json :=
  map (fun k => field d k (JStr EmptyString)) names.

End exportexclusions_tables.

(** ** exportpp.py: the policies and the hosts counted for them *)

Module exportpp_fetch.

Definition policies_endpoint (base_url : string) : string :=
  base_url +:+ "/policy/combined/prevention/v1".

Definition members_endpoint (base_url : string) : string :=
  base_url +:+ "/policy/combined/prevention-members/v1".

Definition params : list (string * json) := [("limit", JInt 5000)].

(** Lines 59-60:
    [host.get("device_policies", {}).get("prevention", {}).get("policy_id")] *)
Definition policy_id_of (host : json) : res json :=
  let* device_policies := py_get host "device_policies" (JDict []) in
  let* prevention_policy := py_get device_policies "prevention" (JDict []) in
  py_get prevention_policy "policy_id" JNull.

(** Lines 63-67: [for policy in policies], up to the [break] at the first
    policy of the identifier. *)
Fixpoint count_for (policies : list json) (policy_id : json) (host_counts : pydict Z)
    : res (pydict Z) :=
  match policies with
  | [] => Ok host_counts
  | policy :: rest =>
      let* id := py_get policy "id" JNull in
      if py_eqb id policy_id then
        let* pol_name := py_get policy "name" policy_id in
        let* _ := hashed pol_name in
        let n := match dict_get pol_name host_counts with Some n => n | None => 0%Z end in
        Ok (dict_set pol_name (n + 1)%Z host_counts)
      else count_for rest policy_id host_counts
  end.

(** Lines 58-67: one host. *)
Definition count_host (policies : json) (host_counts : pydict Z) (host : json)
    : res (pydict Z) :=
  let* policy_id := policy_id_of host in
  if truthy policy_id then
    let* policies := py_iter policies in
    count_for policies policy_id host_counts
  else Ok host_counts.

(** Lines 41-71. The body of a response that does not parse makes
    [resp.json()] raise [ValueError], which is not caught here. *)
Definition fetch_policies (get : upstream) (token base_url : string)
    : res (json * pydict Z) * list event :=
  let headers := bearer token in
  let url := policies_endpoint base_url in
  let resp := get url headers params in
  let trace := [Get url params] in
  if negb (status_code resp =? 200)%Z then
    (Raise (RuntimeError ("Falha ao buscar políticas: " +:+ str_of_Z (status_code resp)
                          +:+ " " +:+ text resp)), trace)
  else
    match json_body resp with
    | None => (Raise ValueError, trace)
    | Some data =>
        match py_get data "resources" (JList []) with
        | Raise e => (Raise e, trace)
        | Ok policies =>
            let url := members_endpoint base_url in
            let resp := get url headers params in
            let trace := trace ++ [Get url params] in
            if negb (status_code resp =? 200)%Z then
              (Ok (policies, []),
               trace ++ [Print ("Aviso: Falha ao buscar hosts: " +:+ str_of_Z (status_code resp)
                                +:+ " " +:+ text resp)])
            else
              match json_body resp with
              | None => (Raise ValueError, trace)
              | Some data =>
                  match
                    (let* hosts := py_get data "resources" (JList []) in
                     let* hosts := py_iter hosts in
                     for_each (count_host policies) hosts [])
                  with
                  | Ok host_counts => (Ok (policies, host_counts), trace)
                  | Raise e => (Raise e, trace)
                  end
              end
        end
    end.

(** The hosts that the second request returns; none when it is refused. *)
Definition members (get : upstream) (token base_url : string) : list json :=
  let resp := get (members_endpoint base_url) (bearer token) params in
  if negb (status_code resp =? 200)%Z then []
  else
    match json_body resp with
    | None => []
    | Some data =>
        match (let* hosts := py_get data "resources" (JList []) in py_iter hosts) with
        | Ok hosts => hosts
        | Raise _ => []
        end
    end.

(** The policy has the identifier [policy_id]. *)
Definition has_id (policy_id policy : json) : bool :=
  match py_get policy "id" JNull with
  | Ok id => py_eqb id policy_id
  | Raise _ => false
  end.

(** The host names a policy of the list. *)
Definition counted (policies : list json) (host : json) : bool :=
  match policy_id_of host with
  | Ok policy_id => truthy policy_id && existsb (has_id policy_id) policies
  | Raise _ => false
  end.

(** The hosts counted in all. *)
Definition sum_counts (host_counts : pydict Z) : Z :=
  fold_right Z.add 0%Z (map snd host_counts).

(** Two policies and three hosts, one of them without a policy of the
    list. *)
Definition two_policies : list json :=
  [JDict [("id", JStr "p1"); ("name", JStr "Default")];
   JDict [("id", JStr "p2"); ("name", JStr "Servers")]].

Definition host_of (policy_id : string) : json :=
  JDict [("device_policies", JDict [("prevention", JDict [("policy_id", JStr policy_id)])])].

Definition prevention_upstream : upstream :=
  fun url _ _ =>
    {| status_code := 200;
       text := "{...}";
       json_body := Some (JDict
         [("resources",
           JList (if endswith "/policy/combined/prevention-members/v1" url
                  then [host_of "p2"; host_of "p9"; host_of "p2"]
                  else two_policies))]) |}.


(** Every count of the table is at least one. *)
Definition positive (host_counts : pydict Z) : Prop :=
  forall name n, In (name, n) host_counts -> (1 <= n)%Z.


(** The name under which a host of the identifier [policy_id] is counted:
    that of the first policy of the identifier, if there is one. *)
Fixpoint credited (policies : list json) (policy_id : json) : option json :=
  match policies with
  | [] => None
  | policy :: rest =>
      if has_id policy_id policy then
        match py_get policy "name" policy_id with
        | Ok pol_name => Some pol_name
        | Raise _ => None
        end
      else credited rest policy_id
  end.

(** The host is counted under the name [pol_name]. *)
Definition counted_as (policies : list json) (pol_name host : json) : bool :=
  match policy_id_of host with
  | Ok policy_id =>
      truthy policy_id &&
      match credited policies policy_id with
      | Some n => py_eqb n pol_name
      | None => false
      end
  | Raise _ => false
  end.

(** [host_counts.get(pol_name, 0)] *)
Definition count_of (pol_name : json) (host_counts : pydict Z) : Z :=
  match dict_get pol_name host_counts with
  | Some n => n
  | None => 0%Z
  end.

End exportpp_fetch.

(** ** exportusb.py *)

Module exportusb.

Definition ignored (so : json) : bool :=
  py_eqb so (JStr "Mobile") || py_eqb so (JStr "Meta").

(** [str(v) if v else ""] *)
Definition shown (v : json) : json :=
  JStr (if truthy v then py_str v else EmptyString).

(** Lines 84-88: one class of devices. *)
Definition add_class (config_values : pydict json) (cls : json) : res (pydict json) :=
  let* motor_id := py_get cls "id" (JStr EmptyString) in
  let* action := py_get cls "action" (JStr EmptyString) in
  if truthy motor_id && truthy action then
    let* _ := hashed motor_id in
    Ok (dict_set motor_id action config_values)
  else Ok config_values.

(** Lines 71-81: the two rows that every policy has. *)
Definition fixed_rows (settings : json) : res (pydict json) :=
  let* enforcement_mode := py_get settings "enforcement_mode" (JStr EmptyString) in
  let config_values := dict_set (JStr "enforcement_mode") (shown enforcement_mode) [] in
  let* end_user_notification := py_get settings "end_user_notification" (JStr EmptyString) in
  Ok (dict_set (JStr "end_user_notification") (shown end_user_notification) config_values).

(** Lines 65-90: one policy. *)
Definition add_policy (per_so : pydict (pydict (pydict json))) (pol : json)
    : res (pydict (pydict (pydict json))) :=
  let* so := py_get pol "platform_name" (JStr "Unknown") in
  if ignored so then Ok per_so
  else
    let* _ := hashed so in
    let per_so := if dict_mem so per_so then per_so else dict_set so [] per_so in
    let* policy_name := py_get pol "name" (JStr "Unnamed") in
    let* settings := py_get pol "settings" (JDict []) in
    let* config_values := fixed_rows settings in
    let* classes := py_get settings "classes" (JList []) in
    let* classes := py_iter classes in
    let* config_values := for_each add_class classes config_values in
    let* _ := hashed policy_name in
    let configs := match dict_get so per_so with Some c => c | None => [] end in
    Ok (dict_set so (dict_set policy_name config_values configs) per_so).

(** Line 96: [configs.extend([k for k in config_dict.keys() if k not in configs])] *)
Definition extend (configs : list json) (config_dict : pydict json) : list json :=
  configs ++ List.filter (fun k => negb (existsb (fun c => py_eqb c k) configs)) (keys config_dict).

(** Lines 94-96: the rows of one operating system. *)
Definition rows_of (policy_configs : pydict (pydict json)) : list json :=
  fold_left extend (map snd policy_configs)
    [JStr "enforcement_mode"; JStr "end_user_notification"].

(** Lines 94-98: the frame of one operating system. *)
Definition frame_of (policy_configs : pydict (pydict json)) : frame :=
  let configs := rows_of policy_configs in
  {| index := configs;
     columns := keys policy_configs;
     cells :=
       map (fun config =>
              map (fun pc => Some (match dict_get config (snd pc) with
                                   | Some v => v
                                   | None => JStr EmptyString
                                   end))
                  policy_configs)
           configs |}.

Definition transform_policies (policies : list json) : res (pydict frame) :=
  let* per_so := for_each add_policy policies [] in
  Ok (fold_left (fun per_os entry => dict_set (fst entry) (frame_of (snd entry)) per_os)
                per_so []).

(** What holds of the tables of [per_so]: their keys are those of a
    dictionary. *)
Definition tables_ok (per_so : pydict (pydict (pydict json))) : Prop :=
  Forall (fun entry => Forall (fun pc => dict_keys (keys (snd pc))) (snd entry)) per_so.

(** Two Windows policies; the second has a class that the first has not. *)
Definition two_usb_policies : list json :=
  [JDict [("platform_name", JStr "Windows"); ("name", JStr "Default");
          ("settings", JDict [("enforcement_mode", JStr "MONITOR_ONLY");
                              ("classes", JList [JDict [("id", JStr "MASS_STORAGE");
                                                        ("action", JStr "BLOCK_ALL")]])])];
   JDict [("platform_name", JStr "Windows"); ("name", JStr "Kiosk");
          ("settings", JDict [("end_user_notification", JStr "SILENT");
                              ("classes", JList [JDict [("id", JStr "PRINTER");
                                                        ("action", JStr "FULL_ACCESS")];
                                                 JDict [("id", JStr "MASS_STORAGE");
                                                        ("action", JStr "BLOCK_ALL")]])])]].

End exportusb.

(** * Properties *)

(** ** Paged fetch of the host groups *)

Module exporthostgroups_facts.
Import exporthostgroups.

Section Paging.

Variable get : upstream.
Variable items : list json.
Hypothesis Hserves : serves get items.
Variables (url : string) (headers : list (string * string)).
Variable P : nat.
Hypothesis HP : 1 <= P.

Let page (off : nat) : list json := firstn P (skipn off items).

Lemma read_page_serves off acc :
  read_page P off acc (get url headers (page_params P off)) =
  if (length items <=? off + P)%nat then Break (acc ++ page off)
  else Continue (acc ++ page off) (off + P).
Proof.
  destruct (Hserves url headers P off) as (Hst & d & m & p & Hb & Hr & Hm & Hp & Ht).
  unfold read_page. rewrite Hst, Hb. simpl. rewrite Hr, Hm. simpl. rewrite Hp. simpl.
  rewrite Ht. simpl. fold (page off).
  assert (Hlen : length (page off) = Nat.min P (length items - off)).
  { unfold page. rewrite length_firstn, length_skipn. reflexivity. }
  rewrite Hlen.
  destruct (Nat.leb_spec (length items) (off + P)) as [H|H].
  - replace (_ <=? _)%Z with true; [reflexivity|]. symmetry. apply Z.leb_le. lia.
  - replace (_ <=? _)%Z with false; [reflexivity|]. symmetry. apply Z.leb_gt. lia.
Qed.

Lemma prefix_page off : firstn off items ++ page off = firstn (off + P) items.
Proof.
  unfold page. rewrite <- (firstn_skipn off (firstn (off + P) items)).
  f_equal.
  - rewrite firstn_firstn. f_equal. lia.
  - rewrite skipn_firstn_comm. f_equal. lia.
Qed.

Lemma fetch_pages_serves k : forall off trace fuel,
  1 <= k -> k <= fuel ->
  length items <= off + k * P ->
  (2 <= k -> off + (k - 1) * P < length items) ->
  exists trace',
    fetch_pages fuel get url headers P off (firstn off items) trace = Some (Ok items, trace') /\
    requests trace' =
      requests trace ++ map (fun i => Get url (page_params P (off + i * P))) (seq 0 k).
Proof.
  induction k as [|k IH]; intros off trace fuel Hk Hfuel Hle Hlt; [lia|].
  destruct fuel as [|fuel]; [lia|].
  cbn [fetch_pages]. rewrite read_page_serves, prefix_page.
  destruct (Nat.leb_spec (length items) (off + P)) as [Hstop|Hgo].
  - assert (k = 0) by (destruct k; [reflexivity | exfalso; nia]). subst k.
    eexists. split.
    + rewrite firstn_all2 by lia. reflexivity.
    + unfold requests. rewrite List.filter_app. simpl. rewrite Nat.add_0_r. reflexivity.
  - assert (1 <= k) by (destruct k; [simpl in Hle; lia | lia]).
    destruct (IH (off + P)
                (trace ++ [Get url (page_params P off);
                           Print ("Resposta da API (host groups, offset "
                                  +:+ str_of_Z (Z.of_nat off) +:+ "): "
                                  +:+ text (get url headers (page_params P off)))])
                fuel) as (trace' & Hrun & Hreq); try nia.
    exists trace'. split; [exact Hrun|].
    rewrite Hreq. unfold requests. rewrite !List.filter_app. simpl.
    rewrite <- app_assoc. simpl. rewrite Nat.add_0_r. do 2 f_equal.
    rewrite <- seq_shift, map_map. apply map_ext. intros i. do 2 f_equal. lia.
Qed.

End Paging.

Lemma pages_cover t p : 1 <= p -> t <= pages t p * p.
Proof.
  intros Hp. unfold pages, ceil_div.
  pose proof (Nat.div_mod_eq (t + p - 1) p) as E.
  pose proof (Nat.mod_upper_bound (t + p - 1) p ltac:(lia)) as B.
  nia.
Qed.

Lemma pages_tight t p : 1 <= p -> 2 <= pages t p -> (pages t p - 1) * p < t.
Proof.
  intros Hp. unfold pages, ceil_div.
  pose proof (Nat.div_mod_eq (t + p - 1) p) as E.
  pose proof (Nat.mod_upper_bound (t + p - 1) p ltac:(lia)) as B.
  intros H2. nia.
Qed.

Lemma paged_upstream_serves items : serves (paged_upstream items) items.
Proof.
  intros url headers lim off. cbn. split; [reflexivity|].
  unfold param_nat. cbn. rewrite !Nat2Z.id.
  do 3 eexists. repeat split; reflexivity.
Qed.

(** C1 (as amended). Against an upstream that holds T items in a fixed order,
    reports T as the total and serves the next P items from every offset, the
    paged fetch with page size P >= 1 ends and returns exactly the T items, in
    the upstream's order, after requesting the offsets 0, P, 2P, ... of
    max(1, ceil(T/P)) pages: ceil(T/P) pages when T >= 1 and one page when
    T = 0. [fetch_host_groups] is the fetch with P = 100. *)
Theorem fetch_host_groups_total_count
    (P : nat) (get : upstream) (items : list json) (token base_url : string) (fuel : nat) :
  1 <= P ->
  serves get items ->
  pages (length items) P <= fuel ->
  (exists trace,
     fetch_host_groups_with P get token base_url fuel = Some (Ok items, trace) /\
     requests trace = page_requests (endpoint base_url) P (pages (length items) P)) /\
  (1 <= length items -> pages (length items) P = ceil_div (length items) P) /\
  fetch_host_groups = fetch_host_groups_with 100.
Proof.
  intros HP Hserves Hfuel. split; [|split].
  - destruct (fetch_pages_serves get items Hserves (endpoint base_url) (bearer token) P HP
                (pages (length items) P) 0 [] fuel) as (trace & Hrun & Hreq).
    + unfold pages. lia.
    + exact Hfuel.
    + pose proof (pages_cover (length items) P HP). lia.
    + intros H2. pose proof (pages_tight (length items) P HP H2). lia.
    + exists trace. split; [exact Hrun|]. rewrite Hreq. reflexivity.
  - intros HT. unfold pages, ceil_div.
    assert (1 <= (length items + P - 1) / P); [|lia].
    apply Nat.div_le_lower_bound; lia.
  - reflexivity.
Qed.

Lemma fetch_host_groups_total_count_witness :
  1 <= 2 /\
  serves (paged_upstream [JStr "a"; JStr "b"; JStr "c"]) [JStr "a"; JStr "b"; JStr "c"] /\
  (exists trace,
     fetch_host_groups_with 2 (paged_upstream [JStr "a"; JStr "b"; JStr "c"])
       "token" "https://api.crowdstrike.com" 2
     = Some (Ok [JStr "a"; JStr "b"; JStr "c"], trace) /\
     requests trace = page_requests (endpoint "https://api.crowdstrike.com") 2 2).
Proof.
  split; [lia|]. split; [apply paged_upstream_serves|].
  apply (fetch_host_groups_total_count 2 (paged_upstream [JStr "a"; JStr "b"; JStr "c"])
           [JStr "a"; JStr "b"; JStr "c"] "token" "https://api.crowdstrike.com" 2).
  - lia.
  - apply paged_upstream_serves.
  - vm_compute. lia.
Defined.

(** C1 as it is stated fails for T = 0: the loop asks for one page before it
    can learn the total, and ceil(0/100) = 0. *)
Lemma fetch_host_groups_empty_upstream_one_request :
  serves (paged_upstream []) [] /\
  ~ (exists fuel trace,
       fetch_host_groups (paged_upstream []) "token" "https://api.crowdstrike.com" fuel
       = Some (Ok [], trace) /\
       length (requests trace) = ceil_div (length (@nil json)) limit).
Proof.
  split; [apply paged_upstream_serves|].
  intros (fuel & trace & Hrun & Hlen).
  destruct fuel as [|fuel]; [discriminate|].
  vm_compute in Hrun. inversion Hrun; subst trace. vm_compute in Hlen. discriminate.
Qed.

(** C10. When the first page answers 200 with a JSON object whose metadata
    gives no total ("meta", "pagination" or "total" is missing), the fetch
    takes the total to be 0, stops after this one request and returns the
    resources of this page, whatever the upstream would serve next. *)
Theorem fetch_host_groups_missing_total
    (get : upstream) (token base_url : string) (d : list (string * json))
    (rs : list json) (fuel : nat) :
  let resp := get (endpoint base_url) (bearer token) (page_params limit 0) in
  status_code resp = 200%Z ->
  json_body resp = Some (JDict d) ->
  lacks_total d = true ->
  py_iter (match lookup_str "resources" d with Some r => r | None => JList [] end) = Ok rs ->
  1 <= fuel ->
  exists trace,
    fetch_host_groups get token base_url fuel = Some (Ok rs, trace) /\
    requests trace = [Get (endpoint base_url) (page_params limit 0)].
Proof.
  intros resp Hst Hbody Hlack Hrs Hfuel.
  destruct fuel as [|fuel]; [lia|].
  unfold fetch_host_groups, fetch_host_groups_with. cbn [fetch_pages].
  fold resp. unfold read_page. rewrite Hst, Hbody.
  cbn [Z.eqb Pos.eqb negb py_get bind]. rewrite Hrs. cbn [bind].
  assert (Hge : forall n, (0 <=? Z.of_nat 0 + Z.of_nat n)%Z = true)
    by (intros n; apply Z.leb_le; lia).
  unfold lacks_total in Hlack.
  destruct (lookup_str "meta" d) as [[| | | | |m]|]; try discriminate; cbn.
  - destruct (lookup_str "pagination" m) as [[| | | | |p]|]; try discriminate; cbn.
    + destruct (lookup_str "total" p); [discriminate|]. cbn.
      rewrite Hge. eexists. split; reflexivity.
    + rewrite Hge. eexists. split; reflexivity.
  - rewrite Hge. eexists. split; reflexivity.
Qed.

Lemma fetch_host_groups_missing_total_witness :
  exists trace,
    fetch_host_groups (untotalled_upstream (map JInt (map Z.of_nat (seq 0 150))))
      "token" "https://api.crowdstrike.com" 1
    = Some (Ok (map JInt (map Z.of_nat (seq 0 100))), trace) /\
    requests trace = [Get (endpoint "https://api.crowdstrike.com") (page_params limit 0)].
Proof.
  apply (fetch_host_groups_missing_total
           (untotalled_upstream (map JInt (map Z.of_nat (seq 0 150))))
           "token" "https://api.crowdstrike.com"
           [("meta", JDict [("pagination", JDict [("offset", JInt 0); ("limit", JInt 100)])]);
            ("resources", JList (map JInt (map Z.of_nat (seq 0 100))))]
           (map JInt (map Z.of_nat (seq 0 100))) 1).
  - reflexivity.
  - reflexivity.
  - reflexivity.
  - reflexivity.
  - lia.
Defined.

End exporthostgroups_facts.


(** ** Hydration of the details, one identifier per request *)

Module exportexclusions_facts.
Import exportexclusions.

Section Hydration.

Variable get : upstream.
Variables (url : string) (headers : list (string * string)) (details_endpoint : string).

Let ask (id_val : json) : response := get url headers (details_params id_val).

Lemma request_no_failure id_val resp :
  List.filter is_failure
    [Get url (details_params id_val); Print (response_line details_endpoint id_val resp)] = [].
Proof. reflexivity. Qed.

Lemma one_resource_served id_val :
  one_resource (ask id_val) -> exists r, resources_of (ask id_val) = [r].
Proof.
  intros (_ & d & r & Hbody & Hres). exists r. unfold resources_of. rewrite Hbody, Hres.
  reflexivity.
Qed.

Lemma served_length ids :
  (forall i, In i ids -> one_resource (ask i)) ->
  length (flat_map (fun i => resources_of (ask i)) ids) = length ids.
Proof.
  induction ids as [|i ids IH]; intros Hall; [reflexivity|].
  cbn [flat_map]. destruct (one_resource_served i (Hall i (or_introl eq_refl))) as [r ->].
  cbn [app length]. rewrite IH; [reflexivity|]. intros j Hj. apply Hall. right. exact Hj.
Qed.

Lemma hydrate_successes pre : forall rest acc trace,
  (forall i, In i pre -> one_resource (ask i)) ->
  exists trace',
    hydrate get url headers details_endpoint (pre ++ rest) acc trace =
    hydrate get url headers details_endpoint rest
      (acc ++ flat_map (fun i => resources_of (ask i)) pre) trace' /\
    failures trace' = failures trace /\
    requests trace' = requests trace ++ map (fun i => Get url (details_params i)) pre.
Proof.
  induction pre as [|i pre IH]; intros rest acc trace Hall.
  - exists trace. cbn [flat_map]. rewrite !app_nil_r. repeat split; reflexivity.
  - pose proof (Hall i (or_introl eq_refl)) as Hone.
    destruct (one_resource_served i Hone) as [r Hserved].
    destruct Hone as (Hst & d & r' & Hbody & Hres).
    assert (r' = r) as ->.
    { unfold resources_of in Hserved. rewrite Hbody, Hres in Hserved. congruence. }
    fold (ask i) in *.
    edestruct (IH rest (acc ++ [r])) as (trace' & Hrun & Hfail & Hreq).
    { intros j Hj. apply Hall. right. exact Hj. }
    exists trace'. split; [|split].
    + cbn [app hydrate flat_map]. fold (ask i). rewrite Hst, Hbody. cbn. rewrite Hres. cbn.
      rewrite Hrun, Hserved. rewrite <- app_assoc. reflexivity.
    + rewrite Hfail. unfold failures. rewrite List.filter_app, request_no_failure.
      apply app_nil_r.
    + rewrite Hreq. unfold requests. rewrite List.filter_app. cbn. rewrite <- app_assoc.
      reflexivity.
Qed.

Lemma hydrate_all ids acc trace :
  (forall i, In i ids -> one_resource (ask i)) ->
  exists trace',
    hydrate get url headers details_endpoint ids acc trace =
    (Ok (acc ++ flat_map (fun i => resources_of (ask i)) ids), trace') /\
    failures trace' = failures trace /\
    requests trace' = requests trace ++ map (fun i => Get url (details_params i)) ids.
Proof.
  intros Hall.
  destruct (hydrate_successes ids [] acc trace Hall) as (trace' & Hrun & H).
  exists trace'. split; [|exact H].
  rewrite app_nil_r in Hrun. exact Hrun.
Qed.

Lemma failure_line_recorded bad resp : is_failure (Print (failure_line bad resp)) = true.
Proof. unfold failure_line. destruct (negb _); reflexivity. Qed.

Lemma hydrate_failure bad rest acc trace :
  failed (ask bad) ->
  hydrate get url headers details_endpoint (bad :: rest) acc trace =
  hydrate get url headers details_endpoint rest acc
    (trace ++ [Get url (details_params bad);
               Print (response_line details_endpoint bad (ask bad))]
           ++ [Print (failure_line bad (ask bad))]).
Proof.
  intros Hfail. cbn [hydrate]. fold (ask bad). unfold failure_line.
  destruct (status_code (ask bad) =? 200)%Z eqn:Hst; cbn [negb].
  - destruct Hfail as [Hne|Hnone]; [apply Z.eqb_eq in Hst; contradiction|].
    rewrite Hnone. rewrite <- app_assoc. reflexivity.
  - rewrite <- app_assoc. reflexivity.
Qed.

End Hydration.

(** C2. When the identifiers are hydrated one per request, the request of
    exactly one identifier fails (status other than 200, or a body that is not
    JSON) and every other request succeeds with one resource, [fetch_details]
    returns the resources that the upstream served for the other identifiers,
    one each and in the order of the identifiers, which are N-1 resources;
    it prints exactly one failure line, the one of the failing identifier, and
    it has asked for every identifier, those after the failing one included,
    in order. *)
Theorem fetch_details_skips_the_failure
    (get : upstream) (token base_url details_endpoint : string)
    (pre post : list json) (bad : json) :
  let url := base_url +:+ details_endpoint in
  let ask := fun i => get url (bearer token) (details_params i) in
  failed (ask bad) ->
  (forall i, In i (pre ++ post) -> one_resource (ask i)) ->
  exists out trace,
    fetch_details get token base_url details_endpoint (pre ++ bad :: post) = (Ok out, trace) /\
    out = flat_map (fun i => resources_of (ask i)) (pre ++ post) /\
    Forall2 (fun i r => resources_of (ask i) = [r]) (pre ++ post) out /\
    length out = length (pre ++ bad :: post) - 1 /\
    failures trace = [Print (failure_line bad (ask bad))] /\
    length (failures trace) = 1 /\
    requests trace = map (fun i => Get url (details_params i)) (pre ++ bad :: post).
Proof.
  intros url ask Hbad Hgood. unfold fetch_details. fold url.
  subst ask. cbv beta in *.
  destruct (hydrate_successes get url (bearer token) details_endpoint pre (bad :: post) [] [])
    as (t1 & Hrun1 & Hfail1 & Hreq1).
  { intros i Hi. apply Hgood. apply in_or_app. left. exact Hi. }
  pose proof (hydrate_failure get url (bearer token) details_endpoint bad post
                ([] ++ flat_map (fun i => resources_of (get url (bearer token) (details_params i)))
                                pre) t1 Hbad) as Hrun2.
  destruct (hydrate_all get url (bearer token) details_endpoint post
              ([] ++ flat_map (fun i => resources_of (get url (bearer token) (details_params i)))
                              pre)
              (t1 ++ [Get url (details_params bad);
                      Print (response_line details_endpoint bad
                               (get url (bearer token) (details_params bad)))]
                  ++ [Print (failure_line bad (get url (bearer token) (details_params bad)))]))
    as (t2 & Hrun3 & Hfail3 & Hreq3).
  { intros i Hi. apply Hgood. apply in_or_app. right. exact Hi. }
  assert (Hfailures : failures t2 =
                      [Print (failure_line bad (get url (bearer token) (details_params bad)))]).
  { rewrite Hfail3. unfold failures in *. rewrite !List.filter_app. rewrite Hfail1.
    rewrite request_no_failure. cbn [List.filter app]. rewrite failure_line_recorded.
    reflexivity. }
  eexists _, t2. split; [rewrite Hrun1, Hrun2, Hrun3; reflexivity|].
  split; [cbn [app]; rewrite flat_map_app; reflexivity|].
  split.
  { cbn [app]. rewrite <- flat_map_app.
    assert (Hall : forall ids,
               (forall i, In i ids ->
                  one_resource (get url (bearer token) (details_params i))) ->
               Forall2 (fun i r => resources_of (get url (bearer token) (details_params i)) = [r])
                 ids (flat_map (fun i => resources_of (get url (bearer token) (details_params i)))
                        ids)).
    { induction ids as [|i ids IH]; intros Hids; [constructor|]. cbn [flat_map].
      destruct (one_resource_served get url (bearer token) i (Hids i (or_introl eq_refl)))
        as [r Hr].
      rewrite Hr. cbn [app]. constructor; [exact Hr|]. apply IH. intros j Hj. apply Hids.
      right. exact Hj. }
    apply Hall. exact Hgood. }
  split.
  { cbn [app]. rewrite <- flat_map_app.
    rewrite (served_length get url (bearer token) (pre ++ post) Hgood).
    rewrite !length_app. cbn [length]. lia. }
  split; [exact Hfailures|]. split; [rewrite Hfailures; reflexivity|].
  rewrite Hreq3. unfold requests in *. rewrite !List.filter_app, Hreq1. cbn.
  rewrite map_app. cbn. rewrite <- app_assoc. reflexivity.
Qed.

Lemma all_but_one_resource token base_url details_endpoint bad i :
  i <> bad ->
  one_resource (all_but bad (base_url +:+ details_endpoint) (bearer token) (details_params (JStr i))).
Proof.
  intros Hne. unfold all_but. cbn. apply String.eqb_neq in Hne. rewrite Hne.
  split; [reflexivity|]. do 2 eexists. split; reflexivity.
Qed.

Lemma fetch_details_skips_the_failure_witness :
  exists out trace,
    fetch_details (all_but "id2") "token" "https://api.crowdstrike.com"
      "/policy/entities/ml-exclusions/v1" ([JStr "id1"] ++ JStr "id2" :: [JStr "id3"])
    = (Ok out, trace) /\
    out = [JDict [("id", JStr "id1")]; JDict [("id", JStr "id3")]] /\
    failures trace = [Print "Erro ao buscar detalhes para ID id2: 500 - internal error"] /\
    requests trace =
      map (fun i => Get ("https://api.crowdstrike.com" +:+ "/policy/entities/ml-exclusions/v1")
                        (details_params i))
          ([JStr "id1"] ++ JStr "id2" :: [JStr "id3"]).
Proof.
  destruct (fetch_details_skips_the_failure (all_but "id2") "token" "https://api.crowdstrike.com"
              "/policy/entities/ml-exclusions/v1" [JStr "id1"] [JStr "id3"] (JStr "id2"))
    as (out & trace & Hrun & Hout & _ & _ & Hfail & _ & Hreq).
  - left. vm_compute. discriminate.
  - intros i [Hi|[Hi|[]]]; subst i; apply all_but_one_resource; discriminate.
  - exists out, trace. split; [exact Hrun|]. split; [rewrite Hout; reflexivity|].
    split; [rewrite Hfail; reflexivity | exact Hreq].
Defined.

End exportexclusions_facts.


(** ** Facts about strings *)

Lemma append_cons (x : ascii) (a b : string) : String x a +:+ b = String x (a +:+ b).
Proof. reflexivity. Qed.

Lemma append_nil_l (b : string) : EmptyString +:+ b = b.
Proof. reflexivity. Qed.

Lemma append_assoc (a b c : string) : (a +:+ b) +:+ c = a +:+ b +:+ c.
Proof.
  induction a as [|x a IH]; [reflexivity|].
  rewrite !append_cons, IH. reflexivity.
Qed.

Lemma append_nil_r (a : string) : a +:+ EmptyString = a.
Proof.
  induction a as [|x a IH]; [reflexivity|].
  rewrite append_cons, IH. reflexivity.
Qed.

Lemma startswith_spec (p s : string) :
  startswith p s = true <-> exists post, s = p +:+ post.
Proof.
  revert s. induction p as [|a p IH]; intros s; simpl.
  - split; [intros _; exists s; reflexivity | reflexivity].
  - destruct s as [|b s].
    + split; [discriminate | intros [post H]; discriminate].
    + destruct (Ascii.eqb_spec a b) as [->|Hne].
      * rewrite IH. split; intros [post H]; exists post;
          rewrite ?append_cons in *; congruence.
      * split; [discriminate | intros [post H]; rewrite append_cons in H; congruence].
Qed.

Lemma contains_spec (p s : string) :
  contains p s = true <-> exists pre post, s = pre +:+ p +:+ post.
Proof.
  induction s as [|c s IH].
  - simpl. rewrite orb_false_r, startswith_spec. split.
    + intros [post H]. exists EmptyString, post. exact H.
    + intros (pre & post & H). destruct pre; [exists post; exact H | discriminate].
  - cbn [contains]. rewrite orb_true_iff, startswith_spec, IH. split.
    + intros [[post H] | (pre & post & H)].
      * exists EmptyString, post. exact H.
      * exists (String c pre), post. rewrite append_cons, H. reflexivity.
    + intros (pre & post & H). destruct pre as [|x pre].
      * left. exists post. exact H.
      * right. exists pre, post. rewrite append_cons in H. congruence.
Qed.

Lemma lower_append (a b : string) : lower (a +:+ b) = lower a +:+ lower b.
Proof.
  induction a as [|x a IH]; [reflexivity|].
  rewrite append_cons. cbn [lower]. rewrite IH. reflexivity.
Qed.

Lemma lower_append_inv (s a b : string) :
  lower s = a +:+ b -> exists s1 s2, s = s1 +:+ s2 /\ lower s1 = a /\ lower s2 = b.
Proof.
  revert s. induction a as [|x a IH]; intros s H.
  - exists EmptyString, s. repeat split. exact H.
  - destruct s as [|c s]; [discriminate|].
    rewrite append_cons in H. cbn [lower] in H. injection H as Hc Hs.
    destruct (IH s Hs) as (s1 & s2 & -> & H1 & H2).
    exists (String c s1), s2. cbn [lower]. rewrite H1, Hc. repeat split. exact H2.
Qed.

(** ** Build normalization of the sensor-update transform *)

Module exportsup_facts.
Import exportsup.

(** [holds t s] is what [t in s.lower()] computes. *)
Lemma holds_contains (t s : string) : holds t s <-> contains t (lower s) = true.
Proof.
  rewrite contains_spec. split.
  - intros (pre & mid & post & -> & Hmid).
    exists (lower pre), (lower post). rewrite !lower_append, Hmid. reflexivity.
  - intros (x & y & H).
    destruct (lower_append_inv _ _ _ H) as (pre & rest & -> & Hpre & Hrest).
    destruct (lower_append_inv _ _ _ Hrest) as (mid & post & -> & Hmid & Hpost).
    exists pre, mid, post. split; [reflexivity | exact Hmid].
Qed.

Lemma holds_n (d : string) (s : string) : holds ("n" +:+ d) s -> holds "n" s.
Proof.
  rewrite !holds_contains, !contains_spec. intros (pre & post & H).
  exists pre, (d +:+ post). rewrite H. rewrite !append_cons, append_nil_l. reflexivity.
Qed.

(** C9. For every non-empty build string the normalization answers "N-2"
    when the string holds "n-2" in any letter case and at any place, else
    "N-1" when it holds "n-1", else "N" when it holds "n", and returns the
    string itself when it holds no "n"; "n-2" is looked for first. *)
Theorem build_normalization (build : string) :
  build <> EmptyString ->
  normalize_build (JStr build) = Ok (JStr (normalize build)) /\
  (holds "n-2" build -> normalize build = "N-2") /\
  (~ holds "n-2" build -> holds "n-1" build -> normalize build = "N-1") /\
  (~ holds "n-2" build -> ~ holds "n-1" build -> holds "n" build -> normalize build = "N") /\
  (~ holds "n" build -> normalize build = build).
Proof.
  intros Hne. split; [|split; [|split; [|split]]].
  - unfold normalize_build. cbn [truthy].
    destruct (String.eqb_spec build EmptyString) as [E|_]; [contradiction | reflexivity].
  - intros H2. pose proof (holds_n "-2" build H2) as Hn.
    apply holds_contains in H2, Hn. unfold normalize. rewrite Hn, H2. reflexivity.
  - intros H2 H1. pose proof (holds_n "-1" build H1) as Hn.
    apply holds_contains in H1, Hn. rewrite holds_contains in H2.
    unfold normalize. rewrite Hn, H1. destruct (contains "n-2" (lower build)); [|reflexivity].
    exfalso. apply H2. reflexivity.
  - intros H2 H1 Hn. rewrite holds_contains in H2, H1. apply holds_contains in Hn.
    unfold normalize. rewrite Hn.
    destruct (contains "n-2" (lower build)); [exfalso; apply H2; reflexivity|].
    destruct (contains "n-1" (lower build)); [exfalso; apply H1; reflexivity|].
    reflexivity.
  - intros Hn. rewrite holds_contains in Hn. unfold normalize.
    destruct (contains "n" (lower build)); [exfalso; apply Hn; reflexivity | reflexivity].
Qed.

Lemma build_normalization_witness :
  normalize_build (JStr "Auto - N-2 (7.14)") = Ok (JStr (normalize "Auto - N-2 (7.14)")) /\
  (holds "n-2" "Auto - N-2 (7.14)" -> normalize "Auto - N-2 (7.14)" = "N-2") /\
  (~ holds "n-2" "Auto - N-2 (7.14)" -> holds "n-1" "Auto - N-2 (7.14)" ->
   normalize "Auto - N-2 (7.14)" = "N-1") /\
  (~ holds "n-2" "Auto - N-2 (7.14)" -> ~ holds "n-1" "Auto - N-2 (7.14)" ->
   holds "n" "Auto - N-2 (7.14)" -> normalize "Auto - N-2 (7.14)" = "N") /\
  (~ holds "n" "Auto - N-2 (7.14)" -> normalize "Auto - N-2 (7.14)" = "Auto - N-2 (7.14)").
Proof.
  apply (build_normalization "Auto - N-2 (7.14)"). discriminate.
Defined.

End exportsup_facts.


(** ** The IOA-rules transform on entries without values *)

Module exportioarules_facts.
Import exportioarules.

Lemma first_value_empty_values (target : string) (more : list (string * json)) (rest : list json) :
  first_value target (JDict (("name", JStr target) :: ("values", JList []) :: more) :: rest)
  = Raise IndexError.
Proof.
  cbn. rewrite String.eqb_refl. reflexivity.
Qed.

(** C5 (what the code does). A [field_values] entry of one of the six names
    whose "values" list is empty makes [transform_rules] raise [IndexError]:
    the default [[{}]] only covers a missing "values" key, for which the
    transform does return the row with the empty-string default. *)
Theorem transform_rules_empty_values_raises :
  transform_rules [empty_values_group] = Raise IndexError /\
  transform_rules [missing_values_group] =
    Ok (frame_of_rows rule_columns
          [[JStr "rule"; JStr EmptyString; JStr EmptyString; JStr EmptyString; JStr EmptyString;
            JStr EmptyString; JStr EmptyString; JStr EmptyString; JStr EmptyString;
            JStr EmptyString; JStr EmptyString]]).
Proof. split; reflexivity. Qed.

End exportioarules_facts.

(** ** Row order of the response-policy transform *)

Module exportrp_facts.
Import exportrp.

(** C6 (what the code does). The rows of a response-policy sheet follow the
    iteration order of a [set] of strings. Two interpreters that go through
    the same set in different orders give, for the same policies, sheets with
    the rows in different orders. *)
Theorem transform_policies_rows_follow_set_order :
  (forall ks, Permutation (last_seen ks) (first_seen ks)) /\
  transform_policies first_seen two_settings =
    Ok [(JStr "Windows",
         {| index := [realtime; scripts];
            columns := [JStr "Default"];
            cells := [[Some (JStr "Enabled")]; [Some (JStr "Disabled")]] |})] /\
  transform_policies last_seen two_settings =
    Ok [(JStr "Windows",
         {| index := [scripts; realtime];
            columns := [JStr "Default"];
            cells := [[Some (JStr "Disabled")]; [Some (JStr "Enabled")]] |})] /\
  transform_policies first_seen two_settings <> transform_policies last_seen two_settings.
Proof.
  split; [|split; [|split]].
  - intros ks. unfold last_seen, first_seen. symmetry. apply Permutation_rev.
  - reflexivity.
  - reflexivity.
  - discriminate.
Qed.

End exportrp_facts.


(** ** Writing the workbook *)

Module exportpp_writer_facts.
Import exportpp.

Lemma to_excel_takes f n so df :
  strikes_at f n = false -> takes so df = true ->
  to_excel f n (sheet_name so) df = (Ok tt, true).
Proof.
  unfold takes, to_excel. intros -> H.
  apply andb_true_iff in H as [H Hclean]. apply andb_true_iff in H as [Hst Hforb].
  apply negb_true_iff in Hforb. rewrite Hst, Hforb, Hclean. reflexivity.
Qed.

Lemma write_sheets_good f sheets : forall n book,
  (forall k, n <= k < n + length sheets -> strikes_at f k = false) ->
  forallb (fun sd => takes (fst sd) (snd sd)) sheets = true ->
  write_sheets f n sheets book = (Ok tt, book ++ named sheets, false).
Proof.
  induction sheets as [|[so df] rest IH]; intros n book Hno Hall; cbn [write_sheets].
  - rewrite app_nil_r. reflexivity.
  - cbn [forallb fst snd] in Hall. apply andb_true_iff in Hall as [Hone Hall].
    rewrite (to_excel_takes f n so df (Hno n ltac:(cbn [length]; lia)) Hone).
    rewrite IH; [|intros k Hk; apply Hno; cbn [length]; lia | exact Hall].
    cbn [named map fst snd]. rewrite <- app_assoc. reflexivity.
Qed.

Lemma write_sheets_app f xs ys : forall n book,
  write_sheets f n (xs ++ ys) book =
  match write_sheets f n xs book with
  | (Ok _, book', _) => write_sheets f (n + length xs) ys book'
  | r => r
  end.
Proof.
  induction xs as [|[so df] xs IH]; intros n book; cbn [app write_sheets length].
  - rewrite Nat.add_0_r. reflexivity.
  - destruct (to_excel f n (sheet_name so) df) as [[[]|e] begun]; [|reflexivity].
    rewrite IH. replace (S n + length xs) with (n + S (length xs)) by lia. reflexivity.
Qed.

Lemma named_length sheets : length (named sheets) = length sheets.
Proof. unfold named. apply length_map. Qed.

Lemma named_firstn k sheets : named (firstn k sheets) = firstn k (named sheets).
Proof. unfold named. symmetry. apply firstn_map. Qed.

Lemma forallb_firstn {A : Type} (P : A -> bool) (k : nat) (l : list A) :
  forallb P l = true -> forallb P (firstn k l) = true.
Proof.
  revert k. induction l as [|x l IH]; intros [|k] H; try reflexivity.
  cbn [forallb firstn] in *. apply andb_true_iff in H as [Hx H]. rewrite Hx, (IH k H).
  reflexivity.
Qed.

(** The [k]-th call fails: the calls before it are in the book. *)
Lemma write_sheets_strike sheets k book :
  k < length sheets ->
  forallb (fun sd => takes (fst sd) (snd sd)) sheets = true ->
  write_sheets (FailSheet k) 0 sheets book =
  (Raise OSError, book ++ firstn k (named sheets), false).
Proof.
  intros Hk Hall. rewrite <- (firstn_skipn k sheets) at 1. rewrite write_sheets_app.
  rewrite write_sheets_good.
  - rewrite length_firstn, Nat.min_l by lia. cbn [Nat.add].
    destruct (skipn k sheets) as [|[so df] rest] eqn:E.
    + apply (f_equal (@length _)) in E. rewrite length_skipn in E. cbn in E. lia.
    + cbn [write_sheets]. unfold to_excel. cbn [strikes_at]. rewrite Nat.eqb_refl.
      rewrite named_firstn. reflexivity.
  - intros j Hj. rewrite length_firstn in Hj. cbn [strikes_at]. apply Nat.eqb_neq. lia.
  - apply forallb_firstn. exact Hall.
Qed.

(** A sheet name with a forbidden character: the calls before it are in
    the book, and its sheet was added. *)
Lemma write_sheets_forbidden f pre so df post : forall book,
  (forall k, k <= length pre -> strikes_at f k = false) ->
  forallb (fun sd => takes (fst sd) (snd sd)) pre = true ->
  storable df = true -> has_forbidden (sheet_name so) = true ->
  write_sheets f 0 (pre ++ (so, df) :: post) book = (Raise ValueError, book ++ named pre, true).
Proof.
  intros book Hno Hpre Hst Hforb. rewrite write_sheets_app, write_sheets_good.
  - cbn [Nat.add write_sheets]. unfold to_excel.
    rewrite (Hno (length pre) (Nat.le_refl _)), Hst, Hforb. reflexivity.
  - intros k Hk. apply Hno. lia.
  - exact Hpre.
Qed.

Lemma str_keys_length ks : forall names, str_keys ks = Ok names -> length names = length ks.
Proof.
  induction ks as [|k ks IH]; intros names H; cbn in H.
  - injection H as <-. reflexivity.
  - destruct k; try discriminate. destruct (str_keys ks) as [r|e]; [|discriminate].
    cbn in H. injection H as <-. cbn. rewrite (IH r eq_refl). reflexivity.
Qed.

Lemma named_combine (names : list string) (frames : list frame) :
  named (combine names frames) = combine (map sheet_name names) frames.
Proof.
  revert frames. induction names as [|a names IH]; intros [|df frames]; cbn; try reflexivity.
  rewrite IH. reflexivity.
Qed.

Lemma firstn_app_le {A : Type} (n : nat) (l1 l2 : list A) :
  n <= length l1 -> firstn n (l1 ++ l2) = firstn n l1.
Proof.
  intros Hn. rewrite firstn_app. replace (n - length l1) with 0 by lia.
  cbn. apply app_nil_r.
Qed.

Lemma meta_taken f n now names :
  strikes_at f n = false -> storable (meta_frame now names) = true ->
  to_excel f n "Meta" (meta_frame now names) = (Ok tt, true).
Proof. intros Hno Hst. unfold to_excel. rewrite Hno, Hst. reflexivity. Qed.

(** What [open_writer] does when the engine is found. *)
Lemma open_writer_found f dest (fs : gmap string file) :
  find_engine dest = Ok tt ->
  open_writer f dest fs =
  match f with
  | FailOpen => (Raise OSError, fs)
  | _ => (Ok tt, <[dest := Partial []]> fs)
  end.
Proof. intros H. unfold open_writer. rewrite H. reflexivity. Qed.

Lemma sheets_length names (per_os : pydict frame) :
  length names = length (keys per_os) ->
  length (named (combine names (map snd per_os))) = length per_os.
Proof.
  intros Hlen. unfold keys in Hlen. rewrite length_map in Hlen.
  rewrite named_length, length_combine, length_map. lia.
Qed.

(** The outcome of a run on a bundle that the writer takes, under a name
    for which the engine is found. *)
Lemma save_to_excel_outcome now f per_os outfile (fs : gmap string file) names :
  str_keys (keys per_os) = Ok names ->
  find_engine (with_suffix outfile) = Ok tt ->
  writable now names per_os = true ->
  save_to_excel now f per_os outfile fs =
  match f with
  | NoFault => (Ok tt, <[with_suffix outfile := Workbook (bundle_sheets now names per_os)]> fs)
  | FailOpen => (Raise OSError, fs)
  | FailSheet n =>
      if (n <=? length per_os)%nat
      then (Raise (if (n =? 0)%nat then IndexError else OSError),
            <[with_suffix outfile := Partial (firstn n (bundle_sheets now names per_os))]> fs)
      else (Ok tt, <[with_suffix outfile := Workbook (bundle_sheets now names per_os)]> fs)
  | FailClose =>
      (Raise OSError, <[with_suffix outfile := Partial (bundle_sheets now names per_os)]> fs)
  end.
Proof.
  intros Hnames Hengine Hw. pose proof (str_keys_length _ _ Hnames) as Hlen.
  pose proof (sheets_length names per_os Hlen) as Hnamed.
  assert (Hcomb : length (combine names (map snd per_os)) = length per_os).
  { rewrite <- Hnamed. symmetry. apply named_length. }
  unfold writable in Hw. apply andb_true_iff in Hw as [Hall Hmeta].
  unfold save_to_excel, bundle_sheets. rewrite Hnames. rewrite <- named_combine.
  rewrite (open_writer_found f _ fs Hengine).
  set (sheets := combine names (map snd per_os)) in *.
  assert (Hwhole : named sheets ++ [("Meta", meta_frame now names)] <> []).
  { destruct (named sheets); discriminate. }
  destruct f as [| |n|].
  - rewrite write_sheets_good by (try reflexivity; exact Hall).
    rewrite meta_taken by (try reflexivity; exact Hmeta). cbn [app close_writer].
    destruct (named sheets ++ _) eqn:E; [contradiction|].
    rewrite insert_insert_eq. reflexivity.
  - reflexivity.
  - destruct (Nat.leb_spec n (length per_os)) as [Hle|Hgt].
    + rewrite firstn_app_le by (rewrite Hnamed; exact Hle).
      destruct (Nat.eq_dec n (length per_os)) as [->|Hne].
      * rewrite write_sheets_good;
          [|intros k Hk; cbn [strikes_at]; apply Nat.eqb_neq; lia | exact Hall].
        unfold to_excel. cbn [strikes_at]. rewrite Nat.eqb_refl. cbn [app close_writer].
        rewrite <- Hnamed. rewrite firstn_all.
        destruct (named sheets) as [|x l] eqn:E; cbn [length Nat.eqb negb];
          rewrite insert_insert_eq; reflexivity.
      * rewrite write_sheets_strike by (try exact Hall; lia). cbn [app close_writer].
        destruct n as [|n].
        -- cbn [firstn Nat.eqb negb]. rewrite insert_insert_eq. reflexivity.
        -- destruct (named sheets) as [|x l] eqn:E; [cbn [length] in Hnamed; lia|].
           cbn [firstn Nat.eqb]. rewrite insert_insert_eq. reflexivity.
    + rewrite write_sheets_good;
        [|intros k Hk; cbn [strikes_at]; apply Nat.eqb_neq; lia | exact Hall].
      rewrite meta_taken;
        [|cbn [strikes_at]; apply Nat.eqb_neq; lia | exact Hmeta].
      cbn [app close_writer].
      destruct (named sheets ++ _) eqn:E; [contradiction|].
      rewrite insert_insert_eq. reflexivity.
  - rewrite write_sheets_good by (try reflexivity; exact Hall).
    rewrite meta_taken by (try reflexivity; exact Hmeta). cbn [app close_writer].
    destruct (named sheets ++ _) eqn:E; [contradiction|].
    rewrite insert_insert_eq. reflexivity.
Qed.

(** Nothing but the destination is touched. *)
Lemma open_writer_other f dest (fs : gmap string file) path :
  path <> dest -> snd (open_writer f dest fs) !! path = fs !! path.
Proof.
  intros Hne. unfold open_writer. destruct (find_engine dest); [|reflexivity].
  destruct f; cbn [snd]; try reflexivity; apply lookup_insert_ne; congruence.
Qed.

Lemma close_writer_other f body dest book begun (fs : gmap string file) path :
  path <> dest -> snd (close_writer f body dest book begun fs) !! path = fs !! path.
Proof.
  intros Hne. unfold close_writer.
  assert (Hins : forall x, <[dest := x]> fs !! path = fs !! path)
    by (intros x; apply lookup_insert_ne; congruence).
  destruct body as [[]|e]; [|destruct e]; destruct f;
    destruct (match book with [] => negb begun | _ :: _ => false end);
    cbn [snd]; first [reflexivity | apply Hins].
Qed.

Lemma save_to_excel_other now f per_os outfile (fs : gmap string file) path :
  path <> with_suffix outfile ->
  snd (save_to_excel now f per_os outfile fs) !! path = fs !! path.
Proof.
  intros Hne. unfold save_to_excel.
  destruct (str_keys (keys per_os)) as [names|e]; [|reflexivity].
  pose proof (open_writer_other f (with_suffix outfile) fs path Hne) as Hopen.
  destruct (open_writer f (with_suffix outfile) fs) as [[[]|e] fs']; [|exact Hopen].
  cbn [snd] in Hopen.
  destruct (write_sheets f 0 (combine names (map snd per_os)) []) as [[[[]|e] book] begun].
  - destruct (to_excel f (length per_os) "Meta" (meta_frame now names)) as [[[]|e] begun'];
      rewrite close_writer_other by exact Hne; exact Hopen.
  - rewrite close_writer_other by exact Hne. exact Hopen.
Qed.

(** C3 (as amended). [save_to_excel] hands the final destination name to
    the writer and uses no temporary name: no path but the destination is
    touched. A destination that ends in ".xlsx" in another letter case than
    this one has no engine: [ValueError], and nothing is written. Under a
    destination for which the engine is found, and for sheet names that are
    strings: a failure when the destination is opened leaves the file system
    as it was; for a bundle that the writer takes, a run without failure
    leaves the whole workbook (every sheet in order, then "Meta") under the
    destination name, and a failure after the opening (at the n-th sheet or
    when the workbook is saved) raises and leaves a partially-written file
    under the final destination name, the exception being the [IndexError] of
    the save when no sheet was written; without any I/O failure, a sheet name
    with a character that Excel forbids raises [ValueError] and leaves a
    partially-written file in the same way. *)
Theorem save_to_excel_writes_in_place
    (now : string) (f : fault) (per_os : pydict frame) (outfile : string)
    (fs : gmap string file) (names : list string) :
  str_keys (keys per_os) = Ok names ->
  let dest := with_suffix outfile in
  let whole := bundle_sheets now names per_os in
  let run := save_to_excel now f per_os outfile fs in
  (find_engine dest = Raise ValueError -> run = (Raise ValueError, fs)) /\
  (find_engine dest = Ok tt ->
   (f = FailOpen -> run = (Raise OSError, fs)) /\
   (writable now names per_os = true ->
    (f = NoFault -> run = (Ok tt, <[dest := Workbook whole]> fs)) /\
    (forall n, f = FailSheet n -> n <= length per_os ->
       run = (Raise (if (n =? 0)%nat then IndexError else OSError),
              <[dest := Partial (firstn n whole)]> fs)) /\
    (f = FailClose -> run = (Raise OSError, <[dest := Partial whole]> fs))) /\
   (forall pre so df post,
      f = NoFault ->
      per_os = pre ++ (JStr so, df) :: post ->
      forallb (fun sd => takes (fst sd) (snd sd))
        (firstn (length pre) (combine names (map snd per_os))) = true ->
      storable df = true ->
      has_forbidden (sheet_name so) = true ->
      run = (Raise ValueError, <[dest := Partial (firstn (length pre) whole)]> fs))) /\
  (forall path, path <> dest -> snd run !! path = fs !! path).
Proof.
  intros Hnames dest whole run. subst run. split; [|split].
  - intros Hengine. unfold save_to_excel, open_writer. fold dest.
    rewrite Hnames, Hengine. reflexivity.
  - intros Hengine. split; [|split].
    + intros ->. unfold save_to_excel. fold dest. rewrite Hnames.
      rewrite (open_writer_found FailOpen dest fs Hengine). reflexivity.
    + intros Hw.
      rewrite (save_to_excel_outcome now f per_os outfile fs names Hnames Hengine Hw).
      fold dest whole. split; [|split].
      * intros ->. reflexivity.
      * intros n -> Hn. replace (n <=? length per_os)%nat with true; [reflexivity|].
        symmetry. apply Nat.leb_le. exact Hn.
      * intros ->. reflexivity.
    + intros pre so df post -> Hper Hpre Hst Hforb.
      pose proof (str_keys_length _ _ Hnames) as Hlen.
      unfold keys in Hlen. rewrite length_map in Hlen.
      assert (Hsplit : combine names (map snd per_os) =
                       firstn (length pre) (combine names (map snd per_os))
                       ++ (so, df) :: skipn (S (length pre)) (combine names (map snd per_os))).
      { subst per_os. clear - Hnames. revert names Hnames.
        induction pre as [|[k d] pre IH]; intros names Hnames.
        - cbn in Hnames. destruct (str_keys _) as [r|e]; [|discriminate].
          cbn in Hnames. injection Hnames as <-. reflexivity.
        - cbn in Hnames. destruct k; try discriminate.
          destruct (str_keys _) as [r|e] eqn:E; [|discriminate].
          cbn in Hnames. injection Hnames as <-.
          cbn [app map snd combine length firstn skipn]. f_equal. apply (IH r eq_refl). }
      assert (Hfirst : length (firstn (length pre) (combine names (map snd per_os)))
                       = length pre).
      { rewrite length_firstn, length_combine, length_map, Hlen. subst per_os.
        rewrite length_app. cbn [length]. lia. }
      unfold save_to_excel. fold dest. rewrite Hnames.
      rewrite (open_writer_found NoFault dest fs Hengine).
      rewrite Hsplit.
      rewrite (write_sheets_forbidden NoFault _ so df _ [] ltac:(intros; reflexivity) Hpre Hst Hforb).
      cbn [app close_writer].
      assert (Hbook : named (firstn (length pre) (combine names (map snd per_os)))
                      = firstn (length pre) whole).
      { subst whole. unfold bundle_sheets. rewrite <- named_combine, named_firstn.
        rewrite firstn_app_le; [reflexivity|].
        rewrite named_length, length_combine, length_map, Hlen. subst per_os.
        rewrite length_app. cbn [length]. lia. }
      rewrite Hbook.
      destruct (firstn (length pre) whole); cbn [negb]; rewrite insert_insert_eq; reflexivity.
  - intros path Hne. apply save_to_excel_other. exact Hne.
Qed.

Lemma save_to_excel_writes_in_place_witness :
  let run := save_to_excel "2025-01-01T00:00:00Z" FailClose two_sheets
               "crowdstrike_policies_ACME" ∅ in
  run = (Raise OSError,
         <[with_suffix "crowdstrike_policies_ACME" :=
             Partial (bundle_sheets "2025-01-01T00:00:00Z" ["Windows"; "Linux"] two_sheets)]> ∅).
Proof.
  apply (save_to_excel_writes_in_place "2025-01-01T00:00:00Z" FailClose two_sheets
           "crowdstrike_policies_ACME" ∅ ["Windows"; "Linux"]).
  - reflexivity.
  - reflexivity.
  - reflexivity.
  - reflexivity.
Defined.

(** C3 as it is stated fails: an I/O failure while the second sheet is
    written leaves, under the final name, a file that holds the first sheet
    only. *)
Lemma save_to_excel_failure_leaves_partial_file :
  let run := save_to_excel "2025-01-01T00:00:00Z" (FailSheet 1) two_sheets
               "crowdstrike_policies_ACME.xlsx" ∅ in
  fst run = Raise OSError /\
  snd run !! "crowdstrike_policies_ACME.xlsx" =
    Some (Partial [("Windows", frame_of_rows ["Motor/Configuração"; "Recomended"] [])]).
Proof.
  cbv zeta.
  rewrite (save_to_excel_outcome "2025-01-01T00:00:00Z" (FailSheet 1) two_sheets
             "crowdstrike_policies_ACME.xlsx" ∅ ["Windows"; "Linux"] eq_refl eq_refl eq_refl).
  cbn [Nat.leb Nat.eqb length two_sheets fst snd].
  split; [reflexivity|]. apply lookup_insert_eq.
Qed.

End exportpp_writer_facts.


(** ** Facts about dictionaries *)

Section Keys.

Lemma py_eqb_refl k : hashable k = true -> py_eqb k k = true.
Proof.
  destruct k as [|[]|z|s|l|d]; cbn; intros H; try reflexivity; try discriminate.
  - apply Z.eqb_refl.
  - apply String.eqb_refl.
Qed.

Lemma py_eqb_sym a b : hashable a = true -> hashable b = true -> py_eqb a b = py_eqb b a.
Proof.
  destruct a as [|x|x|x|x|x], b as [|y|y|y|y|y]; cbn; intros Ha Hb;
    try reflexivity; try discriminate.
  - destruct x, y; reflexivity.
  - apply Z.eqb_sym.
  - apply String.eqb_sym.
Qed.

Lemma py_eqb_trans a b c :
  hashable a = true -> hashable b = true -> hashable c = true ->
  py_eqb a b = true -> py_eqb b c = py_eqb a c.
Proof.
  destruct a as [|x|x|x|x|x], b as [|y|y|y|y|y]; cbn; intros Ha Hb Hc Hab;
    try discriminate;
    destruct c as [|z|z|z|z|z]; cbn; try reflexivity; try discriminate.
  all: try (apply Bool.eqb_prop in Hab; subst; reflexivity).
  all: try (apply Z.eqb_eq in Hab; subst; try reflexivity).
  all: try (apply String.eqb_eq in Hab; subst; reflexivity).
  all: try (destruct x, y; cbn in *; try discriminate; reflexivity).
  all: try (destruct x; destruct z; cbn; reflexivity).
  all: try (destruct y; destruct z; cbn; reflexivity).
  all: apply Z.eqb_sym.
Qed.

End Keys.

Lemma key_in_app k ks1 ks2 : key_in k (ks1 ++ ks2) = key_in k ks1 || key_in k ks2.
Proof. apply existsb_app. Qed.

Lemma key_in_true k ks : key_in k ks = true <-> exists k', In k' ks /\ py_eqb k k' = true.
Proof. apply existsb_exists. Qed.

Lemma key_in_false k ks : key_in k ks = false <-> forall k', In k' ks -> py_eqb k k' = false.
Proof.
  unfold key_in. split.
  - intros H k' Hin. destruct (py_eqb k k') eqn:E; [|reflexivity].
    rewrite <- H. symmetry. apply existsb_exists. exists k'. split; assumption.
  - intros H. destruct (existsb (py_eqb k) ks) eqn:E; [|reflexivity].
    apply existsb_exists in E as (k' & Hin & Heq). rewrite (H k' Hin) in Heq. discriminate.
Qed.

Section Dictionaries.

Context {V : Type}.
Implicit Types (d : pydict V) (k : json) (v : V).

Lemma dict_mem_key_in k d :
  hashable k = true -> hashables (keys d) -> dict_mem k d = key_in k (keys d).
Proof.
  intros Hk Hd. unfold dict_mem. induction d as [|[k0 v0] d IH]; cbn; [reflexivity|].
  inversion Hd as [|? ? Hk0 Hd']; subst.
  rewrite (py_eqb_sym k0 k Hk0 Hk).
  destruct (py_eqb k k0); [reflexivity|]. apply IH. exact Hd'.
Qed.

Lemma dict_mem_get k d : dict_mem k d = true <-> exists v, dict_get k d = Some v.
Proof.
  unfold dict_mem. destruct (dict_get k d) as [v|].
  - split; [intros _; exists v; reflexivity | reflexivity].
  - split; [discriminate | intros [v H]; discriminate].
Qed.

Lemma dict_get_set_same k v d : hashable k = true -> dict_get k (dict_set k v d) = Some v.
Proof.
  intros Hk. induction d as [|[k0 v0] d IH]; cbn.
  - rewrite (py_eqb_refl k Hk). reflexivity.
  - destruct (py_eqb k0 k) eqn:E; cbn; rewrite E; [reflexivity | exact IH].
Qed.

Lemma dict_get_set k k' v d :
  hashable k = true -> hashable k' = true -> hashables (keys d) ->
  dict_get k (dict_set k' v d) = if py_eqb k' k then Some v else dict_get k d.
Proof.
  intros Hk Hk' Hd. induction d as [|[k0 v0] d IH]; cbn; [reflexivity|].
  inversion Hd as [|? ? Hk0 Hd']; subst.
  destruct (py_eqb k0 k') eqn:E0; cbn.
  - rewrite <- (py_eqb_trans k0 k' k Hk0 Hk' Hk E0).
    destruct (py_eqb k' k); reflexivity.
  - rewrite (IH Hd').
    destruct (py_eqb k0 k) eqn:E1; [|reflexivity].
    destruct (py_eqb k' k) eqn:E2; [|reflexivity].
    rewrite (py_eqb_sym k' k Hk' Hk) in E2.
    rewrite <- (py_eqb_trans k0 k k' Hk0 Hk Hk' E1), E2 in E0. discriminate.
Qed.

Lemma keys_dict_set k v d :
  keys (dict_set k v d) = if dict_mem k d then keys d else keys d ++ [k].
Proof.
  unfold dict_mem. induction d as [|[k0 v0] d IH]; cbn; [reflexivity|].
  destruct (py_eqb k0 k); cbn; [reflexivity|].
  unfold keys in IH. rewrite IH. destruct (dict_get k d); reflexivity.
Qed.

Lemma dict_set_fresh k v d : dict_mem k d = false -> dict_set k v d = d ++ [(k, v)].
Proof.
  unfold dict_mem. induction d as [|[k0 v0] d IH]; cbn; [reflexivity|].
  destruct (py_eqb k0 k); [discriminate|]. intros H. rewrite (IH H). reflexivity.
Qed.

Lemma dict_set_In k v d k1 v1 :
  In (k1, v1) (dict_set k v d) -> In (k1, v1) d \/ v1 = v.
Proof.
  induction d as [|[k0 v0] d IH]; cbn.
  - intros [H|[]]. right. congruence.
  - destruct (py_eqb k0 k); cbn.
    + intros [H|H]; [right; congruence | left; right; exact H].
    + intros [H|H]; [left; left; exact H|].
      destruct (IH H) as [H'|H']; [left; right; exact H' | right; exact H'].
Qed.

Lemma In_keys k v d : In (k, v) d -> In k (keys d).
Proof. intros H. apply (in_map fst) in H. exact H. Qed.

Lemma dict_get_In k v d : dict_get k d = Some v -> exists k0, In (k0, v) d /\ py_eqb k0 k = true.
Proof.
  induction d as [|[k0 v0] d IH]; cbn; [discriminate|].
  destruct (py_eqb k0 k) eqn:E.
  - intros [= <-]. exists k0. split; [left; reflexivity | exact E].
  - intros H. destruct (IH H) as (k1 & Hin & Heq). exists k1. split; [right; exact Hin | exact Heq].
Qed.

Lemma In_dict_get k v d : dict_keys (keys d) -> In (k, v) d -> dict_get k d = Some v.
Proof.
  intros [Hh Hu]. induction d as [|[k0 v0] d IH]; cbn; [intros []|].
  inversion Hh as [|? ? Hk0 Hh']; subst. cbn in Hu. apply andb_true_iff in Hu as [Hfresh Hu].
  intros [H|H].
  - injection H as -> ->. rewrite (py_eqb_refl k Hk0). reflexivity.
  - apply negb_true_iff in Hfresh.
    rewrite (proj1 (key_in_false k0 (keys d)) Hfresh k (In_keys k v d H)).
    apply IH; assumption.
Qed.

Lemma dict_keys_set k v d :
  hashable k = true -> dict_keys (keys d) -> dict_keys (keys (dict_set k v d)).
Proof.
  intros Hk [Hh Hu]. rewrite keys_dict_set.
  destruct (dict_mem k d) eqn:Hmem; [split; assumption|].
  rewrite (dict_mem_key_in k d Hk Hh) in Hmem.
  split.
  - apply Forall_app. split; [exact Hh | constructor; [exact Hk | constructor]].
  - clear -Hh Hu Hmem Hk. induction (keys d) as [|k0 ks IH]; cbn; [reflexivity|].
    inversion Hh as [|? ? Hk0 Hh']; subst.
    cbn in Hu, Hmem. apply andb_true_iff in Hu as [Hfresh Hu].
    apply orb_false_iff in Hmem as [Hne Hmem].
    rewrite key_in_app. cbn. rewrite (py_eqb_sym k0 k Hk0 Hk), Hne.
    apply negb_true_iff in Hfresh. rewrite Hfresh. cbn. apply IH; assumption.
Qed.

End Dictionaries.

(** [for_each] goes through the list: every step succeeded. *)
Lemma for_each_app {A S : Type} (body : S -> A -> res S) (xs ys : list A) (s : S) :
  for_each body (xs ++ ys) s = let* s' := for_each body xs s in for_each body ys s'.
Proof.
  revert s. induction xs as [|x xs IH]; intros s; cbn; [reflexivity|].
  destruct (body s x) as [s'|e]; cbn; [apply IH | reflexivity].
Qed.

(** An invariant of the body holds after the loop. *)
Lemma for_each_invariant {A S : Type} (body : S -> A -> res S) (I : list A -> S -> Prop) :
  (forall done x s s', I done s -> body s x = Ok s' -> I (done ++ [x]) s') ->
  forall xs done s s', I done s -> for_each body xs s = Ok s' -> I (done ++ xs) s'.
Proof.
  intros Hstep. induction xs as [|x xs IH]; intros done s s' HI Hrun; cbn in Hrun.
  - injection Hrun as <-. rewrite app_nil_r. exact HI.
  - destruct (body s x) as [s1|e] eqn:Hb; [|discriminate]. cbn in Hrun.
    replace (done ++ x :: xs) with ((done ++ [x]) ++ xs) by (rewrite <- app_assoc; reflexivity).
    apply (IH (done ++ [x]) s1 s'); [|exact Hrun].
    apply (Hstep done x s s1 HI Hb).
Qed.


(** ** Sheets of the indicator transform *)

Module exportiocs_facts.
Import exportiocs.

Lemma unique_keys_app_fresh ks1 k ks2 :
  unique_keys (ks1 ++ k :: ks2) = true -> forall k', In k' ks1 -> py_eqb k' k = false.
Proof.
  induction ks1 as [|k0 ks1 IH]; cbn; [intros _ k' []|].
  intros H k' [<-|Hin].
  - apply andb_true_iff in H as [H _]. apply negb_true_iff in H.
    apply (proj1 (key_in_false k0 _) H). apply in_or_app. right. left. reflexivity.
  - apply andb_true_iff in H as [_ H]. apply IH; assumption.
Qed.

Lemma dict_mem_false_keys {V : Type} (k : json) (d : pydict V) :
  (forall k', In k' (keys d) -> py_eqb k' k = false) -> dict_mem k d = false.
Proof.
  unfold dict_mem. induction d as [|[k0 v0] d IH]; cbn; [reflexivity|].
  intros H. rewrite (H k0 (or_introl eq_refl)). apply IH. intros k' Hin. apply H. right. exact Hin.
Qed.

(** Filling an empty result from a dictionary keeps its entries in place. *)
Lemma fold_dict_set_map {V W : Type} (f : V -> W) (entries : pydict V) : forall acc : pydict W,
  unique_keys (keys acc ++ keys entries) = true ->
  fold_left (fun result entry => dict_set (fst entry) (f (snd entry)) result) entries acc
  = acc ++ map (fun entry => (fst entry, f (snd entry))) entries.
Proof.
  induction entries as [|[k v] entries IH]; intros acc Hu; cbn.
  - rewrite app_nil_r. reflexivity.
  - cbn in Hu. rewrite dict_set_fresh.
    + rewrite IH.
      * rewrite <- app_assoc. reflexivity.
      * unfold keys. rewrite map_app. cbn. rewrite <- app_assoc. exact Hu.
    + apply dict_mem_false_keys. apply (unique_keys_app_fresh _ _ _ Hu).
Qed.

Lemma dict_get_map {V W : Type} (f : V -> W) (k : json) (d : pydict V) :
  dict_get k (map (fun entry => (fst entry, f (snd entry))) d) = option_map f (dict_get k d).
Proof.
  induction d as [|[k0 v0] d IH]; cbn; [reflexivity|].
  destruct (py_eqb k0 k); [reflexivity | exact IH].
Qed.

Lemma keys_map {V W : Type} (f : V -> W) (d : pydict V) :
  keys (map (fun entry => (fst entry, f (snd entry))) d) = keys d.
Proof. unfold keys. rewrite map_map. reflexivity. Qed.

Lemma total_rows_set k rows rows' (d : pydict (list (list json))) :
  dict_get k d = Some rows ->
  total_rows (dict_set k rows' d) + length rows = total_rows d + length rows'.
Proof.
  unfold total_rows. induction d as [|[k0 v0] d IH]; cbn; [discriminate|].
  destruct (py_eqb k0 k); cbn.
  - intros [= ->]. rewrite !length_app. lia.
  - intros H. specialize (IH H). rewrite !length_app. lia.
Qed.

Lemma total_rows_snoc k (d : pydict (list (list json))) :
  total_rows (d ++ [(k, [])]) = total_rows d.
Proof.
  unfold total_rows. rewrite map_app, concat_app. cbn. rewrite app_nil_r. reflexivity.
Qed.

Lemma type_is_equiv t k ioc t' :
  hashable t = true -> hashable k = true -> py_eqb t k = true ->
  ioc_type ioc = Ok t' -> hashable t' = true ->
  type_is t ioc = type_is k ioc.
Proof.
  intros Ht Hk Htk Hty Ht'. unfold type_is. rewrite Hty.
  rewrite (py_eqb_sym t' t Ht' Ht), (py_eqb_sym t' k Ht' Hk).
  symmetry. apply py_eqb_trans; assumption.
Qed.

Lemma rows_of_type_none k done : existsb (type_is k) done = false -> rows_of_type k done = [].
Proof.
  unfold rows_of_type. induction done as [|x done IH]; cbn; [reflexivity|].
  intros H. apply orb_false_iff in H as [Hx H]. rewrite Hx. cbn. apply IH. exact H.
Qed.

Lemma rows_of_type_equiv t k done :
  hashable t = true -> hashable k = true -> py_eqb t k = true ->
  (forall ioc, In ioc done -> exists t', ioc_type ioc = Ok t' /\ hashable t' = true) ->
  rows_of_type t done = rows_of_type k done /\
  existsb (type_is t) done = existsb (type_is k) done.
Proof.
  intros Ht Hk Htk. unfold rows_of_type. induction done as [|x done IH]; cbn; intros Hall.
  - split; reflexivity.
  - destruct (Hall x (or_introl eq_refl)) as (t' & Hty & Ht').
    rewrite (type_is_equiv t k x t' Ht Hk Htk Hty Ht').
    destruct IH as [IH1 IH2]; [intros y Hy; apply Hall; right; exact Hy|].
    rewrite IH1, IH2. split; reflexivity.
Qed.

Lemma add_ioc_grouped done ioc per_type per_type' :
  grouped done per_type -> add_ioc per_type ioc = Ok per_type' -> grouped (done ++ [ioc]) per_type'.
Proof.
  intros (Hkeys & Hget & Htypes & Htotal) Hadd. unfold add_ioc in Hadd.
  destruct (ioc_type ioc) as [t|e] eqn:Hty; [|discriminate]. cbn [bind] in Hadd.
  unfold hashed in Hadd. destruct (hashable t) eqn:Ht; [|discriminate]. cbn [bind] in Hadd.
  destruct (ioc_row ioc) as [row|e] eqn:Hrow; [|discriminate]. cbn [bind] in Hadd.
  injection Hadd as <-.
  set (per_type1 := if dict_mem t per_type then per_type else dict_set t [] per_type).
  assert (Hkeys1 : dict_keys (keys per_type1)).
  { subst per_type1. destruct (dict_mem t per_type); [exact Hkeys|].
    apply dict_keys_set; assumption. }
  assert (Hget1 : forall k, hashable k = true -> py_eqb t k = false ->
                            dict_get k per_type1 = dict_get k per_type).
  { intros k Hk Hne. subst per_type1. destruct (dict_mem t per_type); [reflexivity|].
    rewrite dict_get_set by (try assumption; apply Hkeys). rewrite Hne. reflexivity. }
  assert (Hrows : dict_get t per_type1 = Some (rows_of_type t done)).
  { subst per_type1. destruct (dict_mem t per_type) eqn:Hmem.
    - apply dict_mem_get in Hmem as [v Hv]. rewrite (Hget t Ht) in Hv |- *.
      destruct (existsb (type_is t) done); [reflexivity | discriminate].
    - rewrite dict_get_set_same by exact Ht.
      assert (Hnone : dict_get t per_type = None).
      { unfold dict_mem in Hmem. destruct (dict_get t per_type); [discriminate | reflexivity]. }
      rewrite (Hget t Ht) in Hnone.
      destruct (existsb (type_is t) done) eqn:E; [discriminate|].
      rewrite (rows_of_type_none t done E). reflexivity. }
  assert (Htotal1 : total_rows per_type1 = total_rows per_type).
  { subst per_type1. destruct (dict_mem t per_type) eqn:Hmem; [reflexivity|].
    rewrite dict_set_fresh by exact Hmem. apply total_rows_snoc. }
  assert (Hthis : type_is t ioc = true).
  { unfold type_is. rewrite Hty. apply py_eqb_refl. exact Ht. }
  rewrite Hrows. repeat split.
  - apply dict_keys_set; [exact Ht | apply Hkeys1].
  - apply dict_keys_set; [exact Ht | exact Hkeys1].
  - intros k Hk. rewrite dict_get_set by (try assumption; apply Hkeys1).
    rewrite existsb_app. unfold rows_of_type at 2. rewrite flat_map_app.
    fold (rows_of_type k done). cbn [existsb flat_map]. rewrite orb_false_r, app_nil_r.
    unfold type_is at 2 3. rewrite Hty, Hrow.
    destruct (py_eqb t k) eqn:Htk.
    + rewrite orb_true_r.
      destruct (rows_of_type_equiv t k done Ht Hk Htk Htypes) as [-> _]. reflexivity.
    + rewrite orb_false_r, app_nil_r. rewrite (Hget1 k Hk Htk). apply Hget. exact Hk.
  - intros x Hx. apply in_app_or in Hx as [Hx|[<-|[]]].
    + apply Htypes. exact Hx.
    + exists t. split; assumption.
  - pose proof (total_rows_set t (rows_of_type t done) (rows_of_type t done ++ [row])
                  per_type1 Hrows) as H.
    rewrite length_app in *. cbn [length] in *. lia.
Qed.

Lemma grouped_nil : grouped [] [].
Proof.
  repeat split; try constructor. intros x [].
Qed.

Lemma cells_frame_of_rows cols rows : cells (frame_of_rows cols rows) = map (map Some) rows.
Proof. reflexivity. Qed.

Lemma row_count_frames (per_type : pydict (list (list json))) :
  row_count (map (fun entry => (fst entry, frame_of_rows ioc_columns (snd entry))) per_type)
  = total_rows per_type.
Proof.
  unfold row_count, total_rows. induction per_type as [|[k rows] d IH]; cbn; [reflexivity|].
  rewrite !length_app, IH, length_map. reflexivity.
Qed.

(** The sheets of [transform_iocs]. *)
Lemma transform_iocs_sheets (iocs : list json) (result : pydict frame) :
  transform_iocs iocs = Ok result ->
  (forall ioc, In ioc iocs -> exists t, ioc_type ioc = Ok t /\ dict_mem t result = true) /\
  (forall k df, In (k, df) result ->
     existsb (type_is k) iocs = true /\
     df = frame_of_rows ioc_columns (rows_of_type k iocs)) /\
  unique_keys (keys result) = true /\
  row_count result = length iocs.
Proof.
  unfold transform_iocs. intros Hrun.
  destruct (for_each add_ioc iocs []) as [per_type|e] eqn:Hloop; [|discriminate].
  cbn [bind] in Hrun. injection Hrun as <-.
  pose proof (for_each_invariant add_ioc grouped add_ioc_grouped iocs [] [] per_type
                grouped_nil Hloop) as (Hkeys & Hget & Htypes & Htotal).
  cbn [app] in *.
  rewrite fold_dict_set_map by apply Hkeys. cbn [app].
  repeat split.
  - intros ioc Hin. destruct (Htypes ioc Hin) as (t & Hty & Ht). exists t. split; [exact Hty|].
    apply dict_mem_get. rewrite dict_get_map, (Hget t Ht).
    replace (existsb (type_is t) iocs) with true; [eexists; reflexivity|].
    symmetry. apply existsb_exists. exists ioc. split; [exact Hin|].
    unfold type_is. rewrite Hty. apply py_eqb_refl. exact Ht.
  - apply in_map_iff in H as ([k' rows] & Heq & Hin). cbn in Heq. injection Heq as -> <-.
    pose proof (In_dict_get k rows per_type Hkeys Hin) as Hk.
    rewrite Hget in Hk.
    + destruct (existsb (type_is k) iocs); [reflexivity | discriminate].
    + destruct Hkeys as [Hh _]. rewrite List.Forall_forall in Hh. apply Hh.
      apply (In_keys k rows). exact Hin.
  - apply in_map_iff in H as ([k' rows] & Heq & Hin). cbn in Heq. injection Heq as -> <-.
    pose proof (In_dict_get k rows per_type Hkeys Hin) as Hk.
    rewrite Hget in Hk.
    + destruct (existsb (type_is k) iocs); [|discriminate]. injection Hk as <-. reflexivity.
    + destruct Hkeys as [Hh _]. rewrite List.Forall_forall in Hh. apply Hh.
      apply (In_keys k rows). exact Hin.
  - rewrite keys_map. apply Hkeys.
  - rewrite row_count_frames. exact Htotal.
Qed.

Lemma strings_total l : forallb is_str l = true -> exists names, strings l = Ok names.
Proof.
  induction l as [|x l IH]; cbn; [exists []; reflexivity|].
  intros H. apply andb_true_iff in H as [Hx Hl]. destruct x; try discriminate.
  destruct (IH Hl) as [names ->]. eexists. reflexivity.
Qed.

Lemma add_ioc_total per_type ioc :
  well_formed ioc = true -> exists per_type', add_ioc per_type ioc = Ok per_type'.
Proof.
  destruct ioc as [| | | | |d]; try discriminate. cbn [well_formed].
  intros H. apply andb_true_iff in H as [H Hplat]. apply andb_true_iff in H as [Htype Hmeta].
  unfold add_ioc, ioc_type, ioc_row, platforms_cell, hashed. cbn [py_get bind].
  assert (Ht : hashable (match lookup_str "type" d with Some x => x | None => JStr "Unknown" end)
               = true).
  { destruct (lookup_str "type" d); [exact Htype | reflexivity]. }
  rewrite Ht. cbn [bind].
  assert (Hm : exists v, py_get (match lookup_str "metadata" d with
                                 | Some x => x | None => JDict [] end)
                           "original_filename" (JStr EmptyString) = Ok v).
  { destruct (lookup_str "metadata" d) as [[]|]; try discriminate; eexists; reflexivity. }
  destruct Hm as [v ->]. cbn [bind].
  destruct (lookup_str "platforms" d) as [[| | | |l|]|]; cbn; try (eexists; reflexivity).
  destruct (strings_total l Hplat) as [names ->]. cbn. eexists. reflexivity.
Qed.

Lemma transform_iocs_total iocs :
  forallb well_formed iocs = true -> exists result, transform_iocs iocs = Ok result.
Proof.
  intros Hwf. unfold transform_iocs.
  assert (H : forall per_type, exists per_type', for_each add_ioc iocs per_type = Ok per_type').
  { induction iocs as [|ioc iocs IH]; intros per_type; cbn; [eexists; reflexivity|].
    cbn in Hwf. apply andb_true_iff in Hwf as [Hioc Hwf].
    destruct (add_ioc_total per_type ioc Hioc) as [p1 ->]. cbn. apply IH. exact Hwf. }
  destruct (H []) as [per_type ->]. cbn. eexists. reflexivity.
Qed.

End exportiocs_facts.


(** ** Sheets of the prevention-policy transform *)

Module exportpp_facts.
Import exportpp.

Lemma py_eqb_JStr k s : py_eqb k (JStr s) = true -> k = JStr s.
Proof.
  destruct k; cbn; try discriminate. intros H. apply String.eqb_eq in H. congruence.
Qed.

Lemma hashed_Ok k : hashed k = Ok tt -> hashable k = true.
Proof. unfold hashed. destruct (hashable k); [reflexivity | discriminate]. Qed.

(** What one round of the policy loop does. *)
Lemma add_policy_inv host_counts per_os pol per_os' :
  add_policy host_counts per_os pol = Ok per_os' ->
  exists so,
    platform pol = Ok so /\
    ((ignored so = true /\ per_os' = per_os) \/
     (ignored so = false /\ hashable so = true /\
      exists id pol_name prevention_settings groups m1 m',
        py_get pol "id" JNull = Ok id /\
        py_get pol "name" id = Ok pol_name /\
        py_get pol "prevention_settings" (JList []) = Ok prevention_settings /\
        py_iter prevention_settings = Ok groups /\
        for_each (add_group pol_name) groups (motors_of so (with_platform so per_os)) = Ok m1 /\
        add_host_count host_counts pol_name m1 = Ok m' /\
        per_os' = dict_set so m' (with_platform so per_os))).
Proof.
  unfold add_policy, platform. intros H.
  destruct (py_get pol "platform_name" (JStr "Unknown")) as [so|e]; [|discriminate].
  cbn [bind] in H. exists so. split; [reflexivity|].
  destruct (ignored so) eqn:Hig.
  - left. split; [reflexivity|]. congruence.
  - right. split; [reflexivity|].
    destruct (py_get pol "id" JNull) as [id|e] eqn:Hid; [|discriminate]. cbn [bind] in H.
    destruct (py_get pol "name" id) as [pol_name|e] eqn:Hname; [|discriminate].
    cbn [bind] in H.
    destruct (py_get pol "prevention_settings" (JList [])) as [ps|e] eqn:Hps; [|discriminate].
    cbn [bind] in H.
    destruct (hashed so) as [[]|e] eqn:Hh; [|discriminate]. cbn [bind] in H.
    destruct (py_iter ps) as [groups|e] eqn:Hgroups; [|discriminate]. cbn [bind] in H.
    fold (with_platform so per_os) in H. fold (motors_of so (with_platform so per_os)) in H.
    destruct (for_each (add_group pol_name) groups _) as [m1|e] eqn:Hloop; [|discriminate].
    cbn [bind] in H.
    destruct (add_host_count host_counts pol_name m1) as [m'|e] eqn:Hhc; [|discriminate].
    cbn [bind] in H. injection H as <-.
    split; [apply hashed_Ok; exact Hh|].
    exists id, pol_name, ps, groups, m1, m'. repeat split; try assumption; reflexivity.
Qed.

Lemma with_platform_keys so per_os :
  keys (with_platform so per_os) = if dict_mem so per_os then keys per_os else keys per_os ++ [so].
Proof.
  unfold with_platform. destruct (dict_mem so per_os) eqn:E; [reflexivity|].
  rewrite keys_dict_set, E. reflexivity.
Qed.

Lemma with_platform_mem so per_os :
  hashable so = true -> dict_mem so (with_platform so per_os) = true.
Proof.
  intros Hso. unfold with_platform. destruct (dict_mem so per_os) eqn:E; [exact E|].
  apply dict_mem_get. exists []. apply dict_get_set_same. exact Hso.
Qed.

Lemma keys_after_policy so m' per_os :
  hashable so = true ->
  keys (dict_set so m' (with_platform so per_os)) =
  if dict_mem so per_os then keys per_os else keys per_os ++ [so].
Proof.
  intros Hso. rewrite keys_dict_set, with_platform_mem by exact Hso. apply with_platform_keys.
Qed.

Lemma dict_mem_keys {V W : Type} (k : json) (d : pydict V) (d' : pydict W) :
  keys d = keys d' -> dict_mem k d = dict_mem k d'.
Proof.
  unfold dict_mem. revert d'. induction d as [|[k0 v0] d IH]; intros [|[k1 v1] d'] H;
    try discriminate; [reflexivity|].
  cbn in H. injection H as -> H. cbn. destruct (py_eqb k1 k); [reflexivity|]. apply IH. exact H.
Qed.

Lemma dict_mem_snoc {V : Type} (k k' : json) (v : V) (d : pydict V) :
  dict_mem k (d ++ [(k', v)]) = dict_mem k d || py_eqb k' k.
Proof.
  unfold dict_mem. induction d as [|[k0 v0] d IH]; cbn.
  - destruct (py_eqb k' k); reflexivity.
  - destruct (py_eqb k0 k); [reflexivity | exact IH].
Qed.

Lemma dict_mem_key_list {V : Type} (k : json) (d : pydict V) :
  dict_mem k d = existsb (fun k0 => py_eqb k0 k) (keys d).
Proof.
  unfold dict_mem. induction d as [|[k0 v0] d IH]; cbn; [reflexivity|].
  destruct (py_eqb k0 k); [reflexivity | exact IH].
Qed.

Lemma add_policy_platforms host_counts done pol per_os per_os' :
  platforms_of done per_os ->
  add_policy host_counts per_os pol = Ok per_os' ->
  platforms_of (done ++ [pol]) per_os'.
Proof.
  intros (Hkeys & Hfrom & Hto) Hadd.
  destruct (add_policy_inv _ _ _ _ Hadd) as (so & Hso & [[Hig ->]|(Hig & Hh & Hrest)]).
  - split; [exact Hkeys|]. split.
    + intros k Hk. destruct (Hfrom k Hk) as (Hk1 & p & Hp & Hpk).
      split; [exact Hk1|]. exists p. split; [apply in_or_app; left; exact Hp | exact Hpk].
    + intros p Hp. apply in_app_or in Hp as [Hp|[<-|[]]]; [apply Hto; exact Hp|].
      exists so. split; [exact Hso|]. rewrite Hig. discriminate.
  - destruct Hrest as (id & pol_name & ps & groups & m1 & m' & _ & _ & _ & _ & _ & _ & ->).
    assert (Hk' : keys (dict_set so m' (with_platform so per_os)) =
                  if dict_mem so per_os then keys per_os else keys per_os ++ [so])
      by (apply keys_after_policy; exact Hh).
    split; [|split].
    + unfold with_platform. destruct (dict_mem so per_os).
      * apply dict_keys_set; assumption.
      * apply dict_keys_set; [exact Hh|]. apply dict_keys_set; assumption.
    + intros k Hk. rewrite Hk' in Hk.
      assert (Hcase : In k (keys per_os) \/ k = so).
      { destruct (dict_mem so per_os); [left; exact Hk|].
        apply in_app_or in Hk as [Hk|[<-|[]]]; [left; exact Hk | right; reflexivity]. }
      destruct Hcase as [Hold| ->].
      * destruct (Hfrom k Hold) as (Hk1 & p & Hp & Hpk).
        split; [exact Hk1|]. exists p. split; [apply in_or_app; left; exact Hp | exact Hpk].
      * split; [exact Hig|]. exists pol. split; [apply in_or_app; right; left; reflexivity|].
        exact Hso.
    + intros p Hp.
      assert (Hmono : forall k, dict_mem k per_os = true ->
                                dict_mem k (dict_set so m' (with_platform so per_os)) = true).
      { intros k Hk. rewrite dict_mem_key_list, Hk'. rewrite dict_mem_key_list in Hk.
        destruct (dict_mem so per_os); [exact Hk|]. rewrite existsb_app, Hk. reflexivity. }
      apply in_app_or in Hp as [Hp|[<-|[]]].
      * destruct (Hto p Hp) as (so' & Hso' & Hmem). exists so'. split; [exact Hso'|].
        intros Hig'. apply Hmono. apply Hmem. exact Hig'.
      * exists so. split; [exact Hso|]. intros _.
        apply dict_mem_get. exists m'. apply dict_get_set_same. exact Hh.
Qed.

Lemma platforms_of_nil : platforms_of [] [].
Proof.
  split; [split; [constructor | reflexivity]|]. split; [intros k [] | intros p []].
Qed.

(** The frames are built entry by entry, under the keys of [per_os]. *)
Lemma add_frames entries : forall acc result,
  unique_keys (keys acc ++ keys entries) = true ->
  for_each add_frame entries acc = Ok result ->
  exists frames,
    result = acc ++ frames /\
    Forall2 (fun entry sheet =>
               fst sheet = fst entry /\ build_frame (fst entry) (snd entry) = Ok (snd sheet))
            entries frames.
Proof.
  induction entries as [|[so m] entries IH]; intros acc result Hu Hrun; cbn in Hrun.
  - injection Hrun as <-. exists []. rewrite app_nil_r. split; [reflexivity | constructor].
  - unfold add_frame in Hrun at 1. cbn [fst snd] in Hrun.
    destruct (build_frame so m) as [df|e] eqn:Hdf; [|discriminate]. cbn [bind] in Hrun.
    cbn in Hu.
    rewrite dict_set_fresh in Hrun.
    2:{ apply exportiocs_facts.dict_mem_false_keys.
        apply (exportiocs_facts.unique_keys_app_fresh _ _ _ Hu). }
    destruct (IH (acc ++ [(so, df)]) result) as (frames & -> & Hall).
    + unfold keys. rewrite map_app. cbn. rewrite <- app_assoc. exact Hu.
    + exact Hrun.
    + exists ((so, df) :: frames). rewrite <- app_assoc. split; [reflexivity|].
      constructor; [split; [reflexivity | exact Hdf] | exact Hall].
Qed.

Lemma Forall2_keys (entries : pydict motors) (frames : pydict frame) :
  Forall2 (fun entry sheet =>
             fst sheet = fst entry /\ build_frame (fst entry) (snd entry) = Ok (snd sheet))
          entries frames ->
  keys frames = keys entries.
Proof.
  induction 1 as [|e f es fs [Hk _] _ IH]; [reflexivity|].
  unfold keys in *. cbn [map]. rewrite Hk, IH. reflexivity.
Qed.

(** The result of the transform, sheet by sheet. *)
Lemma transform_policies_inv policies host_counts result :
  transform_policies policies host_counts = Ok result ->
  exists per_os,
    for_each (add_policy host_counts) policies [] = Ok per_os /\
    platforms_of policies per_os /\
    keys result = keys per_os /\
    Forall2 (fun entry sheet =>
               fst sheet = fst entry /\ build_frame (fst entry) (snd entry) = Ok (snd sheet))
            per_os result.
Proof.
  unfold transform_policies. intros Hrun.
  destruct (for_each (add_policy host_counts) policies []) as [per_os|e] eqn:Hloop;
    [|discriminate].
  cbn [bind] in Hrun. exists per_os. split; [reflexivity|].
  pose proof (for_each_invariant (add_policy host_counts) platforms_of
                (add_policy_platforms host_counts) policies [] [] per_os
                platforms_of_nil Hloop) as Hplat.
  cbn [app] in Hplat. split; [exact Hplat|].
  destruct (add_frames per_os [] result) as (frames & -> & Hall).
  - apply Hplat.
  - exact Hrun.
  - cbn [app]. split; [apply Forall2_keys; exact Hall | exact Hall].
Qed.

(** The sheets of [transform_policies]: one per platform of the policies
    that are not skipped. *)
Lemma transform_policies_sheets policies host_counts result :
  transform_policies policies host_counts = Ok result ->
  (forall pol, In pol policies ->
     exists so, platform pol = Ok so /\ dict_mem so result = negb (ignored so)) /\
  (forall k, In k (keys result) ->
     ignored k = false /\ exists pol, In pol policies /\ platform pol = Ok k) /\
  unique_keys (keys result) = true.
Proof.
  intros Hrun.
  destruct (transform_policies_inv _ _ _ Hrun) as (per_os & _ & (Hkeys & Hfrom & Hto) & Hk & _).
  split; [|split].
  - intros pol Hin. destruct (Hto pol Hin) as (so & Hso & Hmem). exists so. split; [exact Hso|].
    rewrite (dict_mem_keys so result per_os Hk).
    destruct (ignored so) eqn:Hig; cbn; [|apply Hmem; reflexivity].
    rewrite dict_mem_key_list.
    destruct (existsb (fun k0 => py_eqb k0 so) (keys per_os)) eqn:E; [|reflexivity].
    apply existsb_exists in E as (k0 & Hk0 & Heq).
    destruct (Hfrom k0 Hk0) as (Hig0 & _).
    unfold ignored in Hig, Hig0. apply orb_true_iff in Hig.
    apply orb_false_iff in Hig0 as [H1 H2].
    destruct Hig as [Hm|Hm]; apply py_eqb_JStr in Hm; subst so; congruence.
  - intros k Hin. rewrite Hk in Hin. apply Hfrom. exact Hin.
  - rewrite Hk. apply Hkeys.
Qed.

End exportpp_facts.


(** ** One sheet per discriminator *)

Module sheet_routing.

(** C7 (as amended). The indicator transform makes one sheet per distinct
    "type" of the indicators, "Unknown" standing for a missing type; every
    indicator has its row in the sheet of its type and nowhere else, in the
    order of the input, so that no indicator is dropped. The prevention-policy
    transform makes one sheet per distinct "platform_name" of the policies
    other than those of the platforms "Mobile" and "Meta", which it skips,
    "Unknown" standing for a missing platform. A discriminator that is
    present names its sheet as it is: there is no list of recognized
    values. *)
Theorem one_sheet_per_discriminator
    (iocs policies : list json) (host_counts : pydict Z) (per_os : pydict frame) :
  forallb exportiocs.well_formed iocs = true ->
  exportpp.transform_policies policies host_counts = Ok per_os ->
  (exists per_type,
     exportiocs.transform_iocs iocs = Ok per_type /\
     (forall ioc, In ioc iocs ->
        exists t, exportiocs.ioc_type ioc = Ok t /\ dict_mem t per_type = true) /\
     (forall k df, In (k, df) per_type ->
        existsb (exportiocs.type_is k) iocs = true /\
        df = frame_of_rows exportiocs.ioc_columns (exportiocs.rows_of_type k iocs)) /\
     unique_keys (keys per_type) = true /\
     exportiocs.row_count per_type = length iocs) /\
  (forall d, lookup_str "type" d = None ->
     exportiocs.ioc_type (JDict d) = Ok (JStr "Unknown")) /\
  (forall pol, In pol policies ->
     exists so, exportpp.platform pol = Ok so /\
                dict_mem so per_os = negb (exportpp.ignored so)) /\
  (forall k, In k (keys per_os) ->
     exportpp.ignored k = false /\
     exists pol, In pol policies /\ exportpp.platform pol = Ok k) /\
  unique_keys (keys per_os) = true /\
  (forall d, lookup_str "platform_name" d = None ->
     exportpp.platform (JDict d) = Ok (JStr "Unknown")).
Proof.
  intros Hwf Hpp.
  destruct (exportiocs_facts.transform_iocs_total iocs Hwf) as [per_type Hiocs].
  pose proof (exportiocs_facts.transform_iocs_sheets iocs per_type Hiocs) as Hsheets.
  pose proof (exportpp_facts.transform_policies_sheets policies host_counts per_os Hpp)
    as (Hto & Hfrom & Hu).
  split; [exists per_type; split; [exact Hiocs | exact Hsheets]|].
  split; [intros d Hd; unfold exportiocs.ioc_type; cbn; rewrite Hd; reflexivity|].
  split; [exact Hto|]. split; [exact Hfrom|]. split; [exact Hu|].
  intros d Hd. unfold exportpp.platform. cbn. rewrite Hd. reflexivity.
Qed.

Lemma one_sheet_per_discriminator_witness :
  forallb exportiocs.well_formed exportiocs.three_iocs = true /\
  (exists so, exportpp.platform exportpp.mobile_policy = Ok so /\
              dict_mem so
                [(JStr "Windows",
                  {| index := [JInt 0; JInt 1; JInt 2; JInt 3; JInt 4];
                     columns := [JStr exportpp.label_column; JStr "Recomended";
                                 JStr "Default"; JStr "Servers"];
                     cells :=
                       [[Some (JStr "Cloud Anti-malware (Detection)");
                         Some (JStr "AGGRESSIVE"); Some (JStr "aggressive"); None];
                        [Some (JStr "Cloud Anti-malware (Prevention)");
                         Some (JStr "AGGRESSIVE"); Some (JStr "moderate"); None];
                        [Some (JStr "Notify End Users"); Some (JStr "ON");
                         Some (JStr "ON"); Some (JStr "OFF")];
                        [Some (JStr "Extended User Mode Data (Detection)");
                         Some (JStr "MODERATE"); Some (JStr "moderate"); None];
                        [Some (JStr "Host Count"); Some (JStr EmptyString);
                         Some (JStr "3"); None]] |});
                 (JStr "Unknown",
                  {| index := [JInt 0];
                     columns := [JStr exportpp.label_column; JStr "Recomended"; JStr "Legacy"];
                     cells := [[Some (JStr "Quarantine"); Some (JStr EmptyString);
                                Some (JStr "OFF")]] |})]
              = negb (exportpp.ignored so)).
Proof.
  split; [reflexivity|].
  refine (proj1 (proj2 (proj2 (one_sheet_per_discriminator exportiocs.three_iocs
            exportpp.four_policies [(JStr "Default", 3%Z)] _ _ _)))
            exportpp.mobile_policy _).
  - reflexivity.
  - reflexivity.
  - right. left. reflexivity.
Defined.

(** C7 as it is stated fails: a policy of the platform "Mobile" reaches no
    sheet. *)
Lemma mobile_policy_has_no_sheet :
  exportpp.platform exportpp.mobile_policy = Ok (JStr "Mobile") /\
  In exportpp.mobile_policy exportpp.four_policies /\
  exists per_os,
    exportpp.transform_policies exportpp.four_policies [] = Ok per_os /\
    dict_mem (JStr "Mobile") per_os = false /\
    keys per_os = [JStr "Windows"; JStr "Unknown"].
Proof.
  split; [reflexivity|]. split; [right; left; reflexivity|].
  eexists. split; [vm_compute; reflexivity|]. split; vm_compute; reflexivity.
Qed.

End sheet_routing.


(** ** More facts about strings *)

Lemma length_append (a b : string) :
  String.length (a +:+ b) = String.length a + String.length b.
Proof.
  induction a as [|x a IH]; [reflexivity|].
  rewrite append_cons. cbn [String.length]. rewrite IH. reflexivity.
Qed.

Lemma drop_str_append (a b : string) : drop_str (String.length a) (a +:+ b) = b.
Proof.
  induction a as [|x a IH]; [reflexivity|]. rewrite append_cons. exact IH.
Qed.

Lemma free_of_append c a b : free_of c (a +:+ b) = free_of c a && free_of c b.
Proof.
  induction a as [|x a IH]; [reflexivity|].
  rewrite append_cons. cbn [free_of]. rewrite IH. apply andb_assoc.
Qed.

Lemma contains_trans a b s : contains a b = true -> contains b s = true -> contains a s = true.
Proof.
  rewrite !contains_spec. intros (p1 & q1 & ->) (p2 & q2 & ->).
  exists (p2 +:+ p1), (q1 +:+ q2). rewrite !append_assoc. reflexivity.
Qed.

Lemma contains_pair a b s : contains (String a (String b EmptyString)) s = has_pair a b s.
Proof.
  induction s as [|x s IH]; [reflexivity|].
  cbn [contains has_pair startswith]. rewrite IH.
  destruct s as [|y s]; cbn.
  - destruct (Ascii.eqb a x); reflexivity.
  - destruct (Ascii.eqb a x); cbn; [|reflexivity].
    destruct (Ascii.eqb b y); reflexivity.
Qed.

Lemma has_pair_free a b s : free_of b s = true -> has_pair a b s = false.
Proof.
  induction s as [|x s IH]; [reflexivity|]. cbn [free_of has_pair].
  intros H. apply andb_true_iff in H as [_ H]. destruct s as [|y s]; [reflexivity|].
  rewrite (IH H). cbn [free_of] in H. apply andb_true_iff in H as [Hy _].
  apply negb_true_iff in Hy. rewrite (Ascii.eqb_sym b y), Hy, andb_false_r. reflexivity.
Qed.

Lemma has_pair_append a b s1 s2 :
  has_pair a b (s1 +:+ s2) =
  has_pair a b s1 || (last_is a s1 && first_is b s2) || has_pair a b s2.
Proof.
  induction s1 as [|x s1 IH]; [reflexivity|].
  rewrite append_cons. destruct s1 as [|x' s1].
  - rewrite append_nil_l. cbn [has_pair last_is orb]. destruct s2 as [|y s2]; cbn.
    + rewrite andb_false_r. reflexivity.
    + reflexivity.
  - rewrite append_cons in *. cbn [has_pair last_is] in *. rewrite IH.
    rewrite !orb_assoc. reflexivity.
Qed.

Lemma split_free sep a b :
  free_of sep a = true -> split sep (a +:+ String sep b) = a :: split sep b.
Proof.
  induction a as [|x a IH]; intros H.
  - rewrite append_nil_l. cbn [split]. rewrite Ascii.eqb_refl. reflexivity.
  - rewrite append_cons. cbn [free_of] in H. apply andb_true_iff in H as [Hx H].
    apply negb_true_iff in Hx. cbn [split]. rewrite Hx, (IH H). reflexivity.
Qed.

Lemma split_free_end sep a : free_of sep a = true -> split sep a = [a].
Proof.
  induction a as [|x a IH]; intros H; [reflexivity|].
  cbn [free_of] in H. apply andb_true_iff in H as [Hx H].
  apply negb_true_iff in Hx. cbn [split]. rewrite Hx, (IH H). reflexivity.
Qed.

(** A name that ends in " (Detection)" is not the excluded row. *)
Lemma detection_row_not_excluded (name : string) :
  String.eqb (name +:+ " (Detection)") exportpp.excluded_row = false.
Proof.
  apply String.eqb_neq. intros H.
  assert (Hlen : String.length name = 24).
  { apply (f_equal String.length) in H. rewrite length_append in H. cbn in H. lia. }
  apply (f_equal (drop_str 24)) in H. rewrite <- Hlen, drop_str_append in H.
  rewrite Hlen in H. cbn in H. discriminate.
Qed.


(** ** Text joined with a separator *)

Lemma startswith_sep (sep : ascii) (p a b : string) :
  free_of sep p = true -> startswith p (a +:+ String sep b) = startswith p a.
Proof.
  revert a. induction p as [|x p IH]; intros a Hp; [reflexivity|].
  cbn [free_of] in Hp. apply andb_true_iff in Hp as [Hx Hp]. apply negb_true_iff in Hx.
  destruct a as [|y a].
  - rewrite append_nil_l. cbn [startswith]. rewrite Hx. reflexivity.
  - rewrite append_cons. cbn [startswith]. destruct (Ascii.eqb x y); [apply (IH a Hp) | reflexivity].
Qed.

Lemma contains_sep (sep : ascii) (p a b : string) :
  free_of sep p = true -> p <> EmptyString ->
  contains p (a +:+ String sep b) = contains p a || contains p b.
Proof.
  intros Hp Hne. induction a as [|y a IH].
  - rewrite append_nil_l. destruct p as [|x p]; [contradiction|].
    cbn [free_of] in Hp. apply andb_true_iff in Hp as [Hx _]. apply negb_true_iff in Hx.
    cbn [contains startswith]. rewrite Hx. reflexivity.
  - rewrite append_cons. cbn [contains]. rewrite <- append_cons.
    rewrite (startswith_sep sep p (String y a) b Hp), IH. apply orb_assoc.
Qed.

Lemma join_cons (sep t : string) (ts : list string) :
  ts <> [] -> join sep (t :: ts) = t +:+ sep +:+ join sep ts.
Proof. destruct ts; [contradiction | reflexivity]. Qed.

(** A token without the separator is in the joined text only when it is in
    one of the parts. *)
Lemma contains_join (p : string) (ts : list string) :
  free_of "/" p = true -> p <> EmptyString ->
  (forall t, In t ts -> contains p t = false) ->
  contains p (join "/" ts) = false.
Proof.
  intros Hp Hne. induction ts as [|t ts IH]; intros Hall.
  - destruct p; [contradiction | reflexivity].
  - destruct ts as [|t' ts]; [apply Hall; left; reflexivity|].
    rewrite join_cons by discriminate.
    change (t +:+ "/" +:+ join "/" (t' :: ts)) with (t +:+ String "/" (join "/" (t' :: ts))).
    rewrite (contains_sep "/" p t _ Hp Hne), (Hall t (or_introl eq_refl)).
    apply IH. intros u Hu. apply Hall. right. exact Hu.
Qed.

Lemma join_part (sep t : string) (ts : list string) :
  In t ts -> exists a b, join sep ts = a +:+ t +:+ b.
Proof.
  induction ts as [|u ts IH]; intros Hin; [destruct Hin|].
  destruct ts as [|u' ts].
  - destruct Hin as [->|[]]. exists EmptyString, EmptyString.
    rewrite append_nil_l, append_nil_r. reflexivity.
  - rewrite join_cons by discriminate. destruct Hin as [->|Hin].
    + exists EmptyString, (sep +:+ join sep (u' :: ts)). rewrite append_nil_l. reflexivity.
    + destruct (IH Hin) as (a & b & ->). exists (u +:+ sep +:+ a), b.
      rewrite !append_assoc. reflexivity.
Qed.

Lemma contains_part (p sep t : string) (ts : list string) :
  In t ts -> contains p t = true -> contains p (join sep ts) = true.
Proof.
  intros Hin Hp. destruct (join_part sep t ts Hin) as (a & b & ->).
  apply contains_spec in Hp as (x & y & ->). apply contains_spec.
  exists (a +:+ x), (y +:+ b). rewrite !append_assoc. reflexivity.
Qed.

Lemma split_join (ts : list string) :
  ts <> [] -> (forall t, In t ts -> free_of "/" t = true) -> split "/" (join "/" ts) = ts.
Proof.
  induction ts as [|t ts IH]; intros Hne Hall; [contradiction|].
  destruct ts as [|t' ts].
  - apply split_free_end. apply Hall. left. reflexivity.
  - rewrite join_cons by discriminate.
    change (t +:+ "/" +:+ join "/" (t' :: ts)) with (t +:+ String "/" (join "/" (t' :: ts))).
    rewrite split_free by (apply Hall; left; reflexivity).
    rewrite IH; [reflexivity | discriminate |]. intros u Hu. apply Hall. right. exact Hu.
Qed.

(** ** Compound values of the prevention-policy transform *)

Module compound_facts.
Import exportpp.

Lemma plain_inv v :
  plain v = true ->
  v <> EmptyString /\ free_of "/"%char v = true /\ free_of ":"%char v = true.
Proof.
  unfold plain. intros H. apply andb_true_iff in H as [H H3]. apply andb_true_iff in H as [H1 H2].
  repeat split; try assumption. apply negb_true_iff in H1. apply String.eqb_neq. exact H1.
Qed.

Lemma split_tagged tag v :
  free_of ":"%char tag = true -> free_of ":"%char v = true ->
  split ":" (tag +:+ String ":" v) = [tag; v].
Proof.
  intros Ht Hv. rewrite split_free by exact Ht. rewrite split_free_end by exact Hv. reflexivity.
Qed.

(** The text of an indicator holds no token of a boolean. *)
Lemma tagged_no_token (tag v tok : string) :
  has_pair "d" ":" (tag +:+ ":") = false -> free_of ":"%char v = true ->
  contains "d:" tok = true ->
  contains tok (tag +:+ ":" +:+ v) = false.
Proof.
  intros Htag Hv Htok. destruct (contains tok (tag +:+ ":" +:+ v)) eqn:E; [|reflexivity].
  pose proof (contains_trans _ _ _ Htok E) as H.
  rewrite (contains_pair "d" ":") in H. rewrite <- append_assoc in H.
  rewrite (has_pair_append "d" ":" (tag +:+ ":") v) in H.
  rewrite Htag, (has_pair_free "d" ":" v Hv) in H. cbn [orb] in H.
  destruct v as [|c v]; [rewrite andb_false_r in H; discriminate|].
  cbn [free_of] in Hv. apply andb_true_iff in Hv as [Hc _]. apply negb_true_iff in Hc.
  cbn [first_is] in H. rewrite Ascii.eqb_sym, Hc, andb_false_r in H. discriminate.
Qed.

Section Indicators.

Variables (entries : list (string * json)) (d p : string).
Hypothesis Hdet : In ("detection", JStr d) entries.
Hypothesis Hprev : In ("prevention", JStr p) entries.
Hypothesis Hall :
  Forall (fun kv => kv = ("detection", JStr d) \/ kv = ("prevention", JStr p)
                    \/ inert kv = true) entries.
Hypothesis Hd : plain d = true.
Hypothesis Hp : plain p = true.

Let texts : list string := map entry_text entries.

Lemma flatten_entries : flatten (JDict entries) = join "/" texts.
Proof. reflexivity. Qed.

Lemma text_quiet t :
  In t texts ->
  free_of "/" t = true /\ contains "enabled:" t = false /\ contains "configured:" t = false.
Proof.
  intros Ht. apply in_map_iff in Ht as (kv & <- & Hkv).
  rewrite List.Forall_forall in Hall.
  destruct (plain_inv d Hd) as (_ & Hd1 & Hd2). destruct (plain_inv p Hp) as (_ & Hp1 & Hp2).
  destruct (Hall kv Hkv) as [->|[->|Hi]].
  - unfold entry_text. cbn [fst snd py_str]. split; [|split].
    + rewrite !free_of_append, Hd1. reflexivity.
    + apply (tagged_no_token "detection" d "enabled:" eq_refl Hd2 eq_refl).
    + apply (tagged_no_token "detection" d "configured:" eq_refl Hd2 eq_refl).
  - unfold entry_text. cbn [fst snd py_str]. split; [|split].
    + rewrite !free_of_append, Hp1. reflexivity.
    + apply (tagged_no_token "prevention" p "enabled:" eq_refl Hp2 eq_refl).
    + apply (tagged_no_token "prevention" p "configured:" eq_refl Hp2 eq_refl).
  - unfold inert in Hi. repeat (apply andb_true_iff in Hi as [Hi ?]).
    repeat split; [assumption | apply negb_true_iff; assumption
                   | apply negb_true_iff; assumption].
Qed.

Lemma texts_not_nil : texts <> [].
Proof. subst texts. destruct entries; [destruct Hdet | discriminate]. Qed.

Lemma replace_if_in_quiet tok old new :
  contains tok old = true -> free_of "/" tok = true -> tok <> EmptyString ->
  (forall t, In t texts -> contains tok t = false) ->
  replace_if_in old new (join "/" texts) = join "/" texts.
Proof.
  intros Hold Hfree Hne Hno. unfold replace_if_in.
  destruct (contains old (join "/" texts)) eqn:E; [|reflexivity].
  pose proof (contains_trans _ _ _ Hold E) as H.
  rewrite (contains_join tok texts Hfree Hne Hno) in H. discriminate.
Qed.

Lemma collapse_entries : collapse (join "/" texts) = join "/" texts.
Proof.
  assert (He : forall t, In t texts -> contains "enabled:" t = false)
    by (intros t Ht; apply (text_quiet t Ht)).
  assert (Hc : forall t, In t texts -> contains "configured:" t = false)
    by (intros t Ht; apply (text_quiet t Ht)).
  unfold collapse. cbv zeta.
  rewrite (replace_if_in_quiet "enabled:" "enabled:True" "True" eq_refl eq_refl
             ltac:(discriminate) He).
  rewrite (replace_if_in_quiet "enabled:" "enabled:False" "False" eq_refl eq_refl
             ltac:(discriminate) He).
  rewrite (replace_if_in_quiet "configured:" "configured:True/True" "True" eq_refl eq_refl
             ltac:(discriminate) Hc).
  rewrite (replace_if_in_quiet "configured:" "configured:False/False" "False" eq_refl eq_refl
             ltac:(discriminate) Hc).
  rewrite (replace_if_in_quiet "configured:" "configured:True" "True" eq_refl eq_refl
             ltac:(discriminate) Hc).
  apply (replace_if_in_quiet "configured:" "configured:False" "False" eq_refl eq_refl
           ltac:(discriminate) Hc).
Qed.

Lemma entries_detected :
  contains "detection:" (join "/" texts) && contains "prevention:" (join "/" texts) = true.
Proof.
  apply andb_true_iff. split.
  - apply (contains_part "detection:" "/" (entry_text ("detection", JStr d)) texts).
    + apply in_map. exact Hdet.
    + apply contains_spec. exists EmptyString, d. reflexivity.
  - apply (contains_part "prevention:" "/" (entry_text ("prevention", JStr p)) texts).
    + apply in_map. exact Hprev.
    + apply contains_spec. exists EmptyString, p. reflexivity.
Qed.

Lemma split_entries : split "/" (join "/" texts) = texts.
Proof.
  apply split_join; [apply texts_not_nil|]. intros t Ht. apply (text_quiet t Ht).
Qed.

(** The first part that begins like an indicator is the indicator. *)
Lemma first_tagged (tag v : string) :
  In (tag, JStr v) entries ->
  (forall kv, In kv entries ->
     kv = (tag, JStr v) \/ startswith (tag +:+ ":") (entry_text kv) = false) ->
  exists rest, List.filter (startswith (tag +:+ ":")) texts = (tag +:+ ":" +:+ v) :: rest.
Proof.
  subst texts. clear Hdet Hprev Hall. induction entries as [|kv es IH]; intros Hin Hcases;
    [destruct Hin|].
  cbn [map List.filter]. destruct (Hcases kv (or_introl eq_refl)) as [->|Hno].
  - unfold entry_text at 1. cbn [fst snd py_str].
    rewrite (proj2 (startswith_spec (tag +:+ ":") (tag +:+ ":" +:+ v))).
    + eexists. reflexivity.
    + exists v. rewrite append_assoc. reflexivity.
  - rewrite Hno. destruct Hin as [->|Hin].
    + unfold entry_text in Hno. cbn [fst snd py_str] in Hno.
      rewrite (proj2 (startswith_spec (tag +:+ ":") (tag +:+ ":" +:+ v))) in Hno;
        [discriminate|]. exists v. rewrite append_assoc. reflexivity.
    + apply (IH Hin). intros kv' Hkv'. apply Hcases. right. exact Hkv'.
Qed.

Lemma indicators_entries :
  indicator "detection:" texts = Ok d /\ indicator "prevention:" texts = Ok p.
Proof.
  destruct (plain_inv d Hd) as (_ & _ & Hd2). destruct (plain_inv p Hp) as (_ & _ & Hp2).
  rewrite List.Forall_forall in Hall. split.
  - destruct (first_tagged "detection" d Hdet) as [rest Hrest].
    { intros kv Hkv. destruct (Hall kv Hkv) as [->|[->|Hi]]; [left; reflexivity | |].
      - right. reflexivity.
      - right. unfold inert in Hi. repeat (apply andb_true_iff in Hi as [Hi ?]).
        apply negb_true_iff. assumption. }
    unfold indicator. change ("detection:") with ("detection" +:+ ":"). rewrite Hrest.
    change ("detection" +:+ ":" +:+ d) with ("detection" +:+ String ":" d).
    rewrite split_tagged by (try reflexivity; assumption). reflexivity.
  - destruct (first_tagged "prevention" p Hprev) as [rest Hrest].
    { intros kv Hkv. destruct (Hall kv Hkv) as [->|[->|Hi]]; [| left; reflexivity |].
      - right. reflexivity.
      - right. unfold inert in Hi. repeat (apply andb_true_iff in Hi as [Hi ?]).
        apply negb_true_iff. assumption. }
    unfold indicator. change ("prevention:") with ("prevention" +:+ ":"). rewrite Hrest.
    change ("prevention" +:+ ":" +:+ p) with ("prevention" +:+ String ":" p).
    rewrite split_tagged by (try reflexivity; assumption). reflexivity.
Qed.

End Indicators.

(** What [add_setting] does with a compound value. *)
Lemma add_setting_compound pol_name m s name value d p :
  py_get s "name" JNull = Ok name ->
  py_get s "value" JNull = Ok value ->
  indicators value d p ->
  plain d = true -> plain p = true ->
  add_setting pol_name m s =
  let* m := set_cell (detection_row name) pol_name d m in
  if String.eqb (py_str name +:+ " (Prevention)") excluded_row then Ok m
  else set_cell (prevention_row name) pol_name p m.
Proof.
  intros Hname Hvalue (entries & -> & Hdet & Hprev & Hall) Hd Hp.
  unfold add_setting. rewrite Hname, Hvalue. cbn [bind].
  rewrite (flatten_entries entries).
  rewrite (collapse_entries entries d p) by assumption.
  rewrite (entries_detected entries d p) by assumption.
  rewrite (split_entries entries d p) by assumption.
  destruct (indicators_entries entries d p) as [-> ->]; try assumption. cbn [bind].
  apply plain_inv in Hd as (Hd & _). apply plain_inv in Hp as (Hp & _).
  apply String.eqb_neq in Hd, Hp. rewrite Hd, Hp. reflexivity.
Qed.

(** The mapping of the two indicators alone. *)
Lemma indicators_compound d p : indicators (compound d p) d p.
Proof.
  exists [("detection", JStr d); ("prevention", JStr p)].
  split; [reflexivity|]. split; [left; reflexivity|]. split; [right; left; reflexivity|].
  constructor; [left; reflexivity|]. constructor; [right; left; reflexivity | constructor].
Qed.

End compound_facts.


(** ** Rows of the prevention-policy sheets *)

Module rows_facts.
Import exportpp exportpp_facts.

(** A preserved property of the state holds after the loop, when the body
    preserves it on the elements of the list. *)
Lemma for_each_preserves {A S : Type} (body : S -> A -> res S) (P : S -> Prop) (xs : list A) :
  (forall s x s', In x xs -> P s -> body s x = Ok s' -> P s') ->
  forall s s', P s -> for_each body xs s = Ok s' -> P s'.
Proof.
  induction xs as [|x xs IH]; intros Hstep s s' HP Hrun; cbn in Hrun.
  - injection Hrun as <-. exact HP.
  - destruct (body s x) as [s1|e] eqn:Hb; [|discriminate]. cbn in Hrun.
    apply (IH (fun s0 y s0' Hy => Hstep s0 y s0' (or_intror Hy)) s1 s').
    + apply (Hstep s x s1 (or_introl eq_refl) HP Hb).
    + exact Hrun.
Qed.

Lemma set_cell_inv row pol_name value m m' :
  set_cell row pol_name value m = Ok m' ->
  hashable row = true /\ hashable pol_name = true /\
  exists inner,
    m' = dict_set row (dict_set pol_name value inner)
           (if dict_mem row m then m else dict_set row [] m).
Proof.
  unfold set_cell, hashed. intros H.
  destruct (hashable row); [|discriminate]. cbn [bind] in H.
  destruct (hashable pol_name); [|discriminate]. cbn [bind] in H.
  injection H as <-. repeat split. eexists. reflexivity.
Qed.

Lemma set_cell_total row pol_name value m :
  hashable row = true -> hashable pol_name = true ->
  exists m', set_cell row pol_name value m = Ok m'.
Proof.
  intros Hr Hp. unfold set_cell, hashed. rewrite Hr, Hp. cbn. eexists. reflexivity.
Qed.

Lemma set_cell_cell row pol_name value m m' :
  set_cell row pol_name value m = Ok m' -> cell m' row pol_name = Some value.
Proof.
  intros H. destruct (set_cell_inv _ _ _ _ _ H) as (Hr & Hp & inner & ->).
  unfold cell. rewrite dict_get_set_same by exact Hr. apply dict_get_set_same. exact Hp.
Qed.

Lemma ensure_mem {V : Type} (k : json) (v : V) (d : pydict V) :
  hashable k = true -> dict_mem k (if dict_mem k d then d else dict_set k v d) = true.
Proof.
  intros Hk. destruct (dict_mem k d) eqn:E; [exact E|].
  apply dict_mem_get. exists v. apply dict_get_set_same. exact Hk.
Qed.

Lemma ensure_keys {V : Type} (k : json) (v : V) (d : pydict V) :
  keys (if dict_mem k d then d else dict_set k v d) =
  if dict_mem k d then keys d else keys d ++ [k].
Proof.
  destruct (dict_mem k d) eqn:E; [reflexivity|]. rewrite keys_dict_set, E. reflexivity.
Qed.

Lemma set_cell_keys row pol_name value m m' :
  set_cell row pol_name value m = Ok m' ->
  keys m' = if dict_mem row m then keys m else keys m ++ [row].
Proof.
  intros H. destruct (set_cell_inv _ _ _ _ _ H) as (Hr & Hp & inner & ->).
  rewrite keys_dict_set, ensure_mem by exact Hr. apply ensure_keys.
Qed.

Lemma set_cell_hashables row pol_name value m m' :
  Forall (fun k => hashable k = true) (keys m) ->
  set_cell row pol_name value m = Ok m' ->
  Forall (fun k => hashable k = true) (keys m').
Proof.
  intros Hm H. rewrite (set_cell_keys _ _ _ _ _ H).
  destruct (set_cell_inv _ _ _ _ _ H) as (Hr & _).
  destruct (dict_mem row m); [exact Hm|].
  apply Forall_app. split; [exact Hm | constructor; [exact Hr | constructor]].
Qed.

Lemma set_cell_other_row row pol_name value m m' row' :
  Forall (fun k => hashable k = true) (keys m) ->
  set_cell row pol_name value m = Ok m' ->
  hashable row' = true -> py_eqb row row' = false ->
  dict_get row' m' = dict_get row' m.
Proof.
  intros Hm H Hr' Hne. destruct (set_cell_inv _ _ _ _ _ H) as (Hr & Hp & inner & ->).
  destruct (dict_mem row m).
  - rewrite dict_get_set by assumption. rewrite Hne. reflexivity.
  - rewrite dict_get_set; try assumption.
    + rewrite Hne. rewrite dict_get_set by assumption. rewrite Hne. reflexivity.
    + rewrite keys_dict_set. destruct (dict_mem row m); [exact Hm|].
      apply Forall_app. split; [exact Hm | constructor; [exact Hr | constructor]].
Qed.

Lemma set_cell_no_excluded row pol_name value m m' :
  no_excluded_row m -> py_eqb row (JStr excluded_row) = false ->
  set_cell row pol_name value m = Ok m' -> no_excluded_row m'.
Proof.
  intros Hm Hrow H k Hk. rewrite (set_cell_keys _ _ _ _ _ H) in Hk.
  destruct (dict_mem row m); [apply Hm; exact Hk|].
  apply in_app_or in Hk as [Hk|[<-|[]]]; [apply Hm; exact Hk | exact Hrow].
Qed.

Lemma add_setting_no_excluded pol_name m s m' :
  no_excluded_row m -> named_excluded s = false ->
  add_setting pol_name m s = Ok m' -> no_excluded_row m'.
Proof.
  intros Hm Hs. unfold add_setting, named_excluded in *.
  destruct (py_get s "name" JNull) as [name|e]; [|discriminate]. cbn [bind].
  destruct (py_get s "value" JNull) as [value|e]; [|discriminate]. cbn [bind].
  destruct (_ && _).
  - destruct (indicator "detection:" _) as [dv|e]; [|discriminate]. cbn [bind].
    destruct (indicator "prevention:" _) as [pv|e]; [|discriminate]. cbn [bind].
    set (after_detection := if String.eqb dv EmptyString then Ok m else _).
    destruct after_detection as [m1|e] eqn:Hdet; [|discriminate]. cbn [bind].
    assert (Hm1 : no_excluded_row m1).
    { subst after_detection. destruct (String.eqb dv EmptyString).
      - injection Hdet as <-. exact Hm.
      - apply (set_cell_no_excluded (JStr (py_str name +:+ " (Detection)")) _ _ _ _ Hm
                 (detection_row_not_excluded _) Hdet). }
    destruct (String.eqb pv EmptyString); [intros [= <-]; exact Hm1|].
    destruct (String.eqb _ excluded_row) eqn:Hex; [intros [= <-]; exact Hm1|].
    intros H.
    apply (set_cell_no_excluded (JStr (py_str name +:+ " (Prevention)")) _ _ _ _ Hm1 Hex H).
  - intros H. apply (set_cell_no_excluded _ _ _ _ _ Hm Hs H).
Qed.

Lemma add_group_settings pol_name m ps m' :
  add_group pol_name m ps = Ok m' ->
  for_each (add_setting pol_name) (settings_of_group ps) m = Ok m'.
Proof.
  unfold add_group, settings_of_group.
  destruct (py_get ps "settings" (JList [])) as [sl|e]; [|discriminate]. cbn [bind].
  destruct (py_iter sl) as [ss|e]; [|discriminate]. cbn [bind]. trivial.
Qed.

Lemma add_group_no_excluded pol_name m ps m' :
  no_excluded_row m ->
  (forall s, In s (settings_of_group ps) -> named_excluded s = false) ->
  add_group pol_name m ps = Ok m' -> no_excluded_row m'.
Proof.
  intros Hm Hs H. apply add_group_settings in H.
  refine (for_each_preserves (add_setting pol_name) no_excluded_row (settings_of_group ps)
            _ m m' Hm H).
  intros m0 s m0' Hin Hm0 Hadd. apply (add_setting_no_excluded pol_name m0 s m0' Hm0); auto.
Qed.

Lemma add_host_count_no_excluded host_counts pol_name m m' :
  no_excluded_row m -> add_host_count host_counts pol_name m = Ok m' -> no_excluded_row m'.
Proof.
  intros Hm. unfold add_host_count.
  destruct (hashed pol_name); [|discriminate]. cbn [bind].
  destruct (dict_get pol_name host_counts); [|intros [= <-]; exact Hm].
  intros H. apply (set_cell_no_excluded (JStr "Host Count") _ _ _ _ Hm eq_refl H).
Qed.

Lemma settings_of_groups pol prevention_settings groups :
  py_get pol "prevention_settings" (JList []) = Ok prevention_settings ->
  py_iter prevention_settings = Ok groups ->
  settings_of pol = flat_map settings_of_group groups.
Proof. intros H1 H2. unfold settings_of. rewrite H1. cbn [bind]. rewrite H2. reflexivity. Qed.

Lemma motors_of_entry so per_os :
  motors_of so per_os = [] \/ exists k, In (k, motors_of so per_os) per_os.
Proof.
  unfold motors_of. destruct (dict_get so per_os) as [m|] eqn:E; [|left; reflexivity].
  right. destruct (dict_get_In _ _ _ E) as (k & Hin & _). exists k. exact Hin.
Qed.

Lemma with_platform_In so per_os k (m : motors) :
  In (k, m) (with_platform so per_os) -> In (k, m) per_os \/ m = [].
Proof.
  unfold with_platform. destruct (dict_mem so per_os); [left; assumption|].
  apply dict_set_In.
Qed.

Lemma add_policy_no_excluded host_counts per_os pol per_os' :
  Forall (fun entry => no_excluded_row (snd entry)) per_os ->
  (forall s, In s (settings_of pol) -> named_excluded s = false) ->
  add_policy host_counts per_os pol = Ok per_os' ->
  Forall (fun entry => no_excluded_row (snd entry)) per_os'.
Proof.
  intros Hall Hs Hadd.
  destruct (add_policy_inv _ _ _ _ Hadd) as (so & Hso & [[_ ->]|(_ & Hh & Hrest)]);
    [exact Hall|].
  destruct Hrest as (id & pol_name & ps & groups & m1 & m' & _ & _ & Hps & Hgroups
                     & Hloop & Hhc & ->).
  rewrite List.Forall_forall in Hall.
  assert (Hnil : no_excluded_row []) by (intros k []).
  assert (Hstart : no_excluded_row (motors_of so (with_platform so per_os))).
  { destruct (motors_of_entry so (with_platform so per_os)) as [->|[k Hin]]; [exact Hnil|].
    apply with_platform_In in Hin as [Hin| ->]; [apply (Hall _ Hin) | exact Hnil]. }
  assert (Hm1 : no_excluded_row m1).
  { refine (for_each_preserves (add_group pol_name) no_excluded_row groups _ _ m1 Hstart Hloop).
    intros m0 g m0' Hg Hm0 Hgr. apply (add_group_no_excluded pol_name m0 g m0' Hm0); [|exact Hgr].
    intros s Hin. apply Hs. rewrite (settings_of_groups pol ps groups Hps Hgroups).
    apply in_flat_map. exists g. split; assumption. }
  pose proof (add_host_count_no_excluded _ _ _ _ Hm1 Hhc) as Hm'.
  apply List.Forall_forall. intros [k m] Hin. cbn [snd].
  apply dict_set_In in Hin as [Hin| ->]; [|exact Hm'].
  apply with_platform_In in Hin as [Hin| ->]; [apply (Hall _ Hin) | exact Hnil].
Qed.

(** The frame of [build_frame]. *)
Lemma build_frame_inv so m df :
  build_frame so m = Ok df ->
  columns df = JStr label_column :: JStr recommended_column :: policy_columns m /\
  cells df = map (row_cells so m) (row_labels m).
Proof.
  unfold build_frame. destruct (_ || _); [discriminate|].
  destruct (key_in _ _); [discriminate|]. intros [= <-]. split; reflexivity.
Qed.

Lemma distinct_In k ks : forall seen, In k (distinct seen ks) -> In k seen \/ In k ks.
Proof.
  induction ks as [|k0 ks IH]; intros seen H; cbn in H; [left; exact H|].
  destruct (IH _ H) as [Hs|Hk]; [|right; right; exact Hk].
  destruct (key_in k0 seen); [left; exact Hs|].
  apply in_app_or in Hs as [Hs|[<-|[]]]; [left; exact Hs | right; left; reflexivity].
Qed.

Lemma row_labels_keys m k : In k (row_labels m) -> In k (keys m).
Proof.
  unfold row_labels. trivial.
Qed.

End rows_facts.


(** ** Rows once written stay in the sheet *)

Module emitted_rows.
Import exportpp exportpp_facts rows_facts.

Lemma for_each_reaches {A S : Type} (body : S -> A -> res S) (P : S -> Prop) (x : A) :
  (forall s y s', P s -> body s y = Ok s' -> P s') ->
  (forall s s', body s x = Ok s' -> P s') ->
  forall xs s s', In x xs -> for_each body xs s = Ok s' -> P s'.
Proof.
  intros Hkeep Hmake. induction xs as [|y xs IH]; intros s s' Hin Hrun; [destruct Hin|].
  cbn in Hrun. destruct (body s y) as [s1|e] eqn:Hb; [|discriminate]. cbn in Hrun.
  destruct Hin as [->|Hin].
  - refine (for_each_preserves body P xs _ s1 s' (Hmake s s1 Hb) Hrun).
    intros s0 z s0' _. apply Hkeep.
  - apply (IH s1 s' Hin Hrun).
Qed.

Lemma set_cell_keeps_rows row pol_name value m m' k :
  set_cell row pol_name value m = Ok m' -> dict_mem k m = true -> dict_mem k m' = true.
Proof.
  intros H Hk. rewrite dict_mem_key_list in *. rewrite (set_cell_keys _ _ _ _ _ H).
  destruct (dict_mem row m); [exact Hk|]. rewrite existsb_app, Hk. reflexivity.
Qed.

Lemma set_cell_has_row row pol_name value m m' :
  set_cell row pol_name value m = Ok m' -> dict_mem row m' = true.
Proof.
  intros H. pose proof (set_cell_cell _ _ _ _ _ H) as Hc. unfold cell in Hc.
  apply dict_mem_get. destruct (dict_get row m') as [c|]; [exists c; reflexivity | discriminate].
Qed.

Lemma add_setting_keeps_rows pol_name m s m' k :
  add_setting pol_name m s = Ok m' -> dict_mem k m = true -> dict_mem k m' = true.
Proof.
  unfold add_setting.
  destruct (py_get s "name" JNull) as [name|e]; [|discriminate]. cbn [bind].
  destruct (py_get s "value" JNull) as [value|e]; [|discriminate]. cbn [bind].
  destruct (_ && _).
  - destruct (indicator "detection:" _) as [dv|e]; [|discriminate]. cbn [bind].
    destruct (indicator "prevention:" _) as [pv|e]; [|discriminate]. cbn [bind].
    set (after_detection := if String.eqb dv EmptyString then Ok m else _).
    destruct after_detection as [m1|e] eqn:Hdet; [|discriminate]. cbn [bind].
    intros H Hk.
    assert (Hm1 : dict_mem k m1 = true).
    { subst after_detection. destruct (String.eqb dv EmptyString).
      - injection Hdet as <-. exact Hk.
      - apply (set_cell_keeps_rows _ _ _ _ _ _ Hdet Hk). }
    destruct (String.eqb pv EmptyString); [injection H as <-; exact Hm1|].
    destruct (String.eqb _ excluded_row); [injection H as <-; exact Hm1|].
    apply (set_cell_keeps_rows _ _ _ _ _ _ H Hm1).
  - intros H Hk. apply (set_cell_keeps_rows _ _ _ _ _ _ H Hk).
Qed.

Lemma add_group_keeps_rows pol_name m ps m' k :
  add_group pol_name m ps = Ok m' -> dict_mem k m = true -> dict_mem k m' = true.
Proof.
  intros H Hk. apply add_group_settings in H.
  refine (for_each_preserves (add_setting pol_name) (fun m => dict_mem k m = true)
            (settings_of_group ps) _ m m' Hk H).
  intros m0 s m0' _ Hk0 Hadd. apply (add_setting_keeps_rows _ _ _ _ _ Hadd Hk0).
Qed.

Lemma add_host_count_keeps_rows host_counts pol_name m m' k :
  add_host_count host_counts pol_name m = Ok m' -> dict_mem k m = true -> dict_mem k m' = true.
Proof.
  unfold add_host_count. destruct (hashed pol_name); [|discriminate]. cbn [bind].
  destruct (dict_get pol_name host_counts); [|intros [= <-]; trivial].
  intros H Hk. apply (set_cell_keeps_rows _ _ _ _ _ _ H Hk).
Qed.

(** The rows of a compound value. *)
Lemma add_setting_compound_rows pol_name m s name value d p m' :
  py_get s "name" JNull = Ok name ->
  py_get s "value" JNull = Ok value ->
  indicators value d p ->
  plain d = true -> plain p = true ->
  add_setting pol_name m s = Ok m' ->
  dict_mem (detection_row name) m' = true /\
  (String.eqb (py_str name +:+ " (Prevention)") excluded_row = false ->
   dict_mem (prevention_row name) m' = true).
Proof.
  intros Hname Hvalue Hind Hd Hp.
  rewrite (compound_facts.add_setting_compound pol_name m s name value d p Hname Hvalue Hind
             Hd Hp).
  destruct (set_cell (detection_row name) pol_name d m) as [m1|e] eqn:H1; [|discriminate].
  cbn [bind]. pose proof (set_cell_has_row _ _ _ _ _ H1) as Hdet.
  destruct (String.eqb _ excluded_row).
  - intros [= <-]. split; [exact Hdet | discriminate].
  - intros H2. split.
    + apply (set_cell_keeps_rows _ _ _ _ _ _ H2 Hdet).
    + intros _. apply (set_cell_has_row _ _ _ _ _ H2).
Qed.

Lemma dict_get_equiv {V : Type} (a b : json) (d : pydict V) :
  hashable a = true -> hashable b = true -> Forall (fun k => hashable k = true) (keys d) ->
  py_eqb a b = true -> dict_get a d = dict_get b d.
Proof.
  intros Ha Hb Hd Hab. induction d as [|[k0 v0] d IH]; cbn; [reflexivity|].
  inversion Hd as [|? ? Hk0 Hd']; subst.
  rewrite (py_eqb_sym k0 a Hk0 Ha), (py_eqb_sym k0 b Hk0 Hb).
  rewrite <- (py_eqb_trans b a k0 Hb Ha Hk0) by (rewrite py_eqb_sym; assumption).
  destruct (py_eqb a k0); [reflexivity | apply IH; exact Hd'].
Qed.

Section OneRow.

Variable host_counts : pydict Z.
Variables (so row : json).
Hypothesis Hso : hashable so = true.

(** A later policy leaves the row in place. *)
Lemma add_policy_keeps_row per_os pol per_os' :
  Forall (fun k => hashable k = true) (keys per_os) ->
  has_row so row per_os ->
  add_policy host_counts per_os pol = Ok per_os' ->
  has_row so row per_os'.
Proof.
  intros Hkeys (m & Hm & Hrow) Hadd.
  destruct (add_policy_inv _ _ _ _ Hadd) as (so2 & Hso2 & [[_ ->]|(_ & Hh & Hrest)]);
    [exists m; split; assumption|].
  destruct Hrest as (id & pol_name & ps & groups & m1 & m' & _ & _ & _ & _ & Hloop & Hhc & ->).
  assert (Hkeys2 : Forall (fun k => hashable k = true) (keys (with_platform so2 per_os))).
  { rewrite with_platform_keys. destruct (dict_mem so2 per_os); [exact Hkeys|].
    apply Forall_app. split; [exact Hkeys | constructor; [exact Hh | constructor]]. }
  unfold has_row. rewrite dict_get_set by assumption.
  destruct (py_eqb so2 so) eqn:E.
  - exists m'. split; [reflexivity|].
    assert (Hm2 : dict_get so2 per_os = Some m).
    { rewrite (dict_get_equiv so2 so per_os Hh Hso Hkeys E). exact Hm. }
    assert (Hstart : motors_of so2 (with_platform so2 per_os) = m).
    { unfold with_platform, motors_of, dict_mem. rewrite Hm2, Hm2. reflexivity. }
    rewrite Hstart in Hloop.
    apply (add_host_count_keeps_rows _ _ _ _ _ Hhc).
    refine (for_each_preserves (add_group pol_name) (fun m => dict_mem row m = true)
              groups _ m m1 Hrow Hloop).
    intros m0 g m0' _ Hk0 Hg. apply (add_group_keeps_rows _ _ _ _ _ Hg Hk0).
  - exists m. split; [|exact Hrow]. unfold with_platform.
    destruct (dict_mem so2 per_os); [exact Hm|].
    rewrite dict_get_set by assumption. rewrite E. exact Hm.
Qed.

End OneRow.

(** The policy that holds the compound setting writes its rows. *)
Lemma add_policy_makes_rows host_counts per_os pol per_os' so s name value d p :
  platform pol = Ok so -> ignored so = false ->
  In s (settings_of pol) ->
  py_get s "name" JNull = Ok name ->
  py_get s "value" JNull = Ok value ->
  indicators value d p ->
  plain d = true -> plain p = true ->
  add_policy host_counts per_os pol = Ok per_os' ->
  has_row so (detection_row name) per_os' /\
  (String.eqb (py_str name +:+ " (Prevention)") excluded_row = false ->
   has_row so (prevention_row name) per_os').
Proof.
  intros Hso Hig Hs Hname Hvalue Hind Hd Hp Hadd.
  destruct (add_policy_inv _ _ _ _ Hadd) as (so' & Hso' & [[Hig' _]|(_ & Hh & Hrest)]).
  { rewrite Hso in Hso'. injection Hso' as <-. congruence. }
  rewrite Hso in Hso'. injection Hso' as <-.
  destruct Hrest as (id & pol_name & ps & groups & m1 & m' & _ & _ & Hps & Hgroups
                     & Hloop & Hhc & ->).
  rewrite (settings_of_groups pol ps groups Hps Hgroups) in Hs.
  apply in_flat_map in Hs as (g & Hg & Hs).
  set (P := fun m : motors =>
              dict_mem (detection_row name) m = true /\
              (String.eqb (py_str name +:+ " (Prevention)") excluded_row = false ->
               dict_mem (prevention_row name) m = true)).
  assert (Hkeep_setting : forall m0 y m0', P m0 -> add_setting pol_name m0 y = Ok m0' -> P m0').
  { intros m0 y m0' [H1 H2] Hy. split.
    - apply (add_setting_keeps_rows _ _ _ _ _ Hy H1).
    - intros Hex. apply (add_setting_keeps_rows _ _ _ _ _ Hy (H2 Hex)). }
  assert (Hkeep_group : forall m0 y m0', P m0 -> add_group pol_name m0 y = Ok m0' -> P m0').
  { intros m0 y m0' [H1 H2] Hy. split.
    - apply (add_group_keeps_rows _ _ _ _ _ Hy H1).
    - intros Hex. apply (add_group_keeps_rows _ _ _ _ _ Hy (H2 Hex)). }
  assert (Hm1 : P m1).
  { refine (for_each_reaches (add_group pol_name) P g Hkeep_group _ groups _ m1 Hg Hloop).
    intros m0 m0' Hgr. apply add_group_settings in Hgr.
    refine (for_each_reaches (add_setting pol_name) P s Hkeep_setting _
              (settings_of_group g) m0 m0' Hs Hgr).
    intros m2 m2' Hset.
    apply (add_setting_compound_rows pol_name m2 s name value d p m2' Hname Hvalue Hind Hd Hp
             Hset). }
  destruct Hm1 as [H1 H2]. unfold has_row. rewrite dict_get_set_same by exact Hh. split.
  - exists m'. split; [reflexivity|]. apply (add_host_count_keeps_rows _ _ _ _ _ Hhc H1).
  - intros Hex. exists m'. split; [reflexivity|].
    apply (add_host_count_keeps_rows _ _ _ _ _ Hhc (H2 Hex)).
Qed.

(** *** The tables stay well formed *)

Lemma dict_set_not_nil {V : Type} (k : json) (v : V) (d : pydict V) : dict_set k v d <> [].
Proof. destruct d as [|[k0 v0] d]; cbn; [discriminate|]. destruct (py_eqb k0 k); discriminate. Qed.

Lemma dict_set_snoc_same {V : Type} (k : json) (v v0 : V) (d : pydict V) :
  hashable k = true -> dict_mem k d = false ->
  dict_set k v (d ++ [(k, v0)]) = d ++ [(k, v)].
Proof.
  intros Hk. unfold dict_mem. induction d as [|[k1 v1] d IH]; cbn.
  - rewrite (py_eqb_refl k Hk). reflexivity.
  - destruct (py_eqb k1 k); [discriminate|]. intros H. rewrite (IH H). reflexivity.
Qed.

Lemma set_cell_In row pol_name value m m' k c :
  set_cell row pol_name value m = Ok m' -> In (k, c) m' ->
  In (k, c) m \/
  exists inner, c = dict_set pol_name value inner /\ (inner = [] \/ exists k0, In (k0, inner) m).
Proof.
  unfold set_cell, hashed. intros H.
  destruct (hashable row) eqn:Hr; [|discriminate]. cbn [bind] in H.
  destruct (hashable pol_name); [|discriminate]. cbn [bind] in H.
  injection H as <-. destruct (dict_mem row m) eqn:E.
  - intros Hin. apply dict_set_In in Hin as [Hin| ->]; [left; exact Hin|].
    right. eexists. split; [reflexivity|].
    destruct (dict_get row m) as [inner|] eqn:Hg; [|left; reflexivity].
    right. destruct (dict_get_In _ _ _ Hg) as (k0 & Hk0 & _). exists k0. exact Hk0.
  - rewrite dict_get_set_same by exact Hr. rewrite (dict_set_fresh row [] m E).
    rewrite dict_set_snoc_same by assumption.
    intros Hin. apply in_app_or in Hin as [Hin|[Hin|[]]]; [left; exact Hin|].
    injection Hin as <- <-. right. exists []. split; [reflexivity | left; reflexivity].
Qed.

Lemma table_ok_nil : table_ok [].
Proof. split; constructor. Qed.

Lemma set_cell_table_ok row pol_name value m m' :
  table_ok m -> set_cell row pol_name value m = Ok m' -> table_ok m'.
Proof.
  intros [Hk He] H. split; [apply (set_cell_hashables _ _ _ _ _ Hk H)|].
  destruct (set_cell_inv _ _ _ _ _ H) as (_ & Hp & _).
  rewrite List.Forall_forall in *. intros [k c] Hin. cbn [snd].
  apply (set_cell_In _ _ _ _ _ _ _ H) in Hin as [Hin|(inner & -> & Hinner)];
    [apply (He _ Hin)|].
  split; [apply dict_set_not_nil|].
  rewrite keys_dict_set.
  assert (Hik : Forall (fun k => hashable k = true) (keys inner)).
  { destruct Hinner as [->|[k0 Hk0]]; [constructor | apply (He _ Hk0)]. }
  destruct (dict_mem pol_name inner); [exact Hik|].
  apply Forall_app. split; [exact Hik | constructor; [exact Hp | constructor]].
Qed.

Lemma add_setting_table_ok pol_name m s m' :
  table_ok m -> add_setting pol_name m s = Ok m' -> table_ok m'.
Proof.
  intros Hm. unfold add_setting.
  destruct (py_get s "name" JNull) as [name|e]; [|discriminate]. cbn [bind].
  destruct (py_get s "value" JNull) as [value|e]; [|discriminate]. cbn [bind].
  destruct (_ && _).
  - destruct (indicator "detection:" _) as [dv|e]; [|discriminate]. cbn [bind].
    destruct (indicator "prevention:" _) as [pv|e]; [|discriminate]. cbn [bind].
    set (after_detection := if String.eqb dv EmptyString then Ok m else _).
    destruct after_detection as [m1|e] eqn:Hdet; [|discriminate]. cbn [bind].
    assert (Hm1 : table_ok m1).
    { subst after_detection. destruct (String.eqb dv EmptyString).
      - injection Hdet as <-. exact Hm.
      - apply (set_cell_table_ok _ _ _ _ _ Hm Hdet). }
    destruct (String.eqb pv EmptyString); [intros [= <-]; exact Hm1|].
    destruct (String.eqb _ excluded_row); [intros [= <-]; exact Hm1|].
    apply (set_cell_table_ok _ _ _ _ _ Hm1).
  - apply (set_cell_table_ok _ _ _ _ _ Hm).
Qed.

Lemma add_policy_tables_ok host_counts per_os pol per_os' :
  Forall (fun entry => table_ok (snd entry)) per_os ->
  add_policy host_counts per_os pol = Ok per_os' ->
  Forall (fun entry => table_ok (snd entry)) per_os'.
Proof.
  intros Hall Hadd.
  destruct (add_policy_inv _ _ _ _ Hadd) as (so & Hso & [[_ ->]|(_ & Hh & Hrest)]);
    [exact Hall|].
  destruct Hrest as (id & pol_name & ps & groups & m1 & m' & _ & _ & _ & _ & Hloop & Hhc & ->).
  rewrite List.Forall_forall in Hall.
  assert (Hstart : table_ok (motors_of so (with_platform so per_os))).
  { destruct (motors_of_entry so (with_platform so per_os)) as [->|[k Hin]];
      [exact table_ok_nil|].
    apply with_platform_In in Hin as [Hin| ->]; [apply (Hall _ Hin) | exact table_ok_nil]. }
  assert (Hm1 : table_ok m1).
  { refine (for_each_preserves (add_group pol_name) table_ok groups _ _ m1 Hstart Hloop).
    intros m0 g m0' _ Hm0 Hg. apply add_group_settings in Hg.
    refine (for_each_preserves (add_setting pol_name) table_ok (settings_of_group g)
              _ m0 m0' Hm0 Hg).
    intros m2 y m2' _. apply add_setting_table_ok. }
  assert (Hm' : table_ok m').
  { revert Hhc. unfold add_host_count. destruct (hashed pol_name); [|discriminate].
    cbn [bind]. destruct (dict_get pol_name host_counts); [|intros [= <-]; exact Hm1].
    apply (set_cell_table_ok _ _ _ _ _ Hm1). }
  apply List.Forall_forall. intros [k m] Hin. cbn [snd].
  apply dict_set_In in Hin as [Hin| ->]; [|exact Hm'].
  apply with_platform_In in Hin as [Hin| ->]; [apply (Hall _ Hin) | exact table_ok_nil].
Qed.

(** *** From the table to the frame *)

Lemma distinct_covers ks : forall seen k,
  Forall (fun k => hashable k = true) ks ->
  key_in k seen = true \/ In k ks -> key_in k (distinct seen ks) = true.
Proof.
  induction ks as [|k0 ks IH]; intros seen k Hks Hk; cbn.
  - destruct Hk as [Hk|[]]. exact Hk.
  - inversion Hks as [|? ? Hk0 Hks']; subst. apply IH; [exact Hks'|].
    destruct Hk as [Hk|[<-|Hk]].
    + left. destruct (key_in k0 seen); [exact Hk|]. rewrite key_in_app, Hk. reflexivity.
    + left. destruct (key_in k0 seen) eqn:E; [exact E|].
      rewrite key_in_app. cbn. rewrite (py_eqb_refl k0 Hk0). apply orb_true_r.
    + right. exact Hk.
Qed.

Lemma row_in_frame so m df (row : string) :
  table_ok m -> build_frame so m = Ok df -> dict_mem (JStr row) m = true ->
  exists r, In r (cells df) /\ hd_error r = Some (Some (JStr row)).
Proof.
  intros [Hkeys Hentries] Hdf Hrow.
  destruct (build_frame_inv _ _ _ Hdf) as [_ Hcells].
  rewrite List.Forall_forall in Hkeys, Hentries.
  apply dict_mem_get in Hrow as [inner Hget].
  destruct (dict_get_In _ _ _ Hget) as (k0 & Hin & Hk0). apply py_eqb_JStr in Hk0. subst k0.
  destruct (Hentries _ Hin) as [Hne Hinner]. cbn [snd] in Hne, Hinner.
  destruct inner as [|[c v] inner]; [contradiction|].
  inversion Hinner as [|? ? Hc _]; subst.
  assert (Hall_cols : Forall (fun k => hashable k = true)
                        (concat (map (fun r : json * pydict string => keys (snd r)) m))).
  { apply List.Forall_forall. intros k Hk. apply in_concat in Hk as (l & Hl & Hk).
    apply in_map_iff in Hl as (e & <- & He). destruct (Hentries _ He) as [_ H].
    rewrite List.Forall_forall in H. apply H. exact Hk. }
  assert (Hcol : key_in c (policy_columns m) = true).
  { unfold policy_columns. apply distinct_covers; [exact Hall_cols|]. right.
    apply in_concat. exists (keys ((c, v) :: inner)). split; [|left; reflexivity].
    apply in_map_iff. exists (JStr row, (c, v) :: inner). split; [reflexivity | exact Hin]. }
  apply key_in_true in Hcol as (col & Hcol_in & Hcol_eq).
  exists (row_cells so m (JStr row)). split; [|reflexivity].
  rewrite Hcells. apply in_map. unfold row_labels. apply (In_keys _ _ _ Hin).
Qed.

Lemma sheet_of_table (per_os : pydict motors) (result : pydict frame) so m :
  Forall2 (fun entry sheet =>
             fst sheet = fst entry /\ build_frame (fst entry) (snd entry) = Ok (snd sheet))
          per_os result ->
  dict_get so per_os = Some m ->
  exists k df, dict_get so result = Some df /\ build_frame k m = Ok df.
Proof.
  induction 1 as [|[k0 m0] [k1 df0] es fs [Hk Hb] _ IH]; cbn; [discriminate|].
  cbn in Hk, Hb. subst k1. destruct (py_eqb k0 so).
  - intros [= <-]. exists k0, df0. split; [reflexivity | exact Hb].
  - exact IH.
Qed.

(** What holds of [per_os] after the policies [done], for one compound
    setting [s] of the policy [pol]. *)
Section Emitted.

Variable host_counts : pydict Z.
Variables (pol s name value so : json) (d p : string).
Hypothesis Hplatform : platform pol = Ok so.
Hypothesis Hkept : ignored so = false.
Hypothesis Hsetting : In s (settings_of pol).
Hypothesis Hname : py_get s "name" JNull = Ok name.
Hypothesis Hvalue : py_get s "value" JNull = Ok value.
Hypothesis Hind : indicators value d p.
Hypothesis Hd : plain d = true.
Hypothesis Hp : plain p = true.

Let emitted (done : list json) (per_os : pydict motors) : Prop :=
  platforms_of done per_os /\
  Forall (fun entry => table_ok (snd entry)) per_os /\
  (In pol done ->
   has_row so (detection_row name) per_os /\
   (String.eqb (py_str name +:+ " (Prevention)") excluded_row = false ->
    has_row so (prevention_row name) per_os)).

Lemma emitted_step done x per_os per_os' :
  emitted done per_os -> add_policy host_counts per_os x = Ok per_os' ->
  emitted (done ++ [x]) per_os'.
Proof.
  intros (Hplat & Htables & Hrows) Hadd. split; [|split].
  - apply (add_policy_platforms host_counts done x per_os per_os' Hplat Hadd).
  - apply (add_policy_tables_ok host_counts per_os x per_os' Htables Hadd).
  - intros Hin. apply in_app_or in Hin as [Hin|[->|[]]].
    + destruct (Hrows Hin) as [H1 H2].
      assert (Hso : hashable so = true).
      { destruct H1 as (m & Hm & _). destruct (dict_get_In _ _ _ Hm) as (k0 & Hk0 & Heq).
        destruct Hplat as ((Hh & _) & _). rewrite List.Forall_forall in Hh.
        pose proof (Hh k0 (In_keys _ _ _ Hk0)) as Hk0h.
        destruct so; try reflexivity; destruct k0; cbn in Heq; discriminate. }
      destruct Hplat as ((Hh & _) & _). split.
      * apply (add_policy_keeps_row host_counts so _ Hso per_os x per_os' Hh H1 Hadd).
      * intros Hex.
        apply (add_policy_keeps_row host_counts so _ Hso per_os x per_os' Hh (H2 Hex) Hadd).
    + apply (add_policy_makes_rows host_counts per_os pol per_os' so s name value d p
               Hplatform Hkept Hsetting Hname Hvalue Hind Hd Hp Hadd).
Qed.

(** The rows of a compound setting are in the sheet of its platform. *)
Lemma compound_rows_in_sheet policies result :
  In pol policies ->
  transform_policies policies host_counts = Ok result ->
  exists df,
    dict_get so result = Some df /\
    (exists r, In r (cells df) /\ hd_error r = Some (Some (detection_row name))) /\
    (String.eqb (py_str name +:+ " (Prevention)") excluded_row = false ->
     exists r, In r (cells df) /\ hd_error r = Some (Some (prevention_row name))).
Proof.
  intros Hin Hrun.
  destruct (transform_policies_inv _ _ _ Hrun) as (per_os & Hloop & _ & _ & Hall).
  assert (Hnil : emitted [] []).
  { split; [apply platforms_of_nil|]. split; [constructor | intros []]. }
  pose proof (for_each_invariant (add_policy host_counts) emitted emitted_step
                policies [] [] per_os Hnil Hloop) as (_ & Htables & Hrows).
  cbn [app] in Hrows. destruct (Hrows Hin) as [(m & Hm & Hdet) Hprev].
  destruct (sheet_of_table per_os result so m Hall Hm) as (k & df & Hdf & Hbuild).
  assert (Hok : table_ok m).
  { destruct (dict_get_In _ _ _ Hm) as (k0 & Hk0 & _).
    rewrite List.Forall_forall in Htables. apply (Htables _ Hk0). }
  exists df. split; [exact Hdf|]. split.
  - apply (row_in_frame k m df _ Hok Hbuild Hdet).
  - intros Hex. destruct (Hprev Hex) as (m2 & Hm2 & Hprow).
    rewrite Hm in Hm2. injection Hm2 as <-.
    apply (row_in_frame k m df _ Hok Hbuild Hprow).
Qed.

End Emitted.

End emitted_rows.


(** ** The cells of the tables *)

Module cell_facts.
Import exportpp exportpp_facts rows_facts emitted_rows.

Lemma table_inner_hashables (m : motors) (r : json) (inner : pydict string) :
  table_ok m -> dict_get r m = Some inner -> hashables (keys inner).
Proof.
  intros [_ He] H. apply dict_get_In in H as (k0 & Hk0 & _).
  rewrite List.Forall_forall in He. apply (He _ Hk0).
Qed.

(** What a cell holds after [set_cell]. *)
Lemma set_cell_cell_of (row pol_name : json) (value : string) (m m' : motors) (r c : json) :
  table_ok m -> set_cell row pol_name value m = Ok m' ->
  hashable r = true -> hashable c = true ->
  cell m' r c = if py_eqb row r && py_eqb pol_name c then Some value else cell m r c.
Proof.
  intros Hm H Hr Hc. pose proof Hm as [Hkeys _].
  unfold set_cell, hashed in H.
  destruct (hashable row) eqn:Hrow; [|discriminate]. cbn [bind] in H.
  destruct (hashable pol_name) eqn:Hpol; [|discriminate]. cbn [bind] in H.
  injection H as <-.
  set (m0 := if dict_mem row m then m else dict_set row [] m).
  assert (Hkeys0 : hashables (keys m0)).
  { subst m0. destruct (dict_mem row m) eqn:E; [exact Hkeys|].
    rewrite keys_dict_set, E. apply Forall_app. split; [exact Hkeys | repeat constructor].
    exact Hrow. }
  assert (Hother : py_eqb row r = false -> dict_get r m0 = dict_get r m).
  { intros Hne. subst m0. destruct (dict_mem row m); [reflexivity|].
    rewrite dict_get_set by assumption. rewrite Hne. reflexivity. }
  assert (Hinner : hashables (keys (match dict_get row m0 with Some x => x | None => [] end)) /\
                   (py_eqb row r = true ->
                    dict_get c (match dict_get row m0 with Some x => x | None => [] end)
                    = cell m r c)).
  { subst m0. destruct (dict_mem row m) eqn:E.
    - apply dict_mem_get in E as [x Hx]. rewrite Hx.
      split; [apply (table_inner_hashables m row x Hm Hx)|].
      intros Heq. unfold cell.
      rewrite <- (dict_get_equiv row r m Hrow Hr Hkeys Heq), Hx. reflexivity.
    - rewrite dict_get_set_same by exact Hrow. split; [constructor|].
      intros Heq. unfold cell.
      rewrite <- (dict_get_equiv row r m Hrow Hr Hkeys Heq).
      unfold dict_mem in E. destruct (dict_get row m); [discriminate | reflexivity]. }
  destruct Hinner as [Hik Hic].
  unfold cell at 1. rewrite dict_get_set by assumption.
  destruct (py_eqb row r) eqn:Heq; cbn [andb].
  - rewrite dict_get_set by assumption.
    destruct (py_eqb pol_name c); [reflexivity | apply Hic; reflexivity].
  - rewrite (Hother eq_refl). reflexivity.
Qed.

Lemma set_cell_other_column (row pol_name : json) (value : string) (m m' : motors) (r c : json) :
  table_ok m -> set_cell row pol_name value m = Ok m' ->
  hashable r = true -> hashable c = true -> py_eqb pol_name c = false ->
  cell m' r c = cell m r c.
Proof.
  intros Hm H Hr Hc Hne. rewrite (set_cell_cell_of _ _ _ _ _ r c Hm H Hr Hc), Hne.
  rewrite andb_false_r. reflexivity.
Qed.

Lemma add_setting_other_column (pol_name : json) (m : motors) (s : json) (m' : motors)
    (r c : json) :
  hashable r = true -> hashable c = true -> py_eqb pol_name c = false ->
  table_ok m -> add_setting pol_name m s = Ok m' ->
  table_ok m' /\ cell m' r c = cell m r c.
Proof.
  intros Hr Hc Hne Hm H. split; [apply (add_setting_table_ok _ _ _ _ Hm H)|].
  revert H. unfold add_setting.
  destruct (py_get s "name" JNull) as [name|e]; [|discriminate]. cbn [bind].
  destruct (py_get s "value" JNull) as [value|e]; [|discriminate]. cbn [bind].
  destruct (_ && _).
  - destruct (indicator "detection:" _) as [dv|e]; [|discriminate]. cbn [bind].
    destruct (indicator "prevention:" _) as [pv|e]; [|discriminate]. cbn [bind].
    set (after_detection := if String.eqb dv EmptyString then Ok m else _).
    destruct after_detection as [m1|e] eqn:Hdet; [|discriminate]. cbn [bind].
    assert (Hm1 : table_ok m1 /\ cell m1 r c = cell m r c).
    { subst after_detection. destruct (String.eqb dv EmptyString).
      - injection Hdet as <-. split; [exact Hm | reflexivity].
      - split; [apply (set_cell_table_ok _ _ _ _ _ Hm Hdet)|].
        apply (set_cell_other_column _ _ _ _ _ r c Hm Hdet Hr Hc Hne). }
    destruct Hm1 as [Hm1 Hc1].
    destruct (String.eqb pv EmptyString); [intros [= <-]; exact Hc1|].
    destruct (String.eqb _ excluded_row); [intros [= <-]; exact Hc1|].
    intros H. rewrite (set_cell_other_column _ _ _ _ _ r c Hm1 H Hr Hc Hne). exact Hc1.
  - intros H. apply (set_cell_other_column _ _ _ _ _ r c Hm H Hr Hc Hne).
Qed.

Lemma add_groups_other_column (pol_name : json) (groups : list json) (m m' : motors)
    (r c : json) :
  hashable r = true -> hashable c = true -> py_eqb pol_name c = false ->
  table_ok m -> for_each (add_group pol_name) groups m = Ok m' ->
  cell m' r c = cell m r c.
Proof.
  intros Hr Hc Hne Hm H.
  assert (Hkeep : table_ok m' /\ cell m' r c = cell m r c); [|apply Hkeep].
  refine (for_each_preserves (add_group pol_name)
            (fun x => table_ok x /\ cell x r c = cell m r c) groups _ m m'
            (conj Hm eq_refl) H).
  intros m0 g m0' _ [Hm0 Hc0] Hg. apply add_group_settings in Hg.
  refine (for_each_preserves (add_setting pol_name)
            (fun x => table_ok x /\ cell x r c = cell m r c) (settings_of_group g)
            _ m0 m0' (conj Hm0 Hc0) Hg).
  intros m2 y m2' _ [Hm2 Hc2] Hy.
  destruct (add_setting_other_column pol_name m2 y m2' r c Hr Hc Hne Hm2 Hy) as [Hok Heq].
  split; [exact Hok | rewrite Heq; exact Hc2].
Qed.

Lemma add_groups_table_ok (pol_name : json) (groups : list json) (m m' : motors) :
  table_ok m -> for_each (add_group pol_name) groups m = Ok m' -> table_ok m'.
Proof.
  intros Hm H.
  refine (for_each_preserves (add_group pol_name) table_ok groups _ m m' Hm H).
  intros m0 g m0' _ Hm0 Hg. apply add_group_settings in Hg.
  refine (for_each_preserves (add_setting pol_name) table_ok (settings_of_group g)
            _ m0 m0' Hm0 Hg).
  intros m2 y m2' _. apply add_setting_table_ok.
Qed.

Lemma cell_equiv_column (m : motors) (r a b : json) :
  table_ok m -> hashable a = true -> hashable b = true -> py_eqb a b = true ->
  cell m r a = cell m r b.
Proof.
  intros Hm Ha Hb Heq. unfold cell. destruct (dict_get r m) as [inner|] eqn:E; [|reflexivity].
  apply dict_get_equiv; try assumption. apply (table_inner_hashables m r inner Hm E).
Qed.

Lemma motors_of_with_platform (so : json) (per_os : pydict motors) :
  hashable so = true ->
  motors_of so (with_platform so per_os) = motors_of so per_os.
Proof.
  intros Hso. unfold with_platform, motors_of. destruct (dict_mem so per_os) eqn:E; [reflexivity|].
  rewrite dict_get_set_same by exact Hso.
  unfold dict_mem in E. destruct (dict_get so per_os); [discriminate | reflexivity].
Qed.

Lemma with_platform_hashables (so : json) (per_os : pydict motors) :
  hashable so = true -> hashables (keys per_os) -> hashables (keys (with_platform so per_os)).
Proof.
  intros Hso Hk. rewrite with_platform_keys. destruct (dict_mem so per_os); [exact Hk|].
  apply Forall_app. split; [exact Hk | repeat constructor; exact Hso].
Qed.

Lemma motors_of_other (so so' : json) (m' : motors) (per_os : pydict motors) :
  hashable so = true -> hashable so' = true -> hashables (keys per_os) ->
  py_eqb so' so = false ->
  motors_of so (dict_set so' m' (with_platform so' per_os)) = motors_of so per_os.
Proof.
  intros Hso Hso' Hk Hne. unfold motors_of.
  rewrite dict_get_set by (try assumption; apply with_platform_hashables; assumption).
  rewrite Hne. unfold with_platform. destruct (dict_mem so' per_os); [reflexivity|].
  rewrite dict_get_set by assumption. rewrite Hne. reflexivity.
Qed.

Lemma motors_of_same (so so' : json) (m' : motors) (per_os : pydict motors) :
  hashable so = true -> hashable so' = true -> hashables (keys per_os) ->
  py_eqb so' so = true ->
  motors_of so (dict_set so' m' (with_platform so' per_os)) = m' /\
  motors_of so per_os = motors_of so' (with_platform so' per_os).
Proof.
  intros Hso Hso' Hk Heq. split.
  - unfold motors_of.
    rewrite dict_get_set by (try assumption; apply with_platform_hashables; assumption).
    rewrite Heq. reflexivity.
  - rewrite (motors_of_with_platform so' per_os Hso'). unfold motors_of.
    rewrite (dict_get_equiv so' so per_os Hso' Hso Hk Heq). reflexivity.
Qed.

Lemma equal_key_hashable (so k : json) :
  py_eqb k so = true -> hashable k = true -> hashable so = true.
Proof.
  intros Heq Hk. destruct so; try reflexivity; destruct k; cbn in Heq; discriminate.
Qed.

Lemma column_of_cell (m : motors) (r c : json) (v : string) :
  table_ok m -> hashable c = true -> cell m r c = Some v ->
  exists i c',
    nth_error (policy_columns m) i = Some c' /\ hashable c' = true /\ py_eqb c' c = true.
Proof.
  intros Hm Hc Hcell. pose proof Hm as [_ Hentries]. rewrite List.Forall_forall in Hentries.
  unfold cell in Hcell. destruct (dict_get r m) as [inner|] eqn:E; [|discriminate].
  apply dict_get_In in E as (r0 & Hr0 & _).
  apply dict_get_In in Hcell as (c0 & Hc0 & Heq0).
  assert (Hall_cols : hashables (concat (map (fun e : json * pydict string => keys (snd e)) m))).
  { apply List.Forall_forall. intros k Hk. apply in_concat in Hk as (l & Hl & Hk).
    apply in_map_iff in Hl as (e & <- & He). destruct (Hentries _ He) as [_ H].
    rewrite List.Forall_forall in H. apply H. exact Hk. }
  assert (Hc0in : In c0 (concat (map (fun e : json * pydict string => keys (snd e)) m))).
  { apply in_concat. exists (keys inner). split; [|apply (In_keys _ _ _ Hc0)].
    apply in_map_iff. exists (r0, inner). split; [reflexivity | exact Hr0]. }
  assert (Hc0h : hashable c0 = true)
    by (rewrite List.Forall_forall in Hall_cols; apply Hall_cols; exact Hc0in).
  assert (Hcol : key_in c0 (policy_columns m) = true).
  { unfold policy_columns. apply distinct_covers; [exact Hall_cols|]. right. exact Hc0in. }
  apply key_in_true in Hcol as (c' & Hin' & Heq').
  assert (Hc'h : hashable c' = true).
  { unfold policy_columns in Hin'. apply distinct_In in Hin' as [[]|Hin'].
    rewrite List.Forall_forall in Hall_cols. apply Hall_cols. exact Hin'. }
  apply In_nth_error in Hin' as [i Hi]. exists i, c'. split; [exact Hi|]. split; [exact Hc'h|].
  rewrite (py_eqb_sym c0 c' Hc0h Hc'h) in Heq'.
  rewrite <- (py_eqb_trans c' c0 c Hc'h Hc0h Hc Heq'). exact Heq0.
Qed.

Lemma add_host_count_other_column (host_counts : pydict Z) (pol_name : json) (m m' : motors)
    (r c : json) :
  table_ok m -> add_host_count host_counts pol_name m = Ok m' ->
  hashable r = true -> hashable c = true -> py_eqb pol_name c = false ->
  table_ok m' /\ cell m' r c = cell m r c.
Proof.
  intros Hm H Hr Hc Hne. unfold add_host_count in H.
  destruct (hashed pol_name); [|discriminate]. cbn [bind] in H.
  destruct (dict_get pol_name host_counts); [|injection H as <-; split; [exact Hm | reflexivity]].
  split; [apply (set_cell_table_ok _ _ _ _ _ Hm H)|].
  apply (set_cell_other_column _ _ _ _ _ r c Hm H Hr Hc Hne).
Qed.

Lemma add_host_count_hashable (host_counts : pydict Z) (pol_name : json) (m m' : motors) :
  add_host_count host_counts pol_name m = Ok m' -> hashable pol_name = true.
Proof.
  unfold add_host_count, hashed. destruct (hashable pol_name); [reflexivity | discriminate].
Qed.

End cell_facts.


(** ** The cell that a setting leaves in the sheet *)

Module written_cells.
Import exportpp exportpp_facts rows_facts emitted_rows cell_facts.

Lemma for_each_split {A S : Type} (body : S -> A -> res S) (xs : list A) (x : A) (ys : list A)
    (s s' : S) :
  for_each body (xs ++ x :: ys) s = Ok s' ->
  exists s1 s2,
    for_each body xs s = Ok s1 /\ body s1 x = Ok s2 /\ for_each body ys s2 = Ok s'.
Proof.
  rewrite for_each_app. destruct (for_each body xs s) as [s1|e]; [|discriminate].
  cbn [bind for_each]. destruct (body s1 x) as [s2|e] eqn:Hx; [|discriminate].
  cbn [bind]. intros H. exists s1, s2. split; [reflexivity|]. split; [exact Hx | exact H].
Qed.

(** The groups of a policy are gone through setting by setting. *)
Lemma for_each_groups (pol_name : json) (groups : list json) : forall m m' : motors,
  for_each (add_group pol_name) groups m = Ok m' ->
  for_each (add_setting pol_name) (flat_map settings_of_group groups) m = Ok m'.
Proof.
  induction groups as [|g groups IH]; intros m m' H; cbn [for_each flat_map] in H |- *;
    [exact H|].
  destruct (add_group pol_name m g) as [m1|e] eqn:Hg; [|discriminate]. cbn [bind] in H.
  rewrite for_each_app, (add_group_settings _ _ _ _ Hg). cbn [bind]. apply IH. exact H.
Qed.

Lemma add_settings_table_ok (pol_name : json) (ss : list json) (m m' : motors) :
  table_ok m -> for_each (add_setting pol_name) ss m = Ok m' -> table_ok m'.
Proof.
  intros Hm H.
  refine (for_each_preserves (add_setting pol_name) table_ok ss _ m m' Hm H).
  intros m0 y m0' _ Hm0 Hy. apply (add_setting_table_ok _ _ _ _ Hm0 Hy).
Qed.

Lemma set_cell_other_row_cell (row' pol_name : json) (value : string) (m m' : motors)
    (row c : json) :
  table_ok m -> set_cell row' pol_name value m = Ok m' ->
  hashable row = true -> hashable c = true -> py_eqb row row' = false ->
  cell m' row c = cell m row c.
Proof.
  intros Hm H Hr Hc Hne. rewrite (set_cell_cell_of _ _ _ _ _ row c Hm H Hr Hc).
  destruct (set_cell_inv _ _ _ _ _ H) as (Hr' & _).
  rewrite (py_eqb_sym row' row Hr' Hr), Hne. reflexivity.
Qed.

(** A setting leaves the rows that are not its own as they are. *)
Lemma add_setting_spares (pol_name : json) (m : motors) (s : json) (m' : motors)
    (row c : json) :
  hashable row = true -> hashable c = true -> spares row s = true ->
  table_ok m -> add_setting pol_name m s = Ok m' ->
  cell m' row c = cell m row c.
Proof.
  intros Hr Hc Hsp Hm. unfold spares, rows_of_setting in Hsp. unfold add_setting.
  destruct (py_get s "name" JNull) as [name|e]; [|discriminate]. cbn [bind].
  destruct (py_get s "value" JNull) as [value|e]; [|discriminate]. cbn [bind].
  apply negb_true_iff in Hsp. unfold key_in in Hsp. cbn [existsb] in Hsp.
  apply orb_false_iff in Hsp as [Hname Hsp].
  apply orb_false_iff in Hsp as [Hdet Hsp].
  apply orb_false_iff in Hsp as [Hprev _].
  destruct (_ && _).
  - destruct (indicator "detection:" _) as [dv|e]; [|discriminate]. cbn [bind].
    destruct (indicator "prevention:" _) as [pv|e]; [|discriminate]. cbn [bind].
    set (after_detection := if String.eqb dv EmptyString then Ok m else _).
    destruct after_detection as [m1|e] eqn:Hd; [|discriminate]. cbn [bind].
    assert (Hm1 : table_ok m1 /\ cell m1 row c = cell m row c).
    { subst after_detection. destruct (String.eqb dv EmptyString).
      - injection Hd as <-. split; [exact Hm | reflexivity].
      - split; [apply (set_cell_table_ok _ _ _ _ _ Hm Hd)|].
        apply (set_cell_other_row_cell _ _ _ _ _ row c Hm Hd Hr Hc Hdet). }
    destruct Hm1 as [Hm1 Hc1].
    destruct (String.eqb pv EmptyString); [intros [= <-]; exact Hc1|].
    destruct (String.eqb _ excluded_row); [intros [= <-]; exact Hc1|].
    intros H. rewrite (set_cell_other_row_cell _ _ _ _ _ row c Hm1 H Hr Hc Hprev). exact Hc1.
  - intros H. apply (set_cell_other_row_cell _ _ _ _ _ row c Hm H Hr Hc Hname).
Qed.

Lemma add_settings_spare (pol_name : json) (row c : json) (ss : list json) : forall m m' : motors,
  hashable row = true -> hashable c = true -> forallb (spares row) ss = true ->
  table_ok m -> for_each (add_setting pol_name) ss m = Ok m' ->
  cell m' row c = cell m row c.
Proof.
  induction ss as [|y ss IH]; intros m m' Hr Hc Hsp Hm H; cbn [for_each forallb] in H, Hsp.
  - injection H as <-. reflexivity.
  - apply andb_true_iff in Hsp as [Hy Hsp].
    destruct (add_setting pol_name m y) as [m1|e] eqn:Hadd; [|discriminate]. cbn [bind] in H.
    rewrite (IH m1 m' Hr Hc Hsp (add_setting_table_ok _ _ _ _ Hm Hadd) H).
    apply (add_setting_spares pol_name m y m1 row c Hr Hc Hy Hm Hadd).
Qed.

(** The host count is written into its own row. *)
Lemma add_host_count_other_row (host_counts : pydict Z) (pol_name : json) (m m' : motors)
    (row c : json) :
  table_ok m -> add_host_count host_counts pol_name m = Ok m' ->
  hashable row = true -> hashable c = true -> py_eqb host_count_row row = false ->
  cell m' row c = cell m row c.
Proof.
  intros Hm H Hr Hc Hne. unfold add_host_count in H.
  destruct (hashed pol_name); [|discriminate]. cbn [bind] in H.
  destruct (dict_get pol_name host_counts); [|injection H as <-; reflexivity].
  rewrite (set_cell_cell_of _ _ _ _ _ row c Hm H Hr Hc).
  change (JStr "Host Count") with host_count_row. rewrite Hne. reflexivity.
Qed.

Lemma start_table_ok (so : json) (per_os : pydict motors) :
  Forall (fun entry => table_ok (snd entry)) per_os ->
  table_ok (motors_of so (with_platform so per_os)).
Proof.
  intros Htables. rewrite List.Forall_forall in Htables.
  destruct (motors_of_entry so (with_platform so per_os)) as [->|[k Hin]];
    [exact table_ok_nil|].
  apply with_platform_In in Hin as [Hin| ->]; [apply (Htables _ Hin) | exact table_ok_nil].
Qed.

(** A policy of another platform or of another name leaves the column as it
    is. *)
Lemma add_policy_other_column (host_counts : pydict Z) (per_os : pydict motors) (pol : json)
    (per_os' : pydict motors) (so row col : json) :
  hashable so = true -> hashable row = true -> hashable col = true ->
  hashables (keys per_os) -> Forall (fun entry => table_ok (snd entry)) per_os ->
  writes_column so col pol = false ->
  add_policy host_counts per_os pol = Ok per_os' ->
  cell (motors_of so per_os') row col = cell (motors_of so per_os) row col.
Proof.
  intros Hso Hr Hc Hkeys Htables Hw Hadd.
  destruct (add_policy_inv _ _ _ _ Hadd) as (so' & Hso' & [[Hig ->]|(Hig & Hh' & Hrest)]);
    [reflexivity|].
  destruct Hrest as (id' & pn' & ps & groups & m1 & m' & Hid' & Hpn' & _ & _ & Hloop & Hhc & ->).
  unfold writes_column, policy_name in Hw. rewrite Hso', Hid' in Hw. cbn [bind] in Hw.
  rewrite Hpn', Hig in Hw. cbn [negb andb] in Hw.
  pose proof (start_table_ok so' per_os Htables) as Hstart.
  pose proof (add_groups_table_ok pn' groups _ m1 Hstart Hloop) as Hm1.
  destruct (py_eqb so' so) eqn:Hsame.
  - cbn [andb] in Hw.
    destruct (motors_of_same so so' m' per_os Hso Hh' Hkeys Hsame) as [-> ->].
    destruct (add_host_count_other_column host_counts pn' m1 m' row col Hm1 Hhc Hr Hc Hw)
      as [_ ->].
    apply (add_groups_other_column pn' groups _ m1 row col Hr Hc Hw Hstart Hloop).
  - rewrite (motors_of_other so so' m' per_os Hso Hh' Hkeys Hsame). reflexivity.
Qed.

Lemma add_policies_other_column (host_counts : pydict Z) (so row col : json)
    (post : list json) : forall (done : list json) (per_os per_os' : pydict motors),
  hashable so = true -> hashable row = true -> hashable col = true ->
  forallb (fun p => negb (writes_column so col p)) post = true ->
  platforms_of done per_os -> Forall (fun entry => table_ok (snd entry)) per_os ->
  for_each (add_policy host_counts) post per_os = Ok per_os' ->
  Forall (fun entry => table_ok (snd entry)) per_os' /\
  cell (motors_of so per_os') row col = cell (motors_of so per_os) row col.
Proof.
  induction post as [|x post IH]; intros done per_os per_os' Hso Hr Hc Hw Hplat Htables H;
    cbn [for_each forallb] in H, Hw.
  - injection H as <-. split; [exact Htables | reflexivity].
  - apply andb_true_iff in Hw as [Hx Hw]. apply negb_true_iff in Hx.
    destruct (add_policy host_counts per_os x) as [per_os1|e] eqn:Hadd; [|discriminate].
    cbn [bind] in H.
    pose proof (add_policy_platforms host_counts done x per_os per_os1 Hplat Hadd) as Hplat1.
    pose proof (add_policy_tables_ok host_counts per_os x per_os1 Htables Hadd) as Htables1.
    destruct (IH (done ++ [x]) per_os1 per_os' Hso Hr Hc Hw Hplat1 Htables1 H) as [Hok ->].
    split; [exact Hok|]. destruct Hplat as ((Hkeys & _) & _).
    apply (add_policy_other_column host_counts per_os x per_os1 so row col Hso Hr Hc Hkeys
             Htables Hx Hadd).
Qed.

Lemma policies_done (host_counts : pydict Z) (policies : list json) (per_os : pydict motors) :
  for_each (add_policy host_counts) policies [] = Ok per_os ->
  platforms_of policies per_os /\ Forall (fun entry => table_ok (snd entry)) per_os.
Proof.
  intros H.
  apply (for_each_invariant (add_policy host_counts)
           (fun done per_os =>
              platforms_of done per_os /\ Forall (fun entry => table_ok (snd entry)) per_os)
           ltac:(intros done x s s' [Hp Ht] Hadd; split;
                 [apply (add_policy_platforms host_counts done x s s' Hp Hadd)
                 |apply (add_policy_tables_ok host_counts s x s' Ht Hadd)])
           policies [] [] per_os (conj platforms_of_nil (List.Forall_nil _)) H).
Qed.

(** The cell that a setting writes is still there at the end of the loop
    over the policies, when it is the last one written for its row and its
    column. *)
Lemma last_cell (host_counts : pydict Z) (pre post : list json) (per_os : pydict motors)
    (pol so pol_name : json) (spre spost : list json) (s row : json) (v : string) :
  for_each (add_policy host_counts) (pre ++ pol :: post) [] = Ok per_os ->
  named_policy pol so pol_name ->
  settings_of pol = spre ++ s :: spost ->
  hashable row = true ->
  (forall m m' : motors,
     table_ok m -> add_setting pol_name m s = Ok m' -> cell m' row pol_name = Some v) ->
  last_written so pol_name row spost post ->
  Forall (fun entry => table_ok (snd entry)) per_os /\
  hashable pol_name = true /\
  cell (motors_of so per_os) row pol_name = Some v.
Proof.
  intros Hrun (Hso & Hkept & id & Hid & Hname) Hsettings Hr Hcell (Hspost & Hpost & Hcount).
  apply for_each_split in Hrun as (per_os1 & per_os2 & Hpre & Hadd & Hrest).
  destruct (policies_done host_counts pre per_os1 Hpre) as [Hplat1 Htables1].
  pose proof (add_policy_platforms host_counts pre pol per_os1 per_os2 Hplat1 Hadd) as Hplat2.
  pose proof (add_policy_tables_ok host_counts per_os1 pol per_os2 Htables1 Hadd) as Htables2.
  destruct (add_policy_inv _ _ _ _ Hadd) as (so' & Hso' & [[Hig _]|(_ & Hh & Hrest')]).
  { rewrite Hso in Hso'. injection Hso' as <-. rewrite Hig in Hkept. discriminate. }
  rewrite Hso in Hso'. injection Hso' as <-.
  destruct Hrest' as (id' & pn' & ps & groups & m1 & m' & Hid' & Hpn' & Hps & Hgroups & Hloop
                      & Hhc & Hper_os2).
  rewrite Hid in Hid'. injection Hid' as <-. rewrite Hname in Hpn'. injection Hpn' as <-.
  pose proof (add_host_count_hashable host_counts pol_name m1 m' Hhc) as Hpn.
  destruct (add_policies_other_column host_counts so row pol_name post (pre ++ [pol]) per_os2
              per_os Hh Hr Hpn Hpost Hplat2 Htables2 Hrest) as [Htables Hlast].
  split; [exact Htables|]. split; [exact Hpn|]. rewrite Hlast, Hper_os2.
  destruct Hplat1 as ((Hkeys1 & _) & _).
  destruct (motors_of_same so so m' per_os1 Hh Hh Hkeys1 (py_eqb_refl so Hh)) as [-> _].
  pose proof (start_table_ok so per_os1 Htables1) as Hstart.
  apply for_each_groups in Hloop.
  rewrite <- (settings_of_groups pol ps groups Hps Hgroups), Hsettings in Hloop.
  apply for_each_split in Hloop as (ma & mb & Hspre & Hs & Hafter).
  pose proof (add_settings_table_ok pol_name spre _ ma Hstart Hspre) as Hma.
  pose proof (add_setting_table_ok _ _ _ _ Hma Hs) as Hmb.
  pose proof (add_settings_table_ok pol_name spost mb m1 Hmb Hafter) as Hm1.
  rewrite (add_host_count_other_row host_counts pol_name m1 m' row pol_name Hm1 Hhc Hr Hpn Hcount).
  rewrite (add_settings_spare pol_name row pol_name spost mb m1 Hr Hpn Hspost Hmb Hafter).
  apply (Hcell ma mb Hma Hs).
Qed.

(** A cell of a table is a cell of its sheet. *)
Lemma cell_in_sheet (per_os : pydict motors) (result : pydict frame) (so c : json)
    (row v : string) :
  Forall2 (fun entry sheet =>
             fst sheet = fst entry /\ build_frame (fst entry) (snd entry) = Ok (snd sheet))
          per_os result ->
  Forall (fun entry => table_ok (snd entry)) per_os ->
  hashable c = true ->
  cell (motors_of so per_os) (JStr row) c = Some v ->
  exists df, dict_get so result = Some df /\ shows df (JStr row) c (render v).
Proof.
  intros Hall Htables Hc Hcell.
  unfold motors_of in Hcell. destruct (dict_get so per_os) as [m|] eqn:Hm; [|discriminate].
  destruct (sheet_of_table per_os result so m Hall Hm) as (k & df & Hdf & Hbuild).
  assert (Hok : table_ok m).
  { destruct (dict_get_In _ _ _ Hm) as (k0 & Hk0 & _).
    rewrite List.Forall_forall in Htables. apply (Htables _ Hk0). }
  destruct (build_frame_inv _ _ _ Hbuild) as [Hcols Hcells].
  destruct (column_of_cell m (JStr row) c _ Hok Hc Hcell) as (i & c' & Hi & Hch & Heq).
  assert (Hrow : dict_mem (JStr row) m = true).
  { unfold cell in Hcell. unfold dict_mem. destruct (dict_get (JStr row) m);
      [reflexivity | discriminate]. }
  destruct (row_in_frame k m df row Hok Hbuild Hrow) as (r & Hr & Hhd).
  rewrite Hcells in Hr. apply in_map_iff in Hr as (label & <- & Hlabel).
  cbn [row_cells hd_error] in Hhd. injection Hhd as ->.
  exists df. split; [exact Hdf|]. exists (row_cells k m (JStr row)), i, c'.
  split; [rewrite Hcells; apply in_map; exact Hlabel|].
  split; [reflexivity|].
  split; [rewrite Hcols; cbn [Nat.add nth_error]; exact Hi|]. split; [exact Heq|].
  cbn [row_cells Nat.add nth_error].
  rewrite nth_error_map, Hi. cbn [option_map].
  rewrite (cell_equiv_column m (JStr row) c' c Hok Hch Hc Heq), Hcell. reflexivity.
Qed.

End written_cells.


(** ** Detection and prevention rows *)

Module compound_rows.
Import exportpp exportpp_facts rows_facts emitted_rows cell_facts written_cells.

Lemma append_inj_l (a b c : string) : a +:+ b = a +:+ c -> b = c.
Proof.
  induction a as [|x a IH]; [trivial|]. rewrite !append_cons. intros [= H]. apply IH. exact H.
Qed.

Lemma rows_differ (name : string) :
  String.eqb (name +:+ " (Detection)") (name +:+ " (Prevention)") = false.
Proof. apply String.eqb_neq. intros H. apply append_inj_l in H. discriminate. Qed.

(** The cells of a compound value. *)
Lemma add_setting_compound_cells pol_name m s name value d p m' :
  py_get s "name" JNull = Ok name ->
  py_get s "value" JNull = Ok value ->
  indicators value d p ->
  plain d = true -> plain p = true ->
  table_ok m -> add_setting pol_name m s = Ok m' ->
  cell m' (detection_row name) pol_name = Some d /\
  (String.eqb (py_str name +:+ " (Prevention)") excluded_row = false ->
   cell m' (prevention_row name) pol_name = Some p).
Proof.
  intros Hname Hvalue Hind Hd Hp Hm.
  rewrite (compound_facts.add_setting_compound pol_name m s name value d p Hname Hvalue Hind
             Hd Hp).
  destruct (set_cell (detection_row name) pol_name d m) as [m1|e] eqn:H1; [|discriminate].
  cbn [bind]. pose proof (set_cell_cell _ _ _ _ _ H1) as Hc1.
  destruct (String.eqb _ excluded_row) eqn:Hex.
  - intros [= <-]. split; [exact Hc1 | discriminate].
  - intros H2. destruct (set_cell_inv _ _ _ _ _ H2) as (_ & Hpn & _).
    split; [|intros _; apply (set_cell_cell _ _ _ _ _ H2)].
    rewrite (set_cell_other_row_cell _ _ _ _ _ (detection_row name) pol_name
               (set_cell_table_ok _ _ _ _ _ Hm H1) H2 eq_refl Hpn (rows_differ _)).
    exact Hc1.
Qed.

Lemma sheet_from_table (per_os : pydict motors) (result : pydict frame) k df :
  Forall2 (fun entry sheet =>
             fst sheet = fst entry /\ build_frame (fst entry) (snd entry) = Ok (snd sheet))
          per_os result ->
  In (k, df) result -> exists m, In (k, m) per_os /\ build_frame k m = Ok df.
Proof.
  induction 1 as [|[k0 m0] [k1 df0] es fs [Hk Hb] _ IH]; [intros []|].
  cbn in Hk, Hb. subst k1. intros [[= <- <-]|Hin].
  - exists m0. split; [left; reflexivity | exact Hb].
  - destruct (IH Hin) as (m & Hm & Hbm). exists m. split; [right; exact Hm | exact Hbm].
Qed.

(** The excluded row is in no sheet, unless a setting is named so. *)
Lemma excluded_row_absent policies host_counts result :
  transform_policies policies host_counts = Ok result ->
  (forall pol s, In pol policies -> In s (settings_of pol) -> named_excluded s = false) ->
  forall k df r, In (k, df) result -> In r (cells df) ->
                 hd_error r <> Some (Some (JStr excluded_row)).
Proof.
  intros Hrun Hnames k df r Hdf Hr.
  destruct (transform_policies_inv _ _ _ Hrun) as (per_os & Hloop & _ & _ & Hall).
  assert (Hinv : Forall (fun entry : json * motors => no_excluded_row (snd entry)) per_os).
  { refine (for_each_preserves (add_policy host_counts)
              (Forall (fun entry : json * motors => no_excluded_row (snd entry)))
              policies _ [] per_os (List.Forall_nil _) Hloop).
    intros per_os0 pol per_os1 Hin H0 Hadd.
    apply (add_policy_no_excluded host_counts per_os0 pol per_os1 H0); [|exact Hadd].
    intros s Hs. apply (Hnames pol s Hin Hs). }
  destruct (sheet_from_table per_os result k df Hall Hdf) as (m & Hm & Hbuild).
  rewrite List.Forall_forall in Hinv. pose proof (Hinv _ Hm) as Hno. cbn [snd] in Hno.
  destruct (build_frame_inv _ _ _ Hbuild) as [_ Hcells]. rewrite Hcells in Hr.
  apply in_map_iff in Hr as (row & <- & Hrow). cbn [row_cells hd_error].
  intros [= ->]. pose proof (Hno _ (row_labels_keys _ _ Hrow)) as H.
  vm_compute in H. discriminate.
Qed.

(** C4 (as amended). Let a setting of a policy that the transform keeps
    have as its value a mapping with a detection and a prevention indicator,
    in any order, that are non-empty strings without "/" and ":", and with
    no other entries than inert ones (their text [key:value] has no "/", no
    "enabled:" and no "configured:", and does not begin with "detection:" or
    "prevention:"). Then the output sheet of the policy's platform has the
    row "<name> (Detection)" and, unless it would be "Extended User Mode Data
    (Prevention)", the row "<name> (Prevention)"; and the cell of each of the
    two rows in the column of the policy holds the respective indicator
    (shown as ON or OFF when it is the text True or False), when it is the
    last cell written there: no later setting of the policy writes the row
    and no later policy of the platform has the same name. The row "Extended
    User Mode Data (Prevention)" is in no output sheet unless a setting of
    the input is itself named so. *)
Theorem compound_values_split
    (policies pre post : list json) (host_counts : pydict Z) (result : pydict frame)
    (pol so pol_name s name value : json) (spre spost : list json) (d p : string) :
  transform_policies policies host_counts = Ok result ->
  policies = pre ++ pol :: post ->
  named_policy pol so pol_name ->
  settings_of pol = spre ++ s :: spost ->
  py_get s "name" JNull = Ok name ->
  py_get s "value" JNull = Ok value ->
  indicators value d p ->
  plain d = true -> plain p = true ->
  (exists df,
     dict_get so result = Some df /\
     (exists r, In r (cells df) /\ hd_error r = Some (Some (detection_row name))) /\
     (last_written so pol_name (detection_row name) spost post ->
      shows df (detection_row name) pol_name (render d)) /\
     (String.eqb (py_str name +:+ " (Prevention)") excluded_row = false ->
      (exists r, In r (cells df) /\ hd_error r = Some (Some (prevention_row name))) /\
      (last_written so pol_name (prevention_row name) spost post ->
       shows df (prevention_row name) pol_name (render p)))) /\
  ((forall pol' s', In pol' policies -> In s' (settings_of pol') -> named_excluded s' = false) ->
   forall k df r, In (k, df) result -> In r (cells df) ->
                  hd_error r <> Some (Some (JStr excluded_row))).
Proof.
  intros Hrun -> Hnamed Hsettings Hname Hvalue Hind Hd Hp.
  pose proof Hnamed as (Hso & Hig & _).
  assert (Hpol : In pol (pre ++ pol :: post)) by apply in_elt.
  assert (Hs : In s (settings_of pol)) by (rewrite Hsettings; apply in_elt).
  split; [|apply (excluded_row_absent _ host_counts result Hrun)].
  destruct (compound_rows_in_sheet host_counts pol s name value so d p Hso Hig Hs Hname Hvalue
              Hind Hd Hp _ result Hpol Hrun) as (df & Hdf & Hdet & Hprev).
  destruct (transform_policies_inv _ _ _ Hrun) as (per_os & Hloop & _ & _ & Hall).
  exists df. split; [exact Hdf|]. split; [exact Hdet|]. split.
  - intros Hlast.
    destruct (last_cell host_counts pre post per_os pol so pol_name spre spost s
                (detection_row name) d Hloop Hnamed Hsettings eq_refl) as (Htables & Hpn & Hcell);
      [|exact Hlast|].
    { intros m m' Hm Hadd.
      apply (add_setting_compound_cells pol_name m s name value d p m' Hname Hvalue Hind Hd Hp
               Hm Hadd). }
    destruct (cell_in_sheet per_os result so pol_name _ d Hall Htables Hpn Hcell)
      as (df' & Hdf' & Hshows).
    rewrite Hdf in Hdf'. injection Hdf' as <-. exact Hshows.
  - intros Hex. split; [apply (Hprev Hex)|]. intros Hlast.
    destruct (last_cell host_counts pre post per_os pol so pol_name spre spost s
                (prevention_row name) p Hloop Hnamed Hsettings eq_refl) as (Htables & Hpn & Hcell);
      [|exact Hlast|].
    { intros m m' Hm Hadd.
      apply (add_setting_compound_cells pol_name m s name value d p m' Hname Hvalue Hind Hd Hp
               Hm Hadd). exact Hex. }
    destruct (cell_in_sheet per_os result so pol_name _ p Hall Htables Hpn Hcell)
      as (df' & Hdf' & Hshows).
    rewrite Hdf in Hdf'. injection Hdf' as <-. exact Hshows.
Qed.

Lemma compound_values_split_witness :
  exists df,
    dict_get (JStr "Linux")
      (match transform_policies reordered [] with Ok r => r | Raise _ => [] end) = Some df /\
    shows df (detection_row (JStr "Cloud Anti-malware")) (JStr "Default") "aggressive" /\
    shows df (prevention_row (JStr "Cloud Anti-malware")) (JStr "Default") "moderate".
Proof.
  destruct (compound_values_split reordered [] [] []
              (match transform_policies reordered [] with Ok r => r | Raise _ => [] end)
              (policy (on "Linux") "Default"
                 [setting "Cloud Anti-malware"
                    (JDict [("prevention", JStr "moderate"); ("note", JStr "ml");
                            ("detection", JStr "aggressive")]);
                  setting "Quarantine" (JDict [("enabled", JBool true)])])
              (JStr "Linux") (JStr "Default")
              (setting "Cloud Anti-malware"
                 (JDict [("prevention", JStr "moderate"); ("note", JStr "ml");
                         ("detection", JStr "aggressive")]))
              (JStr "Cloud Anti-malware")
              (JDict [("prevention", JStr "moderate"); ("note", JStr "ml");
                      ("detection", JStr "aggressive")])
              [] [setting "Quarantine" (JDict [("enabled", JBool true)])]
              "aggressive" "moderate")
    as [(df & Hdf & _ & Hdet & Hprev) _].
  - vm_compute. reflexivity.
  - reflexivity.
  - split; [reflexivity|]. split; [reflexivity|]. exists JNull. split; reflexivity.
  - reflexivity.
  - reflexivity.
  - reflexivity.
  - exists [("prevention", JStr "moderate"); ("note", JStr "ml"); ("detection", JStr "aggressive")].
    split; [reflexivity|]. split; [right; right; left; reflexivity|].
    split; [left; reflexivity|].
    constructor; [right; left; reflexivity|].
    constructor; [right; right; reflexivity|].
    constructor; [left; reflexivity | constructor].
  - reflexivity.
  - reflexivity.
  - exists df. split; [exact Hdf|]. split.
    + apply Hdet. split; [reflexivity|]. split; reflexivity.
    + apply (Hprev eq_refl). split; [reflexivity|]. split; reflexivity.
Defined.

(** C4 as it is stated fails: a setting that is itself named "Extended User
    Mode Data (Prevention)" gives a row of this name, and a compound value
    whose detection indicator is empty gives no detection row. *)
Lemma excluded_row_by_name :
  exists df,
    transform_policies named_like_excluded [] = Ok [(JStr "Windows", df)] /\
    map (@hd_error (option json)) (cells df) =
      [Some (Some (JStr "Extended User Mode Data (Prevention)"));
       Some (Some (JStr "Adware & PUP (Prevention)"))].
Proof.
  eexists. split; vm_compute; reflexivity.
Qed.

End compound_rows.


(** ** Boolean settings and the Recommended column *)

Module boolean_rendering.
Import exportpp exportpp_facts rows_facts emitted_rows cell_facts written_cells.

Lemma collapse_boolean b value_str :
  boolean_shape b value_str -> collapse value_str = py_bool b.
Proof.
  intros [->|[->|[->| ->]]]; destruct b; reflexivity.
Qed.

Lemma render_boolean b : render (py_bool b) = if b then "ON" else "OFF".
Proof. destruct b; reflexivity. Qed.

Lemma render_never_boolean v : render v <> "True" /\ render v <> "False".
Proof.
  unfold render. destruct (String.eqb_spec v "True") as [->|H1].
  - split; discriminate.
  - destruct (String.eqb_spec v "False") as [->|H2]; [split; discriminate|].
    split; assumption.
Qed.

Lemma add_setting_boolean pol_name m s name value b :
  py_get s "name" JNull = Ok name ->
  py_get s "value" JNull = Ok value ->
  boolean_shape b (flatten value) ->
  add_setting pol_name m s = set_cell name pol_name (py_bool b) m.
Proof.
  intros Hname Hvalue Hshape. unfold add_setting. rewrite Hname, Hvalue. cbn [bind].
  rewrite (collapse_boolean b _ Hshape). destruct b; reflexivity.
Qed.

Lemma rendered_cells so m row c :
  In c (skipn 2 (row_cells so m row)) -> c <> Some (JStr "True") /\ c <> Some (JStr "False").
Proof.
  cbn [row_cells skipn]. intros Hc. apply in_map_iff in Hc as (pol & <- & _).
  destruct (cell m row pol) as [v|]; cbn [option_map]; [|split; discriminate].
  destruct (render_never_boolean v) as [H1 H2]. split; intros [= H]; contradiction.
Qed.

(** C8 (as amended). Let a setting of a policy that the transform keeps
    have a flattened value of the shape [enabled:<bool>] or
    [configured:<bool>], alone or followed by a second boolean that is the
    same. The value collapses to the plain boolean, and the sheet of the
    policy's platform shows it, in the row of the setting and the column of
    the policy, as "ON" for true and "OFF" for false, when it is the last
    cell written there: no later setting of the policy writes the row, no
    later policy of the platform has the same name, and the row is not the
    one of the host counts. In every output sheet every cell of the policy
    columns is rendered, "True" as "ON" and "False" as "OFF": none shows
    "True" or "False". The column "Recomended" is the second column, after
    the one of the row names, and holds for every row the entry of the table
    of recommended values as it is (the empty string without entry). *)
Theorem boolean_settings_rendered
    (policies pre post : list json) (host_counts : pydict Z) (result : pydict frame)
    (pol so pol_name s value : json) (name : string) (spre spost : list json) (b : bool) :
  transform_policies policies host_counts = Ok result ->
  policies = pre ++ pol :: post ->
  named_policy pol so pol_name ->
  settings_of pol = spre ++ s :: spost ->
  py_get s "name" JNull = Ok (JStr name) ->
  py_get s "value" JNull = Ok value ->
  boolean_shape b (flatten value) ->
  collapse (flatten value) = py_bool b /\
  (last_written so pol_name (JStr name) spost post ->
   exists df,
     dict_get so result = Some df /\
     shows df (JStr name) pol_name (if b then "ON" else "OFF")) /\
  exists per_os,
    for_each (add_policy host_counts) policies [] = Ok per_os /\
    forall k df, In (k, df) result ->
      exists table,
        In (k, table) per_os /\
        columns df = JStr label_column :: JStr recommended_column :: policy_columns table /\
        forall r, In r (cells df) ->
          exists row,
            In row (keys table) /\
            r = Some row
                :: Some (JStr (recommended_value k row))
                :: map (fun pol => option_map (fun v => JStr (render v)) (cell table row pol))
                       (policy_columns table) /\
            forall c, In c (skipn 2 r) -> c <> Some (JStr "True") /\ c <> Some (JStr "False").
Proof.
  intros Hrun Hsplit Hnamed Hsettings Hname Hvalue Hshape.
  split; [apply (collapse_boolean b _ Hshape)|].
  destruct (transform_policies_inv _ _ _ Hrun) as (per_os & Hloop & _ & _ & Hall).
  split.
  - intros Hlast. rewrite Hsplit in Hloop.
    destruct (last_cell host_counts pre post per_os pol so pol_name spre spost s
                (JStr name) (py_bool b) Hloop Hnamed Hsettings eq_refl)
      as (Htables & Hpn & Hcell); [|exact Hlast|].
    { intros m m' _.
      rewrite (add_setting_boolean pol_name m s (JStr name) value b Hname Hvalue Hshape).
      apply set_cell_cell. }
    rewrite <- render_boolean.
    apply (cell_in_sheet per_os result so pol_name name _ Hall Htables Hpn Hcell).
  - exists per_os. split; [exact Hloop|]. intros k df Hdf.
    destruct (compound_rows.sheet_from_table per_os result k df Hall Hdf)
      as (table & Htable & Hb).
    destruct (build_frame_inv _ _ _ Hb) as [Hcols Hcells].
    exists table. split; [exact Htable|]. split; [exact Hcols|].
    intros r Hr. rewrite Hcells in Hr. apply in_map_iff in Hr as (row & <- & Hrow).
    exists row. split; [apply row_labels_keys; exact Hrow|]. split; [reflexivity|].
    intros c. apply rendered_cells.
Qed.

Lemma boolean_settings_rendered_witness :
  collapse (flatten (JDict [("enabled", JBool true)])) = py_bool true /\
  exists df,
    dict_get (JStr "Windows")
      (match transform_policies four_policies [] with Ok r => r | Raise _ => [] end) = Some df /\
    shows df (JStr "Notify End Users") (JStr "Default") "ON".
Proof.
  destruct (boolean_settings_rendered four_policies []
              [mobile_policy;
               policy [] "Legacy" [setting "Quarantine" (JDict [("configured", JBool false)])];
               policy (on "Windows") "Servers"
                 [setting "Notify End Users" (JDict [("enabled", JBool false)])]]
              []
              (match transform_policies four_policies [] with Ok r => r | Raise _ => [] end)
              (policy (on "Windows") "Default"
                 [setting "Cloud Anti-malware" (compound "aggressive" "moderate");
                  setting "Notify End Users" (JDict [("enabled", JBool true)]);
                  setting "Extended User Mode Data" (compound "moderate" "cautious")])
              (JStr "Windows") (JStr "Default")
              (setting "Notify End Users" (JDict [("enabled", JBool true)]))
              (JDict [("enabled", JBool true)])
              "Notify End Users"
              [setting "Cloud Anti-malware" (compound "aggressive" "moderate")]
              [setting "Extended User Mode Data" (compound "moderate" "cautious")]
              true)
    as (Hcollapse & Hshown & _).
  - vm_compute. reflexivity.
  - reflexivity.
  - split; [reflexivity|]. split; [reflexivity|]. exists JNull. split; reflexivity.
  - reflexivity.
  - reflexivity.
  - reflexivity.
  - left. reflexivity.
  - split; [exact Hcollapse|]. apply Hshown. split; [reflexivity|]. split; reflexivity.
Defined.

(** C8 as it is stated fails for [configured:<bool>/<bool>] with two
    different booleans: the value stays "True/False" and is not rendered. *)
Lemma mixed_booleans_not_rendered :
  collapse "configured:True/False" = "True/False" /\
  exists df,
    transform_policies mixed_booleans [] = Ok [(JStr "Windows", df)] /\
    map (fun r : list (option json) => nth_error r 2) (cells df) =
      [Some (Some (JStr "True/False")); Some (Some (JStr "True/False"))].
Proof.
  split; [reflexivity|]. eexists. split; vm_compute; reflexivity.
Qed.

End boolean_rendering.


(** ** Paging until a short page *)

Module short_pages_facts.
Import exporthostgroups.

Lemma firstn_more {A : Type} (l : list A) (a b : nat) :
  firstn a l ++ firstn b (skipn a l) = firstn (a + b) l.
Proof.
  revert l. induction a as [|a IH]; intros l; [reflexivity|].
  destruct l as [|x l]; cbn [firstn skipn Nat.add app].
  - rewrite firstn_nil. reflexivity.
  - f_equal. apply IH.
Qed.

Lemma filter_is_get_round (url : string) (params : list (string * json)) (line : string)
    (trace : list event) :
  List.filter is_get (trace ++ [Get url params; Print line]) =
  List.filter is_get trace ++ [Get url params].
Proof. rewrite List.filter_app. reflexivity. Qed.

Section Loop.

Variable get : upstream.
Variables (url : string) (headers : list (string * string)).
Variable L : nat.
Variable line : nat -> response -> string.
Variable failure : response -> string.
Hypothesis HL : 1 <= L.

Lemma read_page_eq off acc d page :
  status_code (get url headers (page_params L off)) = 200%Z ->
  json_body (get url headers (page_params L off)) = Some (JDict d) ->
  lookup_str "resources" d = Some (JList page) ->
  read_short_page L off failure acc (get url headers (page_params L off)) =
  if negb (truthy (JList page)) || (length page <? L)%nat
  then LastPage (acc ++ page) else NextPage (acc ++ page) (off + L).
Proof.
  intros Hs Hb Hr. unfold read_short_page. rewrite Hs, Hb, Z.eqb_refl. cbn [negb].
  unfold py_get. rewrite Hr. unfold bind, py_iter.
  destruct (negb (truthy (JList page)) || (length page <? L)%nat); reflexivity.
Qed.

(** A page that is full keeps the loop going. *)
Lemma read_full_page off acc d page :
  status_code (get url headers (page_params L off)) = 200%Z ->
  json_body (get url headers (page_params L off)) = Some (JDict d) ->
  lookup_str "resources" d = Some (JList page) ->
  L <= length page ->
  read_short_page L off failure acc (get url headers (page_params L off)) =
  NextPage (acc ++ page) (off + L).
Proof.
  intros Hs Hb Hr Hlen. rewrite (read_page_eq off acc d page Hs Hb Hr).
  destruct page as [|x page]; [cbn in Hlen; lia|].
  cbn [truthy negb orb]. destruct (Nat.ltb_spec (length (x :: page)) L); [lia|]. reflexivity.
Qed.

(** A page that is short ends it. *)
Lemma read_last_page off acc d page :
  status_code (get url headers (page_params L off)) = 200%Z ->
  json_body (get url headers (page_params L off)) = Some (JDict d) ->
  lookup_str "resources" d = Some (JList page) ->
  length page < L ->
  read_short_page L off failure acc (get url headers (page_params L off)) =
  LastPage (acc ++ page).
Proof.
  intros Hs Hb Hr Hlen. rewrite (read_page_eq off acc d page Hs Hb Hr).
  destruct (Nat.ltb_spec (length page) L); [|lia]. rewrite orb_true_r. reflexivity.
Qed.

Lemma short_pages_serves (items : list json) :
  serves_pages get items ->
  forall k off trace fuel,
    S k <= fuel ->
    off + k * L <= length items < off + S k * L ->
    exists trace',
      short_pages fuel get url headers L line failure off (firstn off items) trace
      = Some (Ok items, trace') /\
      List.filter is_get trace' =
      List.filter is_get trace ++ map (fun i => Get url (page_params L (off + i * L))) (seq 0 (S k)).
Proof.
  intros Hserves. induction k as [|k IH]; intros off trace fuel Hfuel Hk.
  - destruct fuel as [|fuel]; [lia|]. cbn [short_pages].
    destruct (Hserves url headers L off) as (Hs & d & Hb & Hr).
    rewrite (read_last_page off _ d _ Hs Hb Hr).
    + eexists. split.
      * rewrite firstn_more, firstn_all2 by lia. reflexivity.
      * rewrite filter_is_get_round. cbn. rewrite Nat.add_0_r. reflexivity.
    + rewrite length_firstn, length_skipn. lia.
  - destruct fuel as [|fuel]; [lia|]. cbn [short_pages].
    destruct (Hserves url headers L off) as (Hs & d & Hb & Hr).
    rewrite (read_full_page off _ d _ Hs Hb Hr).
    + rewrite firstn_more.
      destruct (IH (off + L) (trace ++ [Get url (page_params L off);
                                        Print (line off (get url headers (page_params L off)))])
                   fuel) as (trace' & Hrun & Hreq); [lia | cbn in Hk |- *; lia |].
      exists trace'. split; [exact Hrun|].
      rewrite Hreq, filter_is_get_round, <- app_assoc. f_equal.
      change (seq 0 (S (S k))) with (0 :: seq 1 (S k)).
      rewrite <- seq_shift. cbn [map app]. rewrite map_map, Nat.add_0_r. f_equal.
      apply map_ext. intros i. do 2 f_equal. cbn. lia.
    + rewrite length_firstn, length_skipn. cbn in Hk. lia.
Qed.

(** Full pages without end: the loop uses up any number of rounds. *)
Lemma short_pages_endless :
  (forall off,
     let resp := get url headers (page_params L off) in
     status_code resp = 200%Z /\
     exists d page,
       json_body resp = Some (JDict d) /\
       lookup_str "resources" d = Some (JList page) /\ L <= length page) ->
  forall fuel off acc trace,
    short_pages fuel get url headers L line failure off acc trace = None.
Proof.
  intros Hfull. induction fuel as [|fuel IH]; intros off acc trace; [reflexivity|].
  cbn [short_pages]. destruct (Hfull off) as (Hs & d & page & Hb & Hr & Hlen).
  rewrite (read_full_page off acc d page Hs Hb Hr Hlen). apply IH.
Qed.

(** Full pages up to a request that is refused. *)
Lemma short_pages_refused :
  forall k off acc trace fuel,
    S k <= fuel ->
    (forall i, i < k ->
       let resp := get url headers (page_params L (off + i * L)) in
       status_code resp = 200%Z /\
       exists d page,
         json_body resp = Some (JDict d) /\
         lookup_str "resources" d = Some (JList page) /\ L <= length page) ->
    status_code (get url headers (page_params L (off + k * L))) <> 200%Z ->
    exists trace',
      short_pages fuel get url headers L line failure off acc trace
      = Some (Raise (RuntimeError (failure (get url headers (page_params L (off + k * L))))),
              trace') /\
      List.filter is_get trace' =
      List.filter is_get trace ++ map (fun i => Get url (page_params L (off + i * L))) (seq 0 (S k)).
Proof.
  induction k as [|k IH]; intros off acc trace fuel Hfuel Hfull Hbad.
  - destruct fuel as [|fuel]; [lia|]. cbn [short_pages]. cbn in Hbad. rewrite Nat.add_0_r in Hbad.
    unfold read_short_page.
    destruct (Z.eqb_spec (status_code (get url headers (page_params L off))) 200) as [E|_];
      [contradiction|].
    cbn [negb]. eexists. split.
    + cbn. rewrite Nat.add_0_r. reflexivity.
    + rewrite filter_is_get_round. cbn. rewrite Nat.add_0_r. reflexivity.
  - destruct fuel as [|fuel]; [lia|]. cbn [short_pages].
    destruct (Hfull 0) as (Hs & d & page & Hb & Hr & Hlen); [lia|].
    cbn in Hs, Hb. rewrite Nat.add_0_r in Hs, Hb.
    rewrite (read_full_page off acc d page Hs Hb Hr Hlen).
    destruct (IH (off + L) (acc ++ page)
                 (trace ++ [Get url (page_params L off);
                            Print (line off (get url headers (page_params L off)))])
                 fuel) as (trace' & Hrun & Hreq).
    + lia.
    + intros i Hi. specialize (Hfull (S i)). cbn zeta in Hfull |- *.
      replace (off + L + i * L) with (off + S i * L) by (cbn; lia). apply Hfull. lia.
    + replace (off + L + k * L) with (off + S k * L) by (cbn; lia). exact Hbad.
    + replace (off + L + k * L) with (off + S k * L) in Hrun by (cbn; lia).
      exists trace'. split; [exact Hrun|].
      rewrite Hreq, filter_is_get_round, <- app_assoc. f_equal.
      change (seq 0 (S (S k))) with (0 :: seq 1 (S k)).
      rewrite <- seq_shift. cbn [map app]. rewrite map_map, Nat.add_0_r. f_equal.
      apply map_ext. intros i. do 2 f_equal. cbn. lia.
Qed.

End Loop.

Lemma paged_upstream_serves_pages items : serves_pages (paged_upstream items) items.
Proof.
  intros url headers lim off. cbn. split; [reflexivity|].
  eexists. split; [reflexivity|]. cbn. unfold param_nat. cbn. rewrite !Nat2Z.id. reflexivity.
Qed.

Lemma last_page_bounds (t l : nat) : 1 <= l -> 0 + t / l * l <= t < 0 + S (t / l) * l.
Proof.
  intros Hl. pose proof (Nat.div_mod_eq t l) as E.
  pose proof (Nat.mod_upper_bound t l ltac:(lia)) as B. nia.
Qed.

End short_pages_facts.

Module exportexclusions_fetch_facts.
Import exporthostgroups exportexclusions short_pages_facts.

(** X1. Against an upstream that holds T identifiers in a fixed order and
    serves them in pages, [fetch_ids] returns the T identifiers in this order
    and asks for T/100 + 1 pages, at the offsets 0, 100, 200, ...: it stops
    at the first page with fewer than 100 identifiers, so that a last full
    page is followed by one more request. *)
Theorem fetch_ids_collects_every_page
    (get : upstream) (items : list json) (token base_url query_endpoint : string) (fuel : nat) :
  serves_pages get items ->
  length items / limit + 1 <= fuel ->
  exists trace,
    fetch_ids get token base_url query_endpoint fuel = Some (Ok items, trace) /\
    requests trace = page_requests (base_url +:+ query_endpoint) limit (length items / limit + 1).
Proof.
  intros Hserves Hfuel.
  destruct (short_pages_serves get (base_url +:+ query_endpoint) (bearer token) limit
              (ids_line query_endpoint) ids_failure ltac:(unfold limit; lia) items Hserves
              (length items / limit) 0 [] fuel) as (trace & Hrun & Hreq).
  - lia.
  - apply last_page_bounds. unfold limit. lia.
  - exists trace. split; [exact Hrun|].
    unfold requests. rewrite Hreq, Nat.add_1_r. reflexivity.
Qed.

Lemma fetch_ids_collects_every_page_witness :
  exists trace,
    fetch_ids (paged_upstream (numbered 200)) "token" "https://api.crowdstrike.com"
      "/policy/queries/ml-exclusions/v1" 3
    = Some (Ok (numbered 200), trace) /\
    requests trace =
      page_requests ("https://api.crowdstrike.com" +:+ "/policy/queries/ml-exclusions/v1")
        limit (length (numbered 200) / limit + 1).
Proof.
  apply (fetch_ids_collects_every_page (paged_upstream (numbered 200)) (numbered 200)).
  - apply paged_upstream_serves_pages.
  - vm_compute. lia.
Defined.

(** X3. When the pages before the offset 100*k are full and the request at
    this offset is answered with a status other than 200, [fetch_ids] raises
    the [RuntimeError] of this answer after k+1 requests: the identifiers of
    the pages already read are not returned. *)
Theorem fetch_ids_refusal_discards_pages
    (get : upstream) (token base_url query_endpoint : string) (k fuel : nat) :
  let url := base_url +:+ query_endpoint in
  let ask := fun off => get url (bearer token) (page_params limit off) in
  (forall i, i < k ->
     status_code (ask (i * limit)) = 200%Z /\
     exists d page,
       json_body (ask (i * limit)) = Some (JDict d) /\
       lookup_str "resources" d = Some (JList page) /\ limit <= length page) ->
  status_code (ask (k * limit)) <> 200%Z ->
  k + 1 <= fuel ->
  exists trace,
    fetch_ids get token base_url query_endpoint fuel
    = Some (Raise (RuntimeError (ids_failure (ask (k * limit)))), trace) /\
    requests trace = page_requests url limit (k + 1).
Proof.
  intros url ask Hfull Hbad Hfuel.
  destruct (short_pages_refused get url (bearer token) limit (ids_line query_endpoint)
              ids_failure ltac:(unfold limit; lia) k 0 [] [] fuel) as (trace & Hrun & Hreq).
  - lia.
  - intros i Hi. apply (Hfull i Hi).
  - exact Hbad.
  - exists trace. split; [exact Hrun|].
    unfold requests. rewrite Hreq, Nat.add_1_r. reflexivity.
Qed.

Lemma fetch_ids_refusal_discards_pages_witness :
  exists trace,
    fetch_ids (refusing_from 200 (numbered 450)) "token" "https://api.crowdstrike.com"
      "/policy/queries/ml-exclusions/v1" 3
    = Some (Raise (RuntimeError "Falha ao buscar IDs: 500 - internal error"), trace) /\
    requests trace =
      page_requests ("https://api.crowdstrike.com" +:+ "/policy/queries/ml-exclusions/v1")
        limit 3.
Proof.
  apply (fetch_ids_refusal_discards_pages (refusing_from 200 (numbered 450)) "token"
           "https://api.crowdstrike.com" "/policy/queries/ml-exclusions/v1" 2 3).
  - intros i Hi.
    assert (i = 0 \/ i = 1) as [-> | ->] by lia.
    + split; [reflexivity|]. eexists _, _. split; [reflexivity|]. split; [reflexivity|].
      vm_compute. lia.
    + split; [reflexivity|]. eexists _, _. split; [reflexivity|]. split; [reflexivity|].
      vm_compute. lia.
  - vm_compute. discriminate.
  - lia.
Defined.

End exportexclusions_fetch_facts.

Module exportiocs_fetch_facts.
Import exporthostgroups exportiocs short_pages_facts.

(** X2. Against an upstream that holds T indicators in a fixed order and
    serves them in pages, [fetch_iocs] returns the T indicators in this order
    and asks for T/2000 + 1 pages, at the offsets 0, 2000, 4000, ... *)
Theorem fetch_iocs_collects_every_page
    (get : upstream) (items : list json) (token base_url : string) (fuel : nat) :
  serves_pages get items ->
  length items / limit + 1 <= fuel ->
  exists trace,
    fetch_iocs get token base_url fuel = Some (Ok items, trace) /\
    List.filter is_get trace = page_requests (endpoint base_url) limit (length items / limit + 1).
Proof.
  intros Hserves Hfuel.
  destruct (short_pages_serves get (endpoint base_url) (bearer token) limit
              iocs_line iocs_failure ltac:(unfold limit; lia) items Hserves
              (length items / limit) 0 [] fuel) as (trace & Hrun & Hreq).
  - lia.
  - apply last_page_bounds. unfold limit. lia.
  - exists trace. split; [exact Hrun|].
    rewrite Hreq, Nat.add_1_r. reflexivity.
Qed.

Lemma fetch_iocs_collects_every_page_witness :
  exists trace,
    fetch_iocs (paged_upstream three_iocs) "token" "https://api.crowdstrike.com" 1
    = Some (Ok three_iocs, trace) /\
    List.filter is_get trace =
      page_requests (endpoint "https://api.crowdstrike.com") limit
        (length three_iocs / limit + 1).
Proof.
  apply (fetch_iocs_collects_every_page (paged_upstream three_iocs) three_iocs).
  - apply paged_upstream_serves_pages.
  - vm_compute. lia.
Defined.

End exportiocs_fetch_facts.

Module paging_end_facts.
Import exporthostgroups short_pages_facts.

(** X4. Neither [fetch_ids] nor [fetch_iocs] bounds the number of pages:
    against an upstream that answers every request with as many resources as
    the limit asked for, the loop does not end, whatever the number of rounds
    it is given. *)
Theorem full_pages_never_end (get : upstream) :
  (forall url headers lim off,
     let resp := get url headers (page_params lim off) in
     status_code resp = 200%Z /\
     exists d page,
       json_body resp = Some (JDict d) /\
       lookup_str "resources" d = Some (JList page) /\ lim <= length page) ->
  (forall token base_url query_endpoint fuel,
     exportexclusions.fetch_ids get token base_url query_endpoint fuel = None) /\
  (forall token base_url fuel, exportiocs.fetch_iocs get token base_url fuel = None).
Proof.
  intros Hfull. split.
  - intros token base_url query_endpoint fuel.
    apply short_pages_endless; [unfold exportexclusions.limit; lia|].
    intros off. apply Hfull.
  - intros token base_url fuel.
    apply short_pages_endless; [unfold exportiocs.limit; lia|].
    intros off. apply Hfull.
Qed.

Lemma full_page_upstream_full url headers lim off :
  let resp := full_page_upstream url headers (page_params lim off) in
  status_code resp = 200%Z /\
  exists d page,
    json_body resp = Some (JDict d) /\
    lookup_str "resources" d = Some (JList page) /\ lim <= length page.
Proof.
  cbn. split; [reflexivity|]. eexists _, _. split; [reflexivity|]. split; [reflexivity|].
  unfold param_nat. cbn. rewrite Nat2Z.id. unfold numbered. rewrite length_map, length_seq. lia.
Qed.

Lemma full_pages_never_end_witness :
  exportexclusions.fetch_ids full_page_upstream "token" "https://api.crowdstrike.com"
    "/policy/queries/ml-exclusions/v1" 5 = None /\
  exportiocs.fetch_iocs full_page_upstream "token" "https://api.crowdstrike.com" 2 = None.
Proof.
  destruct (full_pages_never_end full_page_upstream full_page_upstream_full) as [Hids Hiocs].
  split; [apply Hids | apply Hiocs].
Defined.

Section Bound.

Variable get : upstream.
Variables (url : string) (headers : list (string * string)).
Variable T : nat.
Hypothesis Htotal :
  forall params,
    let resp := get url headers params in
    status_code resp = 200%Z /\
    exists d m p page,
      json_body resp = Some (JDict d) /\
      lookup_str "resources" d = Some (JList page) /\
      lookup_str "meta" d = Some (JDict m) /\
      lookup_str "pagination" m = Some (JDict p) /\
      lookup_str "total" p = Some (JInt (Z.of_nat T)).

Lemma read_page_total off acc :
  exists page,
    read_page limit off acc (get url headers (page_params limit off)) =
    if (T <=? off + length page)%nat then Break (acc ++ page)
    else Continue (acc ++ page) (off + limit).
Proof.
  destruct (Htotal (page_params limit off)) as (Hs & d & m & p & page & Hb & Hr & Hm & Hp & Ht).
  exists page. unfold read_page. rewrite Hs, Hb, Z.eqb_refl. cbn [negb].
  unfold py_get. rewrite Hr, Hm. cbn [bind py_iter]. rewrite Hp. cbn [bind]. rewrite Ht.
  cbn [bind int_ge].
  destruct (Nat.leb_spec T (off + length page)) as [H|H];
    destruct (Z.leb_spec (Z.of_nat T) (Z.of_nat off + Z.of_nat (length page))) as [H'|H'];
    try lia; reflexivity.
Qed.

Lemma fetch_pages_bounded k : forall off acc trace fuel,
  S k <= fuel ->
  T <= off + k * limit ->
  exists out trace',
    fetch_pages fuel get url headers limit off acc trace = Some (Ok out, trace') /\
    length (requests trace') <= length (requests trace) + S k.
Proof.
  induction k as [|k IH]; intros off acc trace fuel Hfuel Hk.
  - destruct fuel as [|fuel]; [lia|]. cbn [fetch_pages].
    destruct (read_page_total off acc) as (page & ->).
    destruct (Nat.leb_spec T (off + length page)); [|lia].
    eexists _, _. split; [reflexivity|].
    unfold requests. rewrite filter_is_get_round, length_app. cbn. lia.
  - destruct fuel as [|fuel]; [lia|]. cbn [fetch_pages].
    destruct (read_page_total off acc) as (page & ->).
    destruct (Nat.leb_spec T (off + length page)).
    + eexists _, _. split; [reflexivity|].
      unfold requests. rewrite filter_is_get_round, length_app. cbn. lia.
    + destruct (IH (off + limit) (acc ++ page)
                   (trace ++ [Get url (page_params limit off);
                              Print ("Resposta da API (host groups, offset "
                                     +:+ str_of_Z (Z.of_nat off) +:+ "): "
                                     +:+ text (get url headers (page_params limit off)))])
                   fuel) as (out & trace' & Hrun & Hlen); [lia | unfold limit in Hk |- *; lia |].
      exists out, trace'. split; [exact Hrun|].
      unfold requests in *. rewrite filter_is_get_round, length_app in Hlen. cbn in Hlen. lia.
Qed.

End Bound.

Lemma ceil_div_covers (t l : nat) : 1 <= l -> t <= 0 + ceil_div t l * l.
Proof.
  intros Hl. unfold ceil_div. pose proof (Nat.div_mod_eq (t + l - 1) l) as E.
  pose proof (Nat.mod_upper_bound (t + l - 1) l ltac:(lia)) as B. nia.
Qed.

(** X5. When every answer to [fetch_host_groups] has the status 200 and
    reports the same total T, the loop ends after at most ceil(T/100) + 1
    requests, whatever the pages hold: the offset grows by 100 with every
    round and the loop stops once it has reached T. *)
Theorem fetch_host_groups_request_bound
    (get : upstream) (token base_url : string) (T fuel : nat) :
  (forall params,
     let resp := get (endpoint base_url) (bearer token) params in
     status_code resp = 200%Z /\
     exists d m p page,
       json_body resp = Some (JDict d) /\
       lookup_str "resources" d = Some (JList page) /\
       lookup_str "meta" d = Some (JDict m) /\
       lookup_str "pagination" m = Some (JDict p) /\
       lookup_str "total" p = Some (JInt (Z.of_nat T))) ->
  ceil_div T limit + 1 <= fuel ->
  exists out trace,
    fetch_host_groups get token base_url fuel = Some (Ok out, trace) /\
    length (requests trace) <= ceil_div T limit + 1.
Proof.
  intros Htotal Hfuel.
  destruct (fetch_pages_bounded get (endpoint base_url) (bearer token) T Htotal
              (ceil_div T limit) 0 [] [] fuel) as (out & trace & Hrun & Hlen).
  - lia.
  - apply ceil_div_covers. unfold limit. lia.
  - exists out, trace. split; [exact Hrun|].
    change (length (requests [])) with 0 in Hlen. lia.
Qed.

Lemma fetch_host_groups_request_bound_witness :
  exists out trace,
    fetch_host_groups (fixed_page_upstream 250 []) "token" "https://api.crowdstrike.com" 4
    = Some (Ok out, trace) /\
    length (requests trace) <= ceil_div 250 limit + 1.
Proof.
  apply (fetch_host_groups_request_bound (fixed_page_upstream 250 []) "token"
           "https://api.crowdstrike.com" 250 4).
  - intros params. cbn. split; [reflexivity|].
    eexists _, _, _, _. repeat (split; [reflexivity|]). reflexivity.
  - vm_compute. lia.
Defined.

End paging_end_facts.


(** ** Loops that collect one row per record *)

Lemma for_each_rows {A B : Type} (f : A -> res B) (g : A -> B) (xs : list A) :
  (forall x, In x xs -> f x = Ok (g x)) ->
  forall acc,
    for_each (fun data x => let* row := f x in Ok (data ++ [row])) xs acc
    = Ok (acc ++ map g xs).
Proof.
  induction xs as [|x xs IH]; intros Hf acc; cbn [for_each map].
  - rewrite app_nil_r. reflexivity.
  - rewrite (Hf x (or_introl eq_refl)). cbn [bind]. rewrite IH.
    + rewrite <- app_assoc. reflexivity.
    + intros y Hy. apply Hf. right. exact Hy.
Qed.

Lemma for_each_rows_length {A B : Type} (f : A -> res B) (xs : list A) :
  forall acc out,
    for_each (fun data x => let* row := f x in Ok (data ++ [row])) xs acc = Ok out ->
    exists rows, out = acc ++ rows /\ Forall2 (fun x row => f x = Ok row) xs rows.
Proof.
  induction xs as [|x xs IH]; intros acc out H; cbn [for_each] in H.
  - injection H as <-. exists []. rewrite app_nil_r. split; [reflexivity | constructor].
  - destruct (f x) as [row|e] eqn:E; cbn [bind] in H; [|discriminate].
    destruct (IH _ _ H) as (rows & -> & Hrows).
    exists (row :: rows). rewrite <- app_assoc. split; [reflexivity|].
    constructor; assumption.
Qed.

(** The first record that is no object stops the loop. *)
Lemma for_each_rows_raises {A B : Type} (f : A -> res B) (g : A -> B) (pre : list A) (bad : A)
    (post : list A) (e : exn) :
  (forall x, In x pre -> f x = Ok (g x)) ->
  f bad = Raise e ->
  forall acc,
    for_each (fun data x => let* row := f x in Ok (data ++ [row])) (pre ++ bad :: post) acc
    = Raise e.
Proof.
  intros Hpre Hbad acc. rewrite for_each_app, (for_each_rows f g pre Hpre). cbn [bind for_each].
  rewrite Hbad. reflexivity.
Qed.

(** ** The name of the output file *)

Lemma endswith_append (p s : string) : endswith p (s +:+ p) = true.
Proof.
  unfold endswith. rewrite length_append.
  replace (String.length s + String.length p - String.length p) with (String.length s) by lia.
  rewrite drop_str_append, String.eqb_refl, andb_true_r.
  apply Nat.leb_le. lia.
Qed.

Module exportpp_names_facts.
Import exportpp.

Lemma with_suffix_ends (outfile : string) : endswith ".xlsx" (lower (with_suffix outfile)) = true.
Proof.
  unfold with_suffix. destruct (endswith ".xlsx" (lower outfile)) eqn:E; [exact E|].
  rewrite lower_append. apply endswith_append.
Qed.

Lemma take_drop (n : nat) (s : string) : take_str n s +:+ drop_str n s = s.
Proof.
  revert s. induction n as [|n IH]; intros s; [apply append_nil_l|].
  destruct s as [|c s]; [reflexivity|]. cbn [take_str drop_str].
  rewrite append_cons, IH. reflexivity.
Qed.

Lemma length_lower (s : string) : String.length (lower s) = String.length s.
Proof. induction s as [|c s IH]; [reflexivity|]. cbn [lower String.length]. rewrite IH. reflexivity. Qed.

Lemma drop_str_lower (n : nat) (s : string) : drop_str n (lower s) = lower (drop_str n s).
Proof.
  revert s. induction n as [|n IH]; intros s; [reflexivity|].
  destruct s as [|c s]; [reflexivity|]. cbn [lower drop_str]. apply IH.
Qed.

(** The letters that [lower] turns into a letter of ".xlsx". *)
Lemma lower_char_either (a b c : ascii) :
  (a = "x" /\ b = "X" \/ a = "l" /\ b = "L" \/ a = "s" /\ b = "S")%char ->
  (lower_char c = a <-> either a b c = true).
Proof.
  intros [[-> ->]|[[-> ->]|[-> ->]]];
    destruct c as [[] [] [] [] [] [] [] []]; vm_compute; split; intros H;
    first [reflexivity | discriminate].
Qed.

Lemma lower_char_dot (c : ascii) : lower_char c = "."%char <-> Ascii.eqb c "." = true.
Proof.
  destruct c as [[] [] [] [] [] [] [] []]; vm_compute; split; intros H;
    first [reflexivity | discriminate].
Qed.

Lemma any_case_lower (e : string) : any_case_xlsx e = true <-> lower e = ".xlsx".
Proof.
  destruct e as [|d [|x [|l [|s [|x' [|y e]]]]]]; try (split; discriminate).
  cbn [any_case_xlsx lower]. rewrite !andb_true_iff.
  rewrite <- (lower_char_dot d).
  rewrite <- (lower_char_either "x" "X" x) by auto.
  rewrite <- (lower_char_either "l" "L" l) by auto.
  rewrite <- (lower_char_either "s" "S" s) by auto.
  rewrite <- (lower_char_either "x" "X" x') by auto.
  split.
  - intros [[[[-> ->] ->] ->] ->]. reflexivity.
  - intros [= -> -> -> -> ->]. repeat split; reflexivity.
Qed.

(** A name that ends in ".xlsx" in some letter case. *)
Lemma ends_any_case (outfile : string) :
  endswith ".xlsx" (lower outfile) = true <->
  exists stem e, any_case_xlsx e = true /\ outfile = stem +:+ e.
Proof.
  split.
  - intros H. unfold endswith in H. apply andb_true_iff in H as [_ H].
    apply String.eqb_eq in H. rewrite length_lower, drop_str_lower in H.
    exists (take_str (String.length outfile - String.length ".xlsx") outfile),
           (drop_str (String.length outfile - String.length ".xlsx") outfile).
    split; [apply any_case_lower; exact H | symmetry; apply take_drop].
  - intros (stem & e & He & ->). apply any_case_lower in He.
    rewrite lower_append, He. apply endswith_append.
Qed.

(** X6. The name that [save_to_excel] hands to the writer always ends in
    ".xlsx" in some letter case: a name that ends so, in whatever letter case
    (".XLSX", ".Xlsx", ...), is kept as it is, every other name gets ".xlsx"
    appended, and doing it twice changes nothing more. *)
Theorem with_suffix_gives_the_extension (outfile : string) :
  (forall stem e, any_case_xlsx e = true -> with_suffix (stem +:+ e) = stem +:+ e) /\
  ((forall stem e, any_case_xlsx e = true -> outfile <> stem +:+ e) ->
   with_suffix outfile = outfile +:+ ".xlsx") /\
  (exists stem e, any_case_xlsx e = true /\ with_suffix outfile = stem +:+ e) /\
  with_suffix (with_suffix outfile) = with_suffix outfile.
Proof.
  split; [|split; [|split]].
  - intros stem e He. unfold with_suffix.
    rewrite (proj2 (ends_any_case (stem +:+ e))); [reflexivity|]. exists stem, e. auto.
  - intros Hno. unfold with_suffix. destruct (endswith ".xlsx" (lower outfile)) eqn:E;
      [|reflexivity].
    apply ends_any_case in E as (stem & e & He & Heq). destruct (Hno stem e He Heq).
  - apply ends_any_case. apply with_suffix_ends.
  - unfold with_suffix at 1. rewrite with_suffix_ends. reflexivity.
Qed.

Lemma py_take_len (s : string) : forall n, py_len (py_take n s) = Nat.min n (py_len s).
Proof.
  induction s as [|c s IH]; intros n; cbn [py_take py_len]; [lia|].
  destruct (continuation c) eqn:E.
  - cbn [py_len]. rewrite E, IH. lia.
  - destruct n as [|n]; [reflexivity|]. cbn [py_len]. rewrite E, IH. lia.
Qed.

(** The cut falls between two characters. *)
Lemma py_take_rest (s : string) : forall n,
  exists rest,
    s = py_take n s +:+ rest /\
    match rest with
    | String c _ => continuation c = false
    | EmptyString => True
    end.
Proof.
  induction s as [|c s IH]; intros n; [exists EmptyString; split; [reflexivity | exact I]|].
  cbn [py_take]. destruct (continuation c) eqn:E.
  - destruct (IH n) as (rest & Hs & Hrest). exists rest. rewrite append_cons, <- Hs. auto.
  - destruct n as [|n].
    + exists (String c s). rewrite append_nil_l. auto.
    + destruct (IH n) as (rest & Hs & Hrest). exists rest. rewrite append_cons, <- Hs. auto.
Qed.

(** X7. A sheet name never has more than 31 characters and is a prefix of
    the name of the platform: a name of at most 31 characters is kept, a
    longer one is cut after its 31st character, never within a character of
    more than one byte. *)
Theorem sheet_name_fits (so : string) :
  py_len (sheet_name so) <= 31 /\
  (py_len so <= 31 -> sheet_name so = so) /\
  (31 < py_len so -> py_len (sheet_name so) = 31) /\
  (exists rest,
     so = sheet_name so +:+ rest /\
     match rest with
     | String c _ => continuation c = false
     | EmptyString => True
     end) /\
  sheet_name (sheet_name so) = sheet_name so.
Proof.
  assert (Hcut : forall s, py_len (sheet_name s) <= 31).
  { intros s. unfold sheet_name. destruct (Nat.leb_spec (py_len s) 31); [assumption|].
    rewrite py_take_len. lia. }
  split; [apply Hcut|]. split; [|split; [|split]].
  - intros H. unfold sheet_name. destruct (Nat.leb_spec (py_len so) 31); [reflexivity | lia].
  - intros H. unfold sheet_name. destruct (Nat.leb_spec (py_len so) 31); [lia|].
    rewrite py_take_len. lia.
  - unfold sheet_name. destruct (Nat.leb_spec (py_len so) 31).
    + exists EmptyString. rewrite append_nil_r. split; [reflexivity | exact I].
    + apply py_take_rest.
  - unfold sheet_name at 1.
    destruct (Nat.leb_spec (py_len (sheet_name so)) 31) as [_|H]; [reflexivity|].
    pose proof (Hcut so). lia.
Qed.

Lemma str_keys_raises ks :
  existsb (fun k => negb (exportiocs.is_str k)) ks = true -> str_keys ks = Raise TypeError.
Proof.
  induction ks as [|k ks IH]; intros H; [discriminate|].
  destruct k; try reflexivity. cbn in H. cbn [str_keys]. rewrite (IH H). reflexivity.
Qed.

(** X8. When the name of some platform is not a string, [save_to_excel]
    raises [TypeError] while it joins the names for the Meta sheet, before
    the destination is opened: the file system is left as it was, whatever
    the failure the run would have met afterwards. *)
Theorem save_to_excel_needs_string_names
    (now : string) (f : fault) (per_os : pydict frame) (outfile : string)
    (fs : gmap string file) :
  existsb (fun k => negb (exportiocs.is_str k)) (keys per_os) = true ->
  save_to_excel now f per_os outfile fs = (Raise TypeError, fs).
Proof.
  intros H. unfold save_to_excel. rewrite (str_keys_raises _ H). reflexivity.
Qed.

Lemma save_to_excel_needs_string_names_witness :
  save_to_excel "2025-01-01T00:00:00Z" NoFault
    [(JStr "Windows", frame_of_rows ["Motor/Configuração"; "Recomended"] []);
     (JInt 7, frame_of_rows ["Motor/Configuração"; "Recomended"] [])]
    "crowdstrike_policies_ACME.xlsx" ∅
  = (Raise TypeError, ∅).
Proof.
  apply save_to_excel_needs_string_names. reflexivity.
Defined.

End exportpp_names_facts.

(** ** The host groups: table, workbook and [main] *)

Module exporthostgroups_main_facts.
Import authentication exporthostgroups_main.

Lemma transform_host_groups_objects (groups : list (list (string * json))) (total : json) :
  transform_host_groups (map JDict groups) total =
  Ok (frame_of_rows group_columns (map row_of groups ++ [[JStr total_label; total]])).
Proof.
  unfold transform_host_groups, add_group.
  rewrite (for_each_rows group_row
             (fun g => match g with JDict d => row_of d | _ => [] end) (map JDict groups)).
  - cbn [bind app]. rewrite map_map. reflexivity.
  - intros x Hx. apply in_map_iff in Hx as (d & <- & _). reflexivity.
Qed.

Lemma last_row_of_table (rows : list (list json)) (a b : json) :
  last_row_cell (frame_of_rows group_columns (rows ++ [[a; b]])) "Assignment Rule" = Ok b.
Proof.
  unfold last_row_cell, frame_of_rows. cbn [cells columns].
  rewrite map_app, rev_app_distr. reflexivity.
Qed.

Lemma groups_in_table (rows : list (list json)) (last : list json) :
  groups_in (frame_of_rows group_columns (rows ++ [last])) = Z.of_nat (length rows).
Proof.
  unfold groups_in, frame_of_rows. cbn [cells]. rewrite length_map, length_app. cbn. lia.
Qed.

(** The total, a cell of the table, is as clean as the table. *)
Lemma storable_total (rows : list (list json)) (total : json) :
  exportpp.storable (frame_of_rows group_columns (rows ++ [[JStr total_label; total]])) = true ->
  exportpp.clean_value total = true.
Proof.
  unfold exportpp.storable. intros H. apply andb_true_iff in H as [_ H].
  cbn [frame_of_rows cells] in H. rewrite map_app, forallb_app in H.
  apply andb_true_iff in H as [_ H]. cbn [map forallb] in H.
  rewrite !andb_true_r in H. apply andb_true_iff in H as [_ H]. exact H.
Qed.

Lemma storable_meta (now : string) (n : Z) (total : json) :
  exportpp.clean now = true -> exportpp.clean_value total = true ->
  exportpp.storable
    (frame_of_rows ["generated_at_utc"; "total_host_groups"; "total_hosts_instalados"]
       [[JStr now; JInt n; total]]) = true.
Proof.
  intros Hnow Htotal. unfold exportpp.storable.
  cbn [frame_of_rows cells columns map length forallb exportpp.clean_value].
  rewrite Hnow, Htotal. reflexivity.
Qed.

(** What [save_to_excel] does with the table of [transform_host_groups],
    for every failure of the run. *)
Lemma save_to_excel_table now f (rows : list (list json)) (total : json) outfile
    (fs : gmap string exportpp.file) :
  let df := frame_of_rows group_columns (rows ++ [[JStr total_label; total]]) in
  let meta := frame_of_rows ["generated_at_utc"; "total_host_groups"; "total_hosts_instalados"]
                [[JStr now; JInt (Z.of_nat (length rows)); total]] in
  let dest := exportpp.with_suffix outfile in
  exportpp.find_engine dest = Ok tt ->
  exportpp.storable df = true ->
  exportpp.clean now = true ->
  save_to_excel now f df outfile fs =
  match f with
  | exportpp.FailOpen => (Raise OSError, fs, [])
  | exportpp.FailSheet 0 => (Raise IndexError, <[dest := exportpp.Partial []]> fs, [])
  | exportpp.FailSheet 1 =>
      (Raise OSError, <[dest := exportpp.Partial [("HostGroups", df)]]> fs, [])
  | exportpp.FailClose =>
      (Raise OSError, <[dest := exportpp.Partial [("HostGroups", df); ("Meta", meta)]]> fs, [])
  | _ =>
      (Ok tt, <[dest := exportpp.Workbook [("HostGroups", df); ("Meta", meta)]]> fs,
       [Print (exported_line dest df)])
  end.
Proof.
  intros df meta dest Hengine Hdf Hnow.
  pose proof (storable_meta now (Z.of_nat (length rows)) total Hnow
                (storable_total rows total Hdf)) as Hmeta.
  subst df meta dest. unfold save_to_excel. rewrite last_row_of_table.
  unfold meta_frame. rewrite groups_in_table.
  unfold exportpp.open_writer. rewrite Hengine.
  unfold exportpp.to_excel. rewrite Hdf, Hmeta.
  change (exportpp.has_forbidden "HostGroups") with false.
  change (exportpp.clean "HostGroups") with true.
  change (exportpp.has_forbidden "Meta") with false.
  change (exportpp.clean "Meta") with true.
  destruct f as [| |[|[|n]]|];
    cbn [exportpp.strikes_at Nat.eqb negb exportpp.close_writer];
    rewrite ?insert_insert_eq; reflexivity.
Qed.

(** X9. For host groups that are JSON objects, [transform_host_groups]
    makes one row per group, in the order of the input, with "Unnamed" for a
    missing name and the empty string for a missing rule, and the row of the
    total below them. When the engine is found for the destination and the
    writer takes the table, [save_to_excel] without I/O failure reads the
    total back from this last row: the Meta sheet reports the number of groups
    (the rows less one) and the total that was passed in, and the workbook
    holds the sheets "HostGroups" and "Meta", in this order. A failure when
    the destination is opened leaves the file system as it was; a failure at
    the first sheet ends in the [IndexError] of the save, one at the Meta
    sheet or at the save in [OSError], and each of them leaves a
    partially-written file under the destination name and prints nothing. *)
Theorem save_to_excel_reports_the_totals
    (now : string) (groups : list (list (string * json))) (total : json) (outfile : string)
    (fs : gmap string exportpp.file) :
  exportpp.find_engine (exportpp.with_suffix outfile) = Ok tt ->
  exportpp.storable
    (frame_of_rows group_columns (map row_of groups ++ [[JStr total_label; total]])) = true ->
  exportpp.clean now = true ->
  exists df meta,
    transform_host_groups (map JDict groups) total = Ok df /\
    cells df = map (map Some) (map row_of groups ++ [[JStr total_label; total]]) /\
    length (cells df) = length groups + 1 /\
    meta = frame_of_rows ["generated_at_utc"; "total_host_groups"; "total_hosts_instalados"]
             [[JStr now; JInt (Z.of_nat (length groups)); total]] /\
    save_to_excel now exportpp.NoFault df outfile fs =
      (Ok tt,
       <[exportpp.with_suffix outfile :=
           exportpp.Workbook [("HostGroups", df); ("Meta", meta)]]> fs,
       [Print (exported_line (exportpp.with_suffix outfile) df)]) /\
    save_to_excel now exportpp.FailOpen df outfile fs = (Raise OSError, fs, []) /\
    save_to_excel now (exportpp.FailSheet 0) df outfile fs =
      (Raise IndexError, <[exportpp.with_suffix outfile := exportpp.Partial []]> fs, []) /\
    save_to_excel now (exportpp.FailSheet 1) df outfile fs =
      (Raise OSError,
       <[exportpp.with_suffix outfile := exportpp.Partial [("HostGroups", df)]]> fs, []) /\
    save_to_excel now exportpp.FailClose df outfile fs =
      (Raise OSError,
       <[exportpp.with_suffix outfile :=
           exportpp.Partial [("HostGroups", df); ("Meta", meta)]]> fs, []).
Proof.
  intros Hengine Hdf Hnow. eexists _, _.
  split; [apply transform_host_groups_objects|]. split; [reflexivity|]. split.
  { cbn [frame_of_rows cells]. rewrite !length_map, length_app, length_map. reflexivity. }
  split; [reflexivity|].
  rewrite !(save_to_excel_table now _ (map row_of groups) total outfile fs Hengine Hdf Hnow).
  rewrite length_map. repeat split; reflexivity.
Qed.

Lemma save_to_excel_reports_the_totals_witness :
  exists df meta,
    transform_host_groups (map JDict two_groups) (JInt 12) = Ok df /\
    cells df = map (map Some) (map row_of two_groups ++ [[JStr total_label; JInt 12]]) /\
    length (cells df) = length two_groups + 1 /\
    meta = frame_of_rows ["generated_at_utc"; "total_host_groups"; "total_hosts_instalados"]
             [[JStr "2025-01-01T00:00:00Z"; JInt (Z.of_nat (length two_groups)); JInt 12]] /\
    save_to_excel "2025-01-01T00:00:00Z" exportpp.NoFault df "hostgroups" ∅ =
      (Ok tt,
       <[exportpp.with_suffix "hostgroups" :=
           exportpp.Workbook [("HostGroups", df); ("Meta", meta)]]> ∅,
       [Print (exported_line (exportpp.with_suffix "hostgroups") df)]).
Proof.
  destruct (save_to_excel_reports_the_totals "2025-01-01T00:00:00Z" two_groups (JInt 12)
              "hostgroups" ∅ eq_refl eq_refl eq_refl)
    as (df & meta & H1 & H2 & H3 & H4 & H5 & _).
  exists df, meta. repeat (split; [assumption|]). exact H5.
Defined.

(** X10. A host group that is no JSON object makes [transform_host_groups]
    raise [AttributeError], whatever the groups before and after it. *)
Theorem transform_host_groups_needs_objects
    (pre : list (list (string * json))) (bad : json) (post : list json) (total : json) :
  (forall d, bad <> JDict d) ->
  transform_host_groups (map JDict pre ++ bad :: post) total = Raise AttributeError.
Proof.
  intros Hbad. unfold transform_host_groups, add_group.
  rewrite (for_each_rows_raises group_row
             (fun g => match g with JDict d => row_of d | _ => [] end)
             (map JDict pre) bad post AttributeError).
  - reflexivity.
  - intros x Hx. apply in_map_iff in Hx as (d & <- & _). reflexivity.
  - destruct bad; try reflexivity. exfalso. apply (Hbad d). reflexivity.
Qed.

Lemma transform_host_groups_needs_objects_witness :
  transform_host_groups (map JDict [[("name", JStr "Servers")]] ++ JStr "group-id" :: []) (JInt 12)
  = Raise AttributeError.
Proof.
  apply transform_host_groups_needs_objects. intros d. discriminate.
Defined.

End exporthostgroups_main_facts.


(** ** Authentication *)

Module authentication_facts.
Import authentication.

Lemma repr_char_plain (q c : ascii) :
  q = squote \/ q = dquote -> plain_char c = true -> repr_char q c = str1 c.
Proof.
  intros Hq Hc. unfold plain_char in Hc. cbv zeta in Hc.
  apply andb_prop in Hc as [Hc Hb]. apply andb_prop in Hc as [Hc Hd].
  apply andb_prop in Hc as [Hc Hs]. apply andb_prop in Hc as [Hlo Hhi].
  apply negb_true_iff in Hb, Hd, Hs. apply Nat.leb_le in Hlo. apply Nat.ltb_lt in Hhi.
  unfold repr_char. cbv zeta. rewrite Hb.
  assert (Ascii.eqb c q = false) as -> by (destruct Hq as [-> | ->]; assumption).
  destruct (Nat.eqb_spec (nat_of_ascii c) 9); [lia|].
  destruct (Nat.eqb_spec (nat_of_ascii c) 10); [lia|].
  destruct (Nat.eqb_spec (nat_of_ascii c) 13); [lia|].
  destruct (Nat.ltb_spec (nat_of_ascii c) 32); [lia|].
  destruct (Nat.eqb_spec (nat_of_ascii c) 127); [lia|]. reflexivity.
Qed.

Lemma repr_chars_plain (q : ascii) (s : string) :
  q = squote \/ q = dquote -> plain_text s = true -> repr_chars q s = s.
Proof.
  intros Hq. induction s as [|c s IH]; intros Hs; [reflexivity|].
  cbn [plain_text] in Hs. apply andb_prop in Hs as [Hc Hs].
  cbn [repr_chars]. rewrite (repr_char_plain q c Hq Hc), (IH Hs).
  unfold str1. rewrite append_cons, append_nil_l. reflexivity.
Qed.

(** A plain text stands as it is between the quotes of its [repr]. *)
Lemma contains_repr_plain (s : string) : plain_text s = true -> contains s (repr_str s) = true.
Proof.
  intros Hs. unfold repr_str. cbv zeta.
  set (q := if contains (str1 squote) s && negb (contains (str1 dquote) s)
            then dquote else squote).
  assert (Hq : q = squote \/ q = dquote)
    by (subst q; destruct (contains (str1 squote) s && negb (contains (str1 dquote) s));
        [right | left]; reflexivity).
  rewrite (repr_chars_plain q s Hq Hs). apply contains_spec.
  exists (str1 q), (str1 q). unfold str1. rewrite append_cons, append_nil_l. reflexivity.
Qed.

Lemma contains_secret (client_id client_secret : string) :
  contains (repr_str client_secret) (repr_dict (credentials client_id client_secret)) = true.
Proof.
  apply contains_spec.
  exists ("{" +:+ (repr_str "client_id" +:+ ": " +:+ repr_str client_id) +:+ ", "
          +:+ repr_str "client_secret" +:+ ": "),
         (", " +:+ (repr_str "grant_type" +:+ ": " +:+ repr_str "client_credentials") +:+ "}").
  unfold repr_dict, credentials. cbn [map fst snd py_repr join].
  rewrite !append_assoc. reflexivity.
Qed.

Lemma contains_data (auth_url : string) (data headers : list (string * string)) :
  contains (repr_dict data) (request_line auth_url data headers) = true.
Proof.
  apply contains_spec.
  exists ("Requisição de autenticação - URL: " +:+ auth_url +:+ ", Data: "),
         (", Headers: " +:+ repr_dict headers).
  unfold request_line. rewrite !append_assoc. reflexivity.
Qed.

Lemma get_bearer_token_steps (e : env) (post : authority) :
  given (FALCON_CLIENT_ID e) && given (FALCON_CLIENT_SECRET e) && given (CLIENT_NAME e) = true ->
  let auth_url := FALCON_BASE_URL e +:+ "/oauth2/token" in
  let data := credentials (value_of (FALCON_CLIENT_ID e)) (value_of (FALCON_CLIENT_SECRET e)) in
  snd (get_bearer_token e post) =
  [Did (Print (request_line auth_url data form_headers));
   Post auth_url data form_headers;
   Did (Print ("Resposta bruta da autenticação: " +:+ text (post auth_url data form_headers)))].
Proof.
  intros Hgiven. unfold get_bearer_token. rewrite Hgiven. cbn [negb].
  destruct (negb _); [reflexivity|]. destruct (json_body _); reflexivity.
Qed.

Lemma get_bearer_token_catches_nothing (e : env) (post : authority) (x : exn) :
  ~ In (Caught x) (snd (get_bearer_token e post)).
Proof.
  destruct (given (FALCON_CLIENT_ID e) && given (FALCON_CLIENT_SECRET e) && given (CLIENT_NAME e))
    eqn:Hgiven.
  - rewrite (get_bearer_token_steps e post Hgiven). cbn.
    intros [H|[H|[H|[]]]]; discriminate.
  - unfold get_bearer_token. rewrite Hgiven. cbn. tauto.
Qed.

(** X11. Whenever the three variables of [.env] are set, [get_bearer_token]
    prints, before it asks for the token, a line that holds the [repr] of the
    client secret; a secret of printable characters without quotes and
    backslashes stands in this line as it is. *)
Theorem get_bearer_token_prints_the_secret (e : env) (post : authority) (secret : string) :
  given (FALCON_CLIENT_ID e) = true ->
  FALCON_CLIENT_SECRET e = Some secret ->
  secret <> EmptyString ->
  given (CLIENT_NAME e) = true ->
  exists line url data headers rest,
    snd (get_bearer_token e post) = Did (Print line) :: Post url data headers :: rest /\
    contains (repr_str secret) line = true /\
    (plain_text secret = true -> contains secret line = true).
Proof.
  intros Hid Hsecret Hne Hname.
  assert (Hgiven : given (FALCON_CLIENT_ID e) && given (FALCON_CLIENT_SECRET e)
                   && given (CLIENT_NAME e) = true).
  { rewrite Hid, Hname, Hsecret. cbn. destruct (String.eqb_spec secret EmptyString);
      [contradiction | reflexivity]. }
  rewrite (get_bearer_token_steps e post Hgiven). cbv zeta.
  eexists _, _, _, _, _. split; [reflexivity|].
  assert (Hline : contains (repr_str secret)
                    (request_line (FALCON_BASE_URL e +:+ "/oauth2/token")
                       (credentials (value_of (FALCON_CLIENT_ID e))
                          (value_of (FALCON_CLIENT_SECRET e))) form_headers) = true).
  { rewrite Hsecret. cbn [value_of].
    exact (contains_trans _ _ _ (contains_secret (value_of (FALCON_CLIENT_ID e)) secret)
             (contains_data _ _ _)). }
  split; [exact Hline|].
  intros Hplain. apply (contains_trans _ _ _ (contains_repr_plain secret Hplain) Hline).
Qed.

Lemma get_bearer_token_prints_the_secret_witness :
  exists line url data headers rest,
    snd (get_bearer_token acme (granting "token")) =
      Did (Print line) :: Post url data headers :: rest /\
    contains (repr_str "s3cr3t-Value") line = true /\
    (plain_text "s3cr3t-Value" = true -> contains "s3cr3t-Value" line = true).
Proof.
  apply (get_bearer_token_prints_the_secret acme (granting "token") "s3cr3t-Value").
  - reflexivity.
  - reflexivity.
  - discriminate.
  - reflexivity.
Defined.

End authentication_facts.

Module exporthostgroups_run_facts.
Import authentication authentication_facts exporthostgroups_main exporthostgroups_main_facts.

Lemma outfile_of_suffix (client_name : string) :
  exportpp.with_suffix (outfile_of client_name) = outfile_of client_name.
Proof.
  unfold exportpp.with_suffix, outfile_of.
  rewrite <- append_assoc, lower_append. change (lower ".xlsx") with ".xlsx".
  rewrite endswith_append. reflexivity.
Qed.

Lemma free_of_replace_from (x : ascii) (old new : string) (s : string) :
  free_of x new = true -> free_of x s = true ->
  forall skip, free_of x (replace_from old new skip s) = true.
Proof.
  intros Hnew. induction s as [|c s IH]; intros Hs skip; [reflexivity|].
  cbn [free_of] in Hs. apply andb_true_iff in Hs as [Hc Hs].
  cbn [replace_from]. destruct skip as [|k]; [|apply (IH Hs)].
  destruct (startswith old (String c s)).
  - rewrite free_of_append, Hnew. apply (IH Hs).
  - cbn [free_of]. rewrite Hc. apply (IH Hs).
Qed.

(** The engine is found for the name that [main] makes of a client name
    without a separator of paths. *)
Lemma engine_for_outfile (client_name : string) :
  free_of "/" client_name = true -> free_of backslash client_name = true ->
  exportpp.find_engine (outfile_of client_name) = Ok tt.
Proof.
  intros Hslash Hback.
  assert (Hfree : forall x, free_of x "crowdstrike_hostgroups_" = true ->
                            free_of x "_" = true -> free_of x ".xlsx" = true ->
                            free_of x client_name = true ->
                            free_of x (outfile_of client_name) = true).
  { intros x H1 H2 H3 H4. unfold outfile_of. rewrite !free_of_append, H1, H3.
    unfold replace. rewrite (free_of_replace_from x " " "_" client_name H2 H4 0). reflexivity. }
  assert (Hname : exportpp.file_name (outfile_of client_name) = outfile_of client_name).
  { unfold exportpp.file_name.
    rewrite (split_free_end "/" (outfile_of client_name)) by (apply Hfree; auto).
    cbn [List.last].
    rewrite (split_free_end backslash (outfile_of client_name)) by (apply Hfree; auto).
    reflexivity. }
  unfold exportpp.find_engine. rewrite Hname.
  assert (Hends : endswith ".xlsx" (outfile_of client_name) = true).
  { unfold outfile_of. rewrite <- append_assoc. apply endswith_append. }
  assert (Hlower : endswith ".xlsx" (lower (outfile_of client_name)) = true).
  { unfold outfile_of. rewrite <- append_assoc, lower_append. apply endswith_append. }
  rewrite Hlower, Hends. cbn [negb].
  unfold outfile_of. rewrite !length_append.
  change (String.length "crowdstrike_hostgroups_") with 23.
  change (String.length ".xlsx") with 5.
  replace (23 + (String.length (replace " " "_" client_name) + 5) - 5)
    with (S (22 + String.length (replace " " "_" client_name))) by lia.
  reflexivity.
Qed.

Lemma fetch_total_hosts_reported (get : upstream) (token base_url : string) (hosts : json)
    (d m p : list (string * json)) :
  let resp := get (total_endpoint base_url) (bearer token) total_params in
  status_code resp = 200%Z ->
  json_body resp = Some (JDict d) ->
  lookup_str "meta" d = Some (JDict m) ->
  lookup_str "pagination" m = Some (JDict p) ->
  lookup_str "total" p = Some hosts ->
  fetch_total_hosts get token base_url =
  (Ok hosts,
   [Get (total_endpoint base_url) total_params;
    Print ("Resposta da API (total hosts): " +:+ text resp)]).
Proof.
  intros resp Hs Hb Hm Hp Ht. unfold fetch_total_hosts. fold resp.
  rewrite Hs, Hb, Z.eqb_refl. cbn [negb]. unfold py_get. rewrite Hm. cbn [bind]. rewrite Hp.
  cbn [bind]. rewrite Ht. reflexivity.
Qed.

Lemma no_caught_did (trace : list event) (x : exn) : ~ In (Caught x) (map Did trace).
Proof. intros H. apply in_map_iff in H as (ev & H & _). discriminate. Qed.

(** A step of a list of requests and printed lines is one of them. *)
Ltac did H :=
  first [ apply in_map_iff in H as (? & <- & _); eexists; reflexivity
        | cbn [In] in H;
          repeat (destruct H as [<-|H]; [eexists; reflexivity|]); destruct H ].

(** X12. When the token is granted, the upstream holds at least one host
    group, all of them JSON objects, and answers the request for the number of
    hosts, the client name has no separator of paths and the writer takes the
    table: without I/O failure, [main] writes the workbook
    "crowdstrike_hostgroups_<client>.xlsx" (the spaces of the client name
    turned into underscores) with the sheet of the groups and their total and
    the Meta sheet, and catches no exception; when the destination cannot be
    opened, [main] catches the [OSError] as its last step and leaves the file
    system as it was. *)
Theorem main_exports_the_host_groups
    (e : env) (post : authority) (get : upstream) (now : string) (fuel : nat)
    (fs : gmap string exportpp.file) (groups : list (list (string * json)))
    (token hosts : json) (base_url client_name : string) :
  fst (get_bearer_token e post) = Ok (token, base_url, client_name) ->
  exporthostgroups.serves get (map JDict groups) ->
  groups <> [] ->
  (let resp := get (total_endpoint base_url) (bearer (py_str token)) total_params in
   status_code resp = 200%Z /\
   exists d m p,
     json_body resp = Some (JDict d) /\
     lookup_str "meta" d = Some (JDict m) /\
     lookup_str "pagination" m = Some (JDict p) /\
     lookup_str "total" p = Some hosts) ->
  exporthostgroups.pages (length groups) exporthostgroups.limit <= fuel ->
  free_of "/" client_name = true ->
  free_of backslash client_name = true ->
  exportpp.storable
    (frame_of_rows group_columns (map row_of groups ++ [[JStr total_label; hosts]])) = true ->
  exportpp.clean now = true ->
  (exists steps,
     main e post get now exportpp.NoFault fuel fs =
     Some (steps,
           <["crowdstrike_hostgroups_" +:+ replace " " "_" client_name +:+ ".xlsx" :=
               exportpp.Workbook
                 [("HostGroups",
                   frame_of_rows group_columns
                     (map row_of groups ++ [[JStr total_label; hosts]]));
                  ("Meta",
                   frame_of_rows
                     ["generated_at_utc"; "total_host_groups"; "total_hosts_instalados"]
                     [[JStr now; JInt (Z.of_nat (length groups)); hosts]])]]> fs) /\
     forall x, ~ In (Caught x) steps) /\
  (exists steps,
     main e post get now exportpp.FailOpen fuel fs = Some (steps ++ [Caught OSError], fs) /\
     forall x, ~ In (Caught x) steps).
Proof.
  intros Hauth Hserves Hgroups (Hs & d & m & p & Hb & Hm & Hp & Ht) Hfuel Hslash Hback Hdf Hnow.
  pose proof (engine_for_outfile client_name Hslash Hback) as Hengine.
  rewrite <- (outfile_of_suffix client_name) in Hengine.
  unfold main.
  pose proof (get_bearer_token_catches_nothing e post) as Hsteps.
  destruct (get_bearer_token e post) as [auth steps0]. cbn [fst snd] in Hauth, Hsteps.
  subst auth.
  destruct (exporthostgroups_facts.fetch_pages_serves get (map JDict groups) Hserves
              (exporthostgroups.endpoint base_url) (bearer (py_str token))
              exporthostgroups.limit ltac:(unfold exporthostgroups.limit; lia)
              (exporthostgroups.pages (length groups) exporthostgroups.limit) 0 [] fuel)
    as (trace & Hrun & _).
  - unfold exporthostgroups.pages. lia.
  - exact Hfuel.
  - pose proof (exporthostgroups_facts.pages_cover (length groups) exporthostgroups.limit
                  ltac:(unfold exporthostgroups.limit; lia)).
    rewrite length_map. lia.
  - intros H2.
    pose proof (exporthostgroups_facts.pages_tight (length groups) exporthostgroups.limit
                  ltac:(unfold exporthostgroups.limit; lia) H2).
    rewrite length_map. lia.
  - change (firstn 0 (map JDict groups)) with (@nil json) in Hrun.
    unfold exporthostgroups.fetch_host_groups, exporthostgroups.fetch_host_groups_with.
    rewrite Hrun.
    rewrite (fetch_total_hosts_reported get (py_str token) base_url hosts d m p Hs Hb Hm Hp Ht).
    rewrite transform_host_groups_objects.
    destruct groups as [|g groups]; [contradiction|]. cbn [map].
    change (JDict g :: map JDict groups) with (map JDict (g :: groups)).
    change (row_of g :: map row_of groups) with (map row_of (g :: groups)).
    rewrite !(save_to_excel_table now _ (map row_of (g :: groups)) hosts
                (outfile_of client_name) fs Hengine Hdf Hnow).
    rewrite outfile_of_suffix, length_map.
    assert (Hnone : forall x (steps : list step),
               In (Caught x) steps ->
               (forall y, In y steps -> In y steps0 \/ exists ev, y = Did ev) -> False).
    { intros x steps Hx Hall. destruct (Hall _ Hx) as [H0|[ev Hev]];
        [apply (Hsteps x H0) | discriminate]. }
    split.
    + eexists. split; [reflexivity|].
      intros x Hx. apply (Hnone x _ Hx). intros y Hy. rewrite !in_app_iff in Hy.
      destruct Hy as [[[Hy|Hy]|Hy]|Hy]; [left; exact Hy | | |]; right; did Hy.
    + eexists. split; [cbn [map app]; reflexivity|].
      intros x Hx. apply (Hnone x _ Hx). intros y Hy. rewrite !in_app_iff in Hy.
      destruct Hy as [[Hy|Hy]|Hy]; [left; exact Hy | |]; right; did Hy.
Qed.

Lemma falcon_serves (groups : list json) (hosts : Z) :
  exporthostgroups.serves (falcon groups hosts) groups.
Proof.
  intros url headers lim off. unfold falcon. cbn [lookup_str exporthostgroups.page_params].
  cbn [String.eqb Ascii.eqb Bool.eqb]. apply exporthostgroups_facts.paged_upstream_serves.
Qed.

Lemma main_exports_the_host_groups_witness :
  exists steps,
    main acme (granting "token") (falcon (map JDict two_groups) 12) "2025-01-01T00:00:00Z"
      exportpp.NoFault 1 ∅ =
    Some (steps,
          <["crowdstrike_hostgroups_" +:+ replace " " "_" "ACME Corp" +:+ ".xlsx" :=
              exportpp.Workbook
                [("HostGroups",
                  frame_of_rows group_columns
                    (map row_of two_groups ++ [[JStr total_label; JInt 12]]));
                 ("Meta",
                  frame_of_rows
                    ["generated_at_utc"; "total_host_groups"; "total_hosts_instalados"]
                    [[JStr "2025-01-01T00:00:00Z"; JInt (Z.of_nat (length two_groups));
                      JInt 12]])]]> ∅) /\
    forall x, ~ In (Caught x) steps.
Proof.
  apply (main_exports_the_host_groups acme (granting "token") (falcon (map JDict two_groups) 12)
           "2025-01-01T00:00:00Z" 1 ∅ two_groups (JStr "token") (JInt 12)
           "https://api.crowdstrike.com" "ACME Corp").
  - reflexivity.
  - apply falcon_serves.
  - discriminate.
  - split; [reflexivity|]. eexists _, _, _. repeat (split; [reflexivity|]). reflexivity.
  - vm_compute. lia.
  - reflexivity.
  - reflexivity.
  - reflexivity.
  - reflexivity.
Defined.

End exporthostgroups_run_facts.


(** ** The tables of the exclusions *)

Module exportexclusions_tables_facts.
Import exportexclusions_tables.

Lemma rows_of_objects (row : json -> res (list json)) (names : list string)
    (ds : list (list (string * json))) :
  (forall d, row (JDict d) = Ok (fields names d)) ->
  for_each (fun data exclusion => let* r := row exclusion in Ok (data ++ [r])) (map JDict ds) []
  = Ok (map (fields names) ds).
Proof.
  intros Hrow.
  rewrite (for_each_rows row (fun x => match x with JDict d => fields names d | _ => [] end)).
  - cbn [app]. rewrite map_map. reflexivity.
  - intros x Hx. apply in_map_iff in Hx as (d & <- & _). apply Hrow.
Qed.

(** X13. For exclusions that are JSON objects, each of the three transforms
    makes one row per exclusion, in the order of the input, with the empty
    string for a missing field; the column "created_timestamp" holds the
    field "created_on", and [transform_exclusions] makes no use of the type
    name it is given. *)
Theorem exclusion_tables_of_objects (ds : list (list (string * json))) (type_name : string) :
  transform_certificate_exclusions (map JDict ds) =
    Ok (frame_of_rows ["issuer"; "serial"; "created_by"; "created_timestamp"]
          (map (fields ["issuer"; "serial"; "created_by"; "created_on"]) ds)) /\
  transform_exclusions (map JDict ds) type_name =
    Ok (frame_of_rows ["value"; "created_by"; "created_timestamp"]
          (map (fields ["value"; "created_by"; "created_on"]) ds)) /\
  transform_ioa_exclusions (map JDict ds) =
    Ok (frame_of_rows ["name"; "ifn_regex"; "cl_regex"; "created_by"; "created_timestamp"]
          (map (fields ["name"; "ifn_regex"; "cl_regex"; "created_by"; "created_on"]) ds)).
Proof.
  unfold transform_certificate_exclusions, transform_exclusions, transform_ioa_exclusions.
  rewrite (rows_of_objects certificate_row ["issuer"; "serial"; "created_by"; "created_on"])
    by reflexivity.
  rewrite (rows_of_objects exclusion_row ["value"; "created_by"; "created_on"]) by reflexivity.
  rewrite (rows_of_objects ioa_row ["name"; "ifn_regex"; "cl_regex"; "created_by"; "created_on"])
    by reflexivity.
  repeat split.
Qed.

End exportexclusions_tables_facts.

(** ** The hosts counted for the prevention policies *)

Module exportpp_fetch_facts.
Import exportpp_fetch.

Lemma sum_counts_set (k : json) (v : Z) (d : pydict Z) :
  sum_counts (dict_set k v d) =
  (sum_counts d + v - match dict_get k d with Some n => n | None => 0 end)%Z.
Proof.
  unfold sum_counts. induction d as [|[k' n] d IH]; cbn [dict_set dict_get map snd fold_right].
  - lia.
  - destruct (py_eqb k' k); cbn [map snd fold_right]; lia.
Qed.

Lemma count_for_sum (policies : list json) (policy_id : json) :
  forall host_counts host_counts',
    count_for policies policy_id host_counts = Ok host_counts' ->
    sum_counts host_counts' =
    (sum_counts host_counts + if existsb (has_id policy_id) policies then 1 else 0)%Z.
Proof.
  induction policies as [|policy rest IH]; intros hc hc' H; cbn [count_for existsb] in *.
  - injection H as <-. lia.
  - unfold has_id at 1. destruct (py_get policy "id" JNull) as [id|e]; cbn [bind] in H;
      [|discriminate].
    destruct (py_eqb id policy_id); cbn [orb].
    + destruct (py_get policy "name" policy_id) as [pol_name|e]; cbn [bind] in H;
        [|discriminate].
      destruct (hashed pol_name); cbn [bind] in H; [|discriminate].
      injection H as <-. rewrite sum_counts_set. destruct (dict_get pol_name hc); lia.
    + apply (IH _ _ H).
Qed.

Lemma count_host_sum (policies : list json) (host_counts host_counts' : pydict Z) (host : json) :
  count_host (JList policies) host_counts host = Ok host_counts' ->
  sum_counts host_counts' =
  (sum_counts host_counts + if counted policies host then 1 else 0)%Z.
Proof.
  unfold count_host, counted. intros H.
  destruct (policy_id_of host) as [policy_id|e]; cbn [bind] in H; [|discriminate].
  destruct (truthy policy_id); cbn [andb].
  - cbn [py_iter bind] in H. apply (count_for_sum _ _ _ _ H).
  - injection H as <-. lia.
Qed.

Lemma count_hosts_sum (policies hosts : list json) :
  forall host_counts host_counts',
    for_each (count_host (JList policies)) hosts host_counts = Ok host_counts' ->
    sum_counts host_counts' =
    (sum_counts host_counts + Z.of_nat (length (List.filter (counted policies) hosts)))%Z.
Proof.
  induction hosts as [|host hosts IH]; intros hc hc' H; cbn [for_each List.filter] in *.
  - injection H as <-. cbn. lia.
  - destruct (count_host (JList policies) hc host) as [hc1|e] eqn:E; cbn [bind] in H;
      [|discriminate].
    rewrite (IH _ _ H), (count_host_sum _ _ _ _ E).
    destruct (counted policies host); cbn [length]; lia.
Qed.

Lemma positive_nil : positive [].
Proof. intros name n []. Qed.

Lemma count_for_positive (policies : list json) (policy_id : json) :
  forall host_counts host_counts',
    positive host_counts ->
    count_for policies policy_id host_counts = Ok host_counts' -> positive host_counts'.
Proof.
  induction policies as [|policy rest IH]; intros hc hc' Hpos H; cbn [count_for] in H.
  - injection H as <-. exact Hpos.
  - destruct (py_get policy "id" JNull) as [id|e]; cbn [bind] in H; [|discriminate].
    destruct (py_eqb id policy_id).
    + destruct (py_get policy "name" policy_id) as [pol_name|e]; cbn [bind] in H;
        [|discriminate].
      destruct (hashed pol_name); cbn [bind] in H; [|discriminate].
      injection H as <-. intros name n Hin.
      apply dict_set_In in Hin as [Hin | ->]; [apply (Hpos _ _ Hin)|].
      destruct (dict_get pol_name hc) as [n0|] eqn:E; [|lia].
      apply dict_get_In in E as (k0 & Hk0 & _). pose proof (Hpos _ _ Hk0). lia.
    + apply (IH _ _ Hpos H).
Qed.

Lemma count_hosts_positive (policies : json) (hosts : list json) :
  forall host_counts host_counts',
    positive host_counts ->
    for_each (count_host policies) hosts host_counts = Ok host_counts' -> positive host_counts'.
Proof.
  intros hc hc' Hpos H.
  refine (rows_facts.for_each_preserves (count_host policies) positive hosts _ hc hc' Hpos H).
  intros s x s' _ Hs Hx. unfold count_host in Hx.
  destruct (policy_id_of x) as [policy_id|e]; cbn [bind] in Hx; [|discriminate].
  destruct (truthy policy_id).
  - destruct (py_iter policies) as [pols|e]; cbn [bind] in Hx; [|discriminate].
    apply (count_for_positive _ _ _ _ Hs Hx).
  - injection Hx as <-. exact Hs.
Qed.

Lemma count_of_set (k name : json) (v : Z) (host_counts : pydict Z) :
  hashable k = true -> hashable name = true -> hashables (keys host_counts) ->
  count_of name (dict_set k v host_counts) =
  if py_eqb k name then v else count_of name host_counts.
Proof.
  intros Hk Hname Hkeys. unfold count_of. rewrite dict_get_set by assumption.
  destruct (py_eqb k name); reflexivity.
Qed.

Lemma hashables_set (k : json) (v : Z) (host_counts : pydict Z) :
  hashable k = true -> hashables (keys host_counts) ->
  hashables (keys (dict_set k v host_counts)).
Proof.
  intros Hk Hkeys. rewrite keys_dict_set. destruct (dict_mem k host_counts); [exact Hkeys|].
  apply Forall_app. split; [exact Hkeys | repeat constructor; exact Hk].
Qed.

Lemma count_for_credit (policies : list json) (policy_id : json) :
  forall host_counts host_counts',
    hashables (keys host_counts) ->
    count_for policies policy_id host_counts = Ok host_counts' ->
    hashables (keys host_counts') /\
    forall name, hashable name = true ->
      count_of name host_counts' =
      (count_of name host_counts +
       if match credited policies policy_id with
          | Some n => py_eqb n name
          | None => false
          end then 1 else 0)%Z.
Proof.
  induction policies as [|policy rest IH]; intros hc hc' Hkeys H; cbn [count_for credited] in *.
  - injection H as <-. split; [exact Hkeys|]. intros name _. lia.
  - unfold has_id. destruct (py_get policy "id" JNull) as [id|e]; cbn [bind] in H;
      [|discriminate].
    destruct (py_eqb id policy_id); [|apply (IH _ _ Hkeys H)].
    destruct (py_get policy "name" policy_id) as [pol_name|e]; cbn [bind] in H;
      [|discriminate].
    unfold hashed in H. destruct (hashable pol_name) eqn:Hp; cbn [bind] in H; [|discriminate].
    injection H as <-. split; [apply hashables_set; assumption|].
    intros name Hname. fold (count_of pol_name hc).
    rewrite (count_of_set pol_name name _ hc Hp Hname Hkeys).
    destruct (py_eqb pol_name name) eqn:Heq; [|lia].
    unfold count_of. rewrite (emitted_rows.dict_get_equiv pol_name name hc Hp Hname Hkeys Heq). lia.
Qed.

Lemma count_host_credit (policies : list json) (host_counts host_counts' : pydict Z)
    (host : json) :
  hashables (keys host_counts) ->
  count_host (JList policies) host_counts host = Ok host_counts' ->
  hashables (keys host_counts') /\
  forall name, hashable name = true ->
    count_of name host_counts' =
    (count_of name host_counts + if counted_as policies name host then 1 else 0)%Z.
Proof.
  unfold count_host, counted_as. intros Hkeys H.
  destruct (policy_id_of host) as [policy_id|e]; cbn [bind] in H; [|discriminate].
  destruct (truthy policy_id); cbn [andb].
  - cbn [py_iter bind] in H. apply (count_for_credit _ _ _ _ Hkeys H).
  - injection H as <-. split; [exact Hkeys|]. intros name _. lia.
Qed.

Lemma count_hosts_credit (policies hosts : list json) :
  forall host_counts host_counts',
    hashables (keys host_counts) ->
    for_each (count_host (JList policies)) hosts host_counts = Ok host_counts' ->
    hashables (keys host_counts') /\
    forall name, hashable name = true ->
      count_of name host_counts' =
      (count_of name host_counts
       + Z.of_nat (length (List.filter (counted_as policies name) hosts)))%Z.
Proof.
  induction hosts as [|host hosts IH]; intros hc hc' Hkeys H; cbn [for_each List.filter] in *.
  - injection H as <-. split; [exact Hkeys|]. intros name _. cbn. lia.
  - destruct (count_host (JList policies) hc host) as [hc1|e] eqn:E; cbn [bind] in H;
      [|discriminate].
    destruct (count_host_credit _ _ _ _ Hkeys E) as [Hkeys1 Hone].
    destruct (IH _ _ Hkeys1 H) as [Hkeys' Hrest]. split; [exact Hkeys'|].
    intros name Hname. rewrite (Hrest name Hname), (Hone name Hname).
    destruct (counted_as policies name host); cbn [length]; lia.
Qed.

(** X14. When [fetch_policies] returns, the count under every name is the
    number of hosts counted under it, a host being counted once, under the
    name of the first policy that has the identifier the host names, and not
    at all when no policy has it; so the counts add up to the number of hosts
    that name a policy of the list, and none is below one. The names of the
    table can be hashed. Two requests were made, one for the policies and one
    for the hosts, and the refusal of the second leaves the table empty. *)
Theorem fetch_policies_counts_each_host_once
    (get : upstream) (token base_url : string) (policies : list json)
    (host_counts : pydict Z) (trace : list event) :
  fetch_policies get token base_url = (Ok (JList policies, host_counts), trace) ->
  (forall name, hashable name = true ->
     count_of name host_counts =
     Z.of_nat (length (List.filter (counted_as policies name) (members get token base_url)))) /\
  sum_counts host_counts =
    Z.of_nat (length (List.filter (counted policies) (members get token base_url))) /\
  (forall name n, In (name, n) host_counts -> (1 <= n)%Z) /\
  hashables (keys host_counts) /\
  List.filter is_get trace =
    [Get (policies_endpoint base_url) params; Get (members_endpoint base_url) params] /\
  (status_code (get (members_endpoint base_url) (bearer token) params) <> 200%Z ->
   host_counts = []).
Proof.
  unfold fetch_policies, members. intros H.
  destruct (negb (status_code (get (policies_endpoint base_url) (bearer token) params) =? 200)%Z);
    [discriminate|].
  destruct (json_body (get (policies_endpoint base_url) (bearer token) params)) as [data|];
    [|discriminate].
  destruct (py_get data "resources" (JList [])) as [pols|e]; [|discriminate].
  destruct (Z.eqb_spec (status_code (get (members_endpoint base_url) (bearer token) params)) 200)
    as [Hs|Hs]; cbn [negb] in H |- *.
  - destruct (json_body (get (members_endpoint base_url) (bearer token) params)) as [data2|];
      [|discriminate].
    destruct (py_get data2 "resources" (JList [])) as [hosts|e]; cbn [bind] in H |- *;
      [|discriminate].
    destruct (py_iter hosts) as [hs|e]; cbn [bind] in H |- *; [|discriminate].
    destruct (for_each (count_host pols) hs []) as [hc|e] eqn:E; [|discriminate].
    injection H as -> -> <-.
    destruct (count_hosts_credit policies hs [] host_counts ltac:(constructor) E)
      as [Hkeys Hcredit].
    split; [intros name Hname; rewrite (Hcredit name Hname); reflexivity|].
    split; [rewrite (count_hosts_sum _ _ _ _ E); reflexivity|].
    split; [apply (count_hosts_positive _ _ _ _ positive_nil E)|].
    split; [exact Hkeys|].
    split; [reflexivity|]. intros Hne. contradiction.
  - injection H as -> <- <-.
    split; [intros name _; reflexivity|].
    split; [reflexivity|]. split; [intros ? ? []|]. split; [constructor|].
    split; [reflexivity|]. reflexivity.
Qed.

Lemma fetch_policies_counts_each_host_once_witness :
  (forall name, hashable name = true ->
     count_of name [(JStr "Servers", 2%Z)] =
     Z.of_nat (length (List.filter (counted_as two_policies name)
                         (members prevention_upstream "token" "https://api.crowdstrike.com")))) /\
  sum_counts [(JStr "Servers", 2%Z)] =
    Z.of_nat (length (List.filter (counted two_policies)
                        (members prevention_upstream "token" "https://api.crowdstrike.com"))).
Proof.
  pose proof (fetch_policies_counts_each_host_once prevention_upstream "token"
                "https://api.crowdstrike.com" two_policies [(JStr "Servers", 2%Z)]
                [Get (policies_endpoint "https://api.crowdstrike.com") params;
                 Get (members_endpoint "https://api.crowdstrike.com") params]) as H.
  destruct H as (H1 & H2 & _).
  - vm_compute. reflexivity.
  - split; [exact H1 | exact H2].
Defined.

End exportpp_fetch_facts.

(** ** Dictionaries filled entry by entry *)

Lemma fold_dict_set_In {V W : Type} (f : V -> W) (entries : pydict V) :
  forall (acc : pydict W) k w,
    In (k, w) (fold_left (fun result entry => dict_set (fst entry) (f (snd entry)) result)
                 entries acc) ->
    In (k, w) acc \/ exists entry, In entry entries /\ w = f (snd entry).
Proof.
  induction entries as [|entry entries IH]; intros acc k w H; cbn [fold_left] in H.
  - left. exact H.
  - apply IH in H as [H | (entry' & Hin & ->)].
    + apply dict_set_In in H as [H | ->]; [left; exact H|].
      right. exists entry. split; [left; reflexivity | reflexivity].
    + right. exists entry'. split; [right; exact Hin | reflexivity].
Qed.

Lemma dict_set_Forall2 {V W : Type} (Q : V -> W -> Prop) (k : json) (v : V) (w : W) :
  Q v w ->
  forall (d1 : pydict V) (d2 : pydict W),
    Forall2 (fun s1 s2 => fst s1 = fst s2 /\ Q (snd s1) (snd s2)) d1 d2 ->
    Forall2 (fun s1 s2 => fst s1 = fst s2 /\ Q (snd s1) (snd s2))
      (dict_set k v d1) (dict_set k w d2).
Proof.
  intros Hq d1 d2 H. induction H as [|[k1 v1] [k2 w2] d1 d2 [Hk Hv] H IH]; cbn [dict_set].
  - constructor; [split; [reflexivity | exact Hq] | constructor].
  - cbn [fst snd] in Hk, Hv. subst k2. destruct (py_eqb k1 k).
    + constructor; [split; [reflexivity | exact Hq] | exact H].
    + constructor; [split; [reflexivity | exact Hv] | exact IH].
Qed.

Lemma fold_dict_set_Forall2 {U V W : Type} (Q : V -> W -> Prop) (f : U -> V) (g : U -> W)
    (entries : pydict U) :
  (forall u, Q (f u) (g u)) ->
  forall (acc1 : pydict V) (acc2 : pydict W),
    Forall2 (fun s1 s2 => fst s1 = fst s2 /\ Q (snd s1) (snd s2)) acc1 acc2 ->
    Forall2 (fun s1 s2 => fst s1 = fst s2 /\ Q (snd s1) (snd s2))
      (fold_left (fun result entry => dict_set (fst entry) (f (snd entry)) result) entries acc1)
      (fold_left (fun result entry => dict_set (fst entry) (g (snd entry)) result) entries acc2).
Proof.
  intros Hq. induction entries as [|entry entries IH]; intros acc1 acc2 H; cbn [fold_left].
  - exact H.
  - apply IH. apply dict_set_Forall2; [apply Hq | exact H].
Qed.

Lemma combine_map_r {A B : Type} (g : A -> B) (l : list A) :
  combine l (map g l) = map (fun x => (x, g x)) l.
Proof. induction l as [|x l IH]; [reflexivity|]. cbn. rewrite IH. reflexivity. Qed.

(** ** The response policies *)

Module exportrp_rows_facts.
Import exportrp.

Lemma rows_frame_of (order : list json -> list json) (policy_configs : pydict (pydict string)) :
  rows (frame_of order policy_configs) =
  map (fun motor =>
         (motor,
          map (fun pc => Some (JStr (match dict_get motor (snd pc) with
                                     | Some v => v
                                     | None => EmptyString
                                     end)))
              policy_configs))
      (order (inserted policy_configs)).
Proof. unfold rows, frame_of. cbn [index cells]. apply combine_map_r. Qed.

(** X16. The order in which the set yields the setting names decides the
    order of the rows and nothing else: for two orders that yield the same
    names, the response-policy transform makes the same sheets with the same
    columns, and the rows of a sheet, each label with its cells, are the same
    up to their order. *)
Theorem transform_policies_same_rows_in_any_order
    (order1 order2 : list json -> list json) (policies : list json) (result1 : pydict frame) :
  (forall ks, Permutation (order1 ks) (order2 ks)) ->
  transform_policies order1 policies = Ok result1 ->
  exists result2,
    transform_policies order2 policies = Ok result2 /\
    Forall2 (fun sheet1 sheet2 =>
               fst sheet1 = fst sheet2 /\
               columns (snd sheet1) = columns (snd sheet2) /\
               Permutation (rows (snd sheet1)) (rows (snd sheet2)))
            result1 result2.
Proof.
  intros Horder Hrun. unfold transform_policies in *.
  destruct (for_each add_policy policies []) as [per_so|e]; cbn [bind] in *; [|discriminate].
  injection Hrun as <-. eexists. split; [reflexivity|].
  apply (fold_dict_set_Forall2
           (fun df1 df2 => columns df1 = columns df2 /\ Permutation (rows df1) (rows df2))
           (frame_of order1) (frame_of order2)).
  - intros pc. split; [reflexivity|]. rewrite !rows_frame_of.
    apply Permutation_map. apply Horder.
  - constructor.
Qed.

Lemma transform_policies_same_rows_in_any_order_witness :
  exists result2,
    transform_policies last_seen two_settings = Ok result2 /\
    Forall2 (fun sheet1 sheet2 =>
               fst sheet1 = fst sheet2 /\
               columns (snd sheet1) = columns (snd sheet2) /\
               Permutation (rows (snd sheet1)) (rows (snd sheet2)))
            [(JStr "Windows",
              {| index := [realtime; scripts];
                 columns := [JStr "Default"];
                 cells := [[Some (JStr "Enabled")]; [Some (JStr "Disabled")]] |})]
            result2.
Proof.
  apply (transform_policies_same_rows_in_any_order first_seen last_seen two_settings).
  - intros ks. apply Permutation_rev.
  - vm_compute. reflexivity.
Defined.

Lemma add_setting_flags (config_values config_values' : pydict string) (setting : json) :
  (forall motor v, In (motor, v) config_values -> v = "Enabled" \/ v = "Disabled") ->
  add_setting config_values setting = Ok config_values' ->
  forall motor v, In (motor, v) config_values' -> v = "Enabled" \/ v = "Disabled".
Proof.
  intros Hok H motor v Hin. unfold add_setting in H.
  destruct (py_get setting "name" (JStr EmptyString)) as [motor_name|e]; cbn [bind] in H;
    [|discriminate].
  destruct (enabled_flag setting) as [enabled|e]; cbn [bind] in H; [|discriminate].
  destruct (hashed motor_name); cbn [bind] in H; [|discriminate].
  injection H as <-. apply dict_set_In in Hin as [Hin | ->]; [apply (Hok _ _ Hin)|].
  destruct (truthy enabled); [left | right]; reflexivity.
Qed.

Lemma add_group_flags (config_values config_values' : pydict string) (setting_group : json) :
  (forall motor v, In (motor, v) config_values -> v = "Enabled" \/ v = "Disabled") ->
  add_group config_values setting_group = Ok config_values' ->
  forall motor v, In (motor, v) config_values' -> v = "Enabled" \/ v = "Disabled".
Proof.
  intros Hok H. unfold add_group in H.
  destruct (py_get setting_group "settings" (JList [])) as [settings|e]; cbn [bind] in H;
    [|discriminate].
  destruct (py_iter settings) as [l|e]; cbn [bind] in H; [|discriminate].
  refine (rows_facts.for_each_preserves add_setting
            (fun cv => forall motor v, In (motor, v) cv -> v = "Enabled" \/ v = "Disabled")
            l _ config_values config_values' Hok H).
  intros s x s' _ Hs Hx. apply (add_setting_flags s s' x Hs Hx).
Qed.

Lemma add_policy_flags (per_so per_so' : pydict (pydict (pydict string))) (pol : json) :
  flags_only per_so -> add_policy per_so pol = Ok per_so' -> flags_only per_so'.
Proof.
  intros Hok H. unfold add_policy in H.
  destruct (py_get pol "platform_name" (JStr "Unknown")) as [so|e]; cbn [bind] in H;
    [|discriminate].
  destruct (ignored so); [injection H as <-; exact Hok|].
  destruct (hashed so); cbn [bind] in H; [|discriminate].
  destruct (py_get pol "name" (JStr "Unnamed")) as [policy_name|e]; cbn [bind] in H;
    [|discriminate].
  destruct (py_get pol "settings" (JList [])) as [settings|e]; cbn [bind] in H; [|discriminate].
  destruct (py_iter settings) as [groups|e]; cbn [bind] in H; [|discriminate].
  destruct (for_each add_group groups []) as [config_values|e] eqn:Hcv; cbn [bind] in H;
    [|discriminate].
  destruct (hashed policy_name); cbn [bind] in H; [|discriminate].
  injection H as <-.
  assert (Hnew : forall motor v, In (motor, v) config_values -> v = "Enabled" \/ v = "Disabled").
  { refine (rows_facts.for_each_preserves add_group
              (fun cv => forall motor v, In (motor, v) cv -> v = "Enabled" \/ v = "Disabled")
              groups _ [] config_values _ Hcv).
    - intros s x s' _ Hs Hx. apply (add_group_flags s s' x Hs Hx).
    - intros motor v []. }
  set (per_so1 := if dict_mem so per_so then per_so else dict_set so [] per_so).
  assert (Hok1 : flags_only per_so1).
  { subst per_so1. destruct (dict_mem so per_so); [exact Hok|].
    intros so' configs pn cv motor v Hin Hpn Hm.
    apply dict_set_In in Hin as [Hin | ->]; [apply (Hok _ _ _ _ _ _ Hin Hpn Hm) | destruct Hpn]. }
  intros so' configs pn cv motor v Hin Hpn Hm.
  apply dict_set_In in Hin as [Hin | ->]; [apply (Hok1 _ _ _ _ _ _ Hin Hpn Hm)|].
  apply dict_set_In in Hpn as [Hpn | ->]; [|apply (Hnew _ _ Hm)].
  destruct (dict_get so per_so1) as [c|] eqn:E; [|destruct Hpn].
  apply dict_get_In in E as (k0 & Hk0 & _). apply (Hok1 _ _ _ _ _ _ Hk0 Hpn Hm).
Qed.

(** X17. Whatever the order of the set, every cell of every sheet of the
    response policies is "Enabled", "Disabled" or, where the policy has no
    setting of the row, the empty string; every row has one cell per policy
    column and every row label has its row. *)
Theorem transform_policies_cells_are_flags
    (set_order : list json -> list json) (policies : list json) (result : pydict frame)
    (so : json) (df : frame) :
  transform_policies set_order policies = Ok result ->
  In (so, df) result ->
  length (cells df) = length (index df) /\
  forall row, In row (cells df) ->
    length row = length (columns df) /\
    forall c, In c row ->
      c = Some (JStr "Enabled") \/ c = Some (JStr "Disabled") \/ c = Some (JStr EmptyString).
Proof.
  intros Hrun Hdf. unfold transform_policies in Hrun.
  destruct (for_each add_policy policies []) as [per_so|e] eqn:Hloop; cbn [bind] in Hrun;
    [|discriminate].
  injection Hrun as <-.
  assert (Hok : flags_only per_so).
  { refine (rows_facts.for_each_preserves add_policy flags_only policies _ [] per_so _ Hloop).
    - intros s x s' _ Hs Hx. apply (add_policy_flags s s' x Hs Hx).
    - intros ? ? ? ? ? ? []. }
  apply fold_dict_set_In in Hdf as [[] | ([so' pcs] & Hentry & ->)]. cbn [snd].
  unfold frame_of. cbn [index columns cells]. split; [apply length_map|].
  intros row Hrow. apply in_map_iff in Hrow as (motor & <- & _).
  split; [unfold keys; rewrite !length_map; reflexivity|].
  intros c Hc. apply in_map_iff in Hc as ([pn cv] & <- & Hpc). cbn [snd].
  destruct (dict_get motor cv) as [v|] eqn:E; [|right; right; reflexivity].
  apply dict_get_In in E as (k0 & Hk0 & _).
  destruct (Hok _ _ _ _ _ _ Hentry Hpc Hk0) as [-> | ->]; [left | right; left]; reflexivity.
Qed.

Lemma transform_policies_cells_are_flags_witness :
  length [[Some (JStr "Enabled")]; [Some (JStr "Disabled")]] = length [realtime; scripts] /\
  forall row,
    In row [[Some (JStr "Enabled")]; [Some (JStr "Disabled")]] ->
    length row = length [JStr "Default"] /\
    forall c, In c row ->
      c = Some (JStr "Enabled") \/ c = Some (JStr "Disabled") \/ c = Some (JStr EmptyString).
Proof.
  exact (transform_policies_cells_are_flags first_seen two_settings
           [(JStr "Windows",
             {| index := [realtime; scripts];
                columns := [JStr "Default"];
                cells := [[Some (JStr "Enabled")]; [Some (JStr "Disabled")]] |})]
           (JStr "Windows")
           {| index := [realtime; scripts];
              columns := [JStr "Default"];
              cells := [[Some (JStr "Enabled")]; [Some (JStr "Disabled")]] |}
           eq_refl (or_introl eq_refl)).
Defined.

End exportrp_rows_facts.


(** ** Lists without equal keys *)

Lemma unique_keys_app (a b : list json) :
  unique_keys a = true -> unique_keys b = true ->
  (forall x y, In x a -> In y b -> py_eqb x y = false) ->
  unique_keys (a ++ b) = true.
Proof.
  intros Ha Hb Hab. induction a as [|x a IH]; [exact Hb|].
  cbn [unique_keys app] in *. apply andb_prop in Ha as [Hx Ha].
  rewrite key_in_app. apply negb_true_iff in Hx. rewrite Hx. cbn [orb].
  rewrite IH; [|exact Ha | intros u v Hu Hv; apply Hab; [right; exact Hu | exact Hv]].
  rewrite andb_true_r. apply negb_true_iff. apply key_in_false.
  intros y Hy. apply Hab; [left; reflexivity | exact Hy].
Qed.

Lemma key_in_filter (p : json -> bool) (k : json) (ks : list json) :
  key_in k (List.filter p ks) = true -> key_in k ks = true.
Proof.
  rewrite !key_in_true. intros (k' & Hin & Hk). apply List.filter_In in Hin as [Hin _].
  exists k'. split; assumption.
Qed.

Lemma unique_keys_filter (p : json -> bool) (ks : list json) :
  unique_keys ks = true -> unique_keys (List.filter p ks) = true.
Proof.
  induction ks as [|k ks IH]; intros H; [reflexivity|].
  cbn [unique_keys List.filter] in *. apply andb_prop in H as [Hk H].
  destruct (p k); [|apply IH; exact H].
  cbn [unique_keys]. rewrite (IH H), andb_true_r. apply negb_true_iff.
  destruct (key_in k (List.filter p ks)) eqn:E; [|reflexivity].
  apply key_in_filter in E. rewrite E in Hk. discriminate.
Qed.

(** ** The USB policies *)

Module exportusb_facts.
Import exportusb.

Lemma extend_ok (configs : list json) (config_dict : pydict json) :
  hashables configs -> unique_keys configs = true -> dict_keys (keys config_dict) ->
  hashables (extend configs config_dict) /\ unique_keys (extend configs config_dict) = true.
Proof.
  intros Hh Hu [Hdh Hdu]. unfold extend. split.
  - apply Forall_app. split; [exact Hh|].
    apply List.Forall_forall. intros k Hk. apply List.filter_In in Hk as [Hk _].
    apply (proj1 (List.Forall_forall _ _) Hdh k Hk).
  - apply unique_keys_app; [exact Hu | apply unique_keys_filter; exact Hdu|].
    intros x y Hx Hy. apply List.filter_In in Hy as [_ Hy]. apply negb_true_iff in Hy.
    destruct (py_eqb x y) eqn:E; [|reflexivity].
    assert (existsb (fun c => py_eqb c y) configs = true); [|congruence].
    apply existsb_exists. exists x. split; assumption.
Qed.

Lemma fold_extend (dicts : list (pydict json)) :
  forall configs,
    hashables configs -> unique_keys configs = true ->
    Forall (fun d => dict_keys (keys d)) dicts ->
    (exists rest, fold_left extend dicts configs = configs ++ rest) /\
    hashables (fold_left extend dicts configs) /\
    unique_keys (fold_left extend dicts configs) = true.
Proof.
  induction dicts as [|d dicts IH]; intros configs Hh Hu Hd; cbn [fold_left].
  - split; [exists []; rewrite app_nil_r; reflexivity|]. split; assumption.
  - inversion Hd as [|? ? Hd1 Hd2]; subst.
    destruct (extend_ok configs d Hh Hu Hd1) as [Hh' Hu'].
    destruct (IH (extend configs d) Hh' Hu' Hd2) as ((rest & Hrest) & Hh2 & Hu2).
    split; [|split; assumption].
    rewrite Hrest. unfold extend. rewrite <- app_assoc. eexists. reflexivity.
Qed.

Lemma add_class_keys (config_values config_values' : pydict json) (cls : json) :
  dict_keys (keys config_values) ->
  add_class config_values cls = Ok config_values' ->
  dict_keys (keys config_values').
Proof.
  intros Hk H. unfold add_class in H.
  destruct (py_get cls "id" (JStr EmptyString)) as [motor_id|e]; cbn [bind] in H;
    [|discriminate].
  destruct (py_get cls "action" (JStr EmptyString)) as [action|e]; cbn [bind] in H;
    [|discriminate].
  destruct (truthy motor_id && truthy action); [|injection H as <-; exact Hk].
  unfold hashed in H. destruct (hashable motor_id) eqn:Hm; cbn [bind] in H; [|discriminate].
  injection H as <-. apply dict_keys_set; assumption.
Qed.

Lemma fixed_rows_keys (settings : json) (config_values : pydict json) :
  fixed_rows settings = Ok config_values -> dict_keys (keys config_values).
Proof.
  intros H. unfold fixed_rows in H.
  destruct (py_get settings "enforcement_mode" (JStr EmptyString)) as [em|e]; cbn [bind] in H;
    [|discriminate].
  destruct (py_get settings "end_user_notification" (JStr EmptyString)) as [eu|e];
    cbn [bind] in H; [|discriminate].
  injection H as <-. split; [repeat constructor | reflexivity].
Qed.

Lemma add_policy_tables (per_so per_so' : pydict (pydict (pydict json))) (pol : json) :
  tables_ok per_so -> add_policy per_so pol = Ok per_so' -> tables_ok per_so'.
Proof.
  intros Hok H. unfold add_policy in H.
  destruct (py_get pol "platform_name" (JStr "Unknown")) as [so|e]; cbn [bind] in H;
    [|discriminate].
  destruct (ignored so); [injection H as <-; exact Hok|].
  destruct (hashed so); cbn [bind] in H; [|discriminate].
  destruct (py_get pol "name" (JStr "Unnamed")) as [policy_name|e]; cbn [bind] in H;
    [|discriminate].
  destruct (py_get pol "settings" (JDict [])) as [settings|e]; cbn [bind] in H; [|discriminate].
  destruct (fixed_rows settings) as [cv0|e] eqn:Hcv0; cbn [bind] in H; [|discriminate].
  destruct (py_get settings "classes" (JList [])) as [classes|e]; cbn [bind] in H;
    [|discriminate].
  destruct (py_iter classes) as [l|e]; cbn [bind] in H; [|discriminate].
  destruct (for_each add_class l cv0) as [config_values|e] eqn:Hcv; cbn [bind] in H;
    [|discriminate].
  destruct (hashed policy_name); cbn [bind] in H; [|discriminate].
  injection H as <-.
  assert (Hnew : dict_keys (keys config_values)).
  { refine (rows_facts.for_each_preserves add_class (fun cv => dict_keys (keys cv))
              l _ cv0 config_values (fixed_rows_keys _ _ Hcv0) Hcv).
    intros s x s' _ Hs Hx. apply (add_class_keys s s' x Hs Hx). }
  set (per_so1 := if dict_mem so per_so then per_so else dict_set so [] per_so).
  assert (Hok1 : tables_ok per_so1).
  { subst per_so1. destruct (dict_mem so per_so); [exact Hok|].
    apply List.Forall_forall. intros [k v] Hin.
    apply dict_set_In in Hin as [Hin | ->];
      [apply (proj1 (List.Forall_forall _ _) Hok _ Hin) | constructor]. }
  apply List.Forall_forall. intros [k v] Hin.
  apply dict_set_In in Hin as [Hin | ->]; [apply (proj1 (List.Forall_forall _ _) Hok1 _ Hin)|].
  cbn [snd]. apply List.Forall_forall. intros [pn cv] Hpn.
  apply dict_set_In in Hpn as [Hpn | ->]; [|exact Hnew].
  destruct (dict_get so per_so1) as [c|] eqn:E; [|destruct Hpn].
  apply dict_get_In in E as (k0 & Hk0 & _).
  pose proof (proj1 (List.Forall_forall _ _) Hok1 _ Hk0) as Hc. cbn [snd] in Hc.
  apply (proj1 (List.Forall_forall _ _) Hc _ Hpn).
Qed.

(** X18. The rows of a sheet of the USB policies are those of a list, not
    of a set: every sheet begins with the rows "enforcement_mode" and
    "end_user_notification", whatever the policies hold, no row label occurs
    twice, every row label has its row and every row has one cell per policy
    column. *)
Theorem transform_policies_rows_in_order
    (policies : list json) (result : pydict frame) (so : json) (df : frame) :
  transform_policies policies = Ok result ->
  In (so, df) result ->
  (exists classes,
     index df = JStr "enforcement_mode" :: JStr "end_user_notification" :: classes) /\
  unique_keys (index df) = true /\
  length (cells df) = length (index df) /\
  forall row, In row (cells df) -> length row = length (columns df).
Proof.
  intros Hrun Hdf. unfold transform_policies in Hrun.
  destruct (for_each add_policy policies []) as [per_so|e] eqn:Hloop; cbn [bind] in Hrun;
    [|discriminate].
  injection Hrun as <-.
  assert (Hok : tables_ok per_so).
  { refine (rows_facts.for_each_preserves add_policy tables_ok policies _ [] per_so _ Hloop).
    - intros s x s' _ Hs Hx. apply (add_policy_tables s s' x Hs Hx).
    - constructor. }
  apply fold_dict_set_In in Hdf as [[] | ([so' pcs] & Hentry & ->)]. cbn [snd].
  pose proof (proj1 (List.Forall_forall _ _) Hok _ Hentry) as Hpcs. cbn [snd] in Hpcs.
  destruct (fold_extend (map snd pcs) [JStr "enforcement_mode"; JStr "end_user_notification"])
    as ((rest & Hrest) & _ & Hu).
  - repeat constructor.
  - reflexivity.
  - apply List.Forall_forall. intros d Hd. apply in_map_iff in Hd as (pc & <- & Hpc).
    apply (proj1 (List.Forall_forall _ _) Hpcs _ Hpc).
  - unfold frame_of, rows_of. cbn [index columns cells].
    split; [exists rest; rewrite Hrest; reflexivity|].
    split; [exact Hu|]. split; [apply length_map|].
    intros row Hrow. apply in_map_iff in Hrow as (config & <- & _).
    unfold keys. rewrite !length_map. reflexivity.
Qed.

Lemma transform_policies_rows_in_order_witness :
  (exists classes,
     [JStr "enforcement_mode"; JStr "end_user_notification"; JStr "MASS_STORAGE";
      JStr "PRINTER"] =
     JStr "enforcement_mode" :: JStr "end_user_notification" :: classes) /\
  unique_keys [JStr "enforcement_mode"; JStr "end_user_notification"; JStr "MASS_STORAGE";
               JStr "PRINTER"] = true.
Proof.
  pose proof (transform_policies_rows_in_order two_usb_policies
                [(JStr "Windows",
                  {| index := [JStr "enforcement_mode"; JStr "end_user_notification";
                               JStr "MASS_STORAGE"; JStr "PRINTER"];
                     columns := [JStr "Default"; JStr "Kiosk"];
                     cells :=
                       [[Some (JStr "MONITOR_ONLY"); Some (JStr EmptyString)];
                        [Some (JStr EmptyString); Some (JStr "SILENT")];
                        [Some (JStr "BLOCK_ALL"); Some (JStr "BLOCK_ALL")];
                        [Some (JStr EmptyString); Some (JStr "FULL_ACCESS")]] |})]
                (JStr "Windows")
                {| index := [JStr "enforcement_mode"; JStr "end_user_notification";
                             JStr "MASS_STORAGE"; JStr "PRINTER"];
                   columns := [JStr "Default"; JStr "Kiosk"];
                   cells :=
                     [[Some (JStr "MONITOR_ONLY"); Some (JStr EmptyString)];
                      [Some (JStr EmptyString); Some (JStr "SILENT")];
                      [Some (JStr "BLOCK_ALL"); Some (JStr "BLOCK_ALL")];
                      [Some (JStr EmptyString); Some (JStr "FULL_ACCESS")]] |}) as H.
  destruct H as (H1 & H2 & _).
  - vm_compute. reflexivity.
  - left. reflexivity.
  - split; [exact H1 | exact H2].
Defined.

End exportusb_facts.


(** ** The sensor update policies *)

Module exportsup_rows_facts.
Import exportsup.

Lemma normalize_idem (build : string) : normalize (normalize build) = normalize build.
Proof.
  assert (Hn : normalize build =
               if contains "n" (lower build) then
                 if contains "n-2" (lower build) then "N-2"
                 else if contains "n-1" (lower build) then "N-1" else "N"
               else build) by reflexivity.
  revert Hn. destruct (contains "n" (lower build)) eqn:E.
  - destruct (contains "n-2" (lower build)); [intros ->; reflexivity|].
    destruct (contains "n-1" (lower build)); intros ->; reflexivity.
  - intros Hn. rewrite !Hn. reflexivity.
Qed.

Lemma normalize_not_empty (build : string) :
  build <> EmptyString -> normalize build <> EmptyString.
Proof.
  intros H. unfold normalize. destruct (contains "n" (lower build)); [|exact H].
  destruct (contains "n-2" (lower build)); [discriminate|].
  destruct (contains "n-1" (lower build)); discriminate.
Qed.

(** X19. The normalization of the build settles at once: a build that was
    normalized is left as it is when it is normalized again, be it a string
    ("N-2", "N-1", "N" or a text without the letter n) or an empty value that
    was left alone. *)
Theorem normalize_build_settles (build v : json) :
  normalize_build build = Ok v ->
  normalize_build v = Ok v /\
  forall b, build = JStr b -> v = JStr (normalize b) /\ normalize (normalize b) = normalize b.
Proof.
  intros H. split.
  - unfold normalize_build in H. destruct (truthy build) eqn:Ht.
    + destruct build as [|x|z|b|l|d]; try discriminate. injection H as <-.
      unfold normalize_build. cbn [truthy] in Ht |- *.
      destruct (String.eqb_spec b EmptyString) as [Hb|Hb]; [discriminate|].
      destruct (String.eqb_spec (normalize b) EmptyString) as [He|_].
      * exfalso. apply (normalize_not_empty b Hb He).
      * cbn [negb]. rewrite normalize_idem. reflexivity.
    + injection H as <-. unfold normalize_build. rewrite Ht. reflexivity.
  - intros b ->. split; [|apply normalize_idem].
    unfold normalize_build in H. destruct (truthy (JStr b)) eqn:Ht.
    + injection H as <-. reflexivity.
    + injection H as <-. cbn [truthy] in Ht. apply negb_false_iff in Ht.
      apply String.eqb_eq in Ht. subst b. reflexivity.
Qed.

Lemma normalize_build_settles_witness :
  normalize_build (JStr "N-1") = Ok (JStr "N-1") /\
  forall b, JStr "n-1|tagged|7" = JStr b ->
            JStr "N-1" = JStr (normalize b) /\ normalize (normalize b) = normalize b.
Proof.
  apply (normalize_build_settles (JStr "n-1|tagged|7") (JStr "N-1")). reflexivity.
Defined.

Lemma total_rows_fresh (k : json) (per_os : pydict (list (list json))) :
  exportiocs.total_rows (if dict_mem k per_os then per_os else dict_set k [] per_os)
  = exportiocs.total_rows per_os.
Proof.
  destruct (dict_mem k per_os) eqn:E; [reflexivity|].
  rewrite dict_set_fresh by exact E. apply exportiocs_facts.total_rows_snoc.
Qed.

Lemma kept_snoc (done : list json) (pol so : json) :
  platform pol = Ok so ->
  length (kept (done ++ [pol])) = length (kept done) + if ignored so then 0 else 1.
Proof.
  intros H. unfold kept. rewrite List.filter_app, length_app. cbn [List.filter]. rewrite H.
  destruct (ignored so); reflexivity.
Qed.

Lemma uninstall_protection_no_boolean (pol v : json) :
  uninstall_protection_of pol = Ok v -> forall b, v <> JBool b.
Proof.
  unfold uninstall_protection_of. intros H b.
  destruct (py_get pol "settings" (JDict [])) as [settings|e]; cbn [bind] in H; [|discriminate].
  destruct (py_get pol "uninstall_protection" (JStr EmptyString)) as [top|e]; cbn [bind] in H;
    [|discriminate].
  destruct (py_get settings "uninstall_protection" top) as [up|e]; cbn [bind] in H;
    [|discriminate].
  destruct up; injection H as <-; discriminate.
Qed.

Lemma add_policy_collected (done : list json) (pol : json)
    (per_os per_os' : pydict (list (list json))) :
  collected done per_os -> add_policy per_os pol = Ok per_os' -> collected (done ++ [pol]) per_os'.
Proof.
  intros (Hkeys & Htotal & Hig & Hrows) H. unfold add_policy in H.
  destruct (py_get pol "platform_name" (JStr "Unknown")) as [so|e] eqn:Hso; cbn [bind] in H;
    [|discriminate].
  pose proof (kept_snoc done pol so Hso) as Hkept.
  destruct (ignored so) eqn:Hi.
  { injection H as <-. split; [exact Hkeys|]. split; [lia|]. split; assumption. }
  destruct (py_get pol "name" (JStr "Unnamed")) as [pol_name|e]; cbn [bind] in H;
    [|discriminate].
  destruct (py_get pol "settings" (JDict [])) as [settings|e]; cbn [bind] in H; [|discriminate].
  destruct (py_get settings "build" (JStr EmptyString)) as [build|e]; cbn [bind] in H;
    [|discriminate].
  destruct (normalize_build build) as [build'|e]; cbn [bind] in H; [|discriminate].
  destruct (uninstall_protection_of pol) as [up|e] eqn:Hup; cbn [bind] in H; [|discriminate].
  unfold hashed in H. destruct (hashable so) eqn:Hh; cbn [bind] in H; [|discriminate].
  injection H as <-.
  set (per_os1 := if dict_mem so per_os then per_os else dict_set so [] per_os).
  assert (Hkeys1 : dict_keys (keys per_os1)).
  { subst per_os1. destruct (dict_mem so per_os); [exact Hkeys|].
    apply dict_keys_set; assumption. }
  assert (Hmem1 : dict_mem so per_os1 = true) by (apply rows_facts.ensure_mem; exact Hh).
  assert (Hig1 : forall k, In k (keys per_os1) -> ignored k = false).
  { subst per_os1. destruct (dict_mem so per_os) eqn:E; [exact Hig|].
    rewrite keys_dict_set, E. intros k Hk. apply in_app_or in Hk as [Hk|[<-|[]]];
      [apply (Hig k Hk) | exact Hi]. }
  assert (Hrows1 : forall k rows row, In (k, rows) per_os1 -> In row rows -> policy_row row).
  { subst per_os1. destruct (dict_mem so per_os); [exact Hrows|].
    intros k rows row Hin Hrow. apply dict_set_In in Hin as [Hin | ->];
      [apply (Hrows k rows row Hin Hrow) | destruct Hrow]. }
  destruct (proj1 (dict_mem_get so per_os1) Hmem1) as [rows0 Hrows0]. rewrite Hrows0.
  split; [apply dict_keys_set; assumption|]. split; [|split].
  - pose proof (exportiocs_facts.total_rows_set so rows0 (rows0 ++ [[pol_name; build'; up]])
                  per_os1 Hrows0) as Hset.
    pose proof (total_rows_fresh so per_os) as Hfresh. fold per_os1 in Hfresh.
    rewrite length_app in Hset. cbn [length] in Hset. lia.
  - rewrite keys_dict_set, Hmem1. exact Hig1.
  - intros k rows row Hin Hrow. apply dict_set_In in Hin as [Hin | ->];
      [apply (Hrows1 k rows row Hin Hrow)|].
    apply in_app_or in Hrow as [Hrow | [<- | []]].
    + apply dict_get_In in Hrows0 as (k0 & Hk0 & _). apply (Hrows1 k0 rows0 row Hk0 Hrow).
    + exists pol_name, build', up. split; [reflexivity|].
      apply (uninstall_protection_no_boolean pol up Hup).
Qed.

Lemma collected_nil : collected [] [].
Proof.
  split; [split; [constructor | reflexivity]|]. split; [reflexivity|].
  split; [intros k [] | intros k rows row []].
Qed.

Lemma row_count_of_frames (cols : list string) (per_os : pydict (list (list json))) :
  exportiocs.row_count (map (fun entry => (fst entry, frame_of_rows cols (snd entry))) per_os)
  = exportiocs.total_rows per_os.
Proof.
  unfold exportiocs.row_count, exportiocs.total_rows.
  induction per_os as [|[k rows] per_os IH]; [reflexivity|].
  cbn [map concat fst snd frame_of_rows cells]. rewrite !length_app, IH, length_map.
  reflexivity.
Qed.

(** X20. The sensor-update transform keeps every policy that is not of the
    platforms "Mobile" and "Meta", and nothing else: the sheets hold, in all,
    as many rows as there are such policies, no sheet is named "Mobile" or
    "Meta", no two sheets share a name, and every row has the three cells
    name, build and uninstall_protection, the last of which is never a
    boolean (a boolean becomes "Enabled" or "Disabled"). *)
Theorem transform_policies_keeps_every_policy (policies : list json) (result : pydict frame) :
  transform_policies policies = Ok result ->
  exportiocs.row_count result = length (kept policies) /\
  unique_keys (keys result) = true /\
  (forall k, In k (keys result) -> ignored k = false) /\
  (forall k df row,
     In (k, df) result -> In row (cells df) ->
     columns df = map JStr policy_columns /\
     exists name build uninstall_protection,
       row = [Some name; Some build; Some uninstall_protection] /\
       forall b, uninstall_protection <> JBool b).
Proof.
  intros Hrun. unfold transform_policies in Hrun.
  destruct (for_each add_policy policies []) as [per_os|e] eqn:Hloop; cbn [bind] in Hrun;
    [|discriminate].
  injection Hrun as <-.
  pose proof (for_each_invariant add_policy collected add_policy_collected policies [] []
                per_os collected_nil Hloop) as (Hkeys & Htotal & Hig & Hrows).
  cbn [app] in Htotal.
  rewrite exportiocs_facts.fold_dict_set_map by apply Hkeys. cbn [app].
  split; [rewrite row_count_of_frames; exact Htotal|].
  split; [rewrite exportiocs_facts.keys_map; apply Hkeys|].
  split; [rewrite exportiocs_facts.keys_map; exact Hig|].
  intros k df row Hin Hrow. apply in_map_iff in Hin as ([k' rows] & Heq & Hin).
  cbn [fst snd] in Heq. injection Heq as -> <-. split; [reflexivity|].
  cbn [frame_of_rows cells] in Hrow. apply in_map_iff in Hrow as (r & <- & Hr).
  destruct (Hrows k rows r Hin Hr) as (name & build & up & -> & Hup).
  exists name, build, up. split; [reflexivity | exact Hup].
Qed.

Lemma transform_policies_keeps_every_policy_witness :
  exportiocs.row_count
    (match transform_policies three_policies with Ok r => r | Raise _ => [] end)
  = length (kept three_policies) /\
  unique_keys (keys (match transform_policies three_policies with Ok r => r | Raise _ => [] end))
  = true.
Proof.
  pose proof (transform_policies_keeps_every_policy three_policies
                (match transform_policies three_policies with Ok r => r | Raise _ => [] end))
    as H.
  destruct H as (H1 & H2 & _).
  - vm_compute. reflexivity.
  - split; [exact H1 | exact H2].
Defined.

End exportsup_rows_facts.


(** ** The IOA rules *)

Module exportioarules_rows_facts.
Import exportioarules.

Lemma first_value_skips (target : string) (pre : list (list (string * json))) (rest : list json) :
  (forall d, In d pre -> py_eqb (field d "name" JNull) (JStr target) = false) ->
  first_value target (map JDict pre ++ rest) = first_value target rest.
Proof.
  induction pre as [|d pre IH]; intros H; [reflexivity|].
  cbn [map app first_value py_get bind]. fold (field d "name" JNull).
  rewrite (H d (or_introl eq_refl)). apply IH. intros d' Hd'. apply H. right. exact Hd'.
Qed.

(** X21. Of the entries of [field_values], the first one of the name asked
    for decides, and the entries after it are not looked at, whatever they
    are: the value is the field "value" of the first item of its [values],
    and the empty string when it has no [values] or the item has no
    "value". *)
Theorem first_value_first_entry_decides
    (target : string) (pre : list (list (string * json))) (fv : list (string * json))
    (post : list json) :
  (forall d, In d pre -> py_eqb (field d "name" JNull) (JStr target) = false) ->
  lookup_str "name" fv = Some (JStr target) ->
  (forall v more,
     lookup_str "values" fv = Some (JList (JDict v :: more)) ->
     first_value target (map JDict pre ++ JDict fv :: post) = Ok (field v "value" (JStr EmptyString))) /\
  (lookup_str "values" fv = None ->
   first_value target (map JDict pre ++ JDict fv :: post) = Ok (JStr EmptyString)) /\
  (lookup_str "values" fv = Some (JList []) ->
   first_value target (map JDict pre ++ JDict fv :: post) = Raise IndexError).
Proof.
  intros Hpre Hname.
  assert (Hhere : first_value target (map JDict pre ++ JDict fv :: post) =
                  let* values := py_get (JDict fv) "values" (JList [JDict []]) in
                  let* first := first_item values in
                  py_get first "value" (JStr EmptyString)).
  { rewrite (first_value_skips target pre _ Hpre). cbn [first_value py_get bind].
    rewrite Hname. cbn [py_eqb]. rewrite String.eqb_refl. reflexivity. }
  rewrite Hhere. cbn [py_get bind]. split; [|split].
  - intros v more ->. reflexivity.
  - intros ->. reflexivity.
  - intros ->. reflexivity.
Qed.

Lemma first_value_first_entry_decides_witness :
  first_value "CommandLine"
    (map JDict [[("name", JStr "ImageFilename");
                 ("values", JList [JDict [("value", JStr ".*cmd.exe")]])]]
     ++ JDict [("name", JStr "CommandLine");
               ("values", JList [JDict [("value", JStr ".*whoami.*")]])]
        :: [JDict [("name", JStr "CommandLine"); ("values", JList [])]; JStr "not an entry"])
  = Ok (field [("value", JStr ".*whoami.*")] "value" (JStr EmptyString)).
Proof.
  refine (proj1 (first_value_first_entry_decides "CommandLine"
                   [[("name", JStr "ImageFilename");
                     ("values", JList [JDict [("value", JStr ".*cmd.exe")]])]]
                   [("name", JStr "CommandLine");
                    ("values", JList [JDict [("value", JStr ".*whoami.*")]])]
                   [JDict [("name", JStr "CommandLine"); ("values", JList [])];
                    JStr "not an entry"] _ _)
                [("value", JStr ".*whoami.*")] [] _).
  - intros d [<- | []]. reflexivity.
  - reflexivity.
  - reflexivity.
Defined.

Lemma first_value_total (target : string) (fvs : list json) :
  forallb entry_ok fvs = true -> exists v, first_value target fvs = Ok v.
Proof.
  induction fvs as [|fv fvs IH]; intros H; [eexists; reflexivity|].
  cbn [forallb] in H. apply andb_prop in H as [Hfv H].
  destruct fv as [|x|z|s|l|f]; try discriminate.
  cbn [first_value py_get bind].
  destruct (py_eqb _ (JStr target)); [|apply (IH H)].
  unfold entry_ok in Hfv. destruct (lookup_str "values" f) as [values|].
  - destruct values as [|x|z|s|l|d]; try discriminate.
    destruct l as [|first l]; [discriminate|].
    destruct first as [|x|z|s|l'|d]; try discriminate.
    cbn [first_item bind py_get]. eexists. reflexivity.
  - cbn [first_item bind py_get]. eexists. reflexivity.
Qed.

Lemma rule_row_total (rule : json) :
  rule_ok rule = true -> exists row, rule_row rule = Ok row /\ length row = 11.
Proof.
  intros H. destruct rule as [|x|z|s|l|r]; try discriminate.
  unfold rule_ok in H. unfold rule_row. cbn [py_get bind].
  assert (Hfv : forall target,
            exists v, field_value target
                        (match lookup_str "field_values" r with
                         | Some x => x
                         | None => JList []
                         end) = Ok v).
  { intros target. destruct (lookup_str "field_values" r) as [fvs|].
    - destruct fvs as [|x|z|s|l|d]; try discriminate.
      unfold field_value. cbn [py_iter bind]. apply first_value_total. exact H.
    - eexists. reflexivity. }
  destruct (Hfv "ImageFilename") as [v1 ->]. destruct (Hfv "CommandLine") as [v2 ->].
  destruct (Hfv "ParentImageFilename") as [v3 ->].
  destruct (Hfv "ParentCommandLine") as [v4 ->].
  destruct (Hfv "GrandparentImageFilename") as [v5 ->].
  destruct (Hfv "GrandparentCommandLine") as [v6 ->].
  cbn [bind]. eexists. split; reflexivity.
Qed.

Lemma add_rules_total (rules : list json) :
  forallb rule_ok rules = true ->
  forall data,
    exists rows,
      for_each add_rule rules data = Ok (data ++ rows) /\
      Forall2 (fun rule row => rule_row rule = Ok row /\ length row = 11) rules rows.
Proof.
  induction rules as [|rule rules IH]; intros H data.
  - exists []. rewrite app_nil_r. split; [reflexivity | constructor].
  - cbn [forallb] in H. apply andb_prop in H as [Hrule H].
    destruct (rule_row_total rule Hrule) as (row & Hrow & Hlen).
    destruct (IH H (data ++ [row])) as (rows & Hrun & Hrows).
    exists (row :: rows). split.
    + cbn [for_each]. unfold add_rule at 1. rewrite Hrow. cbn [bind]. rewrite Hrun.
      rewrite <- app_assoc. reflexivity.
    + constructor; [split; assumption | exact Hrows].
Qed.

Lemma add_rule_group_rules (data : list (list json)) (rule_group : json) :
  group_ok rule_group = true ->
  add_rule_group data rule_group = for_each add_rule (rules_of rule_group) data /\
  forallb rule_ok (rules_of rule_group) = true.
Proof.
  intros H. destruct rule_group as [|x|z|s|l|g]; try discriminate.
  unfold group_ok in H. unfold add_rule_group, rules_of. cbn [py_get bind].
  destruct (lookup_str "rules" g) as [rules|]; [|split; reflexivity].
  destruct rules as [|x|z|s|l|d]; try discriminate. split; [reflexivity | exact H].
Qed.

Lemma add_rule_groups_total (groups : list json) :
  forallb group_ok groups = true ->
  forall data,
    exists rows,
      for_each add_rule_group groups data = Ok (data ++ rows) /\
      Forall2 (fun rule row => rule_row rule = Ok row /\ length row = 11)
        (flat_map rules_of groups) rows.
Proof.
  induction groups as [|group groups IH]; intros H data.
  - exists []. rewrite app_nil_r. split; [reflexivity | constructor].
  - cbn [forallb] in H. apply andb_prop in H as [Hgroup H].
    destruct (add_rule_group_rules data group Hgroup) as [Hadd Hrules].
    destruct (add_rules_total (rules_of group) Hrules data) as (rows1 & Hrun1 & Hrows1).
    destruct (IH H (data ++ rows1)) as (rows2 & Hrun2 & Hrows2).
    exists (rows1 ++ rows2). split.
    + cbn [for_each]. rewrite Hadd, Hrun1. cbn [bind]. rewrite Hrun2, <- app_assoc.
      reflexivity.
    + cbn [flat_map]. apply Forall2_app; assumption.
Qed.

(** X22. For rule groups as the API documents them (objects with a list of
    rules that are objects, the entries of [field_values] objects whose
    [values], when present, begin with an object), [transform_rules] does not
    raise and makes one row per rule, in the order of the groups and of the
    rules in them, each row with the eleven cells of the eleven columns. *)
Theorem transform_rules_one_row_per_rule (rule_details : list json) :
  forallb group_ok rule_details = true ->
  exists rows,
    transform_rules rule_details = Ok (frame_of_rows rule_columns rows) /\
    Forall2 (fun rule row => rule_row rule = Ok row /\ length row = length rule_columns)
      (flat_map rules_of rule_details) rows.
Proof.
  intros H. destruct (add_rule_groups_total rule_details H []) as (rows & Hrun & Hrows).
  exists rows. unfold transform_rules. rewrite Hrun. split; [reflexivity | exact Hrows].
Qed.

Lemma transform_rules_one_row_per_rule_witness :
  exists rows,
    transform_rules [missing_values_group; JDict []] = Ok (frame_of_rows rule_columns rows) /\
    Forall2 (fun rule row => rule_row rule = Ok row /\ length row = length rule_columns)
      (flat_map rules_of [missing_values_group; JDict []]) rows.
Proof.
  apply (transform_rules_one_row_per_rule [missing_values_group; JDict []]). reflexivity.
Defined.

End exportioarules_rows_facts.


(** ** The row of the host counts *)

Module host_count_facts.
Import exportpp exportpp_facts rows_facts emitted_rows cell_facts.

Section Counts.

Variable host_counts : pydict Z.
Hypothesis Hcounts : hashables (keys host_counts).

Lemma add_host_count_cell (pol_name : json) (m m' : motors) (c : json) (n : Z) :
  table_ok m -> add_host_count host_counts pol_name m = Ok m' ->
  hashable c = true -> py_eqb pol_name c = true ->
  dict_get c host_counts = Some n ->
  table_ok m' /\ cell m' host_count_row c = Some (str_of_Z n).
Proof.
  intros Hm H Hc Heq Hn. unfold add_host_count, hashed in H.
  destruct (hashable pol_name) eqn:Hp; [|discriminate]. cbn [bind] in H.
  rewrite (dict_get_equiv pol_name c host_counts Hp Hc Hcounts Heq), Hn in H.
  split; [apply (set_cell_table_ok _ _ _ _ _ Hm H)|].
  rewrite (set_cell_cell_of _ _ _ _ _ host_count_row c Hm H eq_refl Hc), Heq.
  reflexivity.
Qed.

Lemma counted_rows_step (done : list json) (x : json) (per_os per_os' : pydict motors) :
  counted_rows host_counts done per_os ->
  add_policy host_counts per_os x = Ok per_os' ->
  counted_rows host_counts (done ++ [x]) per_os'.
Proof.
  intros (Hplat & Htables & Hshown) Hadd. split; [|split].
  - apply (add_policy_platforms host_counts done x per_os per_os' Hplat Hadd).
  - apply (add_policy_tables_ok host_counts per_os x per_os' Htables Hadd).
  - destruct Hplat as ((Hkeys & _) & _).
    destruct (add_policy_inv _ _ _ _ Hadd) as (so' & Hso' & [[Hig ->]|(Hig & Hh' & Hrest)]).
    + intros pol so pol_name n Hin Hnamed Hpn Hn.
      apply in_app_or in Hin as [Hin|[<-|[]]]; [apply (Hshown pol so pol_name n Hin Hnamed Hpn Hn)|].
      destruct Hnamed as (Hso & Hkept & _). rewrite Hso' in Hso. injection Hso as ->.
      rewrite Hig in Hkept. discriminate.
    + destruct Hrest as (id' & pn' & ps & groups & m1 & m' & Hid' & Hpn' & _ & _ & Hloop & Hhc
                         & ->).
      pose proof (add_host_count_hashable host_counts pn' m1 m' Hhc) as Hpnh.
      rewrite List.Forall_forall in Htables.
      assert (Hstart : table_ok (motors_of so' (with_platform so' per_os))).
      { destruct (motors_of_entry so' (with_platform so' per_os)) as [->|[k Hin]];
          [exact table_ok_nil|].
        apply with_platform_In in Hin as [Hin| ->]; [apply (Htables _ Hin) | exact table_ok_nil]. }
      pose proof (add_groups_table_ok pn' groups _ m1 Hstart Hloop) as Hm1.
      intros pol so pol_name n Hin Hnamed Hpn Hn.
      assert (Hsoh : hashable so = true).
      { pose proof Hnamed as (Hso & _).
        apply in_app_or in Hin as [Hin|[<-|[]]].
        - pose proof (Hshown pol so pol_name n Hin Hnamed Hpn Hn) as Hcell.
          unfold cell, motors_of in Hcell.
          destruct (dict_get so per_os) as [mm|] eqn:E; [|discriminate].
          apply dict_get_In in E as (k0 & Hk0 & Heq).
          rewrite List.Forall_forall in Hkeys.
          apply (equal_key_hashable so k0 Heq (Hkeys k0 (In_keys _ _ _ Hk0))).
        - rewrite Hso' in Hso. injection Hso as <-. exact Hh'. }
      destruct (py_eqb so' so) eqn:Hsame.
      * destruct (motors_of_same so so' m' per_os Hsoh Hh' Hkeys Hsame) as [-> Hbefore].
        destruct (py_eqb pn' pol_name) eqn:Hpsame.
        -- apply (add_host_count_cell pn' m1 m' pol_name n Hm1 Hhc Hpn Hpsame Hn).
        -- apply in_app_or in Hin as [Hin|[<-|[]]].
           ++ destruct (add_host_count_other_column host_counts pn' m1 m' host_count_row
                          pol_name Hm1 Hhc eq_refl Hpn Hpsame) as [_ ->].
              rewrite (add_groups_other_column pn' groups _ m1 host_count_row pol_name
                         eq_refl Hpn Hpsame Hstart Hloop).
              rewrite <- Hbefore. apply (Hshown pol so pol_name n Hin Hnamed Hpn Hn).
           ++ destruct Hnamed as (_ & _ & id & Hid & Hname).
              rewrite Hid' in Hid. injection Hid as <-.
              rewrite Hpn' in Hname. injection Hname as <-.
              rewrite (py_eqb_refl pn' Hpnh) in Hpsame. discriminate.
      * rewrite (motors_of_other so so' m' per_os Hsoh Hh' Hkeys Hsame).
        apply in_app_or in Hin as [Hin|[<-|[]]];
          [apply (Hshown pol so pol_name n Hin Hnamed Hpn Hn)|].
        destruct Hnamed as (Hso & _). rewrite Hso' in Hso. injection Hso as <-.
        rewrite (py_eqb_refl so' Hh') in Hsame. discriminate.
Qed.

End Counts.

Lemma str_of_Z_not_boolean (z : Z) : render (str_of_Z z) = str_of_Z z.
Proof.
  unfold render.
  assert (H : str_of_Z z <> "True" /\ str_of_Z z <> "False").
  { unfold str_of_Z. destruct (Z.to_int z) as [d|d]; destruct d; cbn; split; discriminate. }
  destruct H as [H1 H2].
  destruct (String.eqb_spec (str_of_Z z) "True"); [contradiction|].
  destruct (String.eqb_spec (str_of_Z z) "False"); [contradiction|]. reflexivity.
Qed.

Lemma no_recommended_count (so : json) : recommended_value so host_count_row = EmptyString.
Proof.
  unfold recommended_value, host_count_row. destruct so as [|x|z|s|l|d]; try reflexivity.
  unfold recommended. cbn [lookup_str].
  destruct (String.eqb s "Windows"); [vm_compute; reflexivity|].
  destruct (String.eqb s "Linux"); [vm_compute; reflexivity|].
  destruct (String.eqb s "Mac"); [vm_compute; reflexivity|]. reflexivity.
Qed.

(** X23. For every policy that the prevention-policy transform keeps and
    that has a host count, the sheet of its platform has the row
    "Host Count": its cell in the column "Recomended" is empty, and its cell
    in the column of the policy is the count as text, whatever the settings
    of the policies hold and whatever policies come later. *)
Theorem host_count_row_shows_the_count
    (policies : list json) (host_counts : pydict Z) (result : pydict frame)
    (pol so pol_name : json) (n : Z) :
  hashables (keys host_counts) ->
  transform_policies policies host_counts = Ok result ->
  In pol policies ->
  named_policy pol so pol_name ->
  hashable pol_name = true ->
  dict_get pol_name host_counts = Some n ->
  exists df r i c,
    dict_get so result = Some df /\
    In r (cells df) /\
    nth_error r 0 = Some (Some host_count_row) /\
    nth_error r 1 = Some (Some (JStr EmptyString)) /\
    nth_error (columns df) (2 + i) = Some c /\
    py_eqb c pol_name = true /\
    nth_error r (2 + i) = Some (Some (JStr (str_of_Z n))).
Proof.
  intros Hcounts Hrun Hin Hnamed Hpn Hn.
  destruct (transform_policies_inv _ _ _ Hrun) as (per_os & Hloop & _ & _ & Hall).
  assert (Hnil : counted_rows host_counts [] []).
  { split; [apply platforms_of_nil|]. split; [constructor | intros ? ? ? ? []]. }
  pose proof (for_each_invariant (add_policy host_counts) (counted_rows host_counts)
                (counted_rows_step host_counts Hcounts) policies [] [] per_os Hnil Hloop)
    as (_ & Htables & Hshown).
  cbn [app] in Hshown. pose proof (Hshown pol so pol_name n Hin Hnamed Hpn Hn) as Hcell.
  unfold motors_of in Hcell. destruct (dict_get so per_os) as [m|] eqn:Hm; [|discriminate].
  destruct (sheet_of_table per_os result so m Hall Hm) as (k & df & Hdf & Hbuild).
  assert (Hok : table_ok m).
  { destruct (dict_get_In _ _ _ Hm) as (k0 & Hk0 & _).
    rewrite List.Forall_forall in Htables. apply (Htables _ Hk0). }
  destruct (build_frame_inv _ _ _ Hbuild) as [Hcols Hcells].
  destruct (column_of_cell m host_count_row pol_name _ Hok Hpn Hcell)
    as (i & c & Hi & Hch & Heq).
  assert (Hrow : dict_mem host_count_row m = true).
  { unfold cell in Hcell. unfold dict_mem. destruct (dict_get host_count_row m);
      [reflexivity | discriminate]. }
  destruct (row_in_frame k m df "Host Count" Hok Hbuild Hrow) as (r & Hr & Hhd).
  rewrite Hcells in Hr. apply in_map_iff in Hr as (row & <- & Hlabel).
  cbn [row_cells hd_error] in Hhd. injection Hhd as ->.
  exists df, (row_cells k m host_count_row), i, c.
  split; [exact Hdf|]. split; [rewrite Hcells; apply in_map; exact Hlabel|].
  split; [reflexivity|]. split; [cbn [row_cells nth_error]; rewrite no_recommended_count;
                                 reflexivity|].
  split; [rewrite Hcols; cbn [Nat.add nth_error]; exact Hi|]. split; [exact Heq|].
  cbn [row_cells Nat.add nth_error].
  rewrite nth_error_map, Hi. cbn [option_map].
  rewrite (cell_equiv_column m host_count_row c pol_name Hok Hch Hpn Heq), Hcell.
  cbn [option_map]. rewrite str_of_Z_not_boolean. reflexivity.
Qed.

Lemma host_count_row_shows_the_count_witness :
  exists df r i c,
    dict_get (JStr "Windows")
      (match transform_policies four_policies [(JStr "Default", 3%Z)] with
       | Ok result => result
       | Raise _ => []
       end) = Some df /\
    In r (cells df) /\
    nth_error r 0 = Some (Some host_count_row) /\
    nth_error r 1 = Some (Some (JStr EmptyString)) /\
    nth_error (columns df) (2 + i) = Some c /\
    py_eqb c (JStr "Default") = true /\
    nth_error r (2 + i) = Some (Some (JStr (str_of_Z 3))).
Proof.
  apply (host_count_row_shows_the_count four_policies [(JStr "Default", 3%Z)]
           (match transform_policies four_policies [(JStr "Default", 3%Z)] with
            | Ok result => result
            | Raise _ => []
            end)
           (policy (on "Windows") "Default"
              [setting "Cloud Anti-malware" (compound "aggressive" "moderate");
               setting "Notify End Users" (JDict [("enabled", JBool true)]);
               setting "Extended User Mode Data" (compound "moderate" "cautious")])
           (JStr "Windows") (JStr "Default") 3).
  - repeat constructor.
  - vm_compute. reflexivity.
  - left. reflexivity.
  - split; [reflexivity|]. split; [reflexivity|]. exists JNull. split; reflexivity.
  - reflexivity.
  - reflexivity.
Defined.

End host_count_facts.


(** ** Labels of the prevention-policy sheets *)

Lemma distinct_unique (ks : list json) :
  forall seen,
    hashables seen -> hashables ks -> unique_keys seen = true ->
    unique_keys (distinct seen ks) = true.
Proof.
  induction ks as [|k ks IH]; intros seen Hseen Hks Hu; cbn [distinct]; [exact Hu|].
  inversion Hks as [|? ? Hk Hks']; subst.
  destruct (key_in k seen) eqn:E; [apply IH; assumption|].
  apply IH; [apply Forall_app; split; [exact Hseen | repeat constructor; exact Hk] | exact Hks'|].
  apply unique_keys_app; [exact Hu | reflexivity|].
  intros x y Hx [<-|[]]. rewrite List.Forall_forall in Hseen.
  rewrite (py_eqb_sym x k (Hseen x Hx) Hk).
  apply (proj1 (key_in_false k seen) E x Hx).
Qed.

Module exportpp_labels_facts.
Import exportpp exportpp_facts rows_facts emitted_rows.

Lemma table_columns_hashable (m : motors) :
  table_ok m -> hashables (concat (map (fun r : json * pydict string => keys (snd r)) m)).
Proof.
  intros [_ Hentries]. rewrite List.Forall_forall in Hentries.
  apply List.Forall_forall. intros k Hk. apply in_concat in Hk as (l & Hl & Hk).
  apply in_map_iff in Hl as (e & <- & He). destruct (Hentries _ He) as [_ H].
  rewrite List.Forall_forall in H. apply H. exact Hk.
Qed.

Lemma policy_columns_unique (m : motors) : table_ok m -> unique_keys (policy_columns m) = true.
Proof.
  intros Hm. unfold policy_columns.
  apply distinct_unique; [constructor | apply (table_columns_hashable m Hm) | reflexivity].
Qed.

(** The row names are the keys of a dictionary. *)
Lemma set_cell_row_keys row pol_name value (m m' : motors) :
  dict_keys (keys m) -> set_cell row pol_name value m = Ok m' -> dict_keys (keys m').
Proof.
  intros Hm H. destruct (set_cell_inv _ _ _ _ _ H) as (Hr & _ & inner & ->).
  apply dict_keys_set; [exact Hr|].
  destruct (dict_mem row m); [exact Hm | apply dict_keys_set; assumption].
Qed.

Lemma add_setting_row_keys pol_name (m : motors) s (m' : motors) :
  dict_keys (keys m) -> add_setting pol_name m s = Ok m' -> dict_keys (keys m').
Proof.
  intros Hm. unfold add_setting.
  destruct (py_get s "name" JNull) as [name|e]; [|discriminate]. cbn [bind].
  destruct (py_get s "value" JNull) as [value|e]; [|discriminate]. cbn [bind].
  destruct (_ && _).
  - destruct (indicator "detection:" _) as [dv|e]; [|discriminate]. cbn [bind].
    destruct (indicator "prevention:" _) as [pv|e]; [|discriminate]. cbn [bind].
    set (after_detection := if String.eqb dv EmptyString then Ok m else _).
    destruct after_detection as [m1|e] eqn:Hdet; [|discriminate]. cbn [bind].
    assert (Hm1 : dict_keys (keys m1)).
    { subst after_detection. destruct (String.eqb dv EmptyString).
      - injection Hdet as <-. exact Hm.
      - apply (set_cell_row_keys _ _ _ _ _ Hm Hdet). }
    destruct (String.eqb pv EmptyString); [intros [= <-]; exact Hm1|].
    destruct (String.eqb _ excluded_row); [intros [= <-]; exact Hm1|].
    apply (set_cell_row_keys _ _ _ _ _ Hm1).
  - apply (set_cell_row_keys _ _ _ _ _ Hm).
Qed.

Lemma add_policy_row_keys host_counts per_os pol per_os' :
  Forall (fun entry : json * motors => dict_keys (keys (snd entry))) per_os ->
  add_policy host_counts per_os pol = Ok per_os' ->
  Forall (fun entry : json * motors => dict_keys (keys (snd entry))) per_os'.
Proof.
  intros Hall Hadd.
  destruct (add_policy_inv _ _ _ _ Hadd) as (so & Hso & [[_ ->]|(_ & Hh & Hrest)]);
    [exact Hall|].
  destruct Hrest as (id & pol_name & ps & groups & m1 & m' & _ & _ & _ & _ & Hloop & Hhc & ->).
  rewrite List.Forall_forall in Hall.
  assert (Hnil : dict_keys (keys (@nil (json * pydict string)))) by (split; [constructor | reflexivity]).
  assert (Hstart : dict_keys (keys (motors_of so (with_platform so per_os)))).
  { destruct (motors_of_entry so (with_platform so per_os)) as [->|[k Hin]]; [exact Hnil|].
    apply with_platform_In in Hin as [Hin|Heq]; [apply (Hall _ Hin) | rewrite Heq; exact Hnil]. }
  assert (Hm1 : dict_keys (keys m1)).
  { refine (for_each_preserves (add_group pol_name) (fun m => dict_keys (keys m)) groups
              _ _ m1 Hstart Hloop).
    intros m0 g m0' _ Hm0 Hg. apply add_group_settings in Hg.
    refine (for_each_preserves (add_setting pol_name) (fun m => dict_keys (keys m))
              (settings_of_group g) _ m0 m0' Hm0 Hg).
    intros m2 y m2' _. apply add_setting_row_keys. }
  assert (Hm' : dict_keys (keys m')).
  { revert Hhc. unfold add_host_count. destruct (hashed pol_name); [|discriminate].
    cbn [bind]. destruct (dict_get pol_name host_counts); [|intros [= <-]; exact Hm1].
    apply (set_cell_row_keys _ _ _ _ _ Hm1). }
  apply List.Forall_forall. intros [k m] Hin. cbn [snd].
  apply dict_set_In in Hin as [Hin| ->]; [|exact Hm'].
  apply with_platform_In in Hin as [Hin| ->]; [apply (Hall _ Hin) | exact Hnil].
Qed.

Lemma labels_of_frame (so : json) (m : motors) (df : frame) :
  build_frame so m = Ok df -> labels df = row_labels m.
Proof.
  intros H. destruct (build_frame_inv _ _ _ H) as [_ Hcells].
  unfold labels. rewrite Hcells, map_map. cbn [row_cells]. apply map_id.
Qed.

Lemma build_frame_clear (so : json) (m : motors) (df : frame) :
  build_frame so m = Ok df ->
  key_in (JStr label_column) (policy_columns m) = false /\
  key_in (JStr recommended_column) (policy_columns m) = false.
Proof.
  unfold build_frame. cbv zeta.
  destruct (key_in (JStr "index") (policy_columns m)); [discriminate|]. cbn [orb].
  destruct (key_in (JStr label_column) (policy_columns m)); [discriminate|].
  destruct (key_in (JStr recommended_column) (policy_columns m)); [discriminate|].
  intros _. split; reflexivity.
Qed.

Lemma build_frame_index (so : json) (m : motors) (df : frame) :
  build_frame so m = Ok df -> index df = range_index (length (row_labels m)).
Proof.
  unfold build_frame. cbv zeta.
  destruct (key_in (JStr "index") (policy_columns m)
            || key_in (JStr label_column) (policy_columns m)); [discriminate|].
  destruct (key_in (JStr recommended_column) (policy_columns m)); [discriminate|].
  intros H. injection H as <-. reflexivity.
Qed.

(** X24. In every sheet of the prevention policies no two columns have the
    same label and no two rows the same name: the columns are the row-name
    column, "Recomended" and one column per policy name, the rows one per
    setting name, and every row has one cell per column. *)
Theorem sheet_labels_are_distinct
    (policies : list json) (host_counts : pydict Z) (result : pydict frame)
    (so : json) (df : frame) :
  transform_policies policies host_counts = Ok result ->
  In (so, df) result ->
  unique_keys (columns df) = true /\
  unique_keys (labels df) = true /\
  length (labels df) = length (index df) /\
  forall r, In r (cells df) -> length r = length (columns df).
Proof.
  intros Hrun Hdf.
  destruct (transform_policies_inv _ _ _ Hrun) as (per_os & Hloop & _ & _ & Hall).
  assert (Htables : Forall (fun entry : json * motors => table_ok (snd entry)) per_os).
  { refine (for_each_preserves (add_policy host_counts)
              (fun p => Forall (fun entry : json * motors => table_ok (snd entry)) p)
              policies _ [] per_os (List.Forall_nil _) Hloop).
    intros s x s' _ Hs Hx. apply (add_policy_tables_ok host_counts s x s' Hs Hx). }
  assert (Hrows : Forall (fun entry : json * motors => dict_keys (keys (snd entry))) per_os).
  { refine (for_each_preserves (add_policy host_counts)
              (fun p => Forall (fun entry : json * motors => dict_keys (keys (snd entry))) p)
              policies _ [] per_os (List.Forall_nil _) Hloop).
    intros s x s' _ Hs Hx. apply (add_policy_row_keys host_counts s x s' Hs Hx). }
  destruct (compound_rows.sheet_from_table per_os result so df Hall Hdf) as (m & Hm & Hbuild).
  rewrite List.Forall_forall in Htables. pose proof (Htables _ Hm) as Hok. cbn [snd] in Hok.
  rewrite List.Forall_forall in Hrows. pose proof (Hrows _ Hm) as [_ Hunique].
  cbn [snd] in Hunique.
  destruct (build_frame_inv _ _ _ Hbuild) as [Hcols Hcells].
  destruct (build_frame_clear _ _ _ Hbuild) as [Hl Hr].
  split; [|split; [|split]].
  - rewrite Hcols. cbn [unique_keys key_in existsb]. fold (key_in (JStr label_column) (policy_columns m)).
    fold (key_in (JStr recommended_column) (policy_columns m)).
    rewrite Hl, Hr, (policy_columns_unique m Hok). reflexivity.
  - rewrite (labels_of_frame so m df Hbuild). exact Hunique.
  - rewrite (labels_of_frame so m df Hbuild), (build_frame_index so m df Hbuild).
    unfold range_index. rewrite length_map, length_seq. reflexivity.
  - intros r Hrow. rewrite Hcells in Hrow. apply in_map_iff in Hrow as (row & <- & _).
    rewrite Hcols. cbn [row_cells length]. rewrite length_map. reflexivity.
Qed.

Lemma sheet_labels_are_distinct_witness :
  unique_keys (columns (snd (hd (JNull, frame_of_rows [] [])
     (match transform_policies four_policies [] with Ok r => r | Raise _ => [] end)))) = true /\
  unique_keys (labels (snd (hd (JNull, frame_of_rows [] [])
     (match transform_policies four_policies [] with Ok r => r | Raise _ => [] end)))) = true.
Proof.
  pose proof (sheet_labels_are_distinct four_policies []
                (match transform_policies four_policies [] with Ok r => r | Raise _ => [] end)
                (fst (hd (JNull, frame_of_rows [] [])
                   (match transform_policies four_policies [] with Ok r => r | Raise _ => [] end)))
                (snd (hd (JNull, frame_of_rows [] [])
                   (match transform_policies four_policies [] with Ok r => r | Raise _ => [] end))))
    as H.
  destruct H as (H1 & H2 & _).
  - vm_compute. reflexivity.
  - vm_compute. left. reflexivity.
  - split; [exact H1 | exact H2].
Defined.

End exportpp_labels_facts.
